(* ===== verification/_CoqProject ===== *)
-Q . S2P
Prelude.v
CppString.v
CppInt.v
CppStream.v
CppDouble.v
Printing.v
Records.v
Codec.v
Persistence.v
Store.v
Heap.v
Shell.v
Turns.v
Program.v
Forever.v
Runs.v
