(* ===== verification/Prelude.v ===== *)
(** * A verification development for the school management program

    The program (src/baseCode.cpp, one translation unit) is a console record
    manager.  A [School] object owns two vectors of heap records ([Student]
    and [Teacher], both derived from [Person]); it rewrites a two-section
    text file after every mutation ([School::saveToFile]) and reads such a
    file when it is constructed ([School::loadFromFile]).  A menu loop in
    [main] reads a choice from standard input and calls one handler of the
    school per choice; the handlers prompt for their input and read it from
    [cin].

    ** Files, in dependency order

    - [Prelude] (this file): the two exceptions the program can raise
      ([std::invalid_argument], [std::out_of_range], both from [std::stoi]),
      the result monad [res] in which throwing code is written and its
      notation (scope [res_scope]), the tactics ([res_inv], [bool_inv],
      [by_compute]) and the hint databases ([cpp]) of the development, and
      the lemmas on [string] every component shares.
    - [CppString]: the [std::string] members and the stream function the
      source calls: [find], [substr], [erase] with [npos], the idiom "find
      the comma, copy the prefix, erase through the comma" of
      [loadFromFile] as [take_field], and [std::getline] on the unread text
      of a stream with the list of lines it yields ([read_lines]).
    - [CppInt]: the 32-bit [int] (range, wrap of [+=]), [std::stoi] (white
      space, sign, digits, the two exceptions) and the decimal text
      [operator<<] writes for an [int] ([show_int]).
    - [CppStream]: [cin] as its unread text with [eofbit] and [failbit];
      [operator>>] on an [int] ([extract_int]), [ignore] and [getline]
      ([getline_in]), each with the sentry that makes a stream that is not
      good refuse every further read.
    - [CppDouble]: IEEE binary64 as the Standard Library's [spec_float]
      (53 bits of precision, [emax] 1024): conversion from an integer,
      division and [>=], as [Student::calculateAverage] and
      [Student::isPassed] use them, and the rational a double denotes
      ([value]).
    - [Printing]: [operator<<] on a [double] ([show_double]: style [%g],
      six significant digits, computed exactly on the fraction the double
      is), and its specification: a reader of decimal texts
      ([read_signed]) and what it is for a text to show a number to six
      digits ([shows_six]).
    - [Records]: the classes [Person], [Student] and [Teacher], each a
      Module with the record [t] and one definition per member function;
      [Student.line] and [Teacher.line] are what the [saveToFile] members
      write before the newline, [displayDetails] is the text written to
      [cout]; the class [Derived] is the abstract base: what a class
      derived from [Person] provides (its [Person] members and its override
      of the pure virtual [displayDetails]), with one instance per class;
      [Student.wf] and [Teacher.wf] are the class invariants (four
      grades, [int]-ranged numbers, an average that is the one computed
      from the grades), [storable] the condition on the text fields under
      which a record survives the file format.
    - [Codec]: the bodies of the two inner loops of [loadFromFile], which
      decode one line into a record ([parse_student], [parse_teacher]), and
      the typeclass [LineCodec]: what the file layer needs of an encoder and
      a decoder, with its two instances.
    - [Persistence]: the data members of [School]; the text
      [School::saveToFile] writes ([file_text]); the reader of
      [School::loadFromFile] as the three loop heads of the source
      ([load_lines] is the outer loop, [students_loop] and [teachers_loop]
      the inner ones, [section_loop] an inner loop over any line format);
      and, apart from the code, the files the reader accepts as lists of
      blocks ([block]: a line outside the sections, a section of students,
      a section of teachers).
    - [Store]: the world the member functions of [School] act on (the disk
      as a finite map from resolved paths to contents, which paths open for
      writing, the text written to [cout]); [saveToFile], [loadFromFile],
      the constructor, the four mutating handlers from the point where
      their input has been read, the two dashboards, and sessions (lists of
      commands, one per handler call).
    - [Heap]: the records as objects on the free store: the vectors as
      lists of addresses into a finite map of objects, [new], [delete], the
      member functions of [School] through the pointers, and [~School].
    - [Shell]: the console (a state monad over [cin] and the world), the
      handlers from their first prompt with every read (Module [Handlers]),
      [displayMenu], the [switch] of [main] ([dispatch]), the body of its
      loop ([main_step]) and the loop ([main_loop], [main]); the text a user
      types for a session ([scripts]) and the messages a turn of the loop
      writes ([menu], [prompts], [run_turns]).
    - [Turns]: the loop of [main] on an input of which nothing is assumed.
    - [Program]: the program as it is written, which [Shell] and [Heap]
      each give one half of: the handlers from their first prompt on
      vectors of pointers (Module [PHandlers]), the [switch]
      ([p_dispatch]), the body of the loop with the destructor of [school]
      on [return 0] ([p_main_step]) and [main] ([p_main_loop], [p_main]).
    - [Forever]: the loop of [main] with no bound on its turns, as an
      interaction tree: the body of the loop asks the console to run the
      menu, the prompt, [cin >> choice] and the case of the [switch]
      ([loop_body]), [ITree.iter] repeats it ([loop]), and the console
      answers ([h_console], [run_loop], [main_forever]); a second
      interpretation keeps what is written to [cout] visible ([h_show],
      [show_loop]).
    - [Runs]: inputs with what the program compiled from the source wrote
      and saved on them, each replayed on [p_main] by computation.

    ** How the components interact

    [main] constructs the school; the constructor calls [loadFromFile],
    which reads lines with [getline] and decodes them with the [Codec];
    every turn of the loop reads a choice and calls a handler; a handler
    reads its input from [cin], changes a vector and calls [saveToFile],
    which writes [file_text] through the encoders of [Records].  The
    decoders call [stoi], whose exceptions nothing catches: a [Throw] that
    leaves [loadFromFile] leaves the constructor and ends the process.

    ** What the theorems show

    - [CppString], [CppInt], [CppStream]: the behaviour of each primitive
      on every branch (comma found or [npos]; converted, nothing to
      convert, out of range; stream good or not), the range of what [stoi]
      and [>>] yield, and the round trips ([stoi] and [>>] of a printed
      [int], the lines of written lines).
    - [CppDouble]: on integers below 2^52 in absolute value the conversion
      to [double] and the division by four are exact, and [>=] on zero and
      normal numbers is the order of the values they denote.
    - [Printing]: the search for the decimal exponent ends within its
      bound; the six digits chosen are the nearest to the value, ties to
      even, with the carry into a seventh digit; the text read back is
      those digits less their trailing zeros, in each of the three layouts
      of [%g]; so what is printed for a number of binary64 (zero,
      subnormal or normal) is the decimal of six significant digits
      nearest to it ([show_double_nearest]).
    - [Records]: the sum of the grades is exact when no partial sum
      overflows; the constructor establishes the class invariant and the
      invariant determines the object; the average of a well-formed student
      is exactly a quarter of the total, [isPassed] holds exactly from a
      total of 40, and [displayDetails] prints both in full; for any four
      [int] grades the average printed is the nearest decimal of six
      digits to the quarter of the total ([average_printed_nearest]).
    - [Codec]: a line written by [saveToFile] decodes to the record that
      wrote it; what the decoders do on other lines (a short line repeats
      its last field, a non-numeric id throws); every decoded record
      satisfies its invariant.
    - [Persistence]: loading preserves the invariant and only appends
      (by [reader_ind], an induction over the three loops at once); a file
      whose Students section ends in a blank line loads to the records it
      lists, and so does every file made of sections in any number and
      order, with lines that are no header between them
      ([sectioned_file_loads]); the file [saveToFile] writes has no blank
      line, and the reader throws [invalid_argument] on its "Teachers"
      header; a line that does not decode aborts the load.
    - [Store]: delete removes the first match only, duplicates go one per
      call, an absent id changes nothing; every session keeps the class
      invariants and the agreement of disk and memory; a failed save leaves
      memory changed; started again, the program either throws (the two
      paths of the source name one file) or has forgotten the session (they
      name two).  Worlds that differ in what was printed are equivalent
      ([same_files]), and the handlers respect the equivalence.  The
      scenario of the specification (Alice added, shown, saved, loaded,
      deleted) is evaluated on the code as [spec_scenario].
    - [Heap]: the member functions through the pointers refine those on
      lists of records: from a heap the school owns they never use a pointer
      that is not live, the school still owns the heap afterwards, and
      [~School] leaves the heap empty.
    - [Shell]: run on the text of a session followed by the choice 7,
      [main] returns with the school the session yields (the interactive
      handlers refine the handlers of [Store]); once [cin] is not good the
      loop never returns, and after the choice 1 it adds a student per
      turn; an input that ends without the choice 7, or holds a token that
      is no number at the menu, is never left.  [script_transcript] gives
      the output of a session character for character.
    - [Turns]: whatever standard input holds, every turn of the loop does
      to the school and the files what one command of [Store] does, or
      nothing ([main_step_acts]); so every run is a session of commands
      with [int] arguments ([command_read]: the ids of the records added
      and of the deletes, and four grades), every record is well typed at
      every turn, and
      no file but the one the school names is ever written.  The states
      the loop can reach are an inductive relation ([reachable]); its
      invariants (well-typed records, a [cin] that stays failed) are by
      induction on its rules.  The lemmas
      are stated once for computations that only read and print ([reads])
      and for handlers ([acts]), and each handler is an instance.
    - [Program]: a lock-step simulation.  On any input and for any number
      of turns the program on pointers and the program on records read and
      print the same and throw the same, the pointers own the free store
      and point to the records of the other, no turn is undefined, and when
      [main] returns [~School] has emptied the free store.
    - [Forever]: the unbounded loop returns what a bounded run exits with
      ([loop_from_exits]) and is silent for ever when no bounded run exits
      ([runs_on_spin]); so [main] terminates on the text of a session that
      ends in 7 and diverges once [cin] has failed or when the input ends
      early.  With the output visible, a token at the menu
      that is no number makes the program write the menu, the prompt and
      "Invalid choice!" for ever ([bad_token_prints_for_ever]); with the
      writes not looked at, the tree with output is the tree without
      ([show_erases]).
    - [Runs]: eleven runs of the compiled program (sessions, averages of
      six and seven digits, duplicate ids, numbers on one line, files that
      load and files that throw, and three inputs on which the program
      never returns) agree with the model in every character written and
      saved.

    ** Modelling choices

    - Exceptions are values: a function that can throw returns [res A].
    - [int] is a [Z] that the operations keep in range; [+=] wraps modulo
      2^32 (signed overflow is undefined in C++; the wrap is what the usual
      targets do, and [total_is_sum] states when it does not happen).
    - A [size_t] position is [At i] or [npos]; the only arithmetic the
      source does on one is [pos + 1], which for [npos] wraps to zero
      ([pos_succ]).
    - An input file is its unread text: [getline] fails exactly when
      nothing is left.  The reader is defined on the list of the lines of
      the file; [read_lines_is_getline] ties that list to [getline].  [cin]
      carries its two state bits as well, because the program goes on
      reading after a failure.
    - A [double] is the [spec_float] it is; nothing is abstracted to the
      rationals, which appear only in the statements ([value]).  A NaN has
      no sign or payload there; [show_double] writes the NaN of [0.0 / 0]
      as the program compiled for x86-64 does ([-nan]).  No student a run
      can construct has one: the vector of grades always holds four.
    - An [int] declared without an initializer holds an indeterminate
      value.  Reading one is undefined in C++; the model reads a value the
      environment chooses ([indet]), and the theorems hold for every choice.
    - The recursion of the reader is structural: its three loops are one
      mutual fixpoint on the unread lines, so that the reader ends on every
      file is by construction and no theorem states it.  Two definitions
      take a bound.
      [main_loop] runs at most [n] turns of [while (true)]; a run that
      returns is shown with the bound it needs (one turn per command and
      one for the exit), a run that does not return is shown to be running
      after every [n].  [Forever] has the loop without the bound, and the
      two lemmas named above carry each kind of theorem on the bounded
      loop to it: an exit after some number of turns is a return of the
      tree, and no exit after any number of turns is a tree that never
      returns.  No axiom is used.  [run_loop] shows no output; [show_loop]
      does, and
      what a run that never returns prints is proved on it for the default
      case of the [switch] and stated on the bounded runs otherwise.
      [exp10] searches the decimal exponent of a double
      in at most 400 steps; a finite double lies between 10^-324 and
      10^309, and [ratio_bounds] with [exp10_spec] show that the search
      ends at the exponent within that bound ([decimal_exponent_found]).
    - [show_double_quarter], which gives the text of an average in full,
      is proved by evaluating both sides on every total from -4000 to 4000,
      the range of four grades of at most a thousand each; beyond that
      range [show_double_nearest] says what is printed, through a reader
      of decimals that is a definition of the specification, not of the
      program (nothing in the source reads a [double]).  The other
      theorems on doubles hold for every [int].
    - The file system is a parameter of the world: [resolve] maps the name
      given to a stream to the file it denotes from the working directory,
      [can_write] says which files open for writing.  A file that opens
      is replaced by the whole text in one step ([write_file]): a write
      that fails after the file has opened, which would leave it
      truncated, is not modelled.  A file that exists but does not open
      for reading is a file that is missing.  [cin] starts good with the
      whole input unread ([open_in]); that is the library's state at the
      start of [main], not code of the program.  Line ends are [\n] (no
      translation of text mode), the locale is the classic one.
    - [Student.grade_row] prints 0 for a grade the vector does not hold,
      where [grades[i]] in [displayDetails] is undefined; no student that
      satisfies the class invariant has fewer than four, and every student
      of every run does ([run_keeps_records_typed]).
    - A vector of pointers is the list of the records pointed to in
      [Persistence], [Store] and [Shell], and a list of addresses in
      [Heap], where the use of a pointer that is not live (undefined in
      C++) has no result; [heap_refines_store] connects the two for the
      member functions and [pointers_simulate_records] for the whole
      program.  [new] never fails, and the free store is empty when [main]
      starts.
    - The program is modelled twice on purpose.  The program on records
      ([Shell]) is where behaviour is proved; the program on pointers
      ([Program]) is what the source says, and the simulation carries the
      theorems of the first to the second.

    ** Not modelled

    Exhaustion of memory or of the disk (in particular in a run that never
    returns, and [std::bad_alloc] from [new]), a write that fails after
    the file has opened, the translation of line ends in text mode,
    locales other than the classic one, and what the process does after
    an exception nobody catches.  The library primitives ([std::string],
    [std::getline], [std::stoi], the streams, [operator<<] on [int] and
    [double]) are modelled from their specification to the extent the
    program calls them, and compared with the compiled program in [Runs];
    there is no code of them under src/. *)

From Stdlib Require Import ZArith Ascii String.
From stdpp Require Import base tactics option list strings.

(** This file holds what every other file of the development uses. *)

(** ** Exceptions and the result monad *)

Inductive exn : Set :=
| invalid_argument
| out_of_range.

Inductive res (A : Type) : Type :=
| Ok (a : A)
| Throw (e : exn).

Arguments Ok {A} a.
Arguments Throw {A} e.

Definition res_bind {A B : Type} (m : res A) (k : A -> res B) : res B :=
  match m with
  | Ok a => k a
  | Throw e => Throw e
  end.

Definition res_map {A B : Type} (f : A -> B) (m : res A) : res B :=
  res_bind m (fun a => Ok (f a)).

Definition is_Ok {A : Type} (m : res A) : bool :=
  match m with
  | Ok _ => true
  | Throw _ => false
  end.

Definition throws {A : Type} (m : res A) : bool := negb (is_Ok m).

Declare Scope res_scope.
Delimit Scope res_scope with res.

Notation "x <- e ;; k" := (res_bind e (fun x => k))
  (at level 100, e at next level, right associativity) : res_scope.

#[export] Instance exn_eq_dec : EqDecision exn.
Proof. solve_decision. Defined.

#[export] Instance res_eq_dec {A : Type} `{EqDecision A} : EqDecision (res A).
Proof. solve_decision. Defined.

(** ** Characters of a string *)

Fixpoint has_char (c : ascii) (s : string) : bool :=
  match s with
  | EmptyString => false
  | String d s' => if Ascii.eqb d c then true else has_char c s'
  end.

Definition comma : ascii := ","%char.
Definition newline : ascii := "010"%char.

(** A field that can be written between commas on one line. *)
Definition plain_field (s : string) : Prop :=
  has_char comma s = false /\ has_char newline s = false.

(** A text that stays on one line. *)
Definition one_line (s : string) : Prop := has_char newline s = false.

(** Decidability of the side conditions, so that witnesses compute. *)
#[export] Instance plain_field_dec (s : string) : Decision (plain_field s).
Proof. unfold plain_field. apply _. Defined.

#[export] Instance one_line_dec (s : string) : Decision (one_line s).
Proof. unfold one_line. apply _. Defined.

(** ** Hint databases and tactics *)

Create HintDb cpp discriminated.
Create Rewrite HintDb cpp.

(** [res_inv] takes apart the hypotheses that say a monadic computation
    returned, and closes the goal when one of them cannot have. *)
Ltac res_inv :=
  repeat (simplify_eq;
          match goal with
          | H : res_bind ?m _ = Ok _ |- _ =>
              let E := fresh "E" in
              destruct m eqn:E; cbn [res_bind] in H
          end);
  simplify_eq.

(** [bool_inv] turns boolean equations of the context into propositions. *)
Ltac bool_inv :=
  repeat match goal with
  | H : _ && _ = true |- _ => apply andb_true_iff in H; destruct H
  | H : _ || _ = false |- _ => apply orb_false_iff in H; destruct H
  | H : negb _ = true |- _ => apply negb_true_iff in H
  | H : negb _ = false |- _ => apply negb_false_iff in H
  | H : Ascii.eqb _ _ = true |- _ => apply Ascii.eqb_eq in H; try subst
  | H : Ascii.eqb _ _ = false |- _ => apply Ascii.eqb_neq in H
  | H : String.eqb _ _ = true |- _ => apply String.eqb_eq in H; try subst
  | H : String.eqb _ _ = false |- _ => apply String.eqb_neq in H
  end.

(** [by_compute] proves a decidable proposition about concrete data by
    evaluating its decision procedure. *)
Ltac by_compute := apply (bool_decide_unpack _); vm_compute; exact I.

(** ** Lemmas on the result monad *)

Section ResultMonad.
Context {A B C : Type}.

Lemma res_bind_Ok (a : A) (k : A -> res B) : res_bind (Ok a) k = k a.
Proof. reflexivity. Qed.

Lemma res_bind_Throw (e : exn) (k : A -> res B) : res_bind (Throw e) k = Throw e.
Proof. reflexivity. Qed.

Lemma res_bind_ret (m : res A) : res_bind m Ok = m.
Proof. by destruct m. Qed.

Lemma res_bind_assoc (m : res A) (k : A -> res B) (h : B -> res C) :
  res_bind (res_bind m k) h = res_bind m (fun a => res_bind (k a) h).
Proof. by destruct m. Qed.

Lemma res_bind_Ok_inv (m : res A) (k : A -> res B) (b : B) :
  res_bind m k = Ok b <-> exists a, m = Ok a /\ k a = Ok b.
Proof.
  split.
  - intros H. res_inv. eauto.
  - intros (a & -> & Hk). exact Hk.
Qed.

Lemma res_bind_Throw_inv (m : res A) (k : A -> res B) (e : exn) :
  res_bind m k = Throw e <-> m = Throw e \/ exists a, m = Ok a /\ k a = Throw e.
Proof.
  destruct m as [a|e']; simpl; split.
  - intros ?. right. eauto.
  - intros [? | (a' & [= <-] & ?)]; done.
  - intros [= ->]. by left.
  - intros [[= ->] | (a' & ? & _)]; done.
Qed.

Lemma res_bind_ext (m : res A) (k k' : A -> res B) :
  (forall a, m = Ok a -> k a = k' a) -> res_bind m k = res_bind m k'.
Proof. destruct m; simpl; auto. Qed.

Lemma is_Ok_true (m : res A) : is_Ok m = true <-> exists a, m = Ok a.
Proof. destruct m; simpl; split; try done; eauto. by intros (? & ?). Qed.

Lemma throws_true (m : res A) : throws m = true <-> exists e, m = Throw e.
Proof. destruct m; simpl; split; try done; eauto. by intros (? & ?). Qed.

End ResultMonad.

#[export] Hint Rewrite @res_bind_Ok @res_bind_Throw @res_bind_ret : cpp.

(** ** Lemmas on strings *)

Lemma app_nil_l_s (s : string) : "" +:+ s = s.
Proof. reflexivity. Qed.

Lemma app_cons_s (c : ascii) (s t : string) : String c s +:+ t = String c (s +:+ t).
Proof. reflexivity. Qed.

Lemma app_nil_r_s (s : string) : s +:+ "" = s.
Proof. induction s as [|c s IH]; [done|]. by rewrite app_cons_s, IH. Qed.

Lemma app_assoc_s (s t u : string) : (s +:+ t) +:+ u = s +:+ (t +:+ u).
Proof. induction s as [|c s IH]; [done|]. by rewrite !app_cons_s, IH. Qed.

Lemma length_app_s (s t : string) :
  String.length (s +:+ t) = String.length s + String.length t.
Proof. induction s as [|c s IH]; [done|]. rewrite app_cons_s. simpl. by rewrite IH. Qed.

Lemma app_eq_nil_s (s t : string) : s +:+ t = "" -> s = "" /\ t = "".
Proof. by destruct s. Qed.

Lemma has_char_app (c : ascii) (s t : string) :
  has_char c (s +:+ t) = has_char c s || has_char c t.
Proof.
  induction s as [|d s IH]; [done|].
  rewrite app_cons_s. simpl. by destruct (Ascii.eqb d c).
Qed.

Lemma has_char_cons (c d : ascii) (s : string) :
  has_char c (String d s) = Ascii.eqb d c || has_char c s.
Proof. simpl. by destruct (Ascii.eqb d c). Qed.

Lemma has_char_app_false (c : ascii) (s t : string) :
  has_char c (s +:+ t) = false <-> has_char c s = false /\ has_char c t = false.
Proof. rewrite has_char_app. apply orb_false_iff. Qed.

Lemma plain_field_one_line (s : string) : plain_field s -> one_line s.
Proof. by intros [_ ?]. Qed.

Lemma one_line_app (s t : string) : one_line (s +:+ t) <-> one_line s /\ one_line t.
Proof. apply has_char_app_false. Qed.

#[export] Hint Rewrite app_nil_l_s app_cons_s app_nil_r_s app_assoc_s has_char_app : cpp.
#[export] Hint Resolve plain_field_one_line : cpp.
