(* ===== verification/CppString.v ===== *)
(** The [std::string] members and the stream function that
    [School::loadFromFile] calls: [find], [substr], [erase], [std::getline].
    Positions are [size_t] values; [npos] is kept apart from the indices and
    the wrap of [npos + 1] is written out in [pos_succ]. *)

From Stdlib Require Import ZArith Ascii String.
From stdpp Require Import base tactics option list strings.
From S2P Require Import Prelude.

(** ** Positions *)

(** The result of [std::string::find]: the index of the first occurrence, or
    [std::string::npos], the largest [size_t]. *)
Inductive size_t : Set :=
| At (i : nat)
| npos.

#[export] Instance size_t_eq_dec : EqDecision size_t.
Proof. solve_decision. Defined.

(** [pos + 1] in [size_t]: [npos + 1] wraps around to zero. *)
Definition pos_succ (p : size_t) : nat :=
  match p with
  | At i => S i
  | npos => 0
  end.

(** ** Members of [std::string] *)

(** [s.find(c)]. *)
Fixpoint find (c : ascii) (s : string) : size_t :=
  match s with
  | EmptyString => npos
  | String d s' =>
      if Ascii.eqb d c then At 0
      else match find c s' with
           | At i => At (S i)
           | npos => npos
           end
  end.

(** The first [n] characters of [s], all of [s] when it is shorter. *)
Fixpoint take_s (n : nat) (s : string) : string :=
  match n, s with
  | S n', String c s' => String c (take_s n' s')
  | _, _ => EmptyString
  end.

(** [s.substr(0, count)]: the count is clipped to the length, and [npos]
    exceeds every length. *)
Definition substr0 (s : string) (count : size_t) : string :=
  match count with
  | At n => take_s n s
  | npos => s
  end.

(** [s.erase(0, count)]: removes the first [count] characters, all of them
    when [s] is shorter. *)
Fixpoint erase0 (s : string) (count : nat) : string :=
  match count, s with
  | S n', String _ s' => erase0 s' n'
  | _, _ => s
  end.

(** The idiom the decoder repeats for every field:
    [pos = line.find(","); field = line.substr(0, pos); line.erase(0, pos + 1);]
    as the field and what is left of the line. *)
Definition take_field (line : string) : string * string :=
  let pos := find comma line in
  (substr0 line pos, erase0 line (pos_succ pos)).

#[global] Arguments take_field : simpl never.

(** ** [std::getline] *)

(** The characters before the first newline and the text after it. *)
Fixpoint getline_split (s : string) : string * string :=
  match s with
  | EmptyString => (EmptyString, EmptyString)
  | String c s' =>
      if Ascii.eqb c newline then (EmptyString, s')
      else let '(l, r) := getline_split s' in (String c l, r)
  end.

(** [getline(file, line)] on a stream whose unread text is [s]: it fails
    ([None]) when nothing is left, and else yields the line without its
    newline and leaves the rest; a last line needs no newline. *)
Definition getline (s : string) : option (string * string) :=
  match s with
  | EmptyString => None
  | _ => Some (getline_split s)
  end.

(** The lines that successive calls of [getline] yield until one fails. *)
Fixpoint read_lines (s : string) : list string :=
  match s with
  | EmptyString => []
  | String c s' =>
      if Ascii.eqb c newline then EmptyString :: read_lines s'
      else match read_lines s' with
           | [] => [String c EmptyString]
           | l :: ls => String c l :: ls
           end
  end.

(** What [file << l << "\n"] for each [l] of [ls] writes. *)
Fixpoint unlines (ls : list string) : string :=
  match ls with
  | [] => EmptyString
  | l :: ls' => l +:+ String newline (unlines ls')
  end.

(** ** [find], [substr], [erase] *)

Lemma find_npos (c : ascii) (s : string) : find c s = npos <-> has_char c s = false.
Proof.
  induction s as [|d s IH]; simpl; [done|].
  destruct (Ascii.eqb d c); [done|].
  rewrite <- IH. by destruct (find c s).
Qed.

Lemma find_app (c : ascii) (a b : string) :
  has_char c a = false -> find c (a +:+ String c b) = At (String.length a).
Proof.
  induction a as [|d a IH]; rewrite ?app_cons_s; simpl.
  - by rewrite Ascii.eqb_refl.
  - destruct (Ascii.eqb d c); [done|]. intros H. by rewrite IH.
Qed.

Lemma find_At (c : ascii) (s : string) (i : nat) :
  find c s = At i ->
  exists a b, s = a +:+ String c b /\ String.length a = i /\ has_char c a = false.
Proof.
  revert i. induction s as [|d s IH]; simpl; [done|]. intros i.
  destruct (Ascii.eqb_spec d c) as [->|Hdc].
  - intros [= <-]. by exists EmptyString, s.
  - destruct (find c s) as [j|]; [|done]. intros [= <-].
    destruct (IH j eq_refl) as (a & b & -> & <- & Ha).
    exists (String d a), b. simpl.
    by rewrite (proj2 (Ascii.eqb_neq d c) Hdc).
Qed.

Lemma take_s_app (a b : string) : take_s (String.length a) (a +:+ b) = a.
Proof. induction a as [|d a IH]; rewrite ?app_cons_s; simpl; [by destruct b|by rewrite IH]. Qed.

Lemma erase0_app (a b : string) : erase0 (a +:+ b) (String.length a) = b.
Proof. induction a as [|d a IH]; rewrite ?app_cons_s; simpl; [by destruct b|done]. Qed.

Lemma erase0_app_cons (a b : string) (c : ascii) :
  erase0 (a +:+ String c b) (S (String.length a)) = b.
Proof. induction a as [|d a IH]; rewrite ?app_cons_s; simpl; [by destruct b|done]. Qed.

Lemma take_erase (s : string) (n : nat) : take_s n s +:+ erase0 s n = s.
Proof.
  revert s. induction n as [|n IH]; intros [|c s]; simpl; try done.
  by rewrite app_cons_s, IH.
Qed.

Lemma erase0_zero (s : string) : erase0 s 0 = s.
Proof. by destruct s. Qed.

(** ** [take_field] *)

Lemma take_field_comma (a b : string) :
  has_char comma a = false -> take_field (a +:+ String comma b) = (a, b).
Proof.
  intros Ha. unfold take_field. rewrite (find_app _ _ _ Ha). simpl.
  by rewrite take_s_app, erase0_app_cons.
Qed.

Lemma take_field_last (a : string) :
  has_char comma a = false -> take_field a = (a, a).
Proof.
  intros Ha. unfold take_field. rewrite (proj2 (find_npos _ _) Ha). simpl.
  by rewrite erase0_zero.
Qed.

Lemma take_field_join (line : string) :
  has_char comma line = true ->
  fst (take_field line) +:+ String comma (snd (take_field line)) = line.
Proof.
  intros H. unfold take_field.
  destruct (find comma line) as [i|] eqn:E.
  - destruct (find_At _ _ _ E) as (a & b & -> & <- & Ha). simpl.
    by rewrite take_s_app, erase0_app_cons.
  - apply find_npos in E. congruence.
Qed.

(** ** [getline] and the lines of a text *)

Lemma getline_None (s : string) : getline s = None <-> s = EmptyString.
Proof. by destruct s. Qed.

Lemma getline_split_app (l r : string) :
  one_line l -> getline_split (l +:+ String newline r) = (l, r).
Proof.
  unfold one_line. induction l as [|c l IH]; rewrite ?app_cons_s; simpl; [done|].
  destruct (Ascii.eqb c newline); [done|]. intros H. by rewrite IH.
Qed.

Lemma getline_app (l r : string) :
  one_line l -> getline (l +:+ String newline r) = Some (l, r).
Proof.
  intros H. rewrite <- (getline_split_app l r H). by destruct l.
Qed.

Lemma read_lines_cons (c : ascii) (s : string) :
  read_lines (String c s) =
  if Ascii.eqb c newline then EmptyString :: read_lines s
  else match read_lines s with
       | [] => [String c EmptyString]
       | l :: ls => String c l :: ls
       end.
Proof. reflexivity. Qed.

Lemma getline_split_cons (c : ascii) (s : string) :
  getline_split (String c s) =
  if Ascii.eqb c newline then (EmptyString, s)
  else (String c (getline_split s).1, (getline_split s).2).
Proof. simpl. destruct (Ascii.eqb c newline); [done|]. by destruct (getline_split s). Qed.

Lemma read_lines_split (c : ascii) (s : string) :
  read_lines (String c s) =
  (getline_split (String c s)).1 :: read_lines (getline_split (String c s)).2.
Proof.
  revert c. induction s as [|d s IH]; intros c.
  - simpl. by destruct (Ascii.eqb c newline).
  - rewrite read_lines_cons, getline_split_cons.
    destruct (Ascii.eqb c newline); [done|]. by rewrite IH.
Qed.

Lemma read_lines_getline (s l r : string) :
  getline s = Some (l, r) -> read_lines s = l :: read_lines r.
Proof.
  destruct s as [|c s]; [done|]. unfold getline. intros H.
  rewrite read_lines_split.
  by assert (getline_split (String c s) = (l, r)) as -> by congruence.
Qed.

Lemma read_lines_nil (s : string) : read_lines s = [] <-> s = EmptyString.
Proof.
  destruct s as [|c s]; simpl; [done|].
  destruct (Ascii.eqb c newline); [done|]. by destruct (read_lines s).
Qed.

Lemma read_lines_app (l r : string) :
  one_line l -> read_lines (l +:+ String newline r) = l :: read_lines r.
Proof. intros H. apply read_lines_getline. by apply getline_app. Qed.

Lemma read_lines_unlines_app (ls : list string) (rest : string) :
  Forall one_line ls -> read_lines (unlines ls +:+ rest) = ls ++ read_lines rest.
Proof.
  induction 1 as [|l ls Hl _ IH]; cbn [unlines app]; [done|].
  by rewrite app_assoc_s, app_cons_s, read_lines_app, IH.
Qed.

Lemma unlines_app (ls ls' : list string) :
  unlines (ls ++ ls') = unlines ls +:+ unlines ls'.
Proof.
  induction ls as [|l ls IH]; simpl; [done|].
  by rewrite IH, app_assoc_s, app_cons_s.
Qed.

#[export] Hint Rewrite take_s_app erase0_app erase0_zero unlines_app : cpp.
#[export] Hint Resolve getline_app read_lines_app : cpp.

(** * Properties *)

(** The field idiom on both branches of [find]: when the line holds a
    comma after a comma-free prefix, the prefix is the field and the text
    after the comma is left; when the line holds no comma, [find] yields
    [npos], [substr] copies the whole line and [erase(0, npos + 1)], whose
    count has wrapped to zero, leaves the line as it was. *)
Theorem take_field_branches (a b : string) :
  has_char comma a = false ->
  take_field (a +:+ String comma b) = (a, b) /\ take_field a = (a, a).
Proof. intros Ha. split; [by apply take_field_comma|by apply take_field_last]. Qed.

Lemma take_field_branches_witness :
  take_field ("Alice" +:+ String comma "1,10A") = ("Alice", "1,10A") /\
  take_field "Alice" = ("Alice", "Alice").
Proof. apply (take_field_branches "Alice" "1,10A"). reflexivity. Defined.

(** Lines written one per record are read back one per record:
    for lines that hold no newline, the lines [getline] yields from the
    text [l1 \n l2 \n ...] are exactly [l1, l2, ...]. *)
Theorem lines_roundtrip (ls : list string) :
  Forall one_line ls -> read_lines (unlines ls) = ls.
Proof.
  intros H. rewrite <- (app_nil_r_s (unlines ls)).
  rewrite read_lines_unlines_app by done. apply app_nil_r.
Qed.

Lemma lines_roundtrip_witness :
  read_lines (unlines ["Students"; "Alice,1,10A,12,8,15,9"; ""; "Teachers"]) =
  ["Students"; "Alice,1,10A,12,8,15,9"; ""; "Teachers"].
Proof.
  apply (lines_roundtrip ["Students"; "Alice,1,10A,12,8,15,9"; ""; "Teachers"]).
  by_compute.
Defined.

(** The list of lines is what the stream function produces: the
    lines of a text are empty exactly when [getline] fails, and otherwise
    the line [getline] extracts followed by the lines of what it leaves; a
    last line without a newline is still a line. *)
Theorem read_lines_is_getline (s : string) :
  read_lines s =
  match getline s with
  | None => []
  | Some (l, r) => l :: read_lines r
  end.
Proof.
  destruct (getline s) as [[l r]|] eqn:E.
  - by apply read_lines_getline.
  - apply getline_None in E. by subst.
Qed.
