(* ===== verification/CppInt.v ===== *)
(** The 32-bit [int] of the source: its range, the wrap of [+=], the text
    [operator<<] writes for it, and [std::stoi] as the decoder calls it
    (base 10, no position output): leading white space, an optional sign, a
    run of digits; [invalid_argument] when there is no digit to convert,
    [out_of_range] when the value does not fit an [int]. *)

From Stdlib Require Import ZArith Ascii String Lia.
From Stdlib Require Import DecimalString DecimalZ DecimalPos.
From stdpp Require Import base tactics option list strings.
From S2P Require Import Prelude.

#[local] Open Scope Z_scope.

(** ** Range and wrap-around *)

Definition INT_MIN : Z := -2147483648.
Definition INT_MAX : Z := 2147483647.

Definition in_int (z : Z) : Prop := INT_MIN <= z <= INT_MAX.

#[export] Instance in_int_dec (z : Z) : Decision (in_int z).
Proof. unfold in_int. apply _. Defined.

(** The value an [int] holds after a result [z] is stored in it. *)
Definition int_wrap (z : Z) : Z := (z + 2147483648) mod 4294967296 - 2147483648.

(** [a += b] on [int]. *)
Definition int_add (a b : Z) : Z := int_wrap (a + b).

(** ** [operator<<] on an [int] *)

(** Decimal digits, a leading [-] for a negative value, nothing else. *)
Definition show_int (z : Z) : string := NilZero.string_of_int (Z.to_int z).

(** ** [std::stoi] *)

(** [isspace] in the "C" locale: the space and the characters 9 to 13. *)
Definition isspace (c : ascii) : bool :=
  let n := N_of_ascii c in
  (N.eqb n 32 || (N.leb 9 n && N.leb n 13))%bool.

(** The value of a decimal digit: [c - '0'] for the characters 48 to 57. *)
Definition digit_of (c : ascii) : option Z :=
  let n := Z.of_N (N_of_ascii c) in
  if (48 <=? n) && (n <=? 57) then Some (n - 48) else None.

Fixpoint skip_space (s : string) : string :=
  match s with
  | String c s' => if isspace c then skip_space s' else s
  | EmptyString => s
  end.

(** The optional sign: whether it was [-], and the text after it. *)
Definition take_sign (s : string) : bool * string :=
  match s with
  | String "-" s' => (true, s')
  | String "+" s' => (false, s')
  | _ => (false, s)
  end.

(** The value of the leading run of digits of [s], continuing from [acc];
    [None] as long as no digit has been read. *)
Fixpoint digits (acc : option Z) (s : string) : option Z :=
  match s with
  | String c s' =>
      match digit_of c with
      | Some d => digits (Some (10 * default 0 acc + d)) s'
      | None => acc
      end
  | EmptyString => acc
  end.

Definition stoi (s : string) : res Z :=
  let '(neg, body) := take_sign (skip_space s) in
  match digits None body with
  | None => Throw invalid_argument
  | Some v =>
      let z := if neg then - v else v in
      if decide (in_int z) then Ok z else Throw out_of_range
  end.

#[global] Arguments stoi : simpl never.
#[global] Arguments show_int : simpl never.

(** A text of white space only. *)
Fixpoint all_space (s : string) : bool :=
  match s with
  | String c s' => isspace c && all_space s'
  | EmptyString => true
  end.

(** A text that does not continue a run of digits. *)
Definition digit_free_head (s : string) : Prop :=
  match s with
  | String c _ => digit_of c = None
  | EmptyString => True
  end.

#[export] Instance digit_free_head_dec (s : string) : Decision (digit_free_head s).
Proof. destruct s; simpl; apply _. Defined.

(** [digits] over a decimal numeral, as a fold. *)
Fixpoint uint_acc (acc : option Z) (d : Decimal.uint) : option Z :=
  let a := default 0 acc in
  match d with
  | Decimal.Nil => acc
  | Decimal.D0 d' => uint_acc (Some (10 * a + 0)) d'
  | Decimal.D1 d' => uint_acc (Some (10 * a + 1)) d'
  | Decimal.D2 d' => uint_acc (Some (10 * a + 2)) d'
  | Decimal.D3 d' => uint_acc (Some (10 * a + 3)) d'
  | Decimal.D4 d' => uint_acc (Some (10 * a + 4)) d'
  | Decimal.D5 d' => uint_acc (Some (10 * a + 5)) d'
  | Decimal.D6 d' => uint_acc (Some (10 * a + 6)) d'
  | Decimal.D7 d' => uint_acc (Some (10 * a + 7)) d'
  | Decimal.D8 d' => uint_acc (Some (10 * a + 8)) d'
  | Decimal.D9 d' => uint_acc (Some (10 * a + 9)) d'
  end.

(** ** Range and wrap *)

Lemma int_wrap_in_int (z : Z) : in_int (int_wrap z).
Proof.
  unfold in_int, int_wrap, INT_MIN, INT_MAX.
  pose proof (Z.mod_pos_bound (z + 2147483648) 4294967296). lia.
Qed.

Lemma int_wrap_id (z : Z) : in_int z -> int_wrap z = z.
Proof.
  unfold in_int, int_wrap, INT_MIN, INT_MAX. intros H.
  rewrite Z.mod_small; lia.
Qed.

Lemma int_wrap_wraps (z : Z) : exists k, int_wrap z = z + k * 4294967296.
Proof.
  exists (- ((z + 2147483648) / 4294967296)). unfold int_wrap.
  pose proof (Z.div_mod (z + 2147483648) 4294967296). lia.
Qed.

Lemma int_add_in_int (a b : Z) : in_int (int_add a b).
Proof. apply int_wrap_in_int. Qed.

Lemma int_add_exact (a b : Z) : in_int (a + b) -> int_add a b = a + b.
Proof. apply int_wrap_id. Qed.

#[export] Hint Resolve int_wrap_in_int int_add_in_int : cpp.

(** ** The digits read are the digits written *)

Lemma digits_stop (acc : option Z) (s : string) :
  digit_free_head s -> digits acc s = acc.
Proof. destruct s as [|c s]; simpl; [done|]. by intros ->. Qed.

Lemma digits_uint (d : Decimal.uint) (acc : option Z) (rest : string) :
  digits acc (NilEmpty.string_of_uint d +:+ rest) = digits (uint_acc acc d) rest.
Proof.
  revert acc. induction d; intros acc; simpl; rewrite ?app_cons_s; simpl; auto.
Qed.

Lemma uint_acc_pos (d : Decimal.uint) (acc : positive) :
  uint_acc (Some (Z.pos acc)) d = Some (Z.pos (Pos.of_uint_acc d acc)).
Proof.
  revert acc. induction d; intros acc; simpl; [done|..];
    match goal with |- uint_acc (Some ?z) _ = Some (Z.pos (Pos.of_uint_acc _ ?p)) =>
      replace z with (Z.pos p) by lia end; auto.
Qed.

Lemma uint_acc_zero (d : Decimal.uint) :
  uint_acc (Some 0) d = Some (Z.of_N (Pos.of_uint d)).
Proof. induction d; simpl; [done | done | apply uint_acc_pos ..]. Qed.

Lemma uint_acc_none (d : Decimal.uint) :
  d <> Decimal.Nil -> uint_acc None d = Some (Z.of_N (Pos.of_uint d)).
Proof. destruct d; simpl; [done | intros _; apply uint_acc_zero | intros _; apply uint_acc_pos ..]. Qed.

Lemma digits_pos (p : positive) (rest : string) :
  digit_free_head rest ->
  digits None (NilEmpty.string_of_uint (Pos.to_uint p) +:+ rest) = Some (Z.pos p).
Proof.
  intros Hr. rewrite digits_uint, uint_acc_none by apply Unsigned.to_uint_nonnil.
  by rewrite (digits_stop _ _ Hr), DecimalPos.Unsigned.of_to.
Qed.

(** A numeral starts with a digit: neither white space nor a sign. *)
Lemma string_of_uint_head (d : Decimal.uint) :
  d <> Decimal.Nil ->
  exists c s, NilEmpty.string_of_uint d = String c s /\ is_Some (digit_of c).
Proof.
  destruct d; [done|..]; intros _; eexists _, _; (split; [reflexivity|]);
    vm_compute; eauto.
Qed.

Lemma digit_head_plain (c : ascii) (s : string) :
  is_Some (digit_of c) -> take_sign (skip_space (String c s)) = (false, String c s).
Proof.
  intros [k Hk]. destruct c as [[] [] [] [] [] [] [] []];
    vm_compute in Hk; try discriminate Hk; reflexivity.
Qed.

Lemma show_pos (p : positive) :
  show_int (Z.pos p) = NilEmpty.string_of_uint (Pos.to_uint p).
Proof.
  unfold show_int. simpl. pose proof (Unsigned.to_uint_nonnil p).
  by destruct (Pos.to_uint p).
Qed.

Lemma show_neg (p : positive) : show_int (Z.neg p) = String "-" (show_int (Z.pos p)).
Proof. reflexivity. Qed.

Lemma take_sign_show_pos (p : positive) (rest : string) :
  take_sign (skip_space (show_int (Z.pos p) +:+ rest)) =
  (false, show_int (Z.pos p) +:+ rest).
Proof.
  rewrite show_pos.
  destruct (string_of_uint_head (Pos.to_uint p)) as (c & s & -> & Hc);
    [apply Unsigned.to_uint_nonnil|].
  rewrite app_cons_s. by apply digit_head_plain.
Qed.

(** The text of an [int] holds digits and at most a minus sign. *)
Lemma string_of_uint_no_char (c : ascii) (d : Decimal.uint) :
  digit_of c = None -> has_char c (NilEmpty.string_of_uint d) = false.
Proof.
  intros Hc. induction d; cbn [NilEmpty.string_of_uint has_char]; [done|..];
    match goal with |- context [Ascii.eqb ?k c] =>
      destruct (Ascii.eqb_spec k c) as [<-|_]; [by vm_compute in Hc|done] end.
Qed.

Lemma show_int_no_char (c : ascii) (z : Z) :
  digit_of c = None -> c <> "-"%char -> has_char c (show_int z) = false.
Proof.
  intros Hc Hm. destruct z as [|p|p].
  - change (show_int 0) with "0"%string. cbn [has_char].
    destruct (Ascii.eqb_spec "0" c) as [<-|_]; [by vm_compute in Hc|done].
  - rewrite show_pos. by apply string_of_uint_no_char.
  - rewrite show_neg, show_pos. cbn [has_char].
    destruct (Ascii.eqb_spec "-" c) as [<-|_]; [done|].
    by apply string_of_uint_no_char.
Qed.

Lemma show_int_no_comma (z : Z) : has_char comma (show_int z) = false.
Proof. by apply show_int_no_char. Qed.

Lemma show_int_one_line (z : Z) : one_line (show_int z).
Proof. by apply show_int_no_char. Qed.

Lemma show_int_nonempty (z : Z) : show_int z <> EmptyString.
Proof.
  destruct z as [|p|p]; [done| |done]. rewrite show_pos.
  destruct (string_of_uint_head (Pos.to_uint p)) as (c & s & -> & _);
    [apply Unsigned.to_uint_nonnil|done].
Qed.

(** ** [stoi] *)

Lemma stoi_show_int (z : Z) (rest : string) :
  in_int z -> digit_free_head rest -> stoi (show_int z +:+ rest) = Ok z.
Proof.
  intros Hz Hr. unfold stoi. destruct z as [|p|p].
  - change (show_int 0) with "0"%string. rewrite app_cons_s. simpl.
    rewrite (digits_stop _ _ Hr). by rewrite decide_True.
  - rewrite take_sign_show_pos, show_pos, (digits_pos _ _ Hr).
    by rewrite decide_True.
  - rewrite show_neg, app_cons_s. simpl.
    rewrite show_pos, (digits_pos _ _ Hr). by rewrite decide_True.
Qed.

Lemma stoi_show_int_exact (z : Z) : in_int z -> stoi (show_int z) = Ok z.
Proof.
  intros Hz. rewrite <- (app_nil_r_s (show_int z)). by apply stoi_show_int.
Qed.

Lemma stoi_in_int (s : string) (z : Z) : stoi s = Ok z -> in_int z.
Proof.
  unfold stoi. destruct (take_sign _) as [neg body].
  destruct (digits None body); [|done]. case_decide; [|done]. by intros [= <-].
Qed.

Lemma stoi_no_digit (s : string) :
  digits None (take_sign (skip_space s)).2 = None -> stoi s = Throw invalid_argument.
Proof. unfold stoi. destruct (take_sign _) as [neg body]. simpl. by intros ->. Qed.

Lemma stoi_empty : stoi EmptyString = Throw invalid_argument.
Proof. reflexivity. Qed.

(** A text whose first character is neither white space, a sign nor a digit
    converts to nothing. *)
Lemma stoi_letter (c : ascii) (s : string) :
  isspace c = false -> digit_of c = None -> c <> "-"%char -> c <> "+"%char ->
  stoi (String c s) = Throw invalid_argument.
Proof.
  intros Hs Hd Hm Hp. apply stoi_no_digit. simpl. rewrite Hs.
  assert (take_sign (String c s) = (false, String c s)) as ->.
  { unfold take_sign. repeat case_match; simplify_eq; done. }
  simpl. by rewrite Hd.
Qed.

Lemma stoi_out_of_range (s : string) (v : Z) :
  digits None (take_sign (skip_space s)).2 = Some v ->
  ~ in_int (if (take_sign (skip_space s)).1 then - v else v) ->
  stoi s = Throw out_of_range.
Proof.
  unfold stoi. destruct (take_sign _) as [neg body]. simpl. intros -> H.
  by rewrite decide_False.
Qed.

#[export] Hint Resolve stoi_in_int show_int_no_comma show_int_one_line : cpp.
#[export] Hint Rewrite stoi_show_int_exact using assumption : cpp.

Lemma skip_space_app (ws s : string) :
  all_space ws = true -> skip_space (ws +:+ s) = skip_space s.
Proof.
  induction ws as [|c ws IH]; [done|]. rewrite app_cons_s. simpl.
  intros [-> H]%andb_true_iff. by apply IH.
Qed.

Lemma stoi_skip_space (ws s : string) :
  all_space ws = true -> stoi (ws +:+ s) = stoi s.
Proof. intros H. unfold stoi. by rewrite (skip_space_app _ _ H). Qed.

(** * Properties *)

(** C33. [stoi] reads back what [operator<<] wrote: for an [int] [z], the
    text of [z], after any white space and before anything that is not a
    digit, converts to [z]; the characters after the number are ignored. *)
Theorem stoi_roundtrip (ws rest : string) (z : Z) :
  all_space ws = true -> in_int z -> digit_free_head rest ->
  stoi (ws +:+ show_int z +:+ rest) = Ok z.
Proof. intros Hws Hz Hr. rewrite stoi_skip_space by done. by apply stoi_show_int. Qed.

Lemma stoi_roundtrip_witness : stoi (" " +:+ show_int (-2147483648) +:+ ",10A") = Ok (-2147483648).
Proof. apply (stoi_roundtrip " " ",10A" (-2147483648)); by_compute. Defined.

(** The outcomes of [stoi]: a value it returns is in the range of
    [int]; it throws [invalid_argument] only when no digit follows the
    white space and the sign, and [out_of_range] only when digits were
    read. *)
Theorem stoi_outcomes (s : string) :
  match stoi s with
  | Ok z => in_int z
  | Throw invalid_argument => digits None (take_sign (skip_space s)).2 = None
  | Throw out_of_range => is_Some (digits None (take_sign (skip_space s)).2)
  end.
Proof.
  unfold stoi. destruct (take_sign _) as [neg body]. simpl.
  destruct (digits None body); [|done]. by case_decide.
Qed.

(** [+=] on [int] stays in range, is the exact sum when the exact sum
    is in range, and wraps from the largest [int] to the smallest. *)
Theorem int_add_wraps (a b : Z) :
  in_int (int_add a b) /\
  (in_int (a + b) -> int_add a b = a + b) /\
  int_add INT_MAX 1 = INT_MIN.
Proof. split_and!; [apply int_add_in_int|apply int_add_exact|reflexivity]. Qed.
