(* ===== verification/CppStream.v ===== *)
(** [std::istream] as the program uses [cin]: the unread characters and the
    two state bits that decide whether an input function does anything.
    The three functions the handlers call are [operator>>] on an [int],
    [ignore()] and [std::getline].  Each starts with a sentry: on a stream
    that is not good it sets [failbit] and the function leaves its argument
    as it was; this is what makes a failed [cin] stay failed, since the
    program never clears the state. *)

From Stdlib Require Import ZArith Ascii String Lia.
From Stdlib Require Import DecimalString DecimalZ DecimalPos.
From stdpp Require Import base tactics option list strings.
From S2P Require Import Prelude CppString CppInt.

#[local] Open Scope Z_scope.

(** ** The stream *)

Record istream : Set := mk_istream {
  unread : string;
  eofbit : bool;
  failbit : bool
}.

#[export] Instance istream_eq_dec : EqDecision istream.
Proof. solve_decision. Defined.

(** A stream that has read nothing yet. *)
Definition open_in (text : string) : istream := mk_istream text false false.

(** [good()]: neither bit is set. *)
Definition good (i : istream) : bool := negb (eofbit i || failbit i).

(** [setstate(failbit)], what a sentry does on a stream that is not good. *)
Definition setfail (i : istream) : istream :=
  mk_istream (unread i) (eofbit i) true.

(** The text after the leading run of digits. *)
Fixpoint drop_digits (s : string) : string :=
  match s with
  | String c s' => match digit_of c with Some _ => drop_digits s' | None => s end
  | EmptyString => s
  end.

(** Whether the extraction ran into the end of the input. *)
Definition at_end (rest : string) : bool :=
  match rest with EmptyString => true | _ => false end.

(** [in >> x] for an [int x] that holds [old].  The sentry skips white
    space; at the end of the input it sets both bits and [x] keeps [old].
    Otherwise the sign and the digits are consumed; without a digit [x]
    becomes zero, beyond the range of [int] it becomes the nearest bound,
    and in both cases [failbit] is set. *)
Definition extract_int (i : istream) (old : Z) : istream * Z :=
  if good i then
    match skip_space (unread i) with
    | EmptyString => (mk_istream EmptyString true true, old)
    | s =>
        let '(neg, body) := take_sign s in
        let rest := drop_digits body in
        match digits None body with
        | None => (mk_istream rest (at_end rest) true, 0)
        | Some v =>
            let z := if neg then - v else v in
            if z <? INT_MIN then (mk_istream rest (at_end rest) true, INT_MIN)
            else if INT_MAX <? z then (mk_istream rest (at_end rest) true, INT_MAX)
            else (mk_istream rest (at_end rest) false, z)
        end
    end
  else (setfail i, old).

(** [in.ignore()]: one character is discarded; at the end of the input
    [eofbit] is set. *)
Definition ignore (i : istream) : istream :=
  if good i then
    match unread i with
    | EmptyString => mk_istream EmptyString true false
    | String _ s => mk_istream s false false
    end
  else setfail i.

(** [getline(in, str)] for a [str] that holds [old]: the characters up to
    the newline, which is consumed; [eofbit] when the input ends first, and
    [failbit] with it when nothing was extracted. *)
Definition getline_in (i : istream) (old : string) : istream * string :=
  if good i then
    match unread i with
    | EmptyString => (mk_istream EmptyString true true, EmptyString)
    | s =>
        let '(l, r) := getline_split s in
        (mk_istream r (negb (has_char newline s)) false, l)
    end
  else (setfail i, old).

#[global] Arguments extract_int : simpl never.

(** A stream on which a read has failed with text left unread. *)
Definition failed_stream : istream := mk_istream "abc" false true.

(** ** A stream that is not good *)

Lemma setfail_not_good (i : istream) : good (setfail i) = false.
Proof. unfold good, setfail. simpl. by rewrite orb_true_r. Qed.

Lemma failbit_not_good (s : string) (e : bool) : good (mk_istream s e true) = false.
Proof. unfold good. simpl. by rewrite orb_true_r. Qed.

Lemma setfail_idem (i : istream) : setfail (setfail i) = setfail i.
Proof. done. Qed.

Lemma extract_int_stuck (i : istream) (old : Z) :
  good i = false -> extract_int i old = (setfail i, old).
Proof. intros H. unfold extract_int. by rewrite H. Qed.

Lemma ignore_stuck (i : istream) : good i = false -> ignore i = setfail i.
Proof. intros H. unfold ignore. by rewrite H. Qed.

Lemma getline_in_stuck (i : istream) (old : string) :
  good i = false -> getline_in i old = (setfail i, old).
Proof. intros H. unfold getline_in. by rewrite H. Qed.

(** No input function makes a stream good again. *)
Lemma extract_int_not_good (i : istream) (old : Z) :
  good i = false -> good (extract_int i old).1 = false.
Proof. intros H. rewrite extract_int_stuck by done. apply setfail_not_good. Qed.

Lemma ignore_not_good (i : istream) : good i = false -> good (ignore i) = false.
Proof. intros H. rewrite ignore_stuck by done. apply setfail_not_good. Qed.

Lemma getline_in_not_good (i : istream) (old : string) :
  good i = false -> good (getline_in i old).1 = false.
Proof. intros H. rewrite getline_in_stuck by done. apply setfail_not_good. Qed.

(** A token that is no number: [x] becomes zero and [failbit] is set. *)
Lemma extract_int_no_number (i : istream) (old : Z) (c : ascii) (s : string) :
  good i = true -> skip_space (unread i) = String c s ->
  digit_of c = None -> c <> "-"%char -> c <> "+"%char ->
  (extract_int i old).2 = 0 /\ good (extract_int i old).1 = false.
Proof.
  intros Hg Hs Hd Hm Hp. unfold extract_int. rewrite Hg, Hs.
  assert (take_sign (String c s) = (false, String c s)) as ->.
  { unfold take_sign. repeat case_match; simplify_eq; done. }
  cbn [digits drop_digits]. by rewrite Hd.
Qed.

(** ** Reading what was typed *)

Lemma drop_digits_stop (s : string) : digit_free_head s -> drop_digits s = s.
Proof. destruct s as [|c s]; simpl; [done|]. by intros ->. Qed.

Lemma drop_digits_uint (d : Decimal.uint) (rest : string) :
  drop_digits (NilEmpty.string_of_uint d +:+ rest) = drop_digits rest.
Proof. induction d; simpl; rewrite ?app_cons_s; simpl; auto. Qed.

Lemma drop_digits_pos (p : positive) (rest : string) :
  digit_free_head rest -> drop_digits (show_int (Z.pos p) +:+ rest) = rest.
Proof. intros Hr. by rewrite show_pos, drop_digits_uint, drop_digits_stop. Qed.

Lemma skip_space_show_int (z : Z) (rest : string) :
  skip_space (show_int z +:+ rest) = show_int z +:+ rest.
Proof.
  destruct z as [|p|p]; [done| |done]. rewrite show_pos.
  destruct (string_of_uint_head (Pos.to_uint p)) as (c & s & -> & [k Hk]);
    [apply Unsigned.to_uint_nonnil|].
  rewrite app_cons_s. simpl.
  destruct c as [[] [] [] [] [] [] [] []]; vm_compute in Hk; try discriminate Hk; done.
Qed.

(** The sign, the digits and what follows of a printed [int]. *)
Lemma show_int_parts (z : Z) (rest : string) :
  digit_free_head rest ->
  exists neg body c s,
    show_int z +:+ rest = String c s /\
    take_sign (String c s) = (neg, body) /\
    digits None body = Some (Z.abs z) /\ drop_digits body = rest /\
    (if neg then - Z.abs z else Z.abs z) = z.
Proof.
  intros Hr. destruct z as [|p|p].
  - exists false, ("0" +:+ rest)%string, "0"%char, rest. split_and!; try done.
    + rewrite app_cons_s. simpl. by rewrite digits_stop.
    + rewrite app_cons_s. simpl. by apply drop_digits_stop.
  - pose proof (take_sign_show_pos p rest) as Hs.
    rewrite skip_space_show_int in Hs.
    destruct (show_int (Z.pos p) +:+ rest) as [|c s] eqn:E.
    { apply app_eq_nil_s in E as [E _]. by apply show_int_nonempty in E. }
    exists false, (String c s), c, s. rewrite <- E in *. split_and!; try done.
    + rewrite show_pos. by apply digits_pos.
    + by apply drop_digits_pos.
  - exists true, (show_int (Z.pos p) +:+ rest)%string, "-"%char,
      (show_int (Z.pos p) +:+ rest)%string.
    rewrite show_neg, app_cons_s. split_and!; try done.
    + rewrite show_pos. by apply digits_pos.
    + by apply drop_digits_pos.
Qed.

(** [>>] reads a printed [int] back, after any white space, and leaves the
    stream good at the character that follows. *)
Lemma extract_int_show (ws : string) (z old : Z) (c : ascii) (rest : string) :
  all_space ws = true -> in_int z -> digit_of c = None ->
  extract_int (open_in (ws +:+ show_int z +:+ String c rest)) old
  = (open_in (String c rest), z).
Proof.
  intros Hws Hz Hc. unfold extract_int, open_in. cbn [good eofbit failbit unread orb negb].
  rewrite skip_space_app, skip_space_show_int by done.
  destruct (show_int_parts z (String c rest) Hc)
    as (neg & body & c' & s & -> & -> & -> & -> & Hsig).
  rewrite Hsig. unfold in_int in Hz.
  rewrite (proj2 (Z.ltb_ge _ _)), (proj2 (Z.ltb_ge _ _)) by lia. done.
Qed.

(** [getline] on a good stream is [getline] on its unread text. *)
Lemma getline_in_good (i : istream) (old line rest : string) :
  good i = true -> getline (unread i) = Some (line, rest) ->
  getline_in i old = (mk_istream rest (negb (has_char newline (unread i))) false, line).
Proof.
  intros Hg. unfold getline_in, getline. rewrite Hg.
  destruct (unread i) as [|c s]; [done|].
  intros H. apply (inj Some) in H. by rewrite H.
Qed.

Lemma getline_in_line (l rest old : string) :
  one_line l ->
  getline_in (open_in (l +:+ String newline rest)) old = (open_in rest, l).
Proof.
  intros Hl. unfold getline_in, open_in. cbn [good eofbit failbit unread orb negb].
  destruct (l +:+ String newline rest) as [|c s] eqn:E.
  { by destruct l. }
  rewrite <- E, getline_split_app by done.
  by rewrite has_char_app, (has_char_cons newline), Ascii.eqb_refl, orb_true_r.
Qed.

Lemma ignore_char (c : ascii) (s : string) :
  ignore (open_in (String c s)) = open_in s.
Proof. done. Qed.

Lemma extract_int_in_int (i : istream) (old : Z) :
  in_int old -> in_int (extract_int i old).2.
Proof.
  intros Ho. unfold extract_int. destruct (good i); [|done].
  destruct (skip_space (unread i)) as [|c s]; [done|].
  destruct (take_sign (String c s)) as [neg body].
  destruct (digits None body) as [v|]; [|done].
  repeat case_match; cbn [snd]; unfold in_int, INT_MIN, INT_MAX in *; lia.
Qed.

(** * Properties *)

(** Failure of an input stream is sticky: on a stream that is not
    good every input function the program calls sets [failbit], consumes
    nothing and leaves its argument as it was, and the stream is still not
    good afterwards. *)
Theorem failed_stream_stays_failed (i : istream) :
  good i = false ->
  (forall old, extract_int i old = (setfail i, old)) /\
  (forall old, getline_in i old = (setfail i, old)) /\
  ignore i = setfail i /\
  unread (setfail i) = unread i /\ good (setfail i) = false.
Proof.
  intros Hi. split_and!.
  - intros old. by apply extract_int_stuck.
  - intros old. by apply getline_in_stuck.
  - by apply ignore_stuck.
  - done.
  - apply setfail_not_good.
Qed.

Lemma failed_stream_stays_failed_witness :
  (forall old, extract_int failed_stream old = (setfail failed_stream, old)) /\
  (forall old, getline_in failed_stream old = (setfail failed_stream, old)) /\
  ignore failed_stream = setfail failed_stream /\
  unread (setfail failed_stream) = unread failed_stream /\
  good (setfail failed_stream) = false.
Proof. apply (failed_stream_stays_failed failed_stream). reflexivity. Defined.

(** C38. What [>>] stores in an [int] is an [int]: the variable keeps its
    value when the sentry fails, becomes zero when no digit follows, the
    nearest bound when the digits exceed the range, and else the number
    read; and the stream is good afterwards only if a number in range was
    read and a character follows it, and then the number is the one
    [stoi] converts the same text to. *)
Theorem extract_int_outcomes (i : istream) (old : Z) :
  in_int old ->
  in_int (extract_int i old).2 /\
  (good (extract_int i old).1 = true ->
   good i = true /\ unread (extract_int i old).1 <> "" /\
   stoi (unread i) = Ok (extract_int i old).2).
Proof.
  intros Ho. split; [by apply extract_int_in_int|].
  unfold extract_int. destruct (good i) eqn:Hg.
  2: { cbn [fst]. by rewrite setfail_not_good. }
  destruct (skip_space (unread i)) as [|c s] eqn:Hs; [done|].
  destruct (take_sign (String c s)) as [neg body] eqn:Ht.
  destruct (digits None body) as [v|] eqn:Hv; [|cbn [fst]; by rewrite failbit_not_good].
  destruct (_ <? INT_MIN) eqn:Hlo; [cbn [fst]; by rewrite failbit_not_good|].
  destruct (INT_MAX <? _) eqn:Hhi; [cbn [fst]; by rewrite failbit_not_good|].
  cbn [fst snd]. unfold good. cbn [eofbit failbit unread]. rewrite orb_false_r.
  destruct (drop_digits body) eqn:Hd; [done|]. intros _. split_and!; try done.
  unfold stoi. rewrite Hs, Ht, Hv, decide_True; [done|]. unfold in_int. lia.
Qed.

Lemma extract_int_outcomes_witness :
  in_int (extract_int (open_in " 42 rest") 0).2 /\
  (good (extract_int (open_in " 42 rest") 0).1 = true ->
   good (open_in " 42 rest") = true /\
   unread (extract_int (open_in " 42 rest") 0).1 <> "" /\
   stoi (unread (open_in " 42 rest")) = Ok (extract_int (open_in " 42 rest") 0).2).
Proof. apply (extract_int_outcomes (open_in " 42 rest") 0). by_compute. Defined.
