(* ===== verification/CppDouble.v ===== *)
(** The [double] of the source as IEEE 754 binary64, through the Standard
    Library's executable specification of floating-point numbers: the three
    operations [Student::calculateAverage] and [Student::isPassed] use and
    their meaning on the rationals.  The lemmas show that on the integers
    the program converts (sums of grades, far below 2^52) none of the three
    rounds: the conversion and the division by four are exact and [>=] is
    the order of the values.  What [operator<<] writes for a [double] is in
    [Printing]. *)

From Stdlib Require Import ZArith QArith Qpower Lia Ascii String.
From Stdlib Require Import Floats.SpecFloat.
From stdpp Require Import base tactics numbers list strings.
From S2P Require Import Prelude CppString CppInt.

#[local] Open Scope Z_scope.

Definition double : Set := spec_float.

#[export] Instance double_eq_dec : EqDecision double.
Proof. unfold double. solve_decision. Defined.

(** binary64: 53 bits of precision, infinities at exponent 1024. *)
Definition prec : Z := 53.
Definition emax : Z := 1024.

(** [static_cast<double>(z)], and the implicit conversion of a [size_t]:
    round to nearest, ties to even. *)
Definition of_Z (z : Z) : double := binary_normalize prec emax z 0 false.

(** [x / y]. *)
Definition ddiv (x y : double) : double := SFdiv prec emax x y.

(** [x >= y]: false when either side is NaN. *)
Definition dge (x y : double) : bool := SFleb y x.

(** The literal [10.0]. *)
Definition ten : double := of_Z 10.

(** What [grades.size()] converts to in a well-formed student. *)
Definition four : double := of_Z 4.

(** ** The meaning of a double *)

(** The significand with its sign. *)
Definition signed (s : bool) (m : positive) : Z :=
  if s then Zneg m else Zpos m.

(** The rational a finite double denotes (zero for the infinities and NaN,
    which the lemmas below exclude). *)
Definition value (x : double) : Q :=
  match x with
  | S754_finite s m e => (inject_Z (signed s m) * 2 ^ e)%Q
  | _ => 0%Q
  end.

(** The number of bits of a positive integer. *)
Definition bits (p : positive) : Z := Zpos (digits2_pos p).

(** A finite double in normal form: 53 significant bits, an exponent in the
    range of the format. *)
Definition normal (m : positive) (e : Z) : Prop :=
  bits m = 53 /\ -1074 <= e <= 971.

(** Zero or a normal number: what the conversions of this program yield. *)
Definition canonical (x : double) : Prop :=
  match x with
  | S754_zero _ => True
  | S754_finite _ m e => normal m e
  | _ => False
  end.

(** The bits of [p] moved to the top of a 53-bit significand. *)
Definition top (p : positive) : positive :=
  Pos.iter xO p (Z.to_pos (53 - bits p)).

(** ** Lemmas *)

Lemma of_Z_zero : of_Z 0 = S754_zero false.
Proof. reflexivity. Qed.

Lemma ddiv_zero_zero : ddiv (of_Z 0) (of_Z 0) = S754_nan.
Proof. reflexivity. Qed.

Lemma dge_nan_l (y : double) : dge S754_nan y = false.
Proof. by destruct y. Qed.

Lemma dge_nan_r (x : double) : dge x S754_nan = false.
Proof. by destruct x. Qed.

Lemma bits_bounds (p : positive) :
  2 ^ (bits p - 1) <= Zpos p < 2 ^ bits p.
Proof.
  unfold bits. induction p as [p IH|p IH|]; cbn [digits2_pos]; [| |done].
  all: rewrite Pos2Z.inj_succ, Z.pow_succ_r by lia.
  all: replace (Z.succ (Z.pos (digits2_pos p)) - 1)
         with (Z.succ (Z.pos (digits2_pos p) - 1)) by lia.
  all: rewrite Z.pow_succ_r by lia; lia.
Qed.

Lemma iter_xO (p k : positive) : Pos.iter xO p k = (p * 2 ^ k)%positive.
Proof.
  induction k as [|k IH] using Pos.peano_ind.
  - cbn. lia.
  - rewrite Pos.iter_succ, IH, Pos.pow_succ_r. lia.
Qed.

Lemma bits_iter_xO (p k : positive) :
  bits (Pos.iter xO p k) = bits p + Zpos k.
Proof.
  unfold bits. induction k as [|k IH] using Pos.peano_ind.
  - cbn. lia.
  - rewrite Pos.iter_succ. cbn [digits2_pos]. lia.
Qed.

Lemma fexp_normal (e : Z) : -1074 <= e -> fexp prec emax (53 + e) = e.
Proof. unfold fexp, emin, prec, emax. lia. Qed.

Lemma shr_fexp_normal (m : positive) (e : Z) :
  normal m e ->
  shr_fexp prec emax (Zpos m) e loc_Exact
  = (Build_shr_record (Zpos m) false false, e).
Proof.
  intros [Hd He]. unfold shr_fexp. cbn [Zdigits2].
  fold (bits m). rewrite Hd, fexp_normal, Z.sub_diag by lia. done.
Qed.

Lemma round_normal (s : bool) (m : positive) (e : Z) :
  normal m e ->
  binary_round_aux prec emax s (Zpos m) e loc_Exact = S754_finite s m e.
Proof.
  intros Hn. unfold binary_round_aux. rewrite shr_fexp_normal by done.
  cbn [shr_m loc_of_shr_record round_nearest_even].
  rewrite shr_fexp_normal by done. cbn [shr_m].
  destruct Hn as [_ He]. unfold prec, emax.
  by rewrite (proj2 (Z.leb_le _ _)) by lia.
Qed.

Lemma round_double (s : bool) (m : positive) (e : Z) :
  normal m (e + 1) ->
  binary_round_aux prec emax s (Zpos m~0) e loc_Exact
  = S754_finite s m (e + 1).
Proof.
  intros Hn. unfold binary_round_aux at 1.
  assert (shr_fexp prec emax (Zpos m~0) e loc_Exact
          = (Build_shr_record (Zpos m) false false, e + 1)) as ->.
  { destruct Hn as [Hd He]. unfold shr_fexp. cbn [Zdigits2 digits2_pos].
    rewrite Pos2Z.inj_succ. fold (bits m). rewrite Hd.
    replace (Z.succ 53 + e) with (53 + (e + 1)) by lia.
    rewrite fexp_normal by lia.
    by replace (e + 1 - e) with 1 by lia. }
  cbn [shr_m loc_of_shr_record round_nearest_even].
  rewrite shr_fexp_normal by done. cbn [shr_m].
  destruct Hn as [_ He]. unfold prec, emax.
  by rewrite (proj2 (Z.leb_le _ _)) by lia.
Qed.

(** The conversion of a positive integer of at most 52 bits: its bits,
    shifted to the top of the significand. *)
Lemma of_pos_normal (s : bool) (p : positive) :
  bits p < 53 ->
  binary_round prec emax s p 0
  = S754_finite s (Pos.iter xO p (Z.to_pos (53 - bits p))) (bits p - 53).
Proof.
  intros Hd. pose proof (bits_bounds p) as Hb.
  assert (0 < bits p) by (unfold bits; lia).
  unfold binary_round. fold (bits p).
  rewrite Z.add_0_r.
  assert (fexp prec emax (bits p) = bits p - 53) as ->
    by (unfold fexp, emin, prec, emax; lia).
  unfold shl_align. rewrite Z.sub_0_r.
  destruct (bits p - 53) as [|k|k] eqn:Hk; [lia..|].
  replace (53 - bits p) with (Zpos k) by lia. cbn [Z.to_pos].
  apply round_normal. split.
  - rewrite bits_iter_xO. lia.
  - lia.
Qed.

Lemma four_eq : four = S754_finite false (2 ^ 52) (-50).
Proof. reflexivity. Qed.

Lemma ten_eq : ten = S754_finite false (5 * 2 ^ 50) (-49).
Proof. reflexivity. Qed.

(** Division of a normal number by four only lowers the exponent. *)
Lemma ddiv_four (s : bool) (m : positive) (e : Z) :
  normal m e -> -1071 <= e ->
  ddiv (S754_finite s m e) four = S754_finite s m (e - 2).
Proof.
  intros [Hd He] Hlo. rewrite four_eq. unfold ddiv, SFdiv, SFdiv_core_binary.
  cbn [Zdigits2]. fold (bits m). rewrite Hd.
  change (Z.pos (digits2_pos (2 ^ 52))) with 53.
  replace (53 + e - (53 + -50)) with (53 + (e - 3)) by lia.
  rewrite fexp_normal by lia.
  replace (Z.min (e - 3) (e - -50)) with (e - 3) by lia.
  replace (e - -50 - (e - 3)) with 53 by lia.
  assert (Z.div_eucl (Z.shiftl (Zpos m) 53) (Z.pos (2 ^ 52)) = (Zpos m~0, 0)) as ->.
  { rewrite Z.shiftl_mul_pow2 by lia.
    pose proof (Z.div_eucl_eq (Zpos m * 2 ^ 53) (Z.pos (2 ^ 52))) as Hq.
    pose proof (Z.mod_pos_bound (Zpos m * 2 ^ 53) (Z.pos (2 ^ 52))) as Hr.
    unfold Z.modulo in Hr.
    destruct (Z.div_eucl _ _) as [q r].
    change (Z.pos (2 ^ 52)) with 4503599627370496 in *.
    change (2 ^ 53) with 9007199254740992 in *.
    f_equal; lia. }
  change (new_location (Z.pos (2 ^ 52)) 0) with loc_Exact.
  rewrite xorb_false_r, round_double.
  - f_equal. lia.
  - split; [done|lia].
Qed.

Lemma top_normal (p : positive) (e : Z) :
  bits p < 53 -> -1074 <= e <= 971 -> normal (top p) e.
Proof.
  intros Hd He. split; [|done]. unfold top. rewrite bits_iter_xO.
  assert (0 < bits p) by (unfold bits; lia). lia.
Qed.

Lemma top_mul (p : positive) :
  bits p < 53 -> Zpos (top p) = Zpos p * 2 ^ (53 - bits p).
Proof.
  intros Hd. unfold top. rewrite iter_xO, Pos2Z.inj_mul, Pos2Z.inj_pow.
  by rewrite Z2Pos.id by lia.
Qed.

Lemma small_bits (p : positive) : Zpos p < 2 ^ 52 -> 0 < bits p < 53.
Proof.
  intros Hp. pose proof (bits_bounds p) as [Hlo _].
  split; [unfold bits; lia|]. apply Z.nle_gt; intros Hd.
  assert (2 ^ 52 <= 2 ^ (bits p - 1)) by (apply Z.pow_le_mono_r; lia). lia.
Qed.

Lemma of_Z_small (z : Z) :
  Z.abs z < 2 ^ 52 ->
  of_Z z = match z with
           | 0 => S754_zero false
           | Zpos p => S754_finite false (top p) (bits p - 53)
           | Zneg p => S754_finite true (top p) (bits p - 53)
           end.
Proof.
  intros Hz. destruct z as [|p|p]; [done|..]; apply of_pos_normal.
  all: apply small_bits; lia.
Qed.

Lemma scale_Q (z k e : Z) :
  0 <= k ->
  (inject_Z (z * 2 ^ k) * 2 ^ e == inject_Z z * 2 ^ (k + e))%Q.
Proof.
  intros Hk. rewrite inject_Z_mult, Zpower_Qpower, Qpower_plus by done.
  change (inject_Z 2) with 2%Q. symmetry; apply Qmult_assoc.
Qed.

Lemma signed_top (s : bool) (p : positive) :
  bits p < 53 -> signed s (top p) = signed s p * 2 ^ (53 - bits p).
Proof. intros Hd. destruct s; cbn [signed]; pose proof (top_mul p Hd); lia. Qed.

Lemma two_pow_pos (e : Z) : (0 < 2 ^ e)%Q.
Proof. by apply Qpower_0_lt. Qed.

Lemma inject_Z_compare (a b : Z) : (inject_Z a ?= inject_Z b)%Q = (a ?= b).
Proof. unfold Qcompare. cbn. by rewrite !Z.mul_1_r. Qed.

Lemma Qcompare_scale (a b c : Q) :
  (0 < c)%Q -> (a * c ?= b * c)%Q = (a ?= b)%Q.
Proof.
  intros Hc. destruct (Qcompare_spec a b) as [E|E|E].
  - apply Qeq_alt. by rewrite E.
  - apply Qlt_alt. by apply Qmult_lt_r.
  - apply Qgt_alt. by apply Qmult_lt_r.
Qed.

(** Two scaled integers compare as the integers do once the exponents are
    aligned on the smaller one. *)
Lemma scaled_compare (a b e1 e2 : Z) :
  (inject_Z a * 2 ^ e1 ?= inject_Z b * 2 ^ e2)%Q
  = (a * 2 ^ (e1 - Z.min e1 e2) ?= b * 2 ^ (e2 - Z.min e1 e2)).
Proof.
  set (e := Z.min e1 e2).
  replace e1 with ((e1 - e) + e) at 1 by lia.
  replace e2 with ((e2 - e) + e) at 1 by lia.
  rewrite <- !scale_Q by lia.
  by rewrite Qcompare_scale, inject_Z_compare by apply two_pow_pos.
Qed.

Lemma normal_bounds (m : positive) (e : Z) :
  normal m e -> 4503599627370496 <= Zpos m < 9007199254740992.
Proof. intros [Hd _]. pose proof (bits_bounds m) as Hb. by rewrite Hd in Hb. Qed.

Lemma pow_gap (e1 e2 : Z) : e1 < e2 -> 2 <= 2 ^ (e2 - Z.min e1 e2).
Proof. intros He. apply (Z.pow_le_mono_r 2 1); lia. Qed.

Lemma pow_min_l (e1 e2 : Z) : e1 <= e2 -> 2 ^ (e1 - Z.min e1 e2) = 1.
Proof. intros He. by replace (e1 - Z.min e1 e2) with 0 by lia. Qed.

Lemma pow_min_r (e1 e2 : Z) : e2 <= e1 -> 2 ^ (e2 - Z.min e1 e2) = 1.
Proof. intros He. by replace (e2 - Z.min e1 e2) with 0 by lia. Qed.

Lemma value_sign (s : bool) (m : positive) (e : Z) :
  (value (S754_finite s m e) ?= 0)%Q = if s then Lt else Gt.
Proof.
  cbn [value]. rewrite <- (Qmult_0_l (2 ^ e)).
  rewrite Qcompare_scale by apply two_pow_pos.
  change 0%Q with (inject_Z 0). rewrite inject_Z_compare. by destruct s.
Qed.

Lemma compare_pos_normal (m1 m2 : positive) (e1 e2 : Z) :
  normal m1 e1 -> normal m2 e2 ->
  (Zpos m1 * 2 ^ (e1 - Z.min e1 e2) ?= Zpos m2 * 2 ^ (e2 - Z.min e1 e2))
  = match e1 ?= e2 with
    | Eq => Pos.compare_cont Eq m1 m2
    | c => c
    end.
Proof.
  intros H1%normal_bounds H2%normal_bounds.
  destruct (Z.compare_spec e1 e2) as [->|He|He].
  - by rewrite Z.min_id, Z.sub_diag, !Z.mul_1_r.
  - rewrite pow_min_l by lia. pose proof (pow_gap e1 e2 He).
    apply Z.compare_lt_iff. nia.
  - rewrite pow_min_r by lia. pose proof (pow_gap e2 e1 He) as Hg.
    rewrite Z.min_comm in Hg. apply Z.compare_gt_iff. nia.
Qed.

Lemma compare_neg (a b : Z) : (- a ?= - b) = CompOpp (a ?= b).
Proof. by rewrite Z.compare_opp, Z.compare_antisym. Qed.

(** On canonical numbers the comparison of the format is the comparison of
    the values. *)
Lemma compare_value (x y : double) :
  canonical x -> canonical y ->
  SFcompare x y = Some (value x ?= value y)%Q.
Proof.
  destruct x as [?|?| |[] m1 e1], y as [?|?| |[] m2 e2]; try done; intros Hx Hy.
  all: try (cbn [SFcompare]; by rewrite value_sign).
  all: try (cbn [SFcompare]; by rewrite <- Qcompare_antisym, value_sign).
  all: cbn [SFcompare value signed]; rewrite scaled_compare; f_equal.
  - change (Z.neg m1) with (- Z.pos m1). change (Z.neg m2) with (- Z.pos m2).
    rewrite !Z.mul_opp_l, compare_neg, compare_pos_normal by done.
    by destruct (e1 ?= e2).
  - symmetry. apply Z.compare_lt_iff.
    pose proof (Z.pow_pos_nonneg 2 (e1 - Z.min e1 e2)).
    pose proof (Z.pow_pos_nonneg 2 (e2 - Z.min e1 e2)). nia.
  - symmetry. apply Z.compare_gt_iff.
    pose proof (Z.pow_pos_nonneg 2 (e1 - Z.min e1 e2)).
    pose proof (Z.pow_pos_nonneg 2 (e2 - Z.min e1 e2)). nia.
  - rewrite compare_pos_normal by done. by destruct (e1 ?= e2).
Qed.

Lemma dge_value (x y : double) :
  canonical x -> canonical y -> dge x y = Qle_bool (value y) (value x).
Proof.
  intros Hx Hy. unfold dge, SFleb. rewrite compare_value by done.
  destruct (Qcompare_spec (value y) (value x)) as [E|E|E].
  - symmetry. apply Qle_bool_iff. rewrite E. apply Qle_refl.
  - symmetry. apply Qle_bool_iff. by apply Qlt_le_weak.
  - symmetry. apply not_true_is_false. intros H%Qle_bool_iff.
    by apply (Qlt_not_le _ _ E).
Qed.

Lemma of_Z_canonical (z : Z) : Z.abs z < 2 ^ 52 -> canonical (of_Z z).
Proof.
  intros Hz. rewrite of_Z_small by done.
  destruct z as [|p|p]; [done|..]; apply top_normal.
  all: pose proof (small_bits p); lia.
Qed.

(** The conversion of an [int] is exact. *)
Lemma of_Z_value (z : Z) : Z.abs z < 2 ^ 52 -> (value (of_Z z) == inject_Z z)%Q.
Proof.
  intros Hz. rewrite of_Z_small by done.
  destruct z as [|p|p]; [done|..]; cbn [value].
  all: pose proof (small_bits p).
  all: rewrite signed_top, scale_Q by lia.
  all: replace (53 - bits p + (bits p - 53)) with 0 by lia.
  all: apply Qmult_1_r.
Qed.

(** Division of an [int] by four is exact. *)
Lemma quarter_value (z : Z) :
  Z.abs z < 2 ^ 52 -> (value (ddiv (of_Z z) four) == z # 4)%Q.
Proof.
  intros Hz. rewrite (Qmake_Qdiv z 4), of_Z_small by done.
  destruct z as [|p|p]; [done|..]; pose proof (small_bits p).
  all: rewrite ddiv_four by (try apply top_normal; lia).
  all: cbn [value]; rewrite signed_top, scale_Q by lia.
  all: replace (53 - bits p + (bits p - 53 - 2)) with (-2) by lia.
  all: done.
Qed.

Lemma quarter_canonical (z : Z) :
  Z.abs z < 2 ^ 52 -> canonical (ddiv (of_Z z) four).
Proof.
  intros Hz. rewrite of_Z_small by done.
  destruct z as [|p|p]; [done|..]; pose proof (small_bits p).
  all: rewrite ddiv_four by (try apply top_normal; lia).
  all: apply top_normal; lia.
Qed.

Lemma quarter_ge_ten (z : Z) :
  Z.abs z < 2 ^ 52 -> dge (ddiv (of_Z z) four) ten = (40 <=? z).
Proof.
  intros Hz. rewrite dge_value by (by apply quarter_canonical || done).
  unfold ten.
  rewrite (Qleb_comp _ _ (of_Z_value 10 eq_refl) _ _ (quarter_value z Hz)).
  unfold Qle_bool. cbn. f_equal. lia.
Qed.
