(* ===== verification/Printing.v ===== *)
(** [operator<<] on a [double]: the text [cout << averageGrade] writes in
    [Student::displayDetails], with the defaults of the stream (style [%g],
    six significant digits).

    The definitions compute the text from the fraction the double is: the
    decimal exponent by search ([exp10]), six digits by scaling and
    rounding to nearest, ties to even ([sig_digits]), and the layout of
    [%g] ([show_g]): fixed notation for exponents from -4 to 5, else
    scientific, trailing zeros and a bare point removed.

    The specification is a reader ([read_signed]): the digits of a decimal
    text with the point removed and the power of ten they stand for.  The
    theorems show that the search for the exponent ends within its bound,
    that the digits chosen are the six nearest to the value, and that the
    text read back is those digits less their trailing zeros; so what is
    printed for a double is the decimal of six significant digits nearest
    to it ([shows_six]), for every number of the format, not only for the
    averages small enough to be written out in full
    ([show_double_quarter]). *)

From Stdlib Require Import ZArith QArith Qpower Qabs Lia Ascii String.
From Stdlib Require Import Floats.SpecFloat DecimalString DecimalPos DecimalFacts.
From stdpp Require Import base tactics numbers list strings.
From S2P Require Import Prelude CppString CppInt CppDouble.

#[local] Open Scope Z_scope.

(** * The text *)

(** The exact value of a positive finite double as a fraction. *)
Definition ratio (m : positive) (e : Z) : Z * Z :=
  if 0 <=? e then (Zpos m * 2 ^ e, 1) else (Zpos m, 2 ^ (- e)).

(** [n / d * 10 ^ k] as a fraction. *)
Definition scale10 (nd : Z * Z) (k : Z) : Z * Z :=
  if 0 <=? k then (nd.1 * 10 ^ k, nd.2) else (nd.1, nd.2 * 10 ^ (- k)).

(** The least [k] from [k0] upwards with [d <= n * 10 ^ (k - k0)]. *)
Fixpoint exp10_below (fuel : nat) (n d k : Z) : Z :=
  match fuel with
  | O => k
  | S f => if d <=? n then k else exp10_below f (10 * n) d (k + 1)
  end.

(** The largest [k] from [k0] upwards with [d * 10 ^ (k - k0) <= n]. *)
Fixpoint exp10_above (fuel : nat) (n d k : Z) : Z :=
  match fuel with
  | O => k
  | S f => if n <? 10 * d then k else exp10_above f n (10 * d) (k + 1)
  end.

(** The decimal exponent of [n / d]: the [x] with
    [10 ^ x <= n / d < 10 ^ (x + 1)].  A double lies between [10 ^ -324] and
    [10 ^ 309], so 400 steps reach it. *)
Definition exp10 (nd : Z * Z) : Z :=
  if nd.2 <=? nd.1 then exp10_above 400 nd.1 nd.2 0
  else - exp10_below 400 nd.1 nd.2 0.

(** Round to nearest, ties to even. *)
Definition round_half_even (nd : Z * Z) : Z :=
  let q := nd.1 / nd.2 in
  match 2 * (nd.1 mod nd.2) ?= nd.2 with
  | Lt => q
  | Gt => q + 1
  | Eq => if Z.even q then q else q + 1
  end.

(** [P] significant digits of [n / d] and the exponent of the first. *)
Definition sig_digits (P : Z) (nd : Z * Z) : Z * Z :=
  let x := exp10 nd in
  let q := round_half_even (scale10 nd (P - 1 - x)) in
  if q =? 10 ^ P then (10 ^ (P - 1), x + 1) else (q, x).

Fixpoint strip_zeros (s : string) : string :=
  match s with
  | EmptyString => EmptyString
  | String c s' =>
      match strip_zeros s' with
      | EmptyString => if Ascii.eqb c "0" then EmptyString else String c EmptyString
      | t => String c t
      end
  end.

(** The fractional part as printed: trailing zeros removed, and the point
    with them when nothing is left. *)
Definition fraction (s : string) : string :=
  match strip_zeros s with
  | EmptyString => EmptyString
  | t => String "." t
  end.

Fixpoint zeros (n : nat) : string :=
  match n with O => EmptyString | S n' => String "0" (zeros n') end.

Definition show_exp (x : Z) : string :=
  (if x <? 0 then "-" else "+") +:+
  (if Z.abs x <? 10 then "0" else "") +:+ show_int (Z.abs x).

(** Style [%g] with precision [P] on a positive fraction. *)
Definition show_g (P : Z) (nd : Z * Z) : string :=
  let '(q, x) := sig_digits P nd in
  let ds := show_int q in
  if (x <? -4) || (P <=? x) then
    take_s 1 ds +:+ fraction (erase0 ds 1) +:+ "e" +:+ show_exp x
  else if x <? 0 then
    "0" +:+ fraction (zeros (Z.to_nat (- x - 1)) +:+ ds)
  else
    take_s (Z.to_nat (x + 1)) ds +:+ fraction (erase0 ds (Z.to_nat (x + 1))).

(** [cout << x] for a [double] with the stream's defaults: style [%g],
    precision 6.  A NaN carries no sign here; the only one this program
    can compute is that of [0.0 / 0], whose sign bit is set on x86-64 and
    which is written [-nan]. *)
Definition show_double (x : double) : string :=
  match x with
  | S754_zero s => if s then "-0" else "0"
  | S754_infinity s => if s then "-inf" else "inf"
  | S754_nan => "-nan"
  | S754_finite s m e => (if s then "-" else "") +:+ show_g 6 (ratio m e)
  end.

(** A quarter of [t] written out in full: what is expected on the screen
    for an average that needs at most six digits. *)
Definition show_quarter (t : Z) : string :=
  (if t <? 0 then "-" else "") +:+ show_int (Z.abs t / 4) +:+
  match Z.abs t mod 4 with 0 => "" | 1 => ".25" | 2 => ".5" | _ => ".75" end.

(** The totals from [-n] to [n]. *)
Definition totals (n : Z) : list Z :=
  map (fun i => Z.of_nat i - n) (seq 0 (Z.to_nat (2 * n + 1))).

(** * The specification *)

(** [q] is an integer nearest to [n / d]. *)
Definition nearest (nd : Z * Z) (q : Z) : Prop :=
  2 * Z.abs (nd.1 - q * nd.2) <= nd.2.

(** [10 ^ x <= n / d < 10 ^ (x + 1)], on the numerator and the denominator. *)
Definition decade (nd : Z * Z) x : Prop :=
  if 0 <=? x then nd.2 * 10 ^ x <= nd.1 < nd.2 * 10 ^ (x + 1)
  else nd.1 * 10 ^ (- x - 1) < nd.2 <= nd.1 * 10 ^ (- x).

(** The decimal [q * 10 ^ x]. *)
Definition decimal (q x : Z) : Q := (inject_Z q * 10 ^ x)%Q.

(** A number of the format: zero, subnormal or normal, neither an infinity
    nor a NaN. *)
Definition finite (x : double) : bool :=
  match x with
  | S754_zero _ | S754_finite _ _ _ => true
  | _ => false
  end.

(** ** Reading a decimal back *)

Fixpoint all_digits (s : string) : bool :=
  match s with
  | EmptyString => true
  | String c s' => match digit_of c with Some _ => all_digits s' | None => false end
  end.

(** The number a run of digits continues [acc] to, and the text after it. *)
Fixpoint read_digits (acc : Z) (s : string) : Z * string :=
  match s with
  | String c s' =>
      match digit_of c with
      | Some v => read_digits (10 * acc + v) s'
      | None => (acc, s)
      end
  | EmptyString => (acc, EmptyString)
  end.

(** The number a digit string denotes. *)
Definition val (s : string) : Z := (read_digits 0 s).1.

Definition read_exponent (s : string) : Z :=
  match s with
  | String "e" (String "-" t) => - val t
  | String "e" (String "+" t) => val t
  | _ => 0
  end.

(** A decimal [ddd], [ddd.ddd] or either followed by [e+dd] or [e-dd], as
    the digits with the point removed and the power of ten they are to be
    multiplied by. *)
Definition read_decimal (s : string) : Z * Z :=
  let r := read_digits 0 s in
  match r.2 with
  | String "." t =>
      let f := read_digits r.1 t in
      (f.1, read_exponent f.2 - Z.of_nat (String.length t - String.length f.2))
  | _ => (r.1, read_exponent r.2)
  end.

(** The same after an optional [-]. *)
Definition read_signed (s : string) : Z * Z :=
  match s with
  | String "-" t => (- (read_decimal t).1, (read_decimal t).2)
  | _ => read_decimal s
  end.

(** [text] denotes a decimal of at most six significant digits that is
    zero when [v] is, and else within half a unit of its sixth digit of
    [v]. *)
Definition shows_six (text : string) (v : Q) : Prop :=
  let r := read_signed text in
  ((v == 0)%Q /\ r.1 = 0) \/
  exists j : nat,
    100000 <= Z.abs r.1 * 10 ^ Z.of_nat j < 1000000 /\
    (Qabs (v - decimal r.1 r.2) <= (1 # 2) * 10 ^ (r.2 - Z.of_nat j))%Q.

(** * Lemmas *)

(** ** Averages written out in full *)

Lemma totals_In (n t : Z) : - n <= t <= n -> In t (totals n).
Proof.
  intros Ht. apply in_map_iff. exists (Z.to_nat (t + n)).
  split; [lia|]. apply in_seq. lia.
Qed.

Lemma show_quarter_table :
  forallb (fun t => String.eqb (show_double (ddiv (of_Z t) four)) (show_quarter t))
          (totals 4000) = true.
Proof. vm_compute. reflexivity. Qed.

(** A quarter of a total of at most 4000 in absolute value prints in full:
    six significant digits are enough and nothing is rounded. *)
Lemma show_double_quarter (t : Z) :
  - 4000 <= t <= 4000 -> show_double (ddiv (of_Z t) four) = show_quarter t.
Proof.
  intros Ht. apply String.eqb_eq.
  apply (proj1 (forallb_forall _ _) show_quarter_table), totals_In, Ht.
Qed.

(** ** The decimal exponent *)

Lemma exp10_above_spec (fuel : nat) (n d k : Z) :
  0 < d -> d <= n -> n < d * 10 ^ Z.of_nat fuel ->
  let x := exp10_above fuel n d k in
  k <= x /\ d * 10 ^ (x - k) <= n < d * 10 ^ (x - k + 1).
Proof.
  revert d k. induction fuel as [|f IH]; intros d k Hd Hle Hlt x; subst x.
  - cbn in Hlt. lia.
  - cbn [exp10_above]. destruct (Z.ltb_spec n (10 * d)) as [H|H].
    + rewrite Z.sub_diag. cbn. lia.
    + rewrite Nat2Z.inj_succ, Z.pow_succ_r in Hlt by lia.
      replace (d * (10 * 10 ^ Z.of_nat f)) with (10 * d * 10 ^ Z.of_nat f) in Hlt by ring.
      destruct (IH (10 * d) (k + 1)) as (Hk & Hlo & Hhi); [lia..|].
      set (x := exp10_above f n (10 * d) (k + 1)) in *.
      replace (x - k) with (Z.succ (x - (k + 1))) by lia.
      replace (Z.succ (x - (k + 1)) + 1) with (Z.succ (x - (k + 1) + 1)) by lia.
      rewrite !Z.pow_succ_r by lia. lia.
Qed.

Lemma exp10_below_spec (fuel : nat) (n d k : Z) :
  0 < n -> n < d -> d <= n * 10 ^ Z.of_nat fuel ->
  let x := exp10_below fuel n d k in
  k < x /\ n * 10 ^ (x - k - 1) < d <= n * 10 ^ (x - k).
Proof.
  revert n k. induction fuel as [|f IH]; intros n k Hn Hlt Hle x; subst x.
  - cbn in Hle. lia.
  - cbn [exp10_below]. destruct (Z.leb_spec d n) as [H|_]; [lia|].
    rewrite Nat2Z.inj_succ, Z.pow_succ_r in Hle by lia.
    replace (n * (10 * 10 ^ Z.of_nat f)) with (10 * n * 10 ^ Z.of_nat f) in Hle by ring.
    destruct (Z.le_gt_cases d (10 * n)) as [H10|H10].
    + destruct f as [|f]; cbn [exp10_below].
      * replace (k + 1 - k - 1) with 0 by lia. replace (k + 1 - k) with 1 by lia. lia.
      * destruct (Z.leb_spec d (10 * n)) as [_|H]; [|lia].
        replace (k + 1 - k - 1) with 0 by lia. replace (k + 1 - k) with 1 by lia. lia.
    + destruct (IH (10 * n) (k + 1)) as (Hk & Hlo & Hhi); [lia..|].
      set (x := exp10_below f (10 * n) d (k + 1)) in *.
      replace (x - k - 1) with (Z.succ (x - (k + 1) - 1)) by lia.
      replace (x - k) with (Z.succ (x - (k + 1))) by lia.
      rewrite !Z.pow_succ_r by lia. lia.
Qed.

(** The fraction of a finite double lies between 10^-400 and 10^400. *)
Lemma ratio_bounds (m : positive) (e : Z) :
  bits m <= 53 -> -1074 <= e <= 971 ->
  let nd := ratio m e in
  0 < nd.1 /\ 0 < nd.2 /\ nd.2 <= nd.1 * 10 ^ 400 /\ nd.1 < nd.2 * 10 ^ 400.
Proof.
  intros Hb He nd. subst nd. unfold ratio.
  pose proof (bits_bounds m) as [_ Hm].
  assert (Z.pos m < 2 ^ 53) as Hm'.
  { eapply Z.lt_le_trans; [exact Hm|]. apply Z.pow_le_mono_r; lia. }
  assert (2 ^ 1074 <= 10 ^ 400) as H1 by (by apply Z.leb_le; vm_compute).
  assert (2 ^ 53 * 2 ^ 971 <= 10 ^ 400) as H2 by (by apply Z.leb_le; vm_compute).
  destruct (Z.leb_spec 0 e) as [H0|H0]; cbn [fst snd].
  - assert (1 <= 2 ^ e) by (apply (Z.pow_le_mono_r 2 0); lia).
    assert (2 ^ e <= 2 ^ 971) by (apply Z.pow_le_mono_r; lia).
    assert (0 < 10 ^ 400) by lia. split_and!; try nia.
  - assert (1 <= 2 ^ (- e)) by (apply (Z.pow_le_mono_r 2 0); lia).
    assert (2 ^ (- e) <= 2 ^ 1074) by (apply Z.pow_le_mono_r; lia).
    split_and!; try nia.
Qed.

(** The search for the decimal exponent ends within its bound, at the [x]
    with [10 ^ x <= n / d < 10 ^ (x + 1)]. *)
Lemma exp10_spec (n d : Z) :
  0 < n -> 0 < d -> d <= n * 10 ^ 400 -> n < d * 10 ^ 400 ->
  let x := exp10 (n, d) in
  if 0 <=? x then d * 10 ^ x <= n < d * 10 ^ (x + 1)
  else n * 10 ^ (- x - 1) < d <= n * 10 ^ (- x).
Proof.
  intros Hn Hd Hlo Hhi x. subst x. unfold exp10. cbn [fst snd].
  destruct (Z.leb_spec d n) as [H|H].
  - destruct (exp10_above_spec 400 n d 0 Hd H Hhi) as (Hx & Hb).
    rewrite Z.sub_0_r in Hb. by rewrite (proj2 (Z.leb_le _ _) Hx).
  - destruct (exp10_below_spec 400 n d 0 Hn H Hlo) as (Hx & Hb).
    rewrite Z.sub_0_r in Hb.
    rewrite (proj2 (Z.leb_gt _ _)) by lia.
    by rewrite Z.opp_involutive.
Qed.

(** ** Rounding *)

Section Rounding.
Implicit Types (n d q a b k : Z).

Lemma round_half_even_nearest n d : 0 < d -> nearest (n, d) (round_half_even (n, d)).
Proof.
  intros Hd. unfold nearest, round_half_even. cbn [fst snd].
  pose proof (Z.div_mod n d ltac:(lia)) as E.
  pose proof (Z.mod_pos_bound n d Hd) as Hr.
  destruct (Z.compare_spec (2 * (n mod d)) d); try destruct (Z.even _); nia.
Qed.

Lemma round_half_even_tie n d :
  0 < d -> 2 * (n mod d) = d -> Z.even (round_half_even (n, d)) = true.
Proof.
  intros Hd Ht. unfold round_half_even. cbn [fst snd]. rewrite Ht, Z.compare_refl.
  destruct (Z.even (n / d)) eqn:He; [done|].
  rewrite Z.even_add, He. done.
Qed.

Lemma round_half_even_bounds n d a b :
  0 < d -> a * d <= n -> n <= b * d -> a <= round_half_even (n, d) <= b.
Proof.
  intros Hd Ha Hb. unfold round_half_even. cbn [fst snd].
  pose proof (Z.div_mod n d ltac:(lia)) as E.
  pose proof (Z.mod_pos_bound n d Hd) as Hr.
  destruct (Z.compare_spec (2 * (n mod d)) d); try destruct (Z.even _); nia.
Qed.

End Rounding.

(** ** The digits chosen *)

Section Digits.
Implicit Types (n d q x k P : Z).

Lemma pow10_split a b c : 0 <= a -> 0 <= b -> c = a + b -> 10 ^ c = 10 ^ a * 10 ^ b.
Proof. intros ?? ->. by rewrite Z.pow_add_r. Qed.

Lemma pow10_pos a : 0 <= a -> 0 < 10 ^ a.
Proof. intros. by apply Z.pow_pos_nonneg. Qed.

(** Scaled to [P] digits before the point, a fraction of the decade [x]
    lies between [10 ^ (P - 1)] and [10 ^ P]. *)
Lemma scale10_range n d x P :
  0 < n -> 0 < d -> 1 <= P -> decade (n, d) x ->
  let s := scale10 (n, d) (P - 1 - x) in
  0 < s.2 /\ s.2 * 10 ^ (P - 1) <= s.1 < s.2 * 10 ^ P.
Proof.
  intros Hn Hd HP Hx. unfold decade in Hx. unfold scale10. cbn [fst snd] in *.
  destruct (Z.leb_spec 0 x) as [H0|H0]; destruct (Z.leb_spec 0 (P - 1 - x)) as [Hs|Hs];
    cbn [fst snd]; try lia.
  - rewrite (pow10_split x (P - 1 - x) (P - 1)), (pow10_split (x + 1) (P - 1 - x) P) by lia.
    pose proof (pow10_pos (P - 1 - x) Hs). nia.
  - rewrite (pow10_split (- (P - 1 - x)) (P - 1) x),
      (pow10_split (- (P - 1 - x)) P (x + 1)) in Hx by lia.
    pose proof (pow10_pos (- (P - 1 - x)) ltac:(lia)). nia.
  - split; [done|]. split.
    + rewrite (pow10_split (- x) (P - 1) (P - 1 - x)) by lia.
      pose proof (pow10_pos (P - 1) ltac:(lia)). nia.
    + rewrite (pow10_split (- x - 1) P (P - 1 - x)) by lia.
      pose proof (pow10_pos P ltac:(lia)). nia.
Qed.

(** One step less of scaling divides by ten: what was nearest to
    [10 ^ P] is nearest to [10 ^ (P - 1)]. *)
Lemma nearest_carry n d k P :
  0 < n -> 0 < d -> 1 <= P ->
  nearest (scale10 (n, d) k) (10 ^ P) -> nearest (scale10 (n, d) (k - 1)) (10 ^ (P - 1)).
Proof.
  intros Hn Hd HP. unfold nearest, scale10. cbn [fst snd].
  rewrite (pow10_split 1 (P - 1) P) by lia. change (10 ^ 1) with 10.
  pose proof (pow10_pos (P - 1) ltac:(lia)).
  destruct (Z.leb_spec 0 k) as [Hk|Hk]; destruct (Z.leb_spec 0 (k - 1)) as [Hk1|Hk1];
    cbn [fst snd]; try lia.
  - rewrite (pow10_split 1 (k - 1) k) by lia. change (10 ^ 1) with 10.
    pose proof (pow10_pos (k - 1) Hk1). nia.
  - assert (k = 0) as -> by lia. cbn. nia.
  - rewrite (pow10_split 1 (- k) (- (k - 1))) by lia. change (10 ^ 1) with 10.
    pose proof (pow10_pos (- k) ltac:(lia)). nia.
Qed.

(** The digits [sig_digits] yields: [P] of them, the first not zero, and
    nearest to the fraction scaled by the exponent it yields. *)
Lemma sig_digits_spec n d P :
  0 < n -> 0 < d -> 1 <= P -> decade (n, d) (exp10 (n, d)) ->
  let r := sig_digits P (n, d) in
  10 ^ (P - 1) <= r.1 < 10 ^ P /\
  nearest (scale10 (n, d) (P - 1 - r.2)) r.1 /\
  (r.2 = exp10 (n, d) \/ r.2 = exp10 (n, d) + 1 /\ r.1 = 10 ^ (P - 1)).
Proof.
  intros Hn Hd HP Hx. unfold sig_digits. set (x := exp10 (n, d)) in *.
  pose proof (scale10_range n d x P Hn Hd HP Hx) as (Hs & Hlo & Hhi).
  destruct (scale10 (n, d) (P - 1 - x)) as [N D] eqn:Es. cbn [fst snd] in *.
  pose proof (round_half_even_nearest N D Hs) as Hq.
  pose proof (round_half_even_bounds N D (10 ^ (P - 1)) (10 ^ P) Hs ltac:(lia) ltac:(lia)) as Hb.
  destruct (Z.eqb_spec (round_half_even (N, D)) (10 ^ P)) as [E|E]; cbn [fst snd].
  - split; [|split; [|by right]].
    + rewrite (pow10_split 1 (P - 1) P) by lia. pose proof (pow10_pos (P - 1) ltac:(lia)). lia.
    + replace (P - 1 - (x + 1)) with (P - 1 - x - 1) by lia.
      apply nearest_carry; [done..|]. by rewrite Es, <- E.
  - split; [lia|]. split; [|by left]. by rewrite Es.
Qed.

End Digits.

(** ** On the rationals *)

Section Rationals.
Implicit Types (n d q k : Z) (v a h c : Q).

Lemma Qabs_scaled a h c : (0 < c)%Q -> (Qabs (a * c) <= h * c)%Q -> (Qabs a <= h)%Q.
Proof.
  intros Hc H. rewrite Qabs_Qmult, (Qabs_pos c) in H by by apply Qlt_le_weak.
  by apply Qmult_le_r in H.
Qed.

Lemma Qabs_inject_half (z d : Z) :
  2 * Z.abs z <= d -> (Qabs (inject_Z z) <= (1 # 2) * inject_Z d)%Q.
Proof. intros H. unfold Qle. cbn. lia. Qed.

Lemma ten_pow_pos k : (0 < 10 ^ k)%Q.
Proof. by apply Qpower_0_lt. Qed.

Lemma ten_pow_inv k : (10 ^ (- k) * 10 ^ k == 1)%Q.
Proof. rewrite <- Qpower_plus by done. by replace (- k + k) with 0 by lia. Qed.

Lemma ten_pow_inject k : 0 <= k -> (10 ^ k == inject_Z (10 ^ k))%Q.
Proof. intros Hk. by rewrite Zpower_Qpower. Qed.

(** An integer nearest to the scaled fraction is, scaled back, within half
    a unit of the last place of the value. *)
Lemma nearest_decimal n d k q v :
  0 < d -> (v * inject_Z d == inject_Z n)%Q -> nearest (scale10 (n, d) k) q ->
  (Qabs (v - decimal q (- k)) <= (1 # 2) * 10 ^ (- k))%Q.
Proof.
  intros Hd Hv. unfold nearest, scale10, decimal.
  assert (0 < inject_Z d)%Q as HD by (rewrite <- (Zlt_Qlt 0); lia).
  destruct (Z.leb_spec 0 k) as [Hk|Hk]; cbn [fst snd]; intros Hq.
  - apply (Qabs_scaled _ _ (inject_Z d * 10 ^ k)).
    { apply Qmult_lt_0_compat; [done|apply ten_pow_pos]. }
    setoid_replace ((v - inject_Z q * 10 ^ (- k)) * (inject_Z d * 10 ^ k))%Q
      with (v * inject_Z d * 10 ^ k - inject_Z q * inject_Z d * (10 ^ (- k) * 10 ^ k))%Q
      using relation Qeq by ring.
    setoid_replace ((1 # 2) * 10 ^ (- k) * (inject_Z d * 10 ^ k))%Q
      with ((1 # 2) * inject_Z d * (10 ^ (- k) * 10 ^ k))%Q using relation Qeq by ring.
    rewrite Hv, ten_pow_inv, ten_pow_inject, !Qmult_1_r by done. unfold Qminus.
    rewrite <- !inject_Z_mult, <- inject_Z_opp, <- inject_Z_plus.
    apply Qabs_inject_half. lia.
  - apply (Qabs_scaled _ _ (inject_Z d)); [done|].
    setoid_replace ((v - inject_Z q * 10 ^ (- k)) * inject_Z d)%Q
      with (v * inject_Z d - inject_Z q * (inject_Z d * 10 ^ (- k)))%Q
      using relation Qeq by ring.
    setoid_replace ((1 # 2) * 10 ^ (- k) * inject_Z d)%Q
      with ((1 # 2) * (inject_Z d * 10 ^ (- k)))%Q using relation Qeq by ring.
    rewrite Hv, ten_pow_inject by lia. unfold Qminus.
    rewrite <- !inject_Z_mult, <- inject_Z_opp, <- inject_Z_plus.
    apply Qabs_inject_half. lia.
Qed.

End Rationals.

Section Doubles.
Implicit Types (m : positive) (e : Z).

Lemma ratio_value m e :
  (value (S754_finite false m e) * inject_Z (ratio m e).2 == inject_Z (ratio m e).1)%Q.
Proof.
  unfold value, ratio, signed. destruct (Z.leb_spec 0 e) as [He|He]; cbn [fst snd].
  - rewrite inject_Z_mult, Zpower_Qpower by done. change (inject_Z 1) with 1%Q.
    change (inject_Z 2) with 2%Q. ring.
  - rewrite Zpower_Qpower by lia. change (inject_Z 2) with 2%Q.
    rewrite <- Qmult_assoc, <- Qpower_plus by done.
    replace (e + - e) with 0 by lia. apply Qmult_1_r.
Qed.

Lemma ratio_decade m e :
  bits m <= 53 -> -1074 <= e <= 971 -> decade (ratio m e) (exp10 (ratio m e)).
Proof.
  intros Hb He. destruct (ratio_bounds m e Hb He) as (Hn & Hd & Hlo & Hhi).
  destruct (ratio m e) as [n d]. by apply exp10_spec.
Qed.

Lemma six_digits m e :
  bits m <= 53 -> -1074 <= e <= 971 ->
  let r := sig_digits 6 (ratio m e) in
  100000 <= r.1 < 1000000 /\
  (Qabs (value (S754_finite false m e) - decimal r.1 (r.2 - 5)) <= (1 # 2) * 10 ^ (r.2 - 5))%Q.
Proof.
  intros Hb He r. subst r.
  destruct (ratio_bounds m e Hb He) as (Hn & Hd & _).
  pose proof (ratio_decade m e Hb He) as Hx. pose proof (ratio_value m e) as Hv.
  destruct (ratio m e) as [n d]. cbn [fst snd] in *.
  destruct (sig_digits_spec n d 6 Hn Hd ltac:(lia) Hx) as (Hq & Hr & _).
  split; [exact Hq|].
  replace ((sig_digits 6 (n, d)).2 - 5) with (- (6 - 1 - (sig_digits 6 (n, d)).2)) by lia.
  by apply (nearest_decimal n d).
Qed.

End Doubles.

(** ** Digit strings *)

Section DigitStrings.
Implicit Types (a b s t : string) (acc q : Z) (j k : nat).

Lemma read_digits_all a acc :
  all_digits a = true ->
  read_digits acc a = (acc * 10 ^ Z.of_nat (String.length a) + val a, EmptyString).
Proof.
  unfold val. revert acc. induction a as [|c a IH]; intros acc Ha.
  - cbn. f_equal. lia.
  - cbn [read_digits all_digits String.length] in *. destruct (digit_of c) as [v|]; [|done].
    rewrite IH, (IH (10 * 0 + v)) by done. cbn [fst]. f_equal.
    rewrite Nat2Z.inj_succ, Z.pow_succ_r by lia. ring.
Qed.

Lemma read_digits_app a b acc :
  all_digits a = true ->
  read_digits acc (a +:+ b) = read_digits (acc * 10 ^ Z.of_nat (String.length a) + val a) b.
Proof.
  intros Ha. transitivity (read_digits (read_digits acc a).1 b).
  - revert acc. induction a as [|c a IH]; intros acc; [by rewrite app_nil_l_s|].
    rewrite app_cons_s. cbn [read_digits all_digits] in *.
    destruct (digit_of c); [by apply IH|done].
  - rewrite (read_digits_all a acc) by done. reflexivity.
Qed.

Lemma read_digits_stop b acc : digit_free_head b -> read_digits acc b = (acc, b).
Proof. destruct b as [|c b]; cbn; [done|]. by intros ->. Qed.

Lemma val_app a b :
  all_digits a = true -> all_digits b = true ->
  val (a +:+ b) = val a * 10 ^ Z.of_nat (String.length b) + val b.
Proof.
  intros Ha Hb. unfold val at 1. rewrite read_digits_app, read_digits_all by done.
  cbn [fst]. lia.
Qed.

Lemma all_digits_app a b : all_digits (a +:+ b) = all_digits a && all_digits b.
Proof.
  induction a as [|c a IH]; [by rewrite app_nil_l_s|].
  rewrite app_cons_s. cbn. by destruct (digit_of c).
Qed.

Lemma all_digits_zeros k : all_digits (zeros k) = true.
Proof. by induction k. Qed.

Lemma length_zeros k : String.length (zeros k) = k.
Proof. induction k; cbn; congruence. Qed.

Lemma val_zeros k : val (zeros k) = 0.
Proof.
  unfold val. induction k as [|k IH]; [done|]. cbn [zeros read_digits].
  change (digit_of "0") with (Some 0). exact IH.
Qed.

(** [strip_zeros] removes a run of zeros from the end. *)
Lemma strip_zeros_spec s : exists j, s = strip_zeros s +:+ zeros j.
Proof.
  induction s as [|c s [j IH]]; [by exists 0%nat|]. cbn [strip_zeros].
  destruct (strip_zeros s) as [|c' s'] eqn:Es.
  - rewrite app_nil_l_s in IH. destruct (Ascii.eqb_spec c "0") as [->|Hc].
    + exists (S j). by rewrite app_nil_l_s, IH.
    + exists j. by rewrite app_cons_s, app_nil_l_s, IH.
  - exists j. by rewrite app_cons_s, <- IH.
Qed.

Lemma all_digits_strip s : all_digits s = true -> all_digits (strip_zeros s) = true.
Proof.
  intros Hs. destruct (strip_zeros_spec s) as [j Hj]. rewrite Hj, all_digits_app in Hs.
  by apply andb_prop in Hs as [? _].
Qed.


Lemma read_decimal_plain s :
  (forall t, (read_digits 0 s).2 <> String "." t) ->
  read_decimal s = ((read_digits 0 s).1, read_exponent (read_digits 0 s).2).
Proof.
  unfold read_decimal. destruct (read_digits 0 s).2 as [|c t]; [done|].
  destruct c as [[] [] [] [] [] [] [] []]; try done. intros H. by destruct (H t).
Qed.

Lemma read_decimal_point s t :
  (read_digits 0 s).2 = String "." t ->
  read_decimal s
  = ((read_digits (read_digits 0 s).1 t).1,
     read_exponent (read_digits (read_digits 0 s).1 t).2
     - Z.of_nat (String.length t - String.length (read_digits (read_digits 0 s).1 t).2)).
Proof. unfold read_decimal. by intros ->. Qed.

(** The digits [a], the fraction [b] as printed and what follows: read back
    they are the digits of [a] and [b] less the zeros that ended [b], with
    the exponent raised by as many. *)
Lemma read_point a b t (e : Z) :
  all_digits a = true -> all_digits b = true ->
  digit_free_head t -> (forall t', t <> String "." t') -> read_exponent t = e ->
  exists j,
    val (a +:+ b) = (read_decimal (a +:+ fraction b +:+ t)).1 * 10 ^ Z.of_nat j /\
    (read_decimal (a +:+ fraction b +:+ t)).2
    = e - Z.of_nat (String.length b) + Z.of_nat j.
Proof.
  intros Ha Hb Ht Hp He. destruct (strip_zeros_spec b) as [j Hj]. exists j.
  pose proof (all_digits_strip b Hb) as Hs. unfold fraction.
  destruct (strip_zeros b) as [|c b'] eqn:Es.
  - rewrite !app_nil_l_s in *. subst b.
    rewrite read_decimal_plain; rewrite read_digits_app, read_digits_stop by done; [|done].
    cbn [fst snd]. rewrite val_app, val_zeros, length_zeros by done. lia.
  - rewrite app_cons_s.
    rewrite (read_decimal_point _ (String c b' +:+ t));
      rewrite read_digits_app, read_digits_stop by done; [|done].
    cbn [fst snd]. rewrite read_digits_app, read_digits_stop by done. cbn [fst snd].
    rewrite length_app_s, Hj, val_app, val_app, val_zeros, !length_app_s, length_zeros
      by (done || apply all_digits_zeros || by rewrite all_digits_app, Hs, all_digits_zeros).
    rewrite !Nat2Z.inj_add, Z.pow_add_r by lia. split; [ring|lia].
Qed.

End DigitStrings.

(** ** The digits [operator<<] writes for an [int] *)

Section ShowInt.
Implicit Types (s : string) (c : ascii) (v acc : Z) (p : positive) (d : Decimal.uint).

Lemma digit_of_range c v : digit_of c = Some v -> 0 <= v <= 9.
Proof. unfold digit_of. case_match; [|done]. intros [= <-]. lia. Qed.

Lemma val_cons c s v :
  digit_of c = Some v -> all_digits s = true ->
  val (String c s) = v * 10 ^ Z.of_nat (String.length s) + val s.
Proof.
  intros Hc Hs. unfold val at 1. cbn [read_digits]. rewrite Hc, read_digits_all by done.
  cbn [fst]. ring.
Qed.

Lemma val_bounds s : all_digits s = true -> 0 <= val s < 10 ^ Z.of_nat (String.length s).
Proof.
  induction s as [|c s IH]; [done|]. cbn [all_digits]. destruct (digit_of c) as [v|] eqn:Hc; [|done].
  intros Hs. rewrite (val_cons c s v) by done. pose proof (digit_of_range c v Hc).
  cbn [String.length]. rewrite Nat2Z.inj_succ, Z.pow_succ_r by lia.
  specialize (IH Hs). nia.
Qed.

Lemma val_lower c s v :
  digit_of c = Some v -> 1 <= v -> all_digits s = true ->
  10 ^ Z.of_nat (String.length s) <= val (String c s).
Proof.
  intros Hc Hv Hs. rewrite (val_cons c s v) by done. pose proof (val_bounds s Hs). nia.
Qed.

Lemma digits_read acc s : digits (Some acc) s = Some (read_digits acc s).1.
Proof.
  revert acc. induction s as [|c s IH]; intros acc; [done|]. cbn [digits read_digits].
  destruct (digit_of c); [apply IH|done].
Qed.

Lemma all_digits_uint d : all_digits (NilEmpty.string_of_uint d) = true.
Proof. induction d; cbn; done. Qed.

(** A positive number is written without a leading zero. *)
Lemma to_uint_head p d : Pos.to_uint p <> Decimal.D0 d.
Proof.
  intros E. pose proof (Unsigned.to_of (Pos.to_uint p)) as H.
  rewrite Unsigned.of_to in H. cbn [N.to_uint] in H. rewrite E in H at 2.
  unfold Decimal.unorm in H. rewrite DecimalFacts.nzhead_D0 in H.
  destruct (Decimal.nzhead d) eqn:En; rewrite H in E;
    first [by apply (Unsigned.to_uint_nonzero p)
          | by injection E as ->; apply (DecimalFacts.nzhead_nonzero d _ En)
          | done].
Qed.

Lemma uint_head d :
  d <> Decimal.Nil -> (forall d', d <> Decimal.D0 d') ->
  exists c s v, NilEmpty.string_of_uint d = String c s /\ digit_of c = Some v /\ 1 <= v.
Proof.
  destruct d; intros Hn H0; [done|by destruct (H0 d)|..];
    eexists _, _, _; (split; [reflexivity|]); by vm_compute.
Qed.

Lemma show_pos_head p :
  exists c s v, show_int (Z.pos p) = String c s /\ digit_of c = Some v /\ 1 <= v /\
                all_digits s = true.
Proof.
  rewrite show_pos. pose proof (all_digits_uint (Pos.to_uint p)) as Ha.
  destruct (uint_head (Pos.to_uint p)) as (c & s & v & E & Hc & Hv);
    [apply Unsigned.to_uint_nonnil|apply to_uint_head|].
  rewrite E in Ha |- *. cbn [all_digits] in Ha. rewrite Hc in Ha. by exists c, s, v.
Qed.

Lemma show_pos_val p : val (show_int (Z.pos p)) = Z.pos p.
Proof.
  destruct (show_pos_head p) as (c & s & v & E & Hc & _).
  pose proof (digits_pos p "" I) as H. rewrite app_nil_r_s, <- show_pos, E in H.
  cbn [digits] in H. rewrite Hc, digits_read in H. injection H as H.
  rewrite E. unfold val. cbn [read_digits]. by rewrite Hc.
Qed.

Lemma all_digits_show p : all_digits (show_int (Z.pos p)) = true.
Proof. rewrite show_pos. apply all_digits_uint. Qed.

(** A number of [P] digits is written with [P] characters. *)
Lemma show_pos_length p (P : Z) :
  10 ^ (P - 1) <= Z.pos p < 10 ^ P -> String.length (show_int (Z.pos p)) = Z.to_nat P.
Proof.
  intros [Hlo Hhi]. pose proof (show_pos_val p) as Hv.
  pose proof (val_bounds _ (all_digits_show p)) as [_ Hu].
  destruct (show_pos_head p) as (c & s & v & E & Hc & H1 & Hs).
  rewrite E in Hv, Hu |- *. pose proof (val_lower c s v Hc H1 Hs) as Hl.
  rewrite Hv in Hu, Hl. cbn [String.length] in *.
  assert (0 <= P) as HP.
  { destruct (Z.le_gt_cases 0 P); [done|]. rewrite Z.pow_neg_r in Hhi by lia. lia. }
  assert (Z.of_nat (String.length s) < P) by (apply (Z.pow_lt_mono_r_iff 10); lia).
  assert (P - 1 < Z.of_nat (S (String.length s))) by (apply (Z.pow_lt_mono_r_iff 10); lia).
  lia.
Qed.

End ShowInt.

(** ** The layout *)

Section Layout.
Implicit Types (s : string) (k : nat) (x P q : Z).

Lemma length_take_s k s : String.length (take_s k s) = Nat.min k (String.length s).
Proof. revert s. induction k as [|k IH]; intros [|c s]; cbn; [done..|]. by rewrite IH. Qed.

Lemma all_digits_take_erase k s :
  all_digits s = true -> all_digits (take_s k s) = true /\ all_digits (erase0 s k) = true.
Proof.
  intros Hs. rewrite <- (take_erase s k), all_digits_app in Hs. by apply andb_prop in Hs.
Qed.

Lemma length_erase0 k s :
  Z.of_nat (String.length (erase0 s k))
  = Z.of_nat (String.length s) - Z.of_nat (Nat.min k (String.length s)).
Proof.
  pose proof (f_equal String.length (take_erase s k)) as H.
  rewrite length_app_s, length_take_s in H. lia.
Qed.

Lemma val_show x : 0 <= x -> all_digits (show_int x) = true /\ val (show_int x) = x.
Proof.
  destruct x as [|p|p]; [done| |lia]. intros _.
  split; [apply all_digits_show|apply show_pos_val].
Qed.

Lemma read_show_exp x : read_exponent ("e" +:+ show_exp x) = x.
Proof.
  unfold show_exp. destruct (val_show (Z.abs x) ltac:(lia)) as [Ha Hv].
  assert (val ((if Z.abs x <? 10 then "0" else "") +:+ show_int (Z.abs x)) = Z.abs x) as H.
  { destruct (Z.abs x <? 10); [|by rewrite app_nil_l_s].
    rewrite val_app, Hv by done. change (val "0") with 0. lia. }
  destruct (Z.ltb_spec x 0); rewrite !app_cons_s, !app_nil_l_s; cbn [read_exponent];
    rewrite H; lia.
Qed.

(** What [show_g] writes, read back: the digits [sig_digits] yields less
    the zeros they end in, and the exponent of the last digit left. *)
Lemma show_g_reads P nd :
  1 <= P -> 10 ^ (P - 1) <= (sig_digits P nd).1 < 10 ^ P ->
  exists j,
    (sig_digits P nd).1 = (read_decimal (show_g P nd)).1 * 10 ^ Z.of_nat j /\
    (read_decimal (show_g P nd)).2 = (sig_digits P nd).2 - (P - 1) + Z.of_nat j.
Proof.
  intros HP Hq. unfold show_g. destruct (sig_digits P nd) as [q x]. cbn [fst snd] in *.
  pose proof (pow10_pos (P - 1) ltac:(lia)) as H10.
  destruct q as [|p|p]; [lia| |lia].
  pose proof (all_digits_show p) as Ha. pose proof (show_pos_val p) as Hv.
  pose proof (show_pos_length p P Hq) as Hl. set (ds := show_int (Z.pos p)) in *.
  destruct (_ || _) eqn:Hsci; [|destruct (Z.ltb_spec x 0) as [Hx|Hx]].
  - destruct (all_digits_take_erase 1 ds Ha) as [H1 H2].
    destruct (read_point (take_s 1 ds) (erase0 ds 1) ("e" +:+ show_exp x) x)
      as (j & Hj & He); [done|done|done|done|apply read_show_exp|].
    exists j. rewrite take_erase, Hv in Hj. rewrite He, length_erase0, Hl. split; [done|lia].
  - apply orb_false_elim in Hsci as [H4 _]. apply Z.ltb_ge in H4.
    destruct (read_point "0" (zeros (Z.to_nat (- x - 1)) +:+ ds) "" 0)
      as (j & Hj & He); [done|by rewrite all_digits_app, all_digits_zeros|done|done|done|].
    rewrite app_nil_r_s in Hj, He. exists j.
    rewrite val_app, val_app, val_zeros, Hv in Hj
      by (done || apply all_digits_zeros || by rewrite all_digits_app, all_digits_zeros).
    change (val "0") with 0 in Hj.
    rewrite He, length_app_s, length_zeros, Hl. split; [rewrite <- Hj|]; lia.
  - apply orb_false_elim in Hsci as [_ HxP]. apply Z.leb_gt in HxP.
    destruct (all_digits_take_erase (Z.to_nat (x + 1)) ds Ha) as [H1 H2].
    destruct (read_point (take_s (Z.to_nat (x + 1)) ds) (erase0 ds (Z.to_nat (x + 1))) "" 0)
      as (j & Hj & He); [done..|].
    rewrite app_nil_r_s in Hj, He. exists j.
    rewrite take_erase, Hv in Hj. rewrite He, length_erase0, Hl. split; [done|lia].
Qed.

End Layout.

(** ** What is printed for a double *)

Section Shown.
Implicit Types (m : positive) (e : Z) (x : double).

Lemma show_g_head P nd :
  1 <= P -> 10 ^ (P - 1) <= (sig_digits P nd).1 < 10 ^ P ->
  exists c t, show_g P nd = String c t /\ is_Some (digit_of c).
Proof.
  intros HP Hq. unfold show_g. destruct (sig_digits P nd) as [q x]. cbn [fst snd] in *.
  pose proof (pow10_pos (P - 1) ltac:(lia)) as H10.
  destruct q as [|p|p]; [lia| |lia].
  destruct (show_pos_head p) as (c & s & v & -> & Hc & _).
  destruct (_ || _); [|destruct (Z.ltb_spec x 0) as [Hx|Hx]].
  - cbn [take_s]. rewrite app_cons_s. by eexists _, _.
  - rewrite app_cons_s. by eexists _, _.
  - replace (Z.to_nat (x + 1)) with (S (Z.to_nat x)) by lia. cbn [take_s].
    rewrite app_cons_s. by eexists _, _.
Qed.

Lemma read_signed_digit (c : ascii) (t : string) :
  is_Some (digit_of c) -> read_signed (String c t) = read_decimal (String c t).
Proof.
  intros [v Hv]. unfold read_signed.
  destruct c as [[] [] [] [] [] [] [] []]; try done.
Qed.

Lemma decimal_shift (M x : Z) (j : nat) :
  (decimal (M * 10 ^ Z.of_nat j) x == decimal M (x + Z.of_nat j))%Q.
Proof.
  unfold decimal. rewrite inject_Z_mult, (Qpower_plus 10 x) by done.
  rewrite <- (ten_pow_inject (Z.of_nat j)) by lia. ring.
Qed.

(** The text of a positive double. *)
Lemma shows_six_pos m e :
  bits m <= 53 -> -1074 <= e <= 971 ->
  shows_six (show_g 6 (ratio m e)) (value (S754_finite false m e)).
Proof.
  intros Hb He. destruct (six_digits m e Hb He) as [Hq Hv].
  destruct (show_g_reads 6 (ratio m e) ltac:(lia) Hq) as (j & Hj & He').
  destruct (show_g_head 6 (ratio m e) ltac:(lia) Hq) as (c & t & Et & Hc).
  right. exists j. rewrite Et, read_signed_digit, <- Et by done.
  set (r := read_decimal _) in *. split.
  - rewrite <- (Z.abs_eq (10 ^ Z.of_nat j)), <- Z.abs_mul, <- Hj by (apply Z.pow_nonneg; lia).
    lia.
  - rewrite Hj, decimal_shift in Hv.
    by replace ((sig_digits 6 (ratio m e)).2 - 5 + Z.of_nat j) with r.2 in Hv by lia;
       replace ((sig_digits 6 (ratio m e)).2 - 5) with (r.2 - Z.of_nat j) in Hv by lia.
Qed.

(** The text of the opposite number is the text with a [-] before it. *)
Lemma shows_six_neg (c : ascii) (t : string) (v : Q) :
  is_Some (digit_of c) -> shows_six (String c t) v -> shows_six (String "-" (String c t)) (- v).
Proof.
  intros Hc. unfold shows_six. rewrite (read_signed_digit c t Hc).
  change (read_signed (String "-" (String c t)))
    with (- (read_decimal (String c t)).1, (read_decimal (String c t)).2).
  set (r := read_decimal _). cbn [fst snd]. intros [[Hv Hr]|(j & Hj & Hv)]; [left|right].
  - split; [by rewrite Hv|lia].
  - exists j. split; [by rewrite Z.abs_opp|].
    setoid_replace (- v - decimal (- r.1) r.2)%Q with (- (v - decimal r.1 r.2))%Q
      using relation Qeq; [by rewrite Qabs_opp|].
    unfold decimal. rewrite inject_Z_opp. ring.
Qed.

#[export] Instance shows_six_proper : Proper (eq ==> Qeq ==> iff) shows_six.
Proof. intros t ? <- v w Hvw. unfold shows_six. by setoid_rewrite Hvw. Qed.

Lemma value_neg m e :
  (value (S754_finite true m e) == - value (S754_finite false m e))%Q.
Proof. unfold value, signed. change (Z.neg m) with (- Z.pos m). rewrite inject_Z_opp. ring. Qed.

(** A significand and an exponent of the format. *)
Lemma bounded_bits m e :
  bounded prec emax m e = true -> bits m <= 53 /\ -1074 <= e <= 971.
Proof.
  unfold bounded, canonical_mantissa, fexp, emin, prec, emax, bits.
  intros [Hc He%Z.leb_le]%andb_prop. apply Z.eqb_eq in Hc. lia.
Qed.

Lemma canonical_valid x : canonical x -> valid_binary prec emax x = true /\ finite x = true.
Proof.
  destruct x as [s| | |s m e]; [done|done..|]. intros [Hb He]. split; [|done].
  unfold valid_binary, bounded, canonical_mantissa, fexp, emin, prec, emax.
  fold (bits m). apply andb_true_intro. split; [apply Z.eqb_eq|apply Z.leb_le]; lia.
Qed.

Lemma show_double_shows x :
  valid_binary prec emax x = true -> finite x = true -> shows_six (show_double x) (value x).
Proof.
  destruct x as [s| | |s m e]; [|done..|].
  - intros _ _. left. by destruct s.
  - intros [Hb He]%bounded_bits _. cbn [show_double].
    pose proof (shows_six_pos m e Hb He) as H.
    destruct s; [|by rewrite app_nil_l_s].
    destruct (six_digits m e Hb He) as [Hq _].
    destruct (show_g_head 6 (ratio m e) ltac:(lia) Hq) as (c & t & Et & Hc).
    rewrite app_cons_s, app_nil_l_s, value_neg, Et in *. by apply shows_six_neg.
Qed.

End Shown.

(** * Properties *)

(** The search for the decimal exponent of a finite double always ends
    before its bound of 400 steps: for every significand of at most 53 bits
    and every exponent of the format, the exponent [x] found is the one
    with [10 ^ x <= m * 2 ^ e < 10 ^ (x + 1)], stated on the numerator and
    the denominator of the fraction. *)
Theorem decimal_exponent_found (m : positive) (e : Z) :
  bits m <= 53 -> -1074 <= e <= 971 ->
  let nd := ratio m e in
  let x := exp10 nd in
  if 0 <=? x then nd.2 * 10 ^ x <= nd.1 < nd.2 * 10 ^ (x + 1)
  else nd.1 * 10 ^ (- x - 1) < nd.2 <= nd.1 * 10 ^ (- x).
Proof.
  intros Hb He nd x. subst x.
  destruct (ratio_bounds m e Hb He) as (Hn & Hd & Hlo & Hhi). fold nd in Hn, Hd, Hlo, Hhi.
  destruct nd as [n d]. by apply exp10_spec.
Qed.

Lemma decimal_exponent_found_witness :
  let nd := ratio 5 (-2) in
  let x := exp10 nd in
  if 0 <=? x then nd.2 * 10 ^ x <= nd.1 < nd.2 * 10 ^ (x + 1)
  else nd.1 * 10 ^ (- x - 1) < nd.2 <= nd.1 * 10 ^ (- x).
Proof. apply (decimal_exponent_found 5 (-2)); by_compute. Defined.

(** C27. What [cout << x] writes for a double is the decimal of six
    significant digits nearest to it: for every number of binary64 (zero,
    subnormal or normal), the text read back is zero when the double is,
    and else digits [M] and an exponent [E] with at most six significant
    digits and [|x - M * 10 ^ E|] at most half a unit of the sixth.  The
    layout (fixed or scientific, zeros and point removed, sign) loses
    nothing of the digits chosen. *)
Theorem show_double_nearest (x : double) :
  valid_binary prec emax x = true -> finite x = true ->
  shows_six (show_double x) (value x).
Proof. apply show_double_shows. Qed.

Lemma show_double_nearest_witness :
  shows_six (show_double (ddiv (of_Z 5) four)) (value (ddiv (of_Z 5) four)).
Proof. apply (show_double_nearest (ddiv (of_Z 5) four)); reflexivity. Defined.
