(* ===== verification/Records.v ===== *)
(** The three record classes of the source, each in a Module named after
    it: [Person] (the base class), [Student] and [Teacher] (derived; the base
    sub-object is the field [person]).  A member function that modifies the
    object returns the modified object, one that prints returns the text.
    The lemmas give the total, the average and the result of a student in
    terms of the integers of its grades. *)

From Stdlib Require Import ZArith Ascii String Lia.
From stdpp Require Import base tactics option list numbers strings.
From S2P Require Import Prelude CppString CppInt CppDouble Printing.

(** ** class Person *)

Module Person.

Record t : Set := mk {
  name : string;
  id : Z
}.

Definition getName (p : t) : string := name p.
Definition getId (p : t) : Z := id p.
Definition setName (newName : string) (p : t) : t := mk newName (id p).
Definition setId (newId : Z) (p : t) : t := mk (name p) newId.

#[global] Instance eq_dec : EqDecision t.
Proof. solve_decision. Defined.

End Person.

(** ** class Student *)

Module Student.

Record t : Set := mk {
  person : Person.t;
  studentClass : string;
  subjects : list string;
  grades : list Z;
  averageGrade : double
}.

(** The default member initializer of [subjects]. *)
Definition default_subjects : list string :=
  ["Maths"; "Physics"; "CS"; "Electronics"].

(** [int total = 0; for (int grade : grades) total += grade;] *)
Definition total (gs : list Z) : Z := fold_left int_add gs 0%Z.

(** [static_cast<double>(total) / grades.size()] *)
Definition average (gs : list Z) : double :=
  ddiv (of_Z (total gs)) (of_Z (Z.of_nat (length gs))).

(** The sum the loop computes when no addition leaves the range of [int]:
    every partial sum, starting from [a], is in range. *)
Fixpoint no_overflow (a : Z) (gs : list Z) : Prop :=
  match gs with
  | [] => True
  | g :: gs' => in_int (a + g) /\ no_overflow (a + g) gs'
  end.

Definition calculateAverage (s : t) : t :=
  mk (person s) (studentClass s) (subjects s) (grades s) (average (grades s)).

(** The constructor: the members are initialized, [averageGrade] holds no
    value yet (written here as zero), and the body calls
    [calculateAverage]. *)
Definition make (name : string) (id : Z) (studentClass : string)
    (grades : list Z) : t :=
  calculateAverage
    (mk (Person.mk name id) studentClass default_subjects grades
        (SpecFloat.S754_zero false)).

Definition isPassed (s : t) : string :=
  if dge (averageGrade s) ten then "Passed" else "Failed".

(** One turn of the loop of [displayDetails]:
    [cout << subjects[i] << ": " << grades[i] << endl].  The index is in
    range of [grades] in a well-formed student; outside the invariant
    [grades[i]] is undefined in C++, and the model prints zero. *)
Definition grade_row (s : t) (i : nat) : string :=
  (subjects s !!! i) +:+ ": " +:+ show_int (grades s !!! i) +:+ String newline "".

(** What [displayDetails] writes to [cout]. *)
Definition displayDetails (s : t) : string :=
  "Name: " +:+ Person.name (person s) +:+ String newline "ID: " +:+
  show_int (Person.id (person s)) +:+ String newline "Class: " +:+
  studentClass s +:+ String newline "" +:+
  "Subjects and Grades: " +:+ String newline "" +:+
  fold_right String.append "" (map (grade_row s) (seq 0 (length (subjects s)))) +:+
  "Average Grade: " +:+ show_double (averageGrade s) +:+ String newline "" +:+
  "Result: " +:+ isPassed s +:+ String newline "".

(** The loop of [saveToFile]: every grade, a comma after each but the last. *)
Fixpoint grades_text (gs : list Z) : string :=
  match gs with
  | [] => ""
  | [g] => show_int g
  | g :: gs' => show_int g +:+ String comma (grades_text gs')
  end.

(** What [saveToFile] writes before the newline. *)
Definition line (s : t) : string :=
  Person.name (person s) +:+ String comma
    (show_int (Person.id (person s)) +:+ String comma
       (studentClass s +:+ String comma (grades_text (grades s)))).

Definition saveToFile (s : t) : string := line s +:+ String newline "".

Definition getStudentClass (s : t) : string := studentClass s.
Definition getGrades (s : t) : list Z := grades s.

(** The class invariant: what holds of every object the constructor made
    from four [int] grades and an [int] id. *)
Definition wf (s : t) : Prop :=
  in_int (Person.id (person s)) /\
  length (grades s) = 4 /\
  Forall in_int (grades s) /\
  subjects s = default_subjects /\
  averageGrade s = average (grades s).

(** The free-text fields can be written between commas on one line. *)
Definition storable (s : t) : Prop :=
  plain_field (Person.name (person s)) /\ plain_field (studentClass s).

#[global] Instance eq_dec : EqDecision t.
Proof. solve_decision. Defined.

#[global] Instance wf_dec (s : t) : Decision (wf s).
Proof. unfold wf. apply _. Defined.

#[global] Instance storable_dec (s : t) : Decision (storable s).
Proof. unfold storable. apply _. Defined.

End Student.

(** ** class Teacher *)

Module Teacher.

Record t : Set := mk {
  person : Person.t;
  subject : string;
  grade : string
}.

Definition make (name : string) (id : Z) (subject grade : string) : t :=
  mk (Person.mk name id) subject grade.

(** What [saveToFile] writes before the newline. *)
Definition line (x : t) : string :=
  Person.name (person x) +:+ String comma
    (show_int (Person.id (person x)) +:+ String comma
       (subject x +:+ String comma (grade x))).

Definition saveToFile (x : t) : string := line x +:+ String newline "".

(** What [displayDetails] writes to [cout]. *)
Definition displayDetails (x : t) : string :=
  "Name: " +:+ Person.name (person x) +:+ String newline "ID: " +:+
  show_int (Person.id (person x)) +:+ String newline "Subject: " +:+
  subject x +:+ String newline "Grade: " +:+ grade x +:+ String newline "".

Definition getSubject (x : t) : string := subject x.
Definition getGrade (x : t) : string := grade x.
Definition setSubject (newSubject : string) (x : t) : t :=
  mk (person x) newSubject (grade x).
Definition setGrade (newGrade : string) (x : t) : t :=
  mk (person x) (subject x) newGrade.

Definition wf (x : t) : Prop := in_int (Person.id (person x)).

(** Name and subject can be written between commas; the category is the
    rest of the line and only has to stay on it. *)
Definition storable (x : t) : Prop :=
  plain_field (Person.name (person x)) /\ plain_field (subject x) /\
  one_line (grade x).

#[global] Instance eq_dec : EqDecision t.
Proof. solve_decision. Defined.

#[global] Instance wf_dec (x : t) : Decision (wf x).
Proof. unfold wf. apply _. Defined.

#[global] Instance storable_dec (x : t) : Decision (storable x).
Proof. unfold storable. apply _. Defined.

End Teacher.

(** ** The abstract class *)

(** [Person] declares [displayDetails] pure virtual, so it has no objects
    of its own: every object is of a class derived from it, which holds the
    members of [Person] and overrides [displayDetails].  A call through a
    pointer to the object runs the override of its class. *)
Class Derived (R : Type) : Type := {
  base : R -> Person.t;
  displayDetails : R -> string
}.

#[export] Instance Student_Derived : Derived Student.t :=
  {| base := Student.person; displayDetails := Student.displayDetails |}.

#[export] Instance Teacher_Derived : Derived Teacher.t :=
  {| base := Teacher.person; displayDetails := Teacher.displayDetails |}.

(** [getId], inherited from [Person]. *)
Definition getId {R : Type} `{Derived R} (r : R) : Z := Person.getId (base r).

(** ** Sample records *)

Definition alice : Student.t := Student.make "Alice" 1 "10A" [12; 8; 15; 9]%Z.
Definition carol : Teacher.t := Teacher.make "Carol" 7 "Maths" "Professor, on leave".

(** ** The sum of the grades *)

Section Total.

Lemma fold_int_add_in_int (gs : list Z) (a : Z) :
  in_int a -> in_int (fold_left int_add gs a).
Proof. revert a. induction gs as [|g gs IH]; simpl; auto with cpp. Qed.

Lemma total_in_int (gs : list Z) : in_int (Student.total gs).
Proof. by apply fold_int_add_in_int. Qed.

Lemma fold_int_add_exact (gs : list Z) (a : Z) :
  Student.no_overflow a gs -> fold_left int_add gs a = (a + foldr Z.add 0 gs)%Z.
Proof.
  revert a. induction gs as [|g gs IH]; simpl; intros a.
  - intros _. lia.
  - intros [Hg Hgs]. rewrite int_add_exact by done. rewrite IH by done. lia.
Qed.

Lemma total_exact (gs : list Z) :
  Student.no_overflow 0 gs -> Student.total gs = foldr Z.add 0%Z gs.
Proof. intros H. unfold Student.total. by rewrite fold_int_add_exact. Qed.

(** Grades of an ordinary size cannot overflow the sum of four. *)
Lemma no_overflow_bounded (gs : list Z) (a : Z) :
  Forall (fun g => -500000000 <= g <= 500000000)%Z gs ->
  (- 500000000 * (4 - Z.of_nat (length gs)) <= a
     <= 500000000 * (4 - Z.of_nat (length gs)))%Z ->
  Student.no_overflow a gs.
Proof.
  intros H. revert a. induction H as [|g gs Hg _ IH]; simpl; [done|].
  intros a Ha. split; [unfold in_int, INT_MIN, INT_MAX; lia|]. apply IH. lia.
Qed.

End Total.

(** ** The average *)

Section Average.

Lemma in_int_small (z : Z) : in_int z -> (Z.abs z < 2 ^ 52)%Z.
Proof. unfold in_int, INT_MIN, INT_MAX. lia. Qed.

Lemma average_quarter (gs : list Z) :
  length gs = 4 -> Student.average gs = ddiv (of_Z (Student.total gs)) four.
Proof. intros Hlen. unfold Student.average. by rewrite Hlen. Qed.

Lemma average_canonical (gs : list Z) :
  length gs = 4 -> canonical (Student.average gs).
Proof.
  intros Hlen. rewrite average_quarter by done.
  apply quarter_canonical, in_int_small, total_in_int.
Qed.

Lemma average_value (gs : list Z) :
  length gs = 4 ->
  QArith_base.Qeq (value (Student.average gs))
                  (QArith_base.Qmake (Student.total gs) 4).
Proof.
  intros Hlen. rewrite average_quarter by done.
  apply quarter_value, in_int_small, total_in_int.
Qed.

Lemma average_ge_ten (gs : list Z) :
  length gs = 4 -> dge (Student.average gs) ten = (40 <=? Student.total gs)%Z.
Proof.
  intros Hlen. rewrite average_quarter by done.
  apply quarter_ge_ten, in_int_small, total_in_int.
Qed.

Lemma average_shown (gs : list Z) :
  length gs = 4 -> (-4000 <= Student.total gs <= 4000)%Z ->
  show_double (Student.average gs) = show_quarter (Student.total gs).
Proof.
  intros Hlen Ht. rewrite average_quarter by done. by apply show_double_quarter.
Qed.

(** The average of any four [int] grades, as it is printed. *)
Lemma average_shows (gs : list Z) :
  length gs = 4 ->
  shows_six (show_double (Student.average gs)) (QArith_base.Qmake (Student.total gs) 4).
Proof.
  intros Hlen. rewrite <- (average_value gs Hlen).
  by apply show_double_shows; apply canonical_valid, average_canonical.
Qed.

(** Without grades the quotient is 0.0 / 0 and the student has failed. *)
Lemma average_no_grades : Student.average [] = SpecFloat.S754_nan.
Proof. reflexivity. Qed.

End Average.

(** ** The class invariants *)

Section Invariants.

Lemma calculateAverage_average (s : Student.t) :
  Student.averageGrade (Student.calculateAverage s) = Student.average (Student.grades s).
Proof. reflexivity. Qed.

Lemma calculateAverage_idem (s : Student.t) :
  Student.calculateAverage (Student.calculateAverage s) = Student.calculateAverage s.
Proof. reflexivity. Qed.

Lemma make_wf (name : string) (id : Z) (cls : string) (gs : list Z) :
  in_int id -> length gs = 4 -> Forall in_int gs ->
  Student.wf (Student.make name id cls gs).
Proof. intros Hid Hlen Hgs. unfold Student.wf. simpl. by split_and!. Qed.

Lemma wf_make (s : Student.t) :
  Student.wf s ->
  s = Student.make (Person.name (Student.person s)) (Person.id (Student.person s))
        (Student.studentClass s) (Student.grades s).
Proof.
  destruct s as [[n i] c sub gs avg]. intros (_ & _ & _ & Hsub & Havg).
  simpl in *. subst. reflexivity.
Qed.

Lemma teacher_make_eta (x : Teacher.t) :
  x = Teacher.make (Person.name (Teacher.person x)) (Person.id (Teacher.person x))
        (Teacher.subject x) (Teacher.grade x).
Proof. by destruct x as [[n i] ? ?]. Qed.

End Invariants.

(** ** The lines written *)

Section Lines.

Lemma grades_text_cons (g g' : Z) (gs : list Z) :
  Student.grades_text (g :: g' :: gs) =
  show_int g +:+ String comma (Student.grades_text (g' :: gs)).
Proof. reflexivity. Qed.

Lemma grades_text_one_line (gs : list Z) : one_line (Student.grades_text gs).
Proof.
  induction gs as [|g [|g' gs] IH]; [done|apply show_int_one_line|].
  rewrite grades_text_cons. apply one_line_app. split; [apply show_int_one_line|].
  unfold one_line. rewrite has_char_cons. apply IH.
Qed.

Lemma student_line_comma (s : Student.t) : has_char comma (Student.line s) = true.
Proof.
  unfold Student.line. rewrite has_char_app, has_char_cons.
  unfold comma at 2. rewrite Ascii.eqb_refl. by rewrite orb_true_r.
Qed.

Lemma teacher_line_comma (x : Teacher.t) : has_char comma (Teacher.line x) = true.
Proof.
  unfold Teacher.line. rewrite has_char_app, has_char_cons.
  unfold comma at 2. rewrite Ascii.eqb_refl. by rewrite orb_true_r.
Qed.

Lemma has_char_nonempty (c : ascii) (s : string) : has_char c s = true -> s <> "".
Proof. by destruct s. Qed.

Lemma student_line_nonempty (s : Student.t) : Student.line s <> "".
Proof. eapply has_char_nonempty, student_line_comma. Qed.

Lemma teacher_line_nonempty (x : Teacher.t) : Teacher.line x <> "".
Proof. eapply has_char_nonempty, teacher_line_comma. Qed.

Lemma one_line_cons_comma (s : string) : one_line s -> one_line (String comma s).
Proof. done. Qed.

Lemma student_line_one_line (s : Student.t) :
  Student.storable s -> one_line (Student.line s).
Proof.
  intros [[_ Hn] [_ Hc]]. unfold Student.line.
  repeat (apply one_line_app; split; [done || apply show_int_one_line|];
          apply one_line_cons_comma).
  apply grades_text_one_line.
Qed.

Lemma teacher_line_one_line (x : Teacher.t) :
  Teacher.storable x -> one_line (Teacher.line x).
Proof.
  intros ([_ Hn] & [_ Hs] & Hg). unfold Teacher.line.
  repeat (apply one_line_app; split; [done || apply show_int_one_line|];
          apply one_line_cons_comma).
  done.
Qed.

End Lines.

#[export] Hint Resolve total_in_int make_wf student_line_nonempty teacher_line_nonempty
  student_line_one_line teacher_line_one_line grades_text_one_line : cpp.

(** * Properties *)

(** C40. The total of [calculateAverage] is the exact sum of the grades when
    there are at most four of them, each of absolute value at most
    500000000: no addition leaves the range of [int]. *)
Theorem total_is_sum (gs : list Z) :
  Forall (fun g => -500000000 <= g <= 500000000)%Z gs -> length gs <= 4 ->
  Student.total gs = foldr Z.add 0%Z gs.
Proof.
  intros Hgs Hlen. apply total_exact, no_overflow_bounded; [done|lia].
Qed.

Lemma total_is_sum_witness : Student.total [12; 8; 15; 9]%Z = foldr Z.add 0%Z [12; 8; 15; 9]%Z.
Proof. apply (total_is_sum [12; 8; 15; 9]%Z); by_compute. Defined.

(** The constructor establishes the class invariant of [Student], and
    the invariant determines the object from its name, id, class and
    grades: the average stored is never stale, and calling
    [calculateAverage] again changes nothing. *)
Theorem student_invariant (name cls : string) (id : Z) (gs : list Z) :
  in_int id -> length gs = 4 -> Forall in_int gs ->
  Student.wf (Student.make name id cls gs) /\
  Student.calculateAverage (Student.make name id cls gs) = Student.make name id cls gs /\
  forall s, Student.wf s -> Student.person s = Person.mk name id ->
            Student.studentClass s = cls -> Student.grades s = gs ->
            s = Student.make name id cls gs.
Proof.
  intros Hid Hlen Hgs. split_and!; [by apply make_wf|done|].
  intros s Hwf Hp Hc Hg. rewrite (wf_make s Hwf), Hp, Hc, Hg. done.
Qed.

Lemma student_invariant_witness :
  Student.wf alice /\
  Student.calculateAverage alice = alice /\
  forall s, Student.wf s -> Student.person s = Person.mk "Alice" 1 ->
            Student.studentClass s = "10A" -> Student.grades s = [12; 8; 15; 9]%Z ->
            s = alice.
Proof. apply (student_invariant "Alice" "10A" 1 [12; 8; 15; 9]%Z); by_compute. Defined.

(** C10. In a well-formed student the stored average is exactly a quarter of
    the total the loop computed: the conversion of the total to [double]
    and the division by the size of the vector round nothing, and the
    result is zero or a normal number (never NaN, never an infinity). *)
Theorem average_is_exact (s : Student.t) :
  Student.wf s ->
  canonical (Student.averageGrade s) /\
  QArith_base.Qeq (value (Student.averageGrade s))
                  (QArith_base.Qmake (Student.total (Student.grades s)) 4).
Proof.
  intros (_ & Hlen & _ & _ & ->).
  split; [by apply average_canonical | by apply average_value].
Qed.

Lemma average_is_exact_witness :
  canonical (Student.averageGrade alice) /\
  QArith_base.Qeq (value (Student.averageGrade alice))
                  (QArith_base.Qmake (Student.total (Student.grades alice)) 4).
Proof. apply (average_is_exact alice); by_compute. Defined.

(** C28. Whatever four [int] grades a student has, the average
    [displayDetails] prints is the decimal of six significant digits
    nearest to a quarter of their total: read back, the text is zero when
    the total is, and else within half a unit of its sixth digit of the
    quarter.  Averages of more than six digits are shown rounded, and from
    a million on in scientific notation. *)
Theorem average_printed_nearest (s : Student.t) :
  Student.wf s ->
  shows_six (show_double (Student.averageGrade s))
            (QArith_base.Qmake (Student.total (Student.grades s)) 4).
Proof. intros (_ & Hlen & _ & _ & ->). by apply average_shows. Qed.

Lemma average_printed_nearest_witness :
  shows_six (show_double (Student.averageGrade alice))
            (QArith_base.Qmake (Student.total (Student.grades alice)) 4).
Proof. apply (average_printed_nearest alice); by_compute. Defined.

(** C9. [isPassed] of a well-formed student answers "Passed" exactly when
    the total of the four grades is at least 40, that is when the average
    is at least ten; the comparison in binary64 decides the same as the
    comparison of the integers. *)
Theorem isPassed_threshold (s : Student.t) :
  Student.wf s ->
  Student.isPassed s
  = if (40 <=? Student.total (Student.grades s))%Z then "Passed" else "Failed".
Proof.
  intros (_ & Hlen & _ & _ & Havg). unfold Student.isPassed.
  by rewrite Havg, average_ge_ten.
Qed.

Lemma isPassed_threshold_witness :
  Student.isPassed alice
  = if (40 <=? Student.total (Student.grades alice))%Z then "Passed" else "Failed".
Proof. apply (isPassed_threshold alice); by_compute. Defined.

(** C37. What [displayDetails] prints for a well-formed student whose total
    is at most 4000 in absolute value: the four subjects in the order of
    the initializer, each with its grade, the average written out in full
    (a quarter of the total; six significant digits lose nothing), and the
    result that the total decides. *)
Theorem student_card (s : Student.t) (g0 g1 g2 g3 : Z) :
  Student.wf s -> Student.grades s = [g0; g1; g2; g3] ->
  (-4000 <= Student.total [g0; g1; g2; g3] <= 4000)%Z ->
  Student.displayDetails s
  = "Name: " +:+ Person.name (Student.person s) +:+ String newline "ID: " +:+
    show_int (Person.id (Student.person s)) +:+ String newline "Class: " +:+
    Student.studentClass s +:+ String newline "" +:+
    "Subjects and Grades: " +:+ String newline "" +:+
    (("Maths: " +:+ show_int g0 +:+ String newline "") +:+
     ("Physics: " +:+ show_int g1 +:+ String newline "") +:+
     ("CS: " +:+ show_int g2 +:+ String newline "") +:+
     ("Electronics: " +:+ show_int g3 +:+ String newline "") +:+ "") +:+
    "Average Grade: " +:+ show_quarter (Student.total [g0; g1; g2; g3]) +:+
    String newline "" +:+
    "Result: " +:+
    (if (40 <=? Student.total [g0; g1; g2; g3])%Z then "Passed" else "Failed") +:+
    String newline "".
Proof.
  intros (_ & Hlen & _ & Hsub & Havg) Hg Ht.
  unfold Student.displayDetails, Student.isPassed, Student.grade_row.
  rewrite Havg, Hsub, Hg, average_shown, average_ge_ten by done.
  reflexivity.
Qed.

Lemma student_card_witness :
  Student.displayDetails alice
  = "Name: " +:+ "Alice" +:+ String newline "ID: " +:+
    show_int 1 +:+ String newline "Class: " +:+
    "10A" +:+ String newline "" +:+
    "Subjects and Grades: " +:+ String newline "" +:+
    (("Maths: " +:+ show_int 12 +:+ String newline "") +:+
     ("Physics: " +:+ show_int 8 +:+ String newline "") +:+
     ("CS: " +:+ show_int 15 +:+ String newline "") +:+
     ("Electronics: " +:+ show_int 9 +:+ String newline "") +:+ "") +:+
    "Average Grade: " +:+ show_quarter (Student.total [12; 8; 15; 9]%Z) +:+
    String newline "" +:+
    "Result: " +:+
    (if (40 <=? Student.total [12; 8; 15; 9]%Z)%Z then "Passed" else "Failed") +:+
    String newline "".
Proof. apply (student_card alice 12 8 15 9); by_compute. Defined.
