(* ===== verification/Codec.v ===== *)
(** The decoders of [School::loadFromFile]: the body of each inner loop
    turns one line into a record.  With the encoders of [Records] they form
    the two instances of [LineCodec], the interface the file layer is proved
    against. *)

From Stdlib Require Import ZArith Ascii String Lia.
From stdpp Require Import base tactics option list numbers strings.
From S2P Require Import Prelude CppString CppInt CppDouble Records.

#[local] Open Scope res_scope.

(** ** The decoders *)

(** [for (int i = 0; i < 4; ++i) { pos = line.find(","); grades[i] =
    stoi(line.substr(0, pos)); line.erase(0, pos + 1); }] with the bound as
    a parameter. *)
Fixpoint parse_grades (n : nat) (line : string) : res (list Z) :=
  match n with
  | O => Ok []
  | S n' =>
      let '(field, line) := take_field line in
      g <- stoi field ;;
      gs <- parse_grades n' line ;;
      Ok (g :: gs)
  end.

(** The body of the Students loop. *)
Definition parse_student (line : string) : res Student.t :=
  let '(name, line) := take_field line in
  let '(field, line) := take_field line in
  id <- stoi field ;;
  let '(studentClass, line) := take_field line in
  grades <- parse_grades 4 line ;;
  Ok (Student.make name id studentClass grades).

(** The body of the Teachers loop: the category is what is left. *)
Definition parse_teacher (line : string) : res Teacher.t :=
  let '(name, line) := take_field line in
  let '(field, line) := take_field line in
  id <- stoi field ;;
  let '(subject, line) := take_field line in
  Ok (Teacher.make name id subject line).

(** ** The interface of a line format *)

(** What the file layer needs of a record type: the line it is written as,
    the decoder, which records can be stored, and the laws. *)
Class LineCodec (R : Type) : Type := {
  encode : R -> string;
  decode : string -> res R;
  storable : R -> Prop;
  decode_encode : forall r, storable r -> decode (encode r) = Ok r;
  encode_nonempty : forall r, encode r <> EmptyString;
  encode_one_line : forall r, storable r -> one_line (encode r)
}.

(** ** Decoding the grades *)

Section Grades.

Lemma parse_grades_S (n : nat) (line : string) :
  parse_grades (S n) line =
  (g <- stoi (take_field line).1 ;;
   gs <- parse_grades n (take_field line).2 ;;
   Ok (g :: gs)).
Proof. cbn [parse_grades]. by destruct (take_field line). Qed.

Lemma parse_grades_text (gs : list Z) :
  gs <> [] -> Forall in_int gs ->
  parse_grades (length gs) (Student.grades_text gs) = Ok gs.
Proof.
  intros Hne H. induction H as [|g gs Hg Hgs IH]; [done|].
  change (length (g :: gs)) with (S (length gs)). rewrite parse_grades_S.
  destruct gs as [|g' gs].
  - cbn [Student.grades_text].
    rewrite take_field_last by apply show_int_no_comma.
    cbn [fst snd]. by rewrite stoi_show_int_exact.
  - rewrite grades_text_cons, take_field_comma by apply show_int_no_comma.
    cbn [fst snd]. rewrite stoi_show_int_exact by done. cbn [res_bind].
    by rewrite IH.
Qed.

(** A line that ends early: the last field is read again for every grade
    that is missing, because [erase(0, npos + 1)] erases nothing. *)
Lemma parse_grades_short (n : nat) (g : Z) :
  in_int g -> parse_grades n (show_int g) = Ok (replicate n g).
Proof.
  intros Hg. induction n as [|n IH]; [done|]. rewrite parse_grades_S.
  rewrite take_field_last by apply show_int_no_comma. cbn [fst snd].
  rewrite stoi_show_int_exact by done. cbn [res_bind]. by rewrite IH.
Qed.

Lemma parse_grades_length (n : nat) (line : string) (gs : list Z) :
  parse_grades n line = Ok gs -> length gs = n.
Proof.
  revert line gs. induction n as [|n IH]; intros line gs; cbn [parse_grades].
  - by intros [= <-].
  - destruct (take_field line) as [f l]. intros H. res_inv.
    cbn [length]. f_equal. eauto.
Qed.

Lemma parse_grades_in_int (n : nat) (line : string) (gs : list Z) :
  parse_grades n line = Ok gs -> Forall in_int gs.
Proof.
  revert line gs. induction n as [|n IH]; intros line gs; cbn [parse_grades].
  - by intros [= <-].
  - destruct (take_field line) as [f l]. intros H. res_inv.
    constructor; eauto with cpp.
Qed.

End Grades.

(** ** Round trips *)

Section RoundTrip.

Lemma parse_student_make (name cls : string) (id : Z) (gs : list Z) :
  has_char comma name = false -> has_char comma cls = false ->
  in_int id -> length gs = 4 -> Forall in_int gs ->
  parse_student (Student.line (Student.make name id cls gs)) =
  Ok (Student.make name id cls gs).
Proof.
  intros Hn Hc Hid Hlen Hgs. unfold parse_student, Student.line.
  cbn [Student.make Student.calculateAverage Student.person Student.studentClass
       Student.grades Person.name Person.id].
  rewrite (take_field_comma _ _ Hn).
  rewrite take_field_comma by apply show_int_no_comma.
  rewrite stoi_show_int_exact by done. cbn [res_bind].
  rewrite (take_field_comma _ _ Hc).
  rewrite <- Hlen, parse_grades_text; [done| |done]. by destruct gs.
Qed.

Lemma parse_student_line (s : Student.t) :
  Student.wf s -> Student.storable s -> parse_student (Student.line s) = Ok s.
Proof.
  intros Hwf [[Hn _] [Hc _]]. rewrite (wf_make s Hwf) at 1 2.
  destruct Hwf as (Hid & Hlen & Hgs & _). by apply parse_student_make.
Qed.

Lemma parse_teacher_line (x : Teacher.t) :
  Teacher.wf x -> has_char comma (Person.name (Teacher.person x)) = false ->
  has_char comma (Teacher.subject x) = false ->
  parse_teacher (Teacher.line x) = Ok x.
Proof.
  intros Hid Hn Hs. unfold parse_teacher, Teacher.line.
  rewrite (take_field_comma _ _ Hn).
  rewrite take_field_comma by apply show_int_no_comma.
  rewrite stoi_show_int_exact by done. cbn [res_bind].
  rewrite (take_field_comma _ _ Hs). by rewrite <- teacher_make_eta.
Qed.

End RoundTrip.

(** ** What decoding guarantees, and how it fails *)

Section Decoded.

Lemma parse_student_wf (line : string) (s : Student.t) :
  parse_student line = Ok s -> Student.wf s.
Proof.
  unfold parse_student.
  destruct (take_field line) as [name l1], (take_field l1) as [f l2].
  destruct (take_field l2) as [cls l3]. intros H. res_inv.
  apply make_wf;
    [by eapply stoi_in_int | by eapply parse_grades_length
    | by eapply parse_grades_in_int].
Qed.

Lemma parse_teacher_wf (line : string) (x : Teacher.t) :
  parse_teacher line = Ok x -> Teacher.wf x.
Proof.
  unfold parse_teacher.
  destruct (take_field line) as [name l1], (take_field l1) as [f l2].
  destruct (take_field l2) as [sub l3]. intros H. res_inv.
  unfold Teacher.wf. simpl. by eapply stoi_in_int.
Qed.

(** A line without a comma is its own second field: when it is not a
    number, decoding throws on the id. *)
Lemma parse_student_no_comma (line : string) (e : exn) :
  has_char comma line = false -> stoi line = Throw e ->
  parse_student line = Throw e.
Proof.
  intros Hc He. unfold parse_student. rewrite !(take_field_last _ Hc).
  by rewrite He.
Qed.

Lemma parse_teacher_no_comma (line : string) (e : exn) :
  has_char comma line = false -> stoi line = Throw e ->
  parse_teacher line = Throw e.
Proof.
  intros Hc He. unfold parse_teacher. rewrite !(take_field_last _ Hc).
  by rewrite He.
Qed.

(** The id field decides first: whatever [stoi] throws on it is thrown. *)
Lemma parse_student_bad_id (name rest : string) (e : exn) :
  has_char comma name = false -> stoi (take_field rest).1 = Throw e ->
  parse_student (name +:+ String comma rest) = Throw e.
Proof.
  intros Hn He. unfold parse_student. rewrite (take_field_comma _ _ Hn).
  destruct (take_field rest) as [f l]. simpl in He. by rewrite He.
Qed.

End Decoded.

(** * Properties *)

(** C3. A student written by [saveToFile] is read back: when the object
    satisfies the class invariant and its name and class hold neither a
    comma nor a newline, [getline] extracts from the text written exactly
    the student's line, and the body of the Students loop decodes that line
    to the student. *)
Theorem student_line_roundtrip (s : Student.t) (rest : string) :
  Student.wf s -> Student.storable s ->
  getline (Student.saveToFile s +:+ rest) = Some (Student.line s, rest) /\
  parse_student (Student.line s) = Ok s.
Proof.
  intros Hwf Hst. split; [|by apply parse_student_line].
  unfold Student.saveToFile. rewrite app_assoc_s.
  by apply getline_app, student_line_one_line.
Qed.

Lemma student_line_roundtrip_witness :
  getline (Student.saveToFile alice +:+ "Teachers") = Some (Student.line alice, "Teachers") /\
  parse_student (Student.line alice) = Ok alice.
Proof. apply (student_line_roundtrip alice "Teachers"); by_compute. Defined.

(** C29. A teacher written by [saveToFile] is read back: name and subject
    must hold no comma, but the category, which the decoder takes as the
    rest of the line, may hold commas; no field may hold a newline. *)
Theorem teacher_line_roundtrip (x : Teacher.t) (rest : string) :
  Teacher.wf x -> Teacher.storable x ->
  getline (Teacher.saveToFile x +:+ rest) = Some (Teacher.line x, rest) /\
  parse_teacher (Teacher.line x) = Ok x.
Proof.
  intros Hwf Hst. split.
  - unfold Teacher.saveToFile. rewrite app_assoc_s.
    by apply getline_app, teacher_line_one_line.
  - destruct Hst as ([Hn _] & [Hs _] & _). by apply parse_teacher_line.
Qed.

Lemma teacher_line_roundtrip_witness :
  getline (Teacher.saveToFile carol +:+ "") = Some (Teacher.line carol, "") /\
  parse_teacher (Teacher.line carol) = Ok carol.
Proof. apply (teacher_line_roundtrip carol ""); by_compute. Defined.

(** C32. A student line that ends after its first grade decodes without an
    error: the decoder reads that grade four times, because at the end of
    the line [find] yields [npos] and [erase(0, npos + 1)] erases
    nothing. *)
Theorem short_student_line_repeats (name cls : string) (id g : Z) :
  has_char comma name = false -> has_char comma cls = false ->
  in_int id -> in_int g ->
  parse_student (name +:+ String comma (show_int id +:+ String comma
                   (cls +:+ String comma (show_int g)))) =
  Ok (Student.make name id cls [g; g; g; g]).
Proof.
  intros Hn Hc Hid Hg. unfold parse_student.
  rewrite (take_field_comma _ _ Hn).
  rewrite take_field_comma by apply show_int_no_comma.
  rewrite stoi_show_int_exact by done. cbn [res_bind].
  rewrite (take_field_comma _ _ Hc). by rewrite parse_grades_short.
Qed.

Lemma short_student_line_repeats_witness :
  parse_student ("Bob" +:+ String comma (show_int 2 +:+ String comma
                   ("10B" +:+ String comma (show_int 5)))) =
  Ok (Student.make "Bob" 2 "10B" [5; 5; 5; 5]%Z).
Proof. apply (short_student_line_repeats "Bob" "10B" 2 5); by_compute. Defined.

(** Every record a decoder returns satisfies its class invariant: the
    id and the grades are in the range of [int], there are four grades, and
    the average is the one of the grades. *)
Theorem decoded_records_wf (line : string) :
  (forall s, parse_student line = Ok s -> Student.wf s) /\
  (forall x, parse_teacher line = Ok x -> Teacher.wf x).
Proof. split; [apply parse_student_wf|apply parse_teacher_wf]. Qed.

(** C25. A student line whose id field is not a number is not skipped: the
    exception [stoi] throws on the field leaves the decoder, whatever the
    name before it and whatever follows it, the grades included. *)
Theorem bad_id_throws (name field rest : string) (e : exn) :
  has_char comma name = false -> has_char comma field = false ->
  stoi field = Throw e ->
  parse_student (name +:+ String comma (field +:+ String comma rest)) = Throw e.
Proof.
  intros Hn Hf He. apply parse_student_bad_id; [done|].
  by rewrite (take_field_comma _ _ Hf).
Qed.

Lemma bad_id_throws_witness :
  parse_student ("Bob" +:+ String comma ("x1" +:+ String comma "10B,1,2,3,4")) =
  Throw invalid_argument.
Proof.
  apply (bad_id_throws "Bob" "x1" "10B,1,2,3,4" invalid_argument); reflexivity.
Defined.

(** ** The two instances *)

#[export] Program Instance student_codec : LineCodec Student.t := {|
  encode := Student.line;
  decode := parse_student;
  storable := fun s => Student.wf s /\ Student.storable s
|}.
Next Obligation. intros s [Hwf Hst]. by apply parse_student_line. Qed.
Next Obligation. apply student_line_nonempty. Qed.
Next Obligation. intros s [_ Hst]. by apply student_line_one_line. Qed.

#[export] Program Instance teacher_codec : LineCodec Teacher.t := {|
  encode := Teacher.line;
  decode := parse_teacher;
  storable := fun x => Teacher.wf x /\ Teacher.storable x
|}.
Next Obligation.
  intros x [Hwf ([Hn _] & [Hs _] & _)]. by apply parse_teacher_line.
Qed.
Next Obligation. apply teacher_line_nonempty. Qed.
Next Obligation. intros x [_ Hst]. by apply teacher_line_one_line. Qed.
