(* ===== verification/Persistence.v ===== *)
(** The file format of [School]: the text [School::saveToFile] writes for
    the two vectors, and the reader of [School::loadFromFile] over the lines
    of a file, with the three loop heads of the source as three mutually
    recursive functions.  The files the reader accepts are described apart
    from it, as lists of blocks ([block]): lines outside any section and
    sections under their header, each but the last ended by a blank line. *)

From Stdlib Require Import ZArith Ascii String Lia.
From stdpp Require Import base tactics option list numbers strings.
From S2P Require Import Prelude CppString CppInt CppDouble Records Codec.

#[local] Open Scope res_scope.

(** ** class School: the data members *)

Record School : Set := mkSchool {
  students : list Student.t;
  teachers : list Teacher.t;
  filePath : string
}.

#[export] Instance School_eq_dec : EqDecision School.
Proof. solve_decision. Defined.

(** The default member initializer of [filePath]. *)
Definition default_filePath : string :=
  "C:\Users\Mediatek\Documents\C++\proj_school-mang_syst1\school_DataBase.txt".

(** The local [filePath] of [loadFromFile], which hides the member. *)
Definition load_filePath : string := "school_DataBase.txt".

(** [students.push_back(new Student(...))] *)
Definition push_student (s : Student.t) (sch : School) : School :=
  mkSchool (students sch ++ [s]) (teachers sch) (filePath sch).

(** [teachers.push_back(new Teacher(...))] *)
Definition push_teacher (x : Teacher.t) (sch : School) : School :=
  mkSchool (students sch) (teachers sch ++ [x]) (filePath sch).

(** ** Writing *)

(** [for (const R *r : rs) r->saveToFile(file);] *)
Fixpoint write_all {R : Type} (save : R -> string) (rs : list R) : string :=
  match rs with
  | [] => ""
  | r :: rs' => save r +:+ write_all save rs'
  end.

(** What [saveToFile] writes to the stream it opened. *)
Definition file_text (sch : School) : string :=
  ("Students" +:+ String newline "") +:+
  write_all Student.saveToFile (students sch) +:+
  ("Teachers" +:+ String newline "") +:+
  write_all Teacher.saveToFile (teachers sch).

(** The same text, line by line. *)
Definition file_lines (sch : School) : list string :=
  "Students" :: map Student.line (students sch) ++
  "Teachers" :: map Teacher.line (teachers sch).

(** ** Reading: the loops of the source *)

(** The three loop heads of [loadFromFile], each on the lines not yet read:
    the outer [while (getline(file, type))] and the two inner
    [while (getline(file, line) && !line.empty())].  An inner loop that
    reads a blank line falls back to the outer loop; any loop that finds
    the stream at its end ends the function, since the stream then fails
    every later read. *)
Fixpoint load_lines (ls : list string) (sch : School) {struct ls} : res School :=
  match ls with
  | [] => Ok sch
  | type :: rest =>
      if String.eqb type "Students" then students_loop rest sch
      else if String.eqb type "Teachers" then teachers_loop rest sch
      else load_lines rest sch
  end
with students_loop (ls : list string) (sch : School) {struct ls} : res School :=
  match ls with
  | [] => Ok sch
  | line :: rest =>
      if String.eqb line "" then load_lines rest sch
      else s <- parse_student line ;; students_loop rest (push_student s sch)
  end
with teachers_loop (ls : list string) (sch : School) {struct ls} : res School :=
  match ls with
  | [] => Ok sch
  | line :: rest =>
      if String.eqb line "" then load_lines rest sch
      else x <- parse_teacher line ;; teachers_loop rest (push_teacher x sch)
  end.

(** ** One section, against the interface of a line format *)

Section SectionLoop.
Context {R : Type} `{LineCodec R}.
Variable push : R -> School -> School.

(** An inner loop on its own: the school when it ends, and the lines it
    leaves unread. *)
Fixpoint section_loop (ls : list string) (sch : School) : res (School * list string) :=
  match ls with
  | [] => Ok (sch, [])
  | line :: rest =>
      if String.eqb line "" then Ok (sch, rest)
      else r <- decode line ;; section_loop rest (push r sch)
  end.

End SectionLoop.

(** Every record of the school is well formed. *)
Definition School_wf (sch : School) : Prop :=
  Forall Student.wf (students sch) /\ Forall Teacher.wf (teachers sch).

(** Every record of the school can be written on a line of its own. *)
Definition School_storable (sch : School) : Prop :=
  Forall Student.storable (students sch) /\ Forall Teacher.storable (teachers sch).

#[export] Instance School_wf_dec (sch : School) : Decision (School_wf sch).
Proof. unfold School_wf. apply _. Defined.

#[export] Instance School_storable_dec (sch : School) : Decision (School_storable sch).
Proof. unfold School_storable. apply _. Defined.

(** [ss] appended to the students, [ts] to the teachers. *)
Definition push_all (ss : list Student.t) (ts : list Teacher.t) (sch : School) : School :=
  mkSchool (students sch ++ ss) (teachers sch ++ ts) (filePath sch).

(** ** Files made of sections *)

(** A part of a data file: a line outside any section, or a section of
    students or of teachers under its header. *)
Inductive block : Type :=
| Outside (l : string)
| StudentsSection (ss : list Student.t)
| TeachersSection (ts : list Teacher.t).

(** The lines of a block that ends the file. *)
Definition last_lines (b : block) : list string :=
  match b with
  | Outside l => [l]
  | StudentsSection ss => "Students" :: map Student.line ss
  | TeachersSection ts => "Teachers" :: map Teacher.line ts
  end.

(** The lines of a block that others follow: a blank line ends a section. *)
Definition block_lines (b : block) : list string :=
  match b with
  | Outside l => [l]
  | _ => last_lines b ++ [""]
  end.

Definition block_students (b : block) : list Student.t :=
  match b with StudentsSection ss => ss | _ => [] end.

Definition block_teachers (b : block) : list Teacher.t :=
  match b with TeachersSection ts => ts | _ => [] end.

(** A line outside a section is one line and no header; the records of a
    section satisfy their class invariant and can be written on a line. *)
Definition block_ok (b : block) : Prop :=
  match b with
  | Outside l => one_line l /\ l <> "Students" /\ l <> "Teachers"
  | StudentsSection ss => Forall Student.wf ss /\ Forall Student.storable ss
  | TeachersSection ts => Forall Teacher.wf ts /\ Forall Teacher.storable ts
  end.

#[export] Instance block_ok_dec (b : block) : Decision (block_ok b).
Proof. destruct b; simpl; apply _. Defined.

(** The lines, the students and the teachers of a file given by its
    blocks. *)
Definition blocks_lines (bs : list block) : list string := concat (map block_lines bs).
Definition blocks_students (bs : list block) : list Student.t := concat (map block_students bs).
Definition blocks_teachers (bs : list block) : list Teacher.t := concat (map block_teachers bs).

(** A file with lines between its sections, the teachers first, and a
    second section of students that ends the file. *)
Definition sample_blocks : list block :=
  [Outside "school data"; TeachersSection [carol]; Outside "";
   StudentsSection [alice]; TeachersSection []].

(** ** Sample schools *)

Definition empty_school : School := mkSchool [] [] default_filePath.
Definition sample_school : School := mkSchool [alice] [carol] default_filePath.

(** The reader only appends, and never touches [filePath]. *)
Definition extends (sch sch' : School) : Prop :=
  students sch `prefix_of` students sch' /\
  teachers sch `prefix_of` teachers sch' /\
  filePath sch' = filePath sch.

(** ** The text written *)

Section Writing.

Lemma write_all_student (ss : list Student.t) :
  write_all Student.saveToFile ss = unlines (map Student.line ss).
Proof.
  induction ss as [|s ss IH]; [done|]. cbn [write_all map unlines].
  rewrite IH. unfold Student.saveToFile. by rewrite app_assoc_s.
Qed.

Lemma write_all_teacher (ts : list Teacher.t) :
  write_all Teacher.saveToFile ts = unlines (map Teacher.line ts).
Proof.
  induction ts as [|x ts IH]; [done|]. cbn [write_all map unlines].
  rewrite IH. unfold Teacher.saveToFile. by rewrite app_assoc_s.
Qed.

Lemma file_text_unlines (sch : School) : file_text sch = unlines (file_lines sch).
Proof.
  unfold file_text, file_lines. rewrite write_all_student, write_all_teacher.
  cbn [unlines]. rewrite unlines_app. cbn [unlines].
  by rewrite !app_assoc_s.
Qed.

Lemma student_lines_one_line (ss : list Student.t) :
  Forall Student.storable ss -> Forall one_line (map Student.line ss).
Proof.
  intros H. apply Forall_map. eapply Forall_impl; [exact H|].
  apply student_line_one_line.
Qed.

Lemma teacher_lines_one_line (ts : list Teacher.t) :
  Forall Teacher.storable ts -> Forall one_line (map Teacher.line ts).
Proof.
  intros H. apply Forall_map. eapply Forall_impl; [exact H|].
  apply teacher_line_one_line.
Qed.

Lemma file_lines_one_line (sch : School) :
  School_storable sch -> Forall one_line (file_lines sch).
Proof.
  intros [Hs Ht]. unfold file_lines. constructor; [done|].
  apply Forall_app. split; [by apply student_lines_one_line|].
  constructor; [done|]. by apply teacher_lines_one_line.
Qed.

Lemma read_file_text (sch : School) :
  School_storable sch -> read_lines (file_text sch) = file_lines sch.
Proof.
  intros H. rewrite file_text_unlines, <- (app_nil_r_s (unlines _)).
  rewrite read_lines_unlines_app by by apply file_lines_one_line.
  apply app_nil_r.
Qed.

(** The students' part needs nothing of the teachers. *)
Lemma file_text_split (sch : School) :
  file_text sch =
  unlines ("Students" :: map Student.line (students sch) ++ ["Teachers"]) +:+
  write_all Teacher.saveToFile (teachers sch).
Proof.
  unfold file_text. rewrite write_all_student. cbn [unlines].
  rewrite unlines_app. cbn [unlines]. by autorewrite with cpp.
Qed.

Lemma read_file_text_students (sch : School) :
  Forall (fun s => one_line (Student.line s)) (students sch) ->
  read_lines (file_text sch) =
  "Students" :: map Student.line (students sch) ++
  "Teachers" :: read_lines (write_all Teacher.saveToFile (teachers sch)).
Proof.
  intros Hs. rewrite file_text_split, read_lines_unlines_app.
  - cbn [app]. by rewrite <- app_assoc.
  - constructor; [done|]. apply Forall_app. split; [|by constructor].
    by apply Forall_map.
Qed.

Lemma storable_one_line (ss : list Student.t) :
  Forall Student.storable ss -> Forall (fun s => one_line (Student.line s)) ss.
Proof. intros H. eapply Forall_impl; [exact H|]. apply student_line_one_line. Qed.

End Writing.

(** ** Invariants of the reader *)

Section ReaderInvariants.

Lemma push_student_wf (s : Student.t) (sch : School) :
  Student.wf s -> School_wf sch -> School_wf (push_student s sch).
Proof.
  intros Hs [Hss Hts]. split; [|done]. apply Forall_app. by split; [|constructor].
Qed.

Lemma push_teacher_wf (x : Teacher.t) (sch : School) :
  Teacher.wf x -> School_wf sch -> School_wf (push_teacher x sch).
Proof.
  intros Hx [Hss Hts]. split; [done|]. apply Forall_app. by split; [|constructor].
Qed.

Lemma extends_trans (a b c : School) : extends a b -> extends b c -> extends a c.
Proof.
  intros (? & ? & ?) (? & ? & ?). split_and!; [by etrans..|congruence].
Qed.

Lemma extends_push_student (s : Student.t) (sch : School) : extends sch (push_student s sch).
Proof. split_and!; [by apply prefix_app_r|done..]. Qed.

Lemma extends_push_teacher (x : Teacher.t) (sch : School) : extends sch (push_teacher x sch).
Proof. split_and!; [done|by apply prefix_app_r|done]. Qed.

(** What holds of the school before the load and is kept by every record
    the decoders return holds of the school each of the three loops
    returns. *)
Lemma reader_ind (I : School -> Prop) :
  (forall l s sch, parse_student l = Ok s -> I sch -> I (push_student s sch)) ->
  (forall l x sch, parse_teacher l = Ok x -> I sch -> I (push_teacher x sch)) ->
  forall ls sch sch', I sch ->
    (load_lines ls sch = Ok sch' -> I sch') /\
    (students_loop ls sch = Ok sch' -> I sch') /\
    (teachers_loop ls sch = Ok sch' -> I sch').
Proof.
  intros Hs Ht ls. induction ls as [|l ls IH]; intros sch sch' HI;
    cbn [load_lines students_loop teachers_loop].
  - by split_and!; intros [= <-].
  - split_and!; repeat case_match; intros Hl; res_inv;
      match goal with
      | Hl : _ ls ?sch0 = Ok _ |- _ =>
          destruct (IH sch0 sch') as (? & ? & ?); eauto
      end.
Qed.

Lemma load_lines_wf (ls : list string) (sch sch' : School) :
  load_lines ls sch = Ok sch' -> School_wf sch -> School_wf sch'.
Proof.
  intros Hl Hwf. refine (proj1 (reader_ind School_wf _ _ ls sch sch' Hwf) Hl).
  - intros l s sch0 Hp. apply push_student_wf. by eapply parse_student_wf.
  - intros l x sch0 Hp. apply push_teacher_wf. by eapply parse_teacher_wf.
Qed.

Lemma load_lines_extends (ls : list string) (sch sch' : School) :
  load_lines ls sch = Ok sch' -> extends sch sch'.
Proof.
  intros Hl. refine (proj1 (reader_ind (extends sch) _ _ ls sch sch' _) Hl).
  - intros l s sch0 _ H0. eapply extends_trans; [exact H0|apply extends_push_student].
  - intros l x sch0 _ H0. eapply extends_trans; [exact H0|apply extends_push_teacher].
  - by split_and!.
Qed.

End ReaderInvariants.

(** ** A section read back, proved against the interface *)

Section SectionRoundTrip.
Context {R : Type} `{LineCodec R}.
Variable push : R -> School -> School.

(** The loop reads the lines of storable records back, in order, and goes
    on with what follows them. *)
Lemma section_loop_encoded (rs : list R) (tail : list string) (sch : School) :
  Forall storable rs ->
  section_loop push (map encode rs ++ tail) sch =
  section_loop push tail (fold_left (fun s r => push r s) rs sch).
Proof.
  intros Hrs. revert sch. induction Hrs as [|r rs Hr _ IH]; intros sch; [done|].
  cbn [map app section_loop fold_left].
  rewrite (proj2 (String.eqb_neq _ _)) by apply encode_nonempty.
  rewrite decode_encode by done. apply IH.
Qed.

End SectionRoundTrip.

Section Sections.

Lemma students_loop_section (ls : list string) (sch : School) :
  students_loop ls sch =
  (r <- section_loop push_student ls sch ;; load_lines r.2 r.1).
Proof.
  revert sch. induction ls as [|l ls IH]; intros sch; [done|].
  cbn [students_loop section_loop]. case_match; [done|].
  cbn [decode student_codec]. destruct (parse_student l); [|done]. apply IH.
Qed.

Lemma teachers_loop_section (ls : list string) (sch : School) :
  teachers_loop ls sch =
  (r <- section_loop push_teacher ls sch ;; load_lines r.2 r.1).
Proof.
  revert sch. induction ls as [|l ls IH]; intros sch; [done|].
  cbn [teachers_loop section_loop]. case_match; [done|].
  cbn [decode teacher_codec]. destruct (parse_teacher l); [|done]. apply IH.
Qed.

Lemma fold_push_student (ss : list Student.t) (sch : School) :
  fold_left (fun s r => push_student r s) ss sch = push_all ss [] sch.
Proof.
  revert sch. induction ss as [|s ss IH]; intros [a b c]; unfold push_all; simpl.
  - by rewrite !app_nil_r.
  - rewrite IH. unfold push_all. simpl. by rewrite <- !app_assoc.
Qed.

Lemma fold_push_teacher (ts : list Teacher.t) (sch : School) :
  fold_left (fun s r => push_teacher r s) ts sch = push_all [] ts sch.
Proof.
  revert sch. induction ts as [|x ts IH]; intros [a b c]; unfold push_all; simpl.
  - by rewrite !app_nil_r.
  - rewrite IH. unfold push_all. simpl. by rewrite <- !app_assoc.
Qed.

Lemma students_loop_lines (ss : list Student.t) (tail : list string) (sch : School) :
  Forall Student.wf ss -> Forall Student.storable ss ->
  students_loop (map Student.line ss ++ tail) sch =
  students_loop tail (push_all ss [] sch).
Proof.
  intros Hwf Hst. rewrite !students_loop_section.
  rewrite (section_loop_encoded (H := student_codec)), fold_push_student; [done|].
  apply Forall_and. by split.
Qed.

Lemma teachers_loop_lines (ts : list Teacher.t) (tail : list string) (sch : School) :
  Forall Teacher.wf ts -> Forall Teacher.storable ts ->
  teachers_loop (map Teacher.line ts ++ tail) sch =
  teachers_loop tail (push_all [] ts sch).
Proof.
  intros Hwf Hst. rewrite !teachers_loop_section.
  rewrite (section_loop_encoded (H := teacher_codec)), fold_push_teacher; [done|].
  apply Forall_and. by split.
Qed.

End Sections.

(** ** Whole files *)

Section Files.

(** A file whose Students section ends in a blank line loads to the records
    it lists, appended to those already there. *)
Lemma load_separated (ss : list Student.t) (ts : list Teacher.t) (sch : School) :
  Forall Student.wf ss -> Forall Student.storable ss ->
  Forall Teacher.wf ts -> Forall Teacher.storable ts ->
  load_lines ("Students" :: map Student.line ss ++
              "" :: "Teachers" :: map Teacher.line ts) sch =
  Ok (push_all ss ts sch).
Proof.
  intros Hsw Hss Htw Hts. cbn [load_lines String.eqb Ascii.eqb Bool.eqb].
  rewrite students_loop_lines by done. cbn [students_loop load_lines String.eqb
    Ascii.eqb Bool.eqb].
  rewrite <- (app_nil_r (map Teacher.line ts)), teachers_loop_lines by done.
  cbn [teachers_loop]. unfold push_all. simpl. by rewrite !app_nil_r.
Qed.

(** The header "Teachers" is not a student. *)
Lemma parse_student_Teachers : parse_student "Teachers" = Throw invalid_argument.
Proof. reflexivity. Qed.

(** The lines [saveToFile] writes: nothing separates the sections, so the
    Students loop reads the "Teachers" header as a student and [stoi]
    throws on it. *)
Lemma load_file_lines_throws (sch sch0 : School) :
  Forall Student.wf (students sch) -> Forall Student.storable (students sch) ->
  load_lines (file_lines sch) sch0 = Throw invalid_argument.
Proof.
  intros Hwf Hst. unfold file_lines. cbn [load_lines String.eqb Ascii.eqb Bool.eqb].
  rewrite students_loop_lines by done. cbn [students_loop String.eqb].
  by rewrite parse_student_Teachers.
Qed.

Lemma load_file_text_throws (sch sch0 : School) :
  Forall Student.wf (students sch) -> Forall Student.storable (students sch) ->
  load_lines (read_lines (file_text sch)) sch0 = Throw invalid_argument.
Proof.
  intros Hwf Hst. rewrite read_file_text_students by by apply storable_one_line.
  cbn [load_lines String.eqb Ascii.eqb Bool.eqb].
  rewrite students_loop_lines by done. cbn [students_loop String.eqb].
  by rewrite parse_student_Teachers.
Qed.

(** Whatever the students are, the Students loop cannot get past the
    "Teachers" header. *)
Lemma students_loop_header_throws (ls tail : list string) (sch : School) :
  Forall (fun l => l <> "") ls ->
  throws (students_loop (ls ++ "Teachers" :: tail) sch) = true.
Proof.
  intros Hls. revert sch. induction Hls as [|l ls Hl _ IH]; intros sch.
  - reflexivity.
  - cbn [app students_loop]. rewrite (proj2 (String.eqb_neq _ _)) by done.
    destruct (parse_student l); [apply IH|done].
Qed.

End Files.

(** ** Files made of sections *)

Section Blocks.
Implicit Types (b : block) (bs : list block) (sch : School).

Lemma push_all_nil sch : push_all [] [] sch = sch.
Proof. destruct sch. unfold push_all. simpl. by rewrite !app_nil_r. Qed.

Lemma push_all_push_all (ss1 ss2 : list Student.t) (ts1 ts2 : list Teacher.t) sch :
  push_all ss2 ts2 (push_all ss1 ts1 sch) = push_all (ss1 ++ ss2) (ts1 ++ ts2) sch.
Proof. unfold push_all. simpl. by rewrite !app_assoc. Qed.

(** A line outside a section is passed over; a section is read to its
    blank line, and the outer loop goes on with what follows. *)
Lemma load_block b (tail : list string) sch :
  block_ok b ->
  load_lines (block_lines b ++ tail) sch =
  load_lines tail (push_all (block_students b) (block_teachers b) sch).
Proof.
  destruct b as [l|ss|ts]; cbn [block_ok block_lines last_lines block_students
    block_teachers app].
  - intros (_ & Hs & Ht). cbn [load_lines].
    by rewrite !(proj2 (String.eqb_neq _ _)), push_all_nil.
  - intros [Hwf Hst]. cbn [load_lines String.eqb Ascii.eqb Bool.eqb].
    rewrite <- app_assoc, students_loop_lines by done. reflexivity.
  - intros [Hwf Hst]. cbn [load_lines String.eqb Ascii.eqb Bool.eqb].
    rewrite <- app_assoc, teachers_loop_lines by done. reflexivity.
Qed.

Lemma load_blocks bs (tail : list string) sch :
  Forall block_ok bs ->
  load_lines (blocks_lines bs ++ tail) sch =
  load_lines tail (push_all (blocks_students bs) (blocks_teachers bs) sch).
Proof.
  intros Hbs. revert sch. induction Hbs as [|b bs Hb _ IH]; intros sch.
  - by rewrite push_all_nil.
  - unfold blocks_lines, blocks_students, blocks_teachers. cbn [map concat].
    rewrite <- app_assoc, load_block by done.
    fold (blocks_lines bs). rewrite IH. by rewrite push_all_push_all.
Qed.

(** A section that ends the file needs no blank line. *)
Lemma load_last_block b sch :
  block_ok b ->
  load_lines (last_lines b) sch = Ok (push_all (block_students b) (block_teachers b) sch).
Proof.
  destruct b as [l|ss|ts]; cbn [block_ok last_lines block_students block_teachers].
  - intros (_ & Hs & Ht). cbn [load_lines].
    by rewrite !(proj2 (String.eqb_neq _ _)), push_all_nil.
  - intros [Hwf Hst]. cbn [load_lines String.eqb Ascii.eqb Bool.eqb].
    by rewrite <- (app_nil_r (map _ ss)), students_loop_lines.
  - intros [Hwf Hst]. cbn [load_lines String.eqb Ascii.eqb Bool.eqb].
    by rewrite <- (app_nil_r (map _ ts)), teachers_loop_lines.
Qed.

Lemma last_lines_one_line b : block_ok b -> Forall one_line (last_lines b).
Proof.
  destruct b as [l|ss|ts]; cbn [block_ok last_lines].
  - intros (Hl & _). by constructor.
  - intros [_ Hst]. constructor; [done|]. by apply student_lines_one_line.
  - intros [_ Hst]. constructor; [done|]. by apply teacher_lines_one_line.
Qed.

Lemma block_lines_one_line b : block_ok b -> Forall one_line (block_lines b).
Proof.
  intros Hb. pose proof (last_lines_one_line b Hb) as Hl.
  destruct b; cbn [block_lines]; [done|apply Forall_app; by split; [|constructor]..].
Qed.

Lemma blocks_lines_one_line bs : Forall block_ok bs -> Forall one_line (blocks_lines bs).
Proof.
  induction 1 as [|b bs Hb _ IH]; [constructor|].
  unfold blocks_lines. cbn [map concat]. apply Forall_app.
  split; [by apply block_lines_one_line|done].
Qed.

Lemma blocks_students_snoc bs b :
  blocks_students (bs ++ [b]) = blocks_students bs ++ block_students b.
Proof.
  unfold blocks_students. by rewrite map_app, concat_app; cbn [map concat]; rewrite app_nil_r.
Qed.

Lemma blocks_teachers_snoc bs b :
  blocks_teachers (bs ++ [b]) = blocks_teachers bs ++ block_teachers b.
Proof.
  unfold blocks_teachers. by rewrite map_app, concat_app; cbn [map concat]; rewrite app_nil_r.
Qed.

End Blocks.

(** * Properties *)

(** C1. The file [saveToFile] writes cannot be loaded.  For students that
    satisfy the class invariant and whose text fields hold no comma and no
    newline, the lines of the text written are the header "Students", one
    line per student, and directly after them the header "Teachers"; the
    Students loop, which ends only at a blank line or at the end of the
    file, decodes that header as a student, and [stoi] throws
    [invalid_argument] on it.  This holds for every list of teachers and
    for the empty school too. *)
Theorem saved_file_throws (sch sch0 : School) :
  Forall Student.wf (students sch) -> Forall Student.storable (students sch) ->
  read_lines (file_text sch) =
    "Students" :: map Student.line (students sch) ++
    "Teachers" :: read_lines (write_all Teacher.saveToFile (teachers sch)) /\
  load_lines (read_lines (file_text sch)) sch0 = Throw invalid_argument.
Proof.
  intros Hwf Hst. split; [|by apply load_file_text_throws].
  by apply read_file_text_students, storable_one_line.
Qed.

Lemma saved_file_throws_witness :
  read_lines (file_text sample_school) =
    "Students" :: map Student.line (students sample_school) ++
    "Teachers" :: read_lines (write_all Teacher.saveToFile (teachers sample_school)) /\
  load_lines (read_lines (file_text sample_school)) empty_school = Throw invalid_argument.
Proof. apply (saved_file_throws sample_school empty_school); by_compute. Defined.

(** C2. A file in which a blank line ends the Students section loads to
    the records it lists, in the order of the file, appended to the records
    the school already has. *)
Theorem separated_file_loads (ss : list Student.t) (ts : list Teacher.t) (sch : School) :
  Forall Student.wf ss -> Forall Student.storable ss ->
  Forall Teacher.wf ts -> Forall Teacher.storable ts ->
  load_lines
    (read_lines (unlines ("Students" :: map Student.line ss ++
                          "" :: "Teachers" :: map Teacher.line ts))) sch =
  Ok (push_all ss ts sch).
Proof.
  intros Hsw Hss Htw Hts.
  rewrite <- (app_nil_r_s (unlines _)), read_lines_unlines_app, app_nil_r.
  - by apply load_separated.
  - constructor; [done|]. apply Forall_app.
    split; [by apply student_lines_one_line|].
    do 2 (constructor; [done|]). by apply teacher_lines_one_line.
Qed.

Lemma separated_file_loads_witness :
  load_lines
    (read_lines (unlines ("Students" :: map Student.line [alice] ++
                          "" :: "Teachers" :: map Teacher.line [carol]))) empty_school =
  Ok (push_all [alice] [carol] empty_school).
Proof. apply (separated_file_loads [alice] [carol] empty_school); by_compute. Defined.

(** C5. Every file made of sections loads to the records it lists.  A
    file is any sequence of lines that are no header and of sections, each
    a header "Students" or "Teachers" and one line per record, with a blank
    line after every section but the last, where it may be missing.  The
    reader passes over the lines outside the sections, returns to the outer
    loop at each blank line, and appends the students of all the Students
    sections and the teachers of all the Teachers sections, in the order of
    the file, to what the school holds. *)
Theorem sectioned_file_loads (bs : list block) (b : block) (sch : School) :
  Forall block_ok bs -> block_ok b ->
  load_lines (read_lines (unlines (blocks_lines bs))) sch =
    Ok (push_all (blocks_students bs) (blocks_teachers bs) sch) /\
  load_lines (read_lines (unlines (blocks_lines bs ++ last_lines b))) sch =
    Ok (push_all (blocks_students (bs ++ [b])) (blocks_teachers (bs ++ [b])) sch).
Proof.
  intros Hbs Hb. split.
  - rewrite lines_roundtrip by by apply blocks_lines_one_line.
    by rewrite <- (app_nil_r (blocks_lines bs)), load_blocks.
  - rewrite lines_roundtrip.
    + rewrite load_blocks, load_last_block, push_all_push_all by done.
      by rewrite blocks_students_snoc, blocks_teachers_snoc.
    + apply Forall_app. split; [by apply blocks_lines_one_line|by apply last_lines_one_line].
Qed.

Lemma sectioned_file_loads_witness :
  load_lines (read_lines (unlines (blocks_lines sample_blocks))) sample_school =
    Ok (push_all (blocks_students sample_blocks) (blocks_teachers sample_blocks)
          sample_school) /\
  load_lines (read_lines (unlines (blocks_lines sample_blocks ++
                                   last_lines (StudentsSection [alice])))) sample_school =
    Ok (push_all (blocks_students (sample_blocks ++ [StudentsSection [alice]]))
          (blocks_teachers (sample_blocks ++ [StudentsSection [alice]])) sample_school).
Proof.
  apply (sectioned_file_loads sample_blocks (StudentsSection [alice]) sample_school);
    by_compute.
Defined.

(** C35. Loading preserves the invariant of the store and only appends:
    when [load_lines] returns, every record of the result satisfies its
    class invariant if every record of the initial school did, the initial
    students and teachers are prefixes of the final ones, and [filePath] is
    unchanged. *)
Theorem load_preserves_invariant (ls : list string) (sch sch' : School) :
  load_lines ls sch = Ok sch' ->
  (School_wf sch -> School_wf sch') /\ extends sch sch'.
Proof.
  intros Hl. split; [by apply (load_lines_wf ls)|by apply (load_lines_extends ls)].
Qed.

Lemma load_preserves_invariant_witness :
  (School_wf empty_school -> School_wf (push_all [alice] [] empty_school)) /\
  extends empty_school (push_all [alice] [] empty_school).
Proof.
  apply (load_preserves_invariant ["Students"; Student.line alice] empty_school).
  reflexivity.
Defined.

(** C31. A line of the Students section that does not decode aborts the
    load with the decoder's exception: the line is not skipped, the records
    read before it are not returned, and the lines after it are never
    read. *)
Theorem bad_line_aborts_load (ss : list Student.t) (bad : string)
    (tail : list string) (sch : School) (e : exn) :
  Forall Student.wf ss -> Forall Student.storable ss ->
  bad <> "" -> parse_student bad = Throw e ->
  load_lines ("Students" :: map Student.line ss ++ bad :: tail) sch = Throw e.
Proof.
  intros Hwf Hst Hne He. cbn [load_lines String.eqb Ascii.eqb Bool.eqb].
  rewrite students_loop_lines by done. cbn [students_loop].
  rewrite (proj2 (String.eqb_neq _ _)) by done. by rewrite He.
Qed.

Lemma bad_line_aborts_load_witness :
  load_lines ("Students" :: map Student.line [alice] ++
              "Bob,x1,10B,1,2,3,4" :: [Student.line alice]) empty_school =
  Throw invalid_argument.
Proof.
  apply (bad_line_aborts_load [alice] "Bob,x1,10B,1,2,3,4" [Student.line alice]
           empty_school invalid_argument); first [by_compute | reflexivity | done].
Defined.

(** The file [saveToFile] wrote never loads, whatever the records
    are: as long as no student's line holds a newline, reading the text
    written ends in an exception. *)
Theorem saved_file_never_loads (sch sch0 : School) :
  Forall (fun s => one_line (Student.line s)) (students sch) ->
  throws (load_lines (read_lines (file_text sch)) sch0) = true.
Proof.
  intros Hs. rewrite read_file_text_students by done.
  cbn [load_lines String.eqb Ascii.eqb Bool.eqb].
  apply students_loop_header_throws, Forall_map, Forall_forall.
  intros s _. apply student_line_nonempty.
Qed.

Lemma saved_file_never_loads_witness :
  throws (load_lines (read_lines (file_text sample_school)) empty_school) = true.
Proof. apply (saved_file_never_loads sample_school empty_school). by_compute. Defined.

(** C36. An inner loop, for any record type with a line format that
    satisfies the interface [LineCodec]: it reads the lines of storable
    records back in order and stops after the blank line that follows
    them, or at the end of the file. *)
Theorem section_reads_back {R : Type} `{LineCodec R} (push : R -> School -> School)
    (rs : list R) (tail : list string) (sch : School) :
  Forall storable rs ->
  section_loop push (map encode rs ++ "" :: tail) sch =
    Ok (fold_left (fun s r => push r s) rs sch, tail) /\
  section_loop push (map encode rs) sch =
    Ok (fold_left (fun s r => push r s) rs sch, []).
Proof.
  intros Hrs. split.
  - by rewrite section_loop_encoded.
  - by rewrite <- (app_nil_r (map encode rs)), section_loop_encoded.
Qed.

Lemma section_reads_back_witness :
  section_loop push_teacher (map encode [carol] ++ "" :: ["Students"]) empty_school =
    Ok (fold_left (fun s r => push_teacher r s) [carol] empty_school, ["Students"]) /\
  section_loop push_teacher (map encode [carol]) empty_school =
    Ok (fold_left (fun s r => push_teacher r s) [carol] empty_school, []).
Proof.
  apply (section_reads_back push_teacher [carol] ["Students"] empty_school).
  repeat constructor; by_compute.
Defined.
