(* ===== verification/Store.v ===== *)
(** The [School] object at work: the world its member functions act on (the
    disk, what can be opened for writing, what was printed), the
    constructor, [saveToFile], [loadFromFile], the four mutating handlers
    from the point where their input has been read, the two dashboards,
    and sessions of commands. *)

From Stdlib Require Import ZArith Ascii String Lia.
From stdpp Require Import base tactics option list numbers strings gmap.
From S2P Require Import Prelude CppString CppInt CppDouble Printing Records Codec Persistence.

#[local] Open Scope res_scope.

(** ** The world *)

(** [resolve] is how the system turns the name given to a stream into a
    file, from the working directory of the process; [can_write] says which
    files open for writing; neither changes while the program runs. *)
Record World : Type := mkWorld {
  resolve : string -> string;
  can_write : string -> bool;
  disk : gmap string string;
  cout : string
}.

(** [cout << msg] *)
Definition print (msg : string) (w : World) : World :=
  mkWorld (resolve w) (can_write w) (disk w) (cout w +:+ msg).

(** An output stream opened on [path], written with [text] and closed. *)
Definition write_file (path text : string) (w : World) : World :=
  mkWorld (resolve w) (can_write w) (<[resolve w path := text]> (disk w)) (cout w).

Definition endl : string := String newline "".

(** ** [saveToFile] and [loadFromFile] *)

Definition saveToFile (sch : School) (w : World) : World :=
  if can_write w (resolve w (filePath sch))
  then write_file (filePath sch) (file_text sch) w
  else print ("Error opening file for saving!" +:+ endl) w.

Definition loadFromFile (sch : School) (w : World) : res (School * World) :=
  match disk w !! resolve w load_filePath with
  | None => Ok (sch, print ("No existing data found. Starting fresh." +:+ endl) w)
  | Some text =>
      sch' <- load_lines (read_lines text) sch ;;
      Ok (sch', print ("Data loaded from file successfully!" +:+ endl) w)
  end.

(** The constructor [School()]: empty vectors, the default path, and the
    body calls [loadFromFile]. *)
Definition construct (w : World) : res (School * World) :=
  loadFromFile (mkSchool [] [] default_filePath) w.

(** ** The handlers *)

(** [addStudent], once name, id, class and the four grades are read. *)
Definition addStudent (name : string) (id : Z) (studentClass : string)
    (grades : list Z) (sch : School) (w : World) : School * World :=
  let sch' := push_student (Student.make name id studentClass grades) sch in
  let w' := print ("Student added successfully!" +:+ endl) w in
  (sch', saveToFile sch' w').

(** [addTeacher], once name, id, subject and category are read. *)
Definition addTeacher (name : string) (id : Z) (subject grade : string)
    (sch : School) (w : World) : School * World :=
  let sch' := push_teacher (Teacher.make name id subject grade) sch in
  let w' := print ("Teacher added successfully!" +:+ endl) w in
  (sch', saveToFile sch' w').

(** The loop of the delete handlers: the position of the first element
    whose id is [id]. *)
Fixpoint find_id {R : Type} (getId : R -> Z) (id : Z) (l : list R) : option nat :=
  match l with
  | [] => None
  | r :: l' => if Z.eqb (getId r) id then Some 0 else S <$> find_id getId id l'
  end.

Definition student_id (s : Student.t) : Z := getId s.
Definition teacher_id (x : Teacher.t) : Z := getId x.

(** [deleteStudent], once the id is read. *)
Definition deleteStudent (id : Z) (sch : School) (w : World) : School * World :=
  match find_id student_id id (students sch) with
  | Some i =>
      let sch' := mkSchool (delete i (students sch)) (teachers sch) (filePath sch) in
      let w' := print ("Student deleted successfully!" +:+ endl) w in
      (sch', saveToFile sch' w')
  | None => (sch, print ("Student not found!" +:+ endl) w)
  end.

(** [deleteTeacher], once the id is read. *)
Definition deleteTeacher (id : Z) (sch : School) (w : World) : School * World :=
  match find_id teacher_id id (teachers sch) with
  | Some i =>
      let sch' := mkSchool (students sch) (delete i (teachers sch)) (filePath sch) in
      let w' := print ("Teacher deleted successfully!" +:+ endl) w in
      (sch', saveToFile sch' w')
  | None => (sch, print ("Teacher not found!" +:+ endl) w)
  end.

(** The body of the loop of a dashboard: the details of one record, then
    a rule. *)
Definition display_row {R : Type} `{Derived R} (w : World) (r : R) : World :=
  print ("----------------------" +:+ endl) (print (displayDetails r) w).

(** [displayStudentsDashboard] *)
Definition displayStudentsDashboard (sch : School) (w : World) : World :=
  match students sch with
  | [] => print ("No students available." +:+ endl) w
  | ss =>
      fold_left display_row ss
        (print (endl +:+ "--- Students Dashboard ---" +:+ endl) w)
  end.

(** [displayTeachersDashboard] *)
Definition displayTeachersDashboard (sch : School) (w : World) : World :=
  match teachers sch with
  | [] => print ("No teachers available." +:+ endl) w
  | ts =>
      fold_left display_row ts
        (print (endl +:+ "--- Teachers Dashboard ---" +:+ endl) w)
  end.

(** ** Sessions *)

(** The requests of the menu that change or show the store, with the input
    they read. *)
Inductive command : Type :=
| AddStudent (name : string) (id : Z) (studentClass : string) (grades : list Z)
| AddTeacher (name : string) (id : Z) (subject grade : string)
| ViewStudents
| ViewTeachers
| DeleteStudent (id : Z)
| DeleteTeacher (id : Z).

Definition run_command (c : command) (st : School * World) : School * World :=
  match c with
  | AddStudent n i c g => addStudent n i c g st.1 st.2
  | AddTeacher n i s g => addTeacher n i s g st.1 st.2
  | ViewStudents => (st.1, displayStudentsDashboard st.1 st.2)
  | ViewTeachers => (st.1, displayTeachersDashboard st.1 st.2)
  | DeleteStudent i => deleteStudent i st.1 st.2
  | DeleteTeacher i => deleteTeacher i st.1 st.2
  end.

Definition run_session (cs : list command) (st : School * World) : School * World :=
  fold_left (fun st c => run_command c st) cs st.

(** What the class invariant needs of the input of a command: a record
    added has an [int] id and, a student, four [int] grades.  Nothing is
    asked of the id of a delete here ([Turns.command_read] adds that it is
    an [int], which is what a handler reads). *)
Definition command_ok (c : command) : Prop :=
  match c with
  | AddStudent _ i _ g => in_int i /\ length g = 4 /\ Forall in_int g
  | AddTeacher _ i _ _ => in_int i
  | _ => True
  end.

#[export] Instance command_ok_dec (c : command) : Decision (command_ok c).
Proof. destruct c; simpl; apply _. Defined.

(** The file of [saveToFile] holds the text of the school. *)
Definition synced (sch : School) (w : World) : Prop :=
  disk w !! resolve w (filePath sch) = Some (file_text sch).

(** Two worlds that differ in what was printed and in the disk only. *)
Definition same_system (w w' : World) : Prop :=
  resolve w' = resolve w /\ can_write w' = can_write w.

(** Two worlds with the same files: they differ at most in what was
    printed. *)
Definition same_files (w w' : World) : Prop :=
  resolve w = resolve w' /\ can_write w = can_write w' /\ disk w = disk w'.

(** The same school over the same files. *)
Definition same_state (st st' : School * World) : Prop :=
  st.1 = st'.1 /\ same_files st.2 st'.2.

(** ** Sample worlds and records *)

(** A system where every name is its own file and every file opens. *)
Definition sample_world : World := mkWorld (fun p => p) (fun _ => true) ∅ "".

(** A system where the two paths of the program name one file. *)
Definition aliased_world : World := mkWorld (fun _ => "db") (fun _ => true) ∅ "".

(** A system where no file opens for writing. *)
Definition readonly_world : World := mkWorld (fun p => p) (fun _ => false) ∅ "".

(** A second student with the id of [alice]. *)
Definition dave : Student.t := Student.make "Dave" 1 "10B" [9; 9; 9; 9]%Z.
Definition erin : Student.t := Student.make "Erin" 2 "10B" [10; 10; 10; 10]%Z.

(** ** The world under the member functions *)

Section WorldFacts.
Implicit Types (sch : School) (w : World).

Lemma saveToFile_same_system sch w : same_system w (saveToFile sch w).
Proof. unfold saveToFile. by case_match. Qed.

Lemma saveToFile_synced sch w :
  can_write w (resolve w (filePath sch)) = true -> synced sch (saveToFile sch w).
Proof.
  intros Hw. unfold synced, saveToFile. rewrite Hw. simpl. apply lookup_insert_eq.
Qed.

Lemma saveToFile_refused sch w :
  can_write w (resolve w (filePath sch)) = false ->
  saveToFile sch w = print ("Error opening file for saving!" +:+ endl) w.
Proof. intros Hw. unfold saveToFile. by rewrite Hw. Qed.

Lemma saveToFile_other_file sch w (p : string) :
  p <> resolve w (filePath sch) -> disk (saveToFile sch w) !! p = disk w !! p.
Proof.
  intros Hp. unfold saveToFile. case_match; [|done]. simpl.
  by apply lookup_insert_ne.
Qed.

Lemma saveToFile_cout sch w :
  can_write w (resolve w (filePath sch)) = true -> cout (saveToFile sch w) = cout w.
Proof. intros Hw. unfold saveToFile. by rewrite Hw. Qed.

Lemma loadFromFile_missing sch w :
  disk w !! resolve w load_filePath = None ->
  loadFromFile sch w =
  Ok (sch, print ("No existing data found. Starting fresh." +:+ endl) w).
Proof. intros H. unfold loadFromFile. by rewrite H. Qed.

Lemma loadFromFile_wf sch sch' w w' :
  loadFromFile sch w = Ok (sch', w') -> School_wf sch -> School_wf sch'.
Proof.
  unfold loadFromFile. case_match; intros Hl; res_inv; [|done].
  by eapply load_lines_wf.
Qed.

Lemma loadFromFile_disk sch sch' w w' :
  loadFromFile sch w = Ok (sch', w') -> disk w' = disk w /\ same_system w w'.
Proof. unfold loadFromFile. case_match; intros Hl; by res_inv. Qed.

End WorldFacts.

(** ** Finding and erasing the first match *)

Section FindId.
Context {R : Type} (getId : R -> Z).

Lemma find_id_first (id : Z) (l1 l2 : list R) (r : R) :
  Forall (fun r' => getId r' <> id) l1 -> getId r = id ->
  find_id getId id (l1 ++ r :: l2) = Some (length l1).
Proof.
  intros H1 Hr. induction H1 as [|r' l1 Hr' _ IH]; cbn [app find_id length].
  - by rewrite (proj2 (Z.eqb_eq _ _) Hr).
  - by rewrite (proj2 (Z.eqb_neq _ _) Hr'), IH.
Qed.

Lemma find_id_None (id : Z) (l : list R) :
  find_id getId id l = None <-> Forall (fun r => getId r <> id) l.
Proof.
  induction l as [|r l IH]; cbn [find_id]; [done|].
  destruct (Z.eqb_spec (getId r) id) as [Heq|Hne].
  - split; [done|]. by intros [? _]%Forall_cons.
  - rewrite Forall_cons, <- IH.
    destruct (find_id getId id l); split; try done. by intros [_ ?].
Qed.

Lemma find_id_Some (id : Z) (l : list R) (i : nat) :
  find_id getId id l = Some i ->
  exists l1 r l2, l = l1 ++ r :: l2 /\ length l1 = i /\ getId r = id /\
                  Forall (fun r' => getId r' <> id) l1.
Proof.
  revert i. induction l as [|r l IH]; cbn [find_id]; [done|]. intros i.
  destruct (Z.eqb_spec (getId r) id) as [Heq|Hne].
  - intros [= <-]. by exists [], r, l.
  - destruct (find_id getId id l) as [j|]; [|done]. intros [= <-].
    destruct (IH j eq_refl) as (l1 & r' & l2 & -> & <- & Hr' & Hl1).
    exists (r :: l1), r', l2. split_and!; try done. by constructor.
Qed.

Lemma find_id_lt (id : Z) (l : list R) (i : nat) :
  find_id getId id l = Some i -> i < length l.
Proof.
  intros (l1 & r & l2 & -> & <- & _)%find_id_Some.
  rewrite length_app. simpl. lia.
Qed.

End FindId.

(** ** The delete handlers *)

Section Delete.
Implicit Types (sch : School) (w : World).

(** The first student with the id goes, and only that one; the school is
    saved afterwards. *)
Lemma deleteStudent_first (id : Z) sch w (l1 l2 : list Student.t) (s : Student.t) :
  students sch = l1 ++ s :: l2 ->
  Forall (fun s' => student_id s' <> id) l1 -> student_id s = id ->
  let sch' := mkSchool (l1 ++ l2) (teachers sch) (filePath sch) in
  deleteStudent id sch w =
  (sch', saveToFile sch' (print ("Student deleted successfully!" +:+ endl) w)).
Proof.
  intros Hl H1 Hs. unfold deleteStudent.
  rewrite Hl, (find_id_first _ _ _ _ _ H1 Hs). by rewrite delete_middle.
Qed.

Lemma deleteTeacher_first (id : Z) sch w (l1 l2 : list Teacher.t) (x : Teacher.t) :
  teachers sch = l1 ++ x :: l2 ->
  Forall (fun x' => teacher_id x' <> id) l1 -> teacher_id x = id ->
  let sch' := mkSchool (students sch) (l1 ++ l2) (filePath sch) in
  deleteTeacher id sch w =
  (sch', saveToFile sch' (print ("Teacher deleted successfully!" +:+ endl) w)).
Proof.
  intros Hl H1 Hx. unfold deleteTeacher.
  rewrite Hl, (find_id_first _ _ _ _ _ H1 Hx). by rewrite delete_middle.
Qed.

Lemma deleteTeacher_absent (id : Z) sch w :
  Forall (fun x => teacher_id x <> id) (teachers sch) ->
  deleteTeacher id sch w = (sch, print ("Teacher not found!" +:+ endl) w).
Proof.
  intros H. unfold deleteTeacher. by rewrite (proj2 (find_id_None _ _ _) H).
Qed.

(** Deleting never lengthens, and shortens by exactly one when it finds. *)
Lemma deleteStudent_length (id : Z) sch w :
  length (students (deleteStudent id sch w).1) =
  match find_id student_id id (students sch) with
  | Some _ => pred (length (students sch))
  | None => length (students sch)
  end.
Proof.
  unfold deleteStudent. destruct (find_id _ _ _) as [i|] eqn:E; [|done].
  cbn [fst students]. apply find_id_lt in E.
  rewrite length_delete; [lia|]. by apply lookup_lt_is_Some_2.
Qed.

End Delete.

(** ** Invariants of a session *)

Section Session.
Implicit Types (sch : School) (w : World) (st : School * World) (c : command).

Lemma run_command_wf c st :
  command_ok c -> School_wf st.1 -> School_wf (run_command c st).1.
Proof.
  destruct st as [sch w], c; cbn [run_command fst snd command_ok]; intros Hc Hwf.
  - destruct Hc as (? & ? & ?). apply push_student_wf; [by apply make_wf|done].
  - by apply push_teacher_wf.
  - done.
  - done.
  - unfold deleteStudent. case_match; [|done]. destruct Hwf.
    split; [by apply Forall_delete|done].
  - unfold deleteTeacher. case_match; [|done]. destruct Hwf.
    split; [done|by apply Forall_delete].
Qed.

Lemma run_command_filePath c st : filePath (run_command c st).1 = filePath st.1.
Proof.
  destruct st as [sch w], c; cbn [run_command fst snd]; try done.
  - unfold deleteStudent. by case_match.
  - unfold deleteTeacher. by case_match.
Qed.

Lemma print_same_system (msg : string) w : same_system w (print msg w).
Proof. done. Qed.

Lemma same_system_trans w1 w2 w3 :
  same_system w1 w2 -> same_system w2 w3 -> same_system w1 w3.
Proof. intros [? ?] [? ?]. split; congruence. Qed.

Lemma display_rows_disk {R : Type} `{Derived R} (rs : list R) w :
  disk (fold_left display_row rs w) = disk w /\
  same_system w (fold_left display_row rs w).
Proof.
  revert w. induction rs as [|x rs IH]; intros w; [done|]. cbn [fold_left].
  destruct (IH (display_row w x)) as [-> Hs]. split; [done|].
  eapply same_system_trans; [|exact Hs]. done.
Qed.

Lemma displayStudentsDashboard_disk sch w :
  disk (displayStudentsDashboard sch w) = disk w /\
  same_system w (displayStudentsDashboard sch w).
Proof.
  unfold displayStudentsDashboard. destruct (students sch) as [|x ss]; [done|].
  destruct (display_rows_disk (x :: ss)
              (print (endl +:+ "--- Students Dashboard ---" +:+ endl) w)) as [-> Hs].
  split; [done|]. eapply same_system_trans; [|exact Hs]. done.
Qed.

Lemma displayTeachersDashboard_disk sch w :
  disk (displayTeachersDashboard sch w) = disk w /\
  same_system w (displayTeachersDashboard sch w).
Proof.
  unfold displayTeachersDashboard. destruct (teachers sch) as [|x ts]; [done|].
  destruct (display_rows_disk (x :: ts)
              (print (endl +:+ "--- Teachers Dashboard ---" +:+ endl) w)) as [-> Hs].
  split; [done|]. eapply same_system_trans; [|exact Hs]. done.
Qed.

End Session.

(** ** What is printed does not decide what is stored *)

Section SameFiles.
Implicit Types (sch : School) (w : World) (st : School * World) (c : command).

#[export] Instance same_files_equivalence : Equivalence same_files.
Proof.
  split.
  - done.
  - by intros w w' (? & ? & ?).
  - intros w1 w2 w3 (? & ? & ?) (? & ? & ?). split_and!; congruence.
Qed.

#[export] Instance same_state_equivalence : Equivalence same_state.
Proof.
  split.
  - done.
  - by intros st st' [? ?].
  - intros st1 st2 st3 [? ?] [? ?]. split; [congruence|by etrans].
Qed.

Lemma print_same_files (msg : string) w : same_files (print msg w) w.
Proof. done. Qed.

#[export] Instance print_proper (msg : string) :
  Proper (same_files ==> same_files) (print msg).
Proof. by intros w w' (? & ? & ?). Qed.

#[export] Instance saveToFile_proper sch :
  Proper (same_files ==> same_files) (saveToFile sch).
Proof.
  intros [r c d o] [r' c' d' o'] (Hr & Hc & Hd). cbn in Hr, Hc, Hd. subst r' c' d'.
  unfold saveToFile. cbn. by case_match.
Qed.

Lemma display_rows_same_files {R : Type} `{Derived R} (rs : list R) w :
  same_files (fold_left display_row rs w) w.
Proof.
  revert w. induction rs as [|r rs IH]; intros w; [done|]. cbn [fold_left].
  by rewrite IH.
Qed.

Lemma displayStudentsDashboard_same_files sch w :
  same_files (displayStudentsDashboard sch w) w.
Proof.
  unfold displayStudentsDashboard. destruct (students sch); [done|].
  by rewrite display_rows_same_files.
Qed.

Lemma displayTeachersDashboard_same_files sch w :
  same_files (displayTeachersDashboard sch w) w.
Proof.
  unfold displayTeachersDashboard. destruct (teachers sch); [done|].
  by rewrite display_rows_same_files.
Qed.

#[export] Instance run_command_proper c :
  Proper (same_state ==> same_state) (run_command c).
Proof.
  intros [sch w] [sch' w'] [Hs Hw]. cbn [fst snd] in Hs, Hw. subst sch'.
  destruct c; cbn [run_command fst snd].
  - split; [done|]. unfold addStudent. cbn [snd]. by rewrite Hw.
  - split; [done|]. unfold addTeacher. cbn [snd]. by rewrite Hw.
  - split; [done|]. cbn [snd]. by rewrite !displayStudentsDashboard_same_files.
  - split; [done|]. cbn [snd]. by rewrite !displayTeachersDashboard_same_files.
  - unfold deleteStudent. case_match; (split; [done|]); cbn [snd]; by rewrite Hw.
  - unfold deleteTeacher. case_match; (split; [done|]); cbn [snd]; by rewrite Hw.
Qed.

#[export] Instance run_session_proper (cs : list command) :
  Proper (same_state ==> same_state) (run_session cs).
Proof.
  induction cs as [|c cs IH]; intros st st' Hst; [done|].
  cbn [run_session fold_left]. apply IH. by rewrite Hst.
Qed.

End SameFiles.

Section SessionWorld.
Implicit Types (sch : School) (w : World) (st : School * World) (c : command).

Lemma save_after_print sch (msg : string) w :
  same_system w (saveToFile sch (print msg w)) /\
  forall p, p <> resolve w (filePath sch) ->
            disk (saveToFile sch (print msg w)) !! p = disk w !! p.
Proof.
  split.
  - eapply same_system_trans; [apply (print_same_system msg)|].
    apply saveToFile_same_system.
  - intros p Hp. by rewrite saveToFile_other_file.
Qed.

Lemma run_command_world c st :
  same_system st.2 (run_command c st).2 /\
  forall p, p <> resolve st.2 (filePath st.1) ->
            disk (run_command c st).2 !! p = disk st.2 !! p.
Proof.
  destruct st as [sch w], c; cbn [run_command fst snd] in *.
  - apply (save_after_print (push_student _ sch)).
  - apply (save_after_print (push_teacher _ sch)).
  - split; [apply displayStudentsDashboard_disk|]. intros p _.
    by rewrite (proj1 (displayStudentsDashboard_disk sch w)).
  - split; [apply displayTeachersDashboard_disk|]. intros p _.
    by rewrite (proj1 (displayTeachersDashboard_disk sch w)).
  - unfold deleteStudent. case_match; cbn [fst snd]; [|done].
    apply (save_after_print (mkSchool _ _ (filePath sch))).
  - unfold deleteTeacher. case_match; cbn [fst snd]; [|done].
    apply (save_after_print (mkSchool _ _ (filePath sch))).
Qed.

Lemma run_command_synced c st :
  can_write st.2 (resolve st.2 (filePath st.1)) = true ->
  synced st.1 st.2 -> synced (run_command c st).1 (run_command c st).2.
Proof.
  destruct st as [sch w], c; cbn [run_command fst snd]; intros Hw Hs.
  - by apply saveToFile_synced.
  - by apply saveToFile_synced.
  - unfold synced. destruct (displayStudentsDashboard_disk sch w) as [-> [-> _]]. done.
  - unfold synced. destruct (displayTeachersDashboard_disk sch w) as [-> [-> _]]. done.
  - unfold deleteStudent. case_match; cbn [fst snd]; [by apply saveToFile_synced|done].
  - unfold deleteTeacher. case_match; cbn [fst snd]; [by apply saveToFile_synced|done].
Qed.

(** An invariant of every command is an invariant of every session. *)
Lemma run_session_ind (P : School * World -> Prop) (cs : list command) st :
  (forall c st', c ∈ cs -> P st' -> P (run_command c st')) ->
  P st -> P (run_session cs st).
Proof.
  revert st. induction cs as [|c cs IH]; intros st Hc Hst; [done|].
  cbn [run_session fold_left]. apply IH.
  - intros c' st' Hin. apply Hc. by right.
  - apply Hc; [by left|done].
Qed.

(** What a session leaves as it was: the path of the school, the system,
    and every file but the one [saveToFile] writes. *)
Lemma run_session_frame cs st :
  filePath (run_session cs st).1 = filePath st.1 /\
  same_system st.2 (run_session cs st).2 /\
  forall p, p <> resolve st.2 (filePath st.1) ->
            disk (run_session cs st).2 !! p = disk st.2 !! p.
Proof.
  apply (run_session_ind (fun st' =>
    filePath st'.1 = filePath st.1 /\ same_system st.2 st'.2 /\
    forall p, p <> resolve st.2 (filePath st.1) -> disk st'.2 !! p = disk st.2 !! p));
    [|done].
  intros c st' _ (Hf & Hs & Hd). destruct (run_command_world c st') as [Hs' Hd'].
  split_and!.
  - by rewrite run_command_filePath.
  - by eapply same_system_trans.
  - intros p Hp. rewrite Hd', Hd; [done..|]. destruct Hs as [-> _]. by rewrite Hf.
Qed.

End SessionWorld.

(** ** Starting again *)

Section Restart.
Implicit Types (sch : School) (w : World) (st : School * World).

(** The file of [saveToFile] read by [loadFromFile]: the constructor
    throws. *)
Lemma loadFromFile_saved_throws sch sch0 w :
  synced sch w -> resolve w (filePath sch) = resolve w load_filePath ->
  Forall Student.wf (students sch) -> Forall Student.storable (students sch) ->
  loadFromFile sch0 w = Throw invalid_argument.
Proof.
  intros Hs Hp Hwf Hst. unfold loadFromFile. rewrite <- Hp, Hs.
  by rewrite load_file_text_throws.
Qed.

End Restart.

(** * Properties *)

Section Properties.
Implicit Types (sch : School) (w : World) (st : School * World).

(** C4. [deleteStudent] removes the first student with the id and no
    other: when the students are [l1 ++ s :: l2], [s] has the id and no
    student of [l1] has it, the students become [l1 ++ l2], the teachers
    stay, and, when the file opens for writing, the message of success is
    printed and the file holds the text of the new school. *)
Theorem delete_first_match (id : Z) sch w (l1 l2 : list Student.t) (s : Student.t) :
  students sch = l1 ++ s :: l2 ->
  Forall (fun s' => student_id s' <> id) l1 -> student_id s = id ->
  let r := deleteStudent id sch w in
  students r.1 = l1 ++ l2 /\ teachers r.1 = teachers sch /\
  (can_write w (resolve w (filePath sch)) = true ->
   synced r.1 r.2 /\
   cout r.2 = cout w +:+ ("Student deleted successfully!" +:+ endl)).
Proof.
  intros Hl H1 Hs r. unfold r. rewrite (deleteStudent_first id sch w l1 l2 s) by done.
  cbn [fst snd]. split_and!; [done..|]. intros Hw. split.
  - by apply saveToFile_synced.
  - by rewrite saveToFile_cout.
Qed.

Lemma delete_first_match_witness :
  let r := deleteStudent 1 (mkSchool [erin; alice; dave] [] default_filePath) sample_world in
  students r.1 = [erin] ++ [dave] /\ teachers r.1 = [] /\
  (true = true ->
   synced r.1 r.2 /\
   cout r.2 = "" +:+ ("Student deleted successfully!" +:+ endl)).
Proof.
  apply (delete_first_match 1 (mkSchool [erin; alice; dave] [] default_filePath)
           sample_world [erin] [dave] alice); first [reflexivity | by_compute].
Defined.

(** C30. Two students with one id are deleted in the order of insertion,
    one per call: the first call of [deleteStudent] removes the one
    inserted first and keeps the other, the second call removes the
    other. *)
Theorem delete_duplicates_in_turn (id : Z) sch w (l1 l2 l3 : list Student.t)
    (s1 s2 : Student.t) :
  students sch = l1 ++ s1 :: l2 ++ s2 :: l3 ->
  Forall (fun s' => student_id s' <> id) (l1 ++ l2) ->
  student_id s1 = id -> student_id s2 = id ->
  students (deleteStudent id sch w).1 = l1 ++ l2 ++ s2 :: l3 /\
  students (deleteStudent id (deleteStudent id sch w).1 (deleteStudent id sch w).2).1
    = l1 ++ l2 ++ l3.
Proof.
  intros Hl [H1 H2]%Forall_app Hs1 Hs2.
  rewrite (deleteStudent_first id sch w l1 (l2 ++ s2 :: l3) s1) by done.
  cbn [fst snd students]. split; [done|].
  erewrite (deleteStudent_first id _ _ (l1 ++ l2) l3 s2);
    [|by cbn [students]; rewrite <- app_assoc|by apply Forall_app|done].
  cbn [fst students]. by rewrite <- app_assoc.
Qed.

Lemma delete_duplicates_in_turn_witness :
  let sch := mkSchool [alice; erin; dave] [] default_filePath in
  students (deleteStudent 1 sch sample_world).1 = [] ++ [erin] ++ dave :: [] /\
  students (deleteStudent 1 (deleteStudent 1 sch sample_world).1
              (deleteStudent 1 sch sample_world).2).1 = [] ++ [erin] ++ [].
Proof.
  apply (delete_duplicates_in_turn 1 (mkSchool [alice; erin; dave] [] default_filePath)
           sample_world [] [erin] [] alice dave); first [reflexivity | by_compute].
Defined.

(** C14. [deleteStudent] with an id no student has changes neither the
    school nor the disk: it prints "Student not found!", nothing is
    saved, and no message of success is printed. *)
Theorem delete_absent_reports (id : Z) sch w :
  Forall (fun s => student_id s <> id) (students sch) ->
  deleteStudent id sch w = (sch, print ("Student not found!" +:+ endl) w).
Proof.
  intros H. unfold deleteStudent. by rewrite (proj2 (find_id_None _ _ _) H).
Qed.

Lemma delete_absent_reports_witness :
  deleteStudent 3 sample_school sample_world =
  (sample_school, print ("Student not found!" +:+ endl) sample_world).
Proof. apply (delete_absent_reports 3 sample_school sample_world). by_compute. Defined.

(** C34. Every session keeps the invariant of the store: when the input of
    each command is what its handler can read ([int] ids and grades, four
    grades), every record of the school satisfies its class invariant after
    the session if it did before. *)
Theorem session_keeps_invariant (cs : list command) st :
  Forall command_ok cs -> School_wf st.1 -> School_wf (run_session cs st).1.
Proof.
  intros Hcs. apply (run_session_ind (fun st => School_wf st.1)).
  intros c st' Hin. apply run_command_wf. by eapply Forall_forall in Hcs.
Qed.

Lemma session_keeps_invariant_witness :
  School_wf (run_session [AddStudent "Erin" 2 "10B" [10; 10; 10; 10]%Z; DeleteStudent 1]
               (sample_school, sample_world)).1.
Proof.
  apply (session_keeps_invariant
           [AddStudent "Erin" 2 "10B" [10; 10; 10; 10]%Z; DeleteStudent 1]
           (sample_school, sample_world)); by_compute.
Defined.

(** C6. Memory and disk stay in agreement: when the file of the school
    opens for writing and holds the text of the school, it holds the text
    of the school after every session, whatever the commands are. *)
Theorem session_keeps_sync (cs : list command) st :
  can_write st.2 (resolve st.2 (filePath st.1)) = true ->
  synced st.1 st.2 -> synced (run_session cs st).1 (run_session cs st).2.
Proof.
  intros Hw Hs.
  enough (synced (run_session cs st).1 (run_session cs st).2 /\
          filePath (run_session cs st).1 = filePath st.1 /\
          same_system st.2 (run_session cs st).2) by tauto.
  apply (run_session_ind (fun st' => synced st'.1 st'.2 /\
    filePath st'.1 = filePath st.1 /\ same_system st.2 st'.2)); [|done].
  intros c st' _ (Hs' & Hf & [Hr Hc]). split_and!.
  - apply run_command_synced; [|done]. by rewrite Hr, Hc, Hf.
  - by rewrite run_command_filePath.
  - eapply same_system_trans; [done|]. apply run_command_world.
Qed.

Lemma session_keeps_sync_witness :
  let st := (sample_school, saveToFile sample_school sample_world) in
  synced (run_session [DeleteTeacher 7; DeleteStudent 5; ViewTeachers] st).1
         (run_session [DeleteTeacher 7; DeleteStudent 5; ViewTeachers] st).2.
Proof.
  apply (session_keeps_sync [DeleteTeacher 7; DeleteStudent 5; ViewTeachers]
           (sample_school, saveToFile sample_school sample_world)); reflexivity.
Defined.

(** C7. When the path [saveToFile] writes and the path [loadFromFile]
    reads name one file, the program that has saved once cannot start
    again: the constructor, run on the world [saveToFile] left, throws
    [invalid_argument]. *)
Theorem restart_after_save_throws sch w :
  resolve w (filePath sch) = resolve w load_filePath ->
  can_write w (resolve w (filePath sch)) = true ->
  Forall Student.wf (students sch) -> Forall Student.storable (students sch) ->
  construct (saveToFile sch w) = Throw invalid_argument.
Proof.
  intros Hp Hw Hwf Hst. unfold construct.
  destruct (saveToFile_same_system sch w) as [Hr _].
  apply (loadFromFile_saved_throws sch); [by apply saveToFile_synced|by rewrite Hr|done..].
Qed.

Lemma restart_after_save_throws_witness :
  construct (saveToFile sample_school aliased_world) = Throw invalid_argument.
Proof.
  apply (restart_after_save_throws sample_school aliased_world);
    first [reflexivity | by_compute].
Defined.

(** C8. When the two paths name different files, no session changes what
    the constructor reads: started again after any session, the program
    builds the same school (or throws the same exception) as it did before
    the session, so nothing a session added or deleted is seen again. *)
Theorem restart_forgets_session (cs : list command) sch w :
  resolve w (filePath sch) <> resolve w load_filePath ->
  res_map fst (construct (run_session cs (sch, w)).2) = res_map fst (construct w).
Proof.
  intros Hp. unfold construct, loadFromFile.
  destruct (run_session_frame cs (sch, w)) as (_ & [-> _] & Hd).
  cbn [fst snd] in *. rewrite Hd by by apply not_eq_sym.
  destruct (disk w !! resolve w load_filePath); [|done].
  by destruct (load_lines _ _).
Qed.

Lemma restart_forgets_session_witness :
  res_map fst (construct (run_session [AddStudent "Erin" 2 "10B" [10; 10; 10; 10]%Z]
                            (empty_school, sample_world)).2) =
  res_map fst (construct sample_world).
Proof.
  apply (restart_forgets_session [AddStudent "Erin" 2 "10B" [10; 10; 10; 10]%Z]
           empty_school sample_world). by_compute.
Defined.

(** C39. When the file does not open for writing, [addStudent] still
    changes memory: the student is appended and the message of success is
    printed, then the message of the error, and the disk is as it was, so
    memory and disk disagree from then on. *)
Theorem add_unwritable_diverges (name cls : string) (id : Z) (gs : list Z) sch w :
  can_write w (resolve w (filePath sch)) = false ->
  let r := addStudent name id cls gs sch w in
  students r.1 = students sch ++ [Student.make name id cls gs] /\
  disk r.2 = disk w /\
  cout r.2 = (cout w +:+ ("Student added successfully!" +:+ endl)) +:+
             ("Error opening file for saving!" +:+ endl).
Proof.
  intros Hw r. unfold r, addStudent. cbn [fst snd].
  rewrite saveToFile_refused by done. done.
Qed.

Lemma add_unwritable_diverges_witness :
  let r := addStudent "Erin" 2 "10B" [10; 10; 10; 10]%Z empty_school readonly_world in
  students r.1 = students empty_school ++ [Student.make "Erin" 2 "10B" [10; 10; 10; 10]%Z] /\
  disk r.2 = disk readonly_world /\
  cout r.2 = (cout readonly_world +:+ ("Student added successfully!" +:+ endl)) +:+
             ("Error opening file for saving!" +:+ endl).
Proof.
  apply (add_unwritable_diverges "Erin" "10B" 2 [10; 10; 10; 10]%Z empty_school
           readonly_world). reflexivity.
Defined.

(** The scenario the specification gives as a test (8), on the code: Alice
    is added, her average is shown as 11 and she has passed; the file
    written holds her line between the two headers, and loading that file
    throws instead of returning her; deleting id 1 empties the vector and
    the section of the file. *)
Example spec_scenario :
  let st1 :=
    run_command (AddStudent "Alice" 1 "10A" [12; 8; 15; 9]%Z) (empty_school, sample_world) in
  let st2 := run_command (DeleteStudent 1) st1 in
  students st1.1 = [alice] /\
  show_double (Student.averageGrade alice) = "11" /\
  Student.isPassed alice = "Passed" /\
  disk st1.2 !! default_filePath
  = Some (unlines ["Students"; "Alice,1,10A,12,8,15,9"; "Teachers"]) /\
  load_lines (read_lines (unlines ["Students"; "Alice,1,10A,12,8,15,9"; "Teachers"]))
    empty_school
  = Throw invalid_argument /\
  students st2.1 = [] /\
  disk st2.2 !! default_filePath = Some (unlines ["Students"; "Teachers"]).
Proof. vm_compute. repeat split. Qed.

End Properties.
