(* ===== verification/Heap.v ===== *)
(** The records on the free store.  [School] holds vectors of pointers;
    [new] allocates a record when one is added or loaded, [delete] releases
    it when it is deleted and in [~School].  Here the vectors are lists of
    addresses into a heap of objects, an operation that uses a pointer that
    is not live has no result (it is undefined in C++), and the theorems
    show that the member functions of [School] never do so, release
    exactly what they allocate, and compute on the objects what the
    definitions of [Store] compute on lists of records. *)

From Stdlib Require Import ZArith Ascii String Lia.
From stdpp Require Import base tactics option list numbers strings gmap.
From S2P Require Import Prelude CppString CppInt Records Codec Persistence Store.

(** ** The heap *)

(** An address of the free store. *)
Abbreviation ptr := positive (only parsing).

(** What a pointer of the program points to. *)
Inductive object : Type :=
| StudentAt (s : Student.t)
| TeacherAt (x : Teacher.t).

Abbreviation heap := (gmap ptr object) (only parsing).

(** [new T(...)]: the object is placed at an address that is not in use. *)
Definition new (o : object) (h : heap) : ptr * heap :=
  let p := fresh (dom h) in (p, <[p := o]> h).

(** [delete p]: the object is released; [p] must point to a live object. *)
Definition delete_obj (p : ptr) (h : heap) : option heap :=
  match h !! p with
  | Some _ => Some (delete p h)
  | None => None
  end.

(** The object a pointer to a student, and to a teacher, points to. *)
Definition student_at (h : heap) (p : ptr) : option Student.t :=
  match h !! p with
  | Some (StudentAt s) => Some s
  | _ => None
  end.

Definition teacher_at (h : heap) (p : ptr) : option Teacher.t :=
  match h !! p with
  | Some (TeacherAt x) => Some x
  | _ => None
  end.

(** ** class School, with its pointers *)

Record PSchool : Type := mkPSchool {
  pstudents : list ptr;
  pteachers : list ptr;
  pfilePath : string
}.

(** The records the vectors point to, when every pointer is live. *)
Definition abs (h : heap) (ps : PSchool) : option School :=
  ss ← mapM (student_at h) (pstudents ps);
  ts ← mapM (teacher_at h) (pteachers ps);
  Some (mkSchool ss ts (pfilePath ps)).

(** [students.push_back(new Student(...))] *)
Definition push_new_student (s : Student.t) (m : heap * PSchool) : heap * PSchool :=
  let r := new (StudentAt s) m.1 in
  (r.2, mkPSchool (pstudents m.2 ++ [r.1]) (pteachers m.2) (pfilePath m.2)).

(** [teachers.push_back(new Teacher(...))] *)
Definition push_new_teacher (x : Teacher.t) (m : heap * PSchool) : heap * PSchool :=
  let r := new (TeacherAt x) m.1 in
  (r.2, mkPSchool (pstudents m.2) (pteachers m.2 ++ [r.1]) (pfilePath m.2)).

(** [saveToFile]: every record is written through its pointer. *)
Definition p_saveToFile (m : heap * PSchool) (w : World) : option World :=
  sch ← abs m.1 m.2; Some (saveToFile sch w).

Definition p_addStudent (name : string) (id : Z) (studentClass : string)
    (grades : list Z) (m : heap * PSchool) (w : World) : option (heap * PSchool * World) :=
  let m' := push_new_student (Student.make name id studentClass grades) m in
  w' ← p_saveToFile m' (print ("Student added successfully!" +:+ endl) w);
  Some (m', w').

Definition p_addTeacher (name : string) (id : Z) (subject grade : string)
    (m : heap * PSchool) (w : World) : option (heap * PSchool * World) :=
  let m' := push_new_teacher (Teacher.make name id subject grade) m in
  w' ← p_saveToFile m' (print ("Teacher added successfully!" +:+ endl) w);
  Some (m', w').

(** The loop of the delete handlers: the id of the object each iterator
    points to is compared with [id].  The outcome is the position of the
    first match, or that there is none, or that the loop went through a
    pointer that is not live ([Wild]). *)
Inductive search : Set :=
| Found (i : nat)
| Absent
| Wild.

Fixpoint p_find (getId : ptr -> option Z) (id : Z) (l : list ptr) : search :=
  match l with
  | [] => Absent
  | p :: l' =>
      match getId p with
      | None => Wild
      | Some i =>
          if Z.eqb i id then Found 0
          else match p_find getId id l' with
               | Found k => Found (S k)
               | r => r
               end
      end
  end.

(** The object found is released and its pointer erased from the vector;
    then the message and the save. *)
Definition p_deleteStudent (id : Z) (m : heap * PSchool) (w : World) :
    option (heap * PSchool * World) :=
  match p_find (fun p => student_id <$> student_at m.1 p) id (pstudents m.2) with
  | Found i =>
      p ← pstudents m.2 !! i;
      h' ← delete_obj p m.1;
      let m' := (h', mkPSchool (delete i (pstudents m.2)) (pteachers m.2) (pfilePath m.2)) in
      w' ← p_saveToFile m' (print ("Student deleted successfully!" +:+ endl) w);
      Some (m', w')
  | Absent => Some (m, print ("Student not found!" +:+ endl) w)
  | Wild => None
  end.

Definition p_deleteTeacher (id : Z) (m : heap * PSchool) (w : World) :
    option (heap * PSchool * World) :=
  match p_find (fun p => teacher_id <$> teacher_at m.1 p) id (pteachers m.2) with
  | Found i =>
      p ← pteachers m.2 !! i;
      h' ← delete_obj p m.1;
      let m' := (h', mkPSchool (pstudents m.2) (delete i (pteachers m.2)) (pfilePath m.2)) in
      w' ← p_saveToFile m' (print ("Teacher deleted successfully!" +:+ endl) w);
      Some (m', w')
  | Absent => Some (m, print ("Teacher not found!" +:+ endl) w)
  | Wild => None
  end.

(** The dashboards read every record through its pointer. *)
Definition p_displayStudentsDashboard (m : heap * PSchool) (w : World) : option World :=
  sch ← abs m.1 m.2; Some (displayStudentsDashboard sch w).

Definition p_displayTeachersDashboard (m : heap * PSchool) (w : World) : option World :=
  sch ← abs m.1 m.2; Some (displayTeachersDashboard sch w).

(** The loops of [~School]. *)
Fixpoint delete_all (l : list ptr) (h : heap) : option heap :=
  match l with
  | [] => Some h
  | p :: l' => h' ← delete_obj p h; delete_all l' h'
  end.

(** [~School]: the heap that is left. *)
Definition destructor (m : heap * PSchool) : option heap :=
  h ← delete_all (pstudents m.2) m.1; delete_all (pteachers m.2) h.

(** The loops of [loadFromFile] with the allocation of each record. *)
Fixpoint p_load_lines (ls : list string) (m : heap * PSchool) {struct ls} :
    res (heap * PSchool) :=
  match ls with
  | [] => Ok m
  | type :: rest =>
      if String.eqb type "Students" then p_students_loop rest m
      else if String.eqb type "Teachers" then p_teachers_loop rest m
      else p_load_lines rest m
  end
with p_students_loop (ls : list string) (m : heap * PSchool) {struct ls} :
    res (heap * PSchool) :=
  match ls with
  | [] => Ok m
  | line :: rest =>
      if String.eqb line "" then p_load_lines rest m
      else (s <- parse_student line ;; p_students_loop rest (push_new_student s m))%res
  end
with p_teachers_loop (ls : list string) (m : heap * PSchool) {struct ls} :
    res (heap * PSchool) :=
  match ls with
  | [] => Ok m
  | line :: rest =>
      if String.eqb line "" then p_load_lines rest m
      else (x <- parse_teacher line ;; p_teachers_loop rest (push_new_teacher x m))%res
  end.

(** [loadFromFile] and the constructor, which starts from empty vectors
    and allocates what the file lists. *)
Definition p_loadFromFile (m : heap * PSchool) (w : World) : res (heap * PSchool * World) :=
  match disk w !! resolve w load_filePath with
  | None => Ok (m, print ("No existing data found. Starting fresh." +:+ endl) w)
  | Some text =>
      (m' <- p_load_lines (read_lines text) m ;;
       Ok (m', print ("Data loaded from file successfully!" +:+ endl) w))%res
  end.

Definition p_construct (h : heap) (w : World) : res (heap * PSchool * World) :=
  p_loadFromFile (h, mkPSchool [] [] default_filePath) w.

(** One handler call of [main], on the heap. *)
Definition p_run_command (c : command) (st : heap * PSchool * World) :
    option (heap * PSchool * World) :=
  match c with
  | AddStudent n i c g => p_addStudent n i c g st.1 st.2
  | AddTeacher n i s g => p_addTeacher n i s g st.1 st.2
  | ViewStudents => w ← p_displayStudentsDashboard st.1 st.2; Some (st.1, w)
  | ViewTeachers => w ← p_displayTeachersDashboard st.1 st.2; Some (st.1, w)
  | DeleteStudent i => p_deleteStudent i st.1 st.2
  | DeleteTeacher i => p_deleteTeacher i st.1 st.2
  end.

Fixpoint p_run_session (cs : list command) (st : heap * PSchool * World) :
    option (heap * PSchool * World) :=
  match cs with
  | [] => Some st
  | c :: cs' => st' ← p_run_command c st; p_run_session cs' st'
  end.

(** ** Ownership *)

(** The school owns the heap: its pointers are distinct and are exactly
    the live addresses. *)
Definition owned (h : heap) (ps : PSchool) : Prop :=
  NoDup (pstudents ps ++ pteachers ps) /\
  dom h = list_to_set (pstudents ps ++ pteachers ps).

(** The pointers represent the school [sch]. *)
Definition rep (m : heap * PSchool) (sch : School) : Prop :=
  owned m.1 m.2 /\ abs m.1 m.2 = Some sch.

(** A result on the heap represents a result on records: the same
    exception, or pointers that represent the school. *)
Definition res_rep (r : res (heap * PSchool)) (a : res School) : Prop :=
  match r, a with
  | Ok m, Ok sch => rep m sch
  | Throw e, Throw e' => e = e'
  | _, _ => False
  end.

(** A school of no record on the empty heap. *)
Definition empty_mem : heap * PSchool := (∅, mkPSchool [] [] default_filePath).

(** A file whose Students section ends in a blank line. *)
Definition sample_file : string :=
  unlines ["Students"; Student.line alice; ""; "Teachers"; Teacher.line carol].

(** A system that holds [sample_file] where [loadFromFile] looks for it. *)
Definition stocked_world : World :=
  mkWorld (fun p => p) (fun _ => true) {[ load_filePath := sample_file ]} "".

(** The heap, the school and the world the constructor leaves there. *)
Definition stocked_mem : heap * PSchool * World :=
  match p_construct ∅ stocked_world with
  | Ok r => r
  | Throw _ => (empty_mem, stocked_world)
  end.

(** ** Objects under insertion and deletion *)

Section Objects.
Implicit Types (h : heap) (p q : ptr) (o : object) (l : list ptr).

Lemma new_fresh o h : h !! (new o h).1 = None.
Proof. apply not_elem_of_dom, is_fresh. Qed.

Lemma student_at_insert_ne h p q o :
  p <> q -> student_at (<[p := o]> h) q = student_at h q.
Proof. intros Hpq. unfold student_at. by rewrite lookup_insert_ne. Qed.

Lemma teacher_at_insert_ne h p q o :
  p <> q -> teacher_at (<[p := o]> h) q = teacher_at h q.
Proof. intros Hpq. unfold teacher_at. by rewrite lookup_insert_ne. Qed.

Lemma student_at_delete_ne h p q :
  p <> q -> student_at (delete p h) q = student_at h q.
Proof. intros Hpq. unfold student_at. by rewrite lookup_delete_ne. Qed.

Lemma teacher_at_delete_ne h p q :
  p <> q -> teacher_at (delete p h) q = teacher_at h q.
Proof. intros Hpq. unfold teacher_at. by rewrite lookup_delete_ne. Qed.

Lemma student_at_live h p s : student_at h p = Some s -> h !! p = Some (StudentAt s).
Proof. unfold student_at. by repeat case_match; intros; simplify_eq. Qed.

Lemma teacher_at_live h p x : teacher_at h p = Some x -> h !! p = Some (TeacherAt x).
Proof. unfold teacher_at. by repeat case_match; intros; simplify_eq. Qed.

End Objects.

(** Reading a list of pointers depends on the objects they point to only. *)
Lemma Forall2_at_ext {R : Type} (f g : ptr -> option R) (l : list ptr) (rs : list R) :
  (forall p, p ∈ l -> g p = f p) ->
  Forall2 (fun p r => f p = Some r) l rs -> Forall2 (fun p r => g p = Some r) l rs.
Proof.
  intros Hfg H. induction H as [|p r l rs Hp _ IH]; constructor.
  - rewrite Hfg; [done|by left].
  - apply IH. intros q Hq. apply Hfg. by right.
Qed.

(** ** The abstraction *)

Section Abs.
Implicit Types (h : heap) (ps : PSchool) (sch : School) (m : heap * PSchool).

Lemma abs_Some h ps sch :
  abs h ps = Some sch <->
  Forall2 (fun p s => student_at h p = Some s) (pstudents ps) (students sch) /\
  Forall2 (fun p x => teacher_at h p = Some x) (pteachers ps) (teachers sch) /\
  pfilePath ps = filePath sch.
Proof.
  unfold abs. split.
  - intros H. apply bind_Some in H as (ss & Hss%mapM_Some & H).
    apply bind_Some in H as (ts & Hts%mapM_Some & [= <-]). done.
  - destruct sch as [ss ts f]. cbn. intros (Hss%mapM_Some & Hts%mapM_Some & ->).
    rewrite Hss. cbn. rewrite Hts. done.
Qed.

Lemma rep_empty : rep empty_mem empty_school.
Proof. split; [|done]. split; [constructor|]. cbn. by rewrite dom_empty_L. Qed.

End Abs.

(** ** Allocation and release keep the representation *)

Section Rep.
Implicit Types (h : heap) (ps : PSchool) (sch : School) (m : heap * PSchool).

Lemma owned_fresh h ps :
  owned h ps -> fresh (dom h) ∉ pstudents ps ++ pteachers ps.
Proof.
  intros [_ Hd] Hin. apply (is_fresh (dom h)). rewrite Hd at 2.
  by apply elem_of_list_to_set.
Qed.

Lemma rep_push_student (s : Student.t) m sch :
  rep m sch -> rep (push_new_student s m) (push_student s sch).
Proof.
  destruct m as [h ps]. intros [Ho Ha]. cbn [fst snd] in *.
  pose proof (owned_fresh h ps Ho) as Hf.
  destruct Ho as [Hnd Hd]. apply abs_Some in Ha as (Hs & Ht & Hp).
  apply not_elem_of_app in Hf as [Hfs Hft].
  split; [split|apply abs_Some; split_and!]; cbn.
  - rewrite <- assoc_L by apply _. apply NoDup_app in Hnd as (Hn1 & Hn2 & Hn3).
    apply NoDup_app. split_and!; [done| |].
    + intros p Hp1 [->%list_elem_of_singleton|Hp2]%elem_of_app; [done|by eapply Hn2].
    + apply NoDup_cons. split; [done|exact Hn3].
  - rewrite dom_insert_L, Hd, !list_to_set_app_L. cbn. set_unfold. intros q. tauto.
  - apply Forall2_app.
    + eapply Forall2_at_ext; [|exact Hs]. intros p Hin.
      apply student_at_insert_ne. by intros <-.
    + repeat constructor. unfold student_at. by rewrite lookup_insert_eq.
  - eapply Forall2_at_ext; [|exact Ht]. intros p Hin.
    apply teacher_at_insert_ne. by intros <-.
  - done.
Qed.

Lemma rep_push_teacher (x : Teacher.t) m sch :
  rep m sch -> rep (push_new_teacher x m) (push_teacher x sch).
Proof.
  destruct m as [h ps]. intros [Ho Ha]. cbn [fst snd] in *.
  pose proof (owned_fresh h ps Ho) as Hf.
  destruct Ho as [Hnd Hd]. apply abs_Some in Ha as (Hs & Ht & Hp).
  apply not_elem_of_app in Hf as [Hfs Hft].
  split; [split|apply abs_Some; split_and!]; cbn.
  - rewrite assoc_L by apply _. apply NoDup_app. split_and!; [done| |apply NoDup_singleton].
    intros p Hp1 ->%list_elem_of_singleton. by apply elem_of_app in Hp1 as [?|?].
  - rewrite dom_insert_L, Hd, !list_to_set_app_L. cbn. set_unfold. intros q. tauto.
  - eapply Forall2_at_ext; [|exact Hs]. intros p Hin.
    apply student_at_insert_ne. by intros <-.
  - apply Forall2_app.
    + eapply Forall2_at_ext; [|exact Ht]. intros p Hin.
      apply teacher_at_insert_ne. by intros <-.
    + repeat constructor. unfold teacher_at. by rewrite lookup_insert_eq.
  - done.
Qed.

End Rep.

(** ** Release *)

Section Release.
Implicit Types (h : heap) (ps : PSchool) (sch : School) (l : list ptr) (p : ptr).

(** Erasing a pointer of a duplicate-free list and releasing its object
    keeps the list and the live addresses in step. *)
Lemma release_owned h l (i : nat) p :
  NoDup l -> dom h = list_to_set l -> l !! i = Some p ->
  NoDup (delete i l) /\ dom (delete p h) = list_to_set (delete i l) /\
  p ∉ delete i l.
Proof.
  intros Hnd Hd Hi. rewrite delete_take_drop, dom_delete_L, Hd.
  rewrite <- (take_drop_middle l i p Hi) in Hnd.
  rewrite <- (take_drop_middle l i p Hi) at 3.
  apply NoDup_app in Hnd as (Hn1 & Hn2 & [Hp Hn3]%NoDup_cons).
  assert (p ∉ take i l) as Hp1.
  { intros Hin. apply (Hn2 p Hin), elem_of_cons. by left. }
  split_and!.
  - apply NoDup_app. split_and!; [done| |done].
    intros q Hq Hq'. apply (Hn2 q Hq), elem_of_cons. by right.
  - rewrite !list_to_set_app_L, list_to_set_cons. apply set_eq. intros q.
    rewrite !elem_of_difference, !elem_of_union, !elem_of_list_to_set,
      elem_of_singleton.
    split; [tauto|]. intros [Hq|Hq]; (split; [tauto|]); by intros ->.
  - by intros [?|?]%elem_of_app.
Qed.

Lemma delete_app_l l1 l2 (i : nat) :
  i < length l1 -> delete i (l1 ++ l2) = delete i l1 ++ l2.
Proof.
  revert i. induction l1 as [|q l1 IH]; intros [|i] Hi; cbn in *; try lia; [done|].
  f_equal. apply IH. lia.
Qed.

Lemma delete_app_r l1 l2 (i : nat) :
  delete (length l1 + i) (l1 ++ l2) = l1 ++ delete i l2.
Proof. induction l1 as [|q l1 IH]; [done|]. cbn. f_equal. exact IH. Qed.

(** The search through the pointers finds what the search through the
    records finds, and never goes through a pointer that is not live. *)
Lemma p_find_rep {R : Type} (get : ptr -> option R) (getId : R -> Z) (id : Z)
    l (rs : list R) :
  Forall2 (fun p r => get p = Some r) l rs ->
  p_find (fun p => getId <$> get p) id l
  = match find_id getId id rs with Some i => Found i | None => Absent end.
Proof.
  intros H. induction H as [|p r l rs Hp _ IH]; [done|].
  cbn [p_find find_id]. rewrite Hp. cbn. destruct (Z.eqb (getId r) id); [done|].
  rewrite IH. by destruct (find_id getId id rs).
Qed.

(** A pointer that was released cannot be released again. *)
Lemma delete_obj_twice h h' p : delete_obj p h = Some h' -> delete_obj p h' = None.
Proof.
  unfold delete_obj. destruct (h !! p); [|done]. intros [= <-].
  by rewrite lookup_delete_eq.
Qed.

Lemma delete_obj_live h p (o : object) :
  h !! p = Some o -> delete_obj p h = Some (delete p h).
Proof. intros H. unfold delete_obj. by rewrite H. Qed.

Lemma rep_delete_student h ps sch (i : nat) p :
  rep (h, ps) sch -> pstudents ps !! i = Some p ->
  rep (delete p h, mkPSchool (delete i (pstudents ps)) (pteachers ps) (pfilePath ps))
      (mkSchool (delete i (students sch)) (teachers sch) (filePath sch)).
Proof.
  intros [[Hnd Hd] (Hs & Ht & Hf)%abs_Some] Hi. cbn [fst snd] in *.
  pose proof (lookup_lt_Some _ _ _ Hi) as Hlt.
  destruct (release_owned h (pstudents ps ++ pteachers ps) i p) as (Hn' & Hd' & Hp');
    [done|done|by rewrite lookup_app_l|].
  rewrite delete_app_l in Hn', Hd', Hp' by done.
  apply not_elem_of_app in Hp' as [Hp1 Hp2].
  split; [done|]. apply abs_Some. cbn. split_and!; [| |done].
  - eapply Forall2_at_ext; [|by apply Forall2_delete].
    intros q Hq. apply student_at_delete_ne. by intros <-.
  - eapply Forall2_at_ext; [|done].
    intros q Hq. apply teacher_at_delete_ne. by intros <-.
Qed.

Lemma rep_delete_teacher h ps sch (i : nat) p :
  rep (h, ps) sch -> pteachers ps !! i = Some p ->
  rep (delete p h, mkPSchool (pstudents ps) (delete i (pteachers ps)) (pfilePath ps))
      (mkSchool (students sch) (delete i (teachers sch)) (filePath sch)).
Proof.
  intros [[Hnd Hd] (Hs & Ht & Hf)%abs_Some] Hi. cbn [fst snd] in *.
  destruct (release_owned h (pstudents ps ++ pteachers ps)
              (length (pstudents ps) + i) p) as (Hn' & Hd' & Hp');
    [done|done|by rewrite lookup_app_r, Nat.add_comm, Nat.add_sub by lia|].
  rewrite delete_app_r in Hn', Hd', Hp'.
  apply not_elem_of_app in Hp' as [Hp1 Hp2].
  split; [done|]. apply abs_Some. cbn. split_and!; [| |done].
  - eapply Forall2_at_ext; [|done].
    intros q Hq. apply student_at_delete_ne. by intros <-.
  - eapply Forall2_at_ext; [|by apply Forall2_delete].
    intros q Hq. apply teacher_at_delete_ne. by intros <-.
Qed.

End Release.

(** ** The member functions on the heap *)

Section Simulation.
Implicit Types (h : heap) (ps : PSchool) (sch : School) (m : heap * PSchool)
  (w : World) (c : command).

Lemma p_saveToFile_rep m w sch : rep m sch -> p_saveToFile m w = Some (saveToFile sch w).
Proof. intros [_ Ha]. unfold p_saveToFile. by rewrite Ha. Qed.

Lemma p_deleteStudent_rep (id : Z) m w sch :
  rep m sch ->
  exists m', p_deleteStudent id m w = Some (m', (deleteStudent id sch w).2) /\
             rep m' (deleteStudent id sch w).1.
Proof.
  intros Hr. pose proof Hr as [_ (Hs & _)%abs_Some]. destruct m as [h ps].
  unfold p_deleteStudent, deleteStudent. cbn [fst snd] in *.
  rewrite (p_find_rep (student_at h) student_id id _ _ Hs).
  destruct (find_id student_id id (students sch)) as [i|] eqn:Hi; [|by eexists].
  destruct (lookup_lt_is_Some_2 (students sch) i (find_id_lt _ _ _ _ Hi)) as [s Hsi].
  destruct (Forall2_lookup_r _ _ _ _ _ Hs Hsi) as (p & Hp & Hps).
  rewrite Hp. cbn -[p_saveToFile delete_obj].
  rewrite (delete_obj_live h p _ (student_at_live _ _ _ Hps)). cbn -[p_saveToFile].
  pose proof (rep_delete_student h ps sch i p Hr Hp) as Hr'.
  rewrite (p_saveToFile_rep _ _ _ Hr'). by eexists.
Qed.

Lemma p_deleteTeacher_rep (id : Z) m w sch :
  rep m sch ->
  exists m', p_deleteTeacher id m w = Some (m', (deleteTeacher id sch w).2) /\
             rep m' (deleteTeacher id sch w).1.
Proof.
  intros Hr. pose proof Hr as [_ (_ & Ht & _)%abs_Some]. destruct m as [h ps].
  unfold p_deleteTeacher, deleteTeacher. cbn [fst snd] in *.
  rewrite (p_find_rep (teacher_at h) teacher_id id _ _ Ht).
  destruct (find_id teacher_id id (teachers sch)) as [i|] eqn:Hi; [|by eexists].
  destruct (lookup_lt_is_Some_2 (teachers sch) i (find_id_lt _ _ _ _ Hi)) as [x Hxi].
  destruct (Forall2_lookup_r _ _ _ _ _ Ht Hxi) as (p & Hp & Hpx).
  rewrite Hp. cbn -[p_saveToFile delete_obj].
  rewrite (delete_obj_live h p _ (teacher_at_live _ _ _ Hpx)). cbn -[p_saveToFile].
  pose proof (rep_delete_teacher h ps sch i p Hr Hp) as Hr'.
  rewrite (p_saveToFile_rep _ _ _ Hr'). by eexists.
Qed.

(** A handler on the heap has a result, and it is the result of the handler
    on records. *)
Lemma p_run_command_rep c m w sch :
  rep m sch ->
  exists m', p_run_command c (m, w) = Some (m', (run_command c (sch, w)).2) /\
             rep m' (run_command c (sch, w)).1.
Proof.
  intros Hr. destruct c; cbn [p_run_command run_command fst snd].
  - unfold p_addStudent, addStudent.
    erewrite p_saveToFile_rep by by apply rep_push_student. eexists. split; [done|].
    by apply rep_push_student.
  - unfold p_addTeacher, addTeacher.
    erewrite p_saveToFile_rep by by apply rep_push_teacher. eexists. split; [done|].
    by apply rep_push_teacher.
  - unfold p_displayStudentsDashboard. rewrite (proj2 Hr). by eexists.
  - unfold p_displayTeachersDashboard. rewrite (proj2 Hr). by eexists.
  - by apply p_deleteStudent_rep.
  - by apply p_deleteTeacher_rep.
Qed.

Lemma p_run_session_rep (cs : list command) m w sch :
  rep m sch ->
  exists m', p_run_session cs (m, w) = Some (m', (run_session cs (sch, w)).2) /\
             rep m' (run_session cs (sch, w)).1.
Proof.
  revert m w sch. induction cs as [|c cs IH]; intros m w sch Hr; [by eexists|].
  cbn [p_run_session run_session fold_left].
  destruct (p_run_command_rep c m w sch Hr) as (m1 & -> & Hr1). cbn.
  destruct (run_command c (sch, w)) as [sch1 w1]. by apply IH.
Qed.

End Simulation.

(** ** The destructor *)

Section Destructor.
Implicit Types (h : heap) (l k : list ptr).

(** Releasing the objects of a duplicate-free list of live pointers
    succeeds and leaves the other objects. *)
Lemma delete_all_owned l k h :
  NoDup (l ++ k) -> dom h = list_to_set (l ++ k) ->
  exists h', delete_all l h = Some h' /\ dom h' = list_to_set k.
Proof.
  revert h. induction l as [|p l IH]; intros h Hnd Hd; [by exists h|].
  destruct (release_owned h ((p :: l) ++ k) 0 p Hnd Hd eq_refl) as (Hn' & Hd' & _).
  assert (is_Some (h !! p)) as [o Ho].
  { apply elem_of_dom. rewrite Hd. apply elem_of_list_to_set, elem_of_cons. by left. }
  cbn [delete_all]. rewrite (delete_obj_live h p o Ho). cbn. by apply IH.
Qed.

Lemma destructor_rep (m : heap * PSchool) (sch : School) :
  rep m sch -> destructor m = Some ∅.
Proof.
  destruct m as [h ps]. intros [[Hnd Hd] _]. unfold destructor. cbn [fst snd] in *.
  destruct (delete_all_owned _ _ h Hnd Hd) as (h1 & -> & Hd1). cbn.
  apply NoDup_app in Hnd as (_ & _ & Hnt).
  destruct (delete_all_owned (pteachers ps) [] h1) as (h2 & -> & Hd2);
    [by rewrite app_nil_r..|].
  f_equal. by apply dom_empty_inv_L.
Qed.

End Destructor.

(** ** The loader *)

Section Loader.
Implicit Types (m : heap * PSchool) (sch : School) (ls : list string).

Lemma res_rep_bind {A : Type} (a : res A) (f : A -> res (heap * PSchool))
    (g : A -> res School) :
  (forall x, a = Ok x -> res_rep (f x) (g x)) ->
  res_rep (res_bind a f) (res_bind a g).
Proof. destruct a as [x|e]; cbn [res_bind]; [by auto|done]. Qed.

(** The loops that allocate compute pointers to what the loops of
    [Persistence] compute, and throw when they throw. *)
Lemma p_load_rep ls :
  forall m sch, rep m sch ->
    res_rep (p_load_lines ls m) (load_lines ls sch) /\
    res_rep (p_students_loop ls m) (students_loop ls sch) /\
    res_rep (p_teachers_loop ls m) (teachers_loop ls sch).
Proof.
  induction ls as [|l ls IH]; intros m sch Hr; [done|].
  destruct (IH m sch Hr) as (IH1 & IH2 & IH3).
  cbn [p_load_lines p_students_loop p_teachers_loop load_lines students_loop
       teachers_loop].
  split_and!.
  - by repeat case_match.
  - case_match; [done|]. apply res_rep_bind. intros s _.
    apply IH. by apply rep_push_student.
  - case_match; [done|]. apply res_rep_bind. intros x _.
    apply IH. by apply rep_push_teacher.
Qed.

Lemma p_construct_rep (w : World) :
  match construct w with
  | Ok r => exists m, p_construct ∅ w = Ok (m, r.2) /\ rep m r.1
  | Throw e => p_construct ∅ w = Throw e
  end.
Proof.
  unfold construct, p_construct, loadFromFile, p_loadFromFile.
  destruct (disk w !! resolve w load_filePath) as [text|].
  - destruct (p_load_rep (read_lines text) empty_mem empty_school rep_empty) as [H _].
    unfold empty_mem, empty_school in H.
    destruct (p_load_lines _ _) as [m|e], (load_lines _ _) as [sch|e'];
      cbn in *; try done; [by eexists|by subst].
  - exists empty_mem. split; [done|apply rep_empty].
Qed.

End Loader.

(** * Properties *)

Section Properties.
Implicit Types (m : heap * PSchool) (sch : School) (w : World) (cs : list command).

(** C19. The handlers on the heap refine the handlers on records: from a
    heap the school owns, every session of commands has a result (no
    handler uses a pointer that is not live), the school still owns the
    heap, its pointers point to the records the session on lists yields,
    and the world is the same. *)
Theorem heap_refines_store cs m w sch :
  rep m sch ->
  exists m', p_run_session cs (m, w) = Some (m', (run_session cs (sch, w)).2) /\
             owned m'.1 m'.2 /\ abs m'.1 m'.2 = Some (run_session cs (sch, w)).1.
Proof.
  intros Hr. destruct (p_run_session_rep cs m w sch Hr) as (m' & Hm & Ho & Ha).
  by exists m'.
Qed.

Lemma heap_refines_store_witness :
  exists m', p_run_session [AddStudent "Erin" 2 "10B" [10; 10; 10; 10]%Z; DeleteStudent 2]
               (empty_mem, sample_world)
             = Some (m', (run_session
                            [AddStudent "Erin" 2 "10B" [10; 10; 10; 10]%Z; DeleteStudent 2]
                            (empty_school, sample_world)).2) /\
             owned m'.1 m'.2 /\
             abs m'.1 m'.2
             = Some (run_session
                       [AddStudent "Erin" 2 "10B" [10; 10; 10; 10]%Z; DeleteStudent 2]
                       (empty_school, sample_world)).1.
Proof.
  apply (heap_refines_store [AddStudent "Erin" 2 "10B" [10; 10; 10; 10]%Z; DeleteStudent 2]
           empty_mem sample_world empty_school). apply rep_empty.
Defined.

(** The constructor on the heap allocates one object per record the
    file lists and nothing else: it throws exactly when the constructor on
    records throws, and else the school owns the heap and its pointers
    point to the records loaded. *)
Theorem construct_allocates_records w :
  match construct w with
  | Ok r => exists m, p_construct ∅ w = Ok (m, r.2) /\
                      owned m.1 m.2 /\ abs m.1 m.2 = Some r.1
  | Throw e => p_construct ∅ w = Throw e
  end.
Proof.
  pose proof (p_construct_rep w) as H. destruct (construct w) as [r|e]; [|done].
  destruct H as (m & Hm & Ho & Ha). by exists m.
Qed.

(** C20. Nothing leaks and nothing is released twice: after the constructor
    and any session of commands, [~School] releases every object with a
    pointer that is live, and the heap is empty. *)
Theorem destructor_frees_everything cs w m w1 :
  p_construct ∅ w = Ok (m, w1) ->
  exists m' w', p_run_session cs (m, w1) = Some (m', w') /\ destructor m' = Some ∅.
Proof.
  intros Hp. pose proof (p_construct_rep w) as H.
  destruct (construct w) as [r|e]; [|by rewrite H in Hp].
  destruct H as (m0 & Hm0 & Hr). rewrite Hp in Hm0. injection Hm0 as -> ->.
  destruct (p_run_session_rep cs m0 r.2 r.1 Hr) as (m' & Hm' & Hr').
  exists m', (run_session cs (r.1, r.2)).2. split; [done|].
  by eapply destructor_rep.
Qed.

Lemma destructor_frees_everything_witness :
  exists m' w',
    p_run_session [AddStudent "Erin" 2 "10B" [10; 10; 10; 10]%Z; DeleteTeacher 7]
      (stocked_mem.1, stocked_mem.2)
    = Some (m', w') /\ destructor m' = Some ∅.
Proof.
  apply (destructor_frees_everything
           [AddStudent "Erin" 2 "10B" [10; 10; 10; 10]%Z; DeleteTeacher 7]
           stocked_world stocked_mem.1 stocked_mem.2).
  vm_compute. reflexivity.
Defined.

End Properties.
