(* ===== verification/Shell.v ===== *)
(** The interactive part of the program: the four handlers of [School]
    from their first prompt, with the reads from [cin] between the
    prompts, [displayMenu] and the loop of [main].  Code that reads [cin]
    and writes [cout] is written in a state monad over the console; the
    tail of each handler is the definition of [Store] with the same name.

    An [int] declared without an initializer holds an indeterminate value
    until something is stored in it; an extraction that fails at its sentry
    stores nothing.  The value such a variable happens to hold is a
    parameter ([indet]) of the definitions, and the theorems hold for every
    value of it. *)

From Stdlib Require Import ZArith Ascii String Lia.
From stdpp Require Import base tactics option list numbers strings gmap.
From S2P Require Import Prelude CppString CppInt CppStream Records Persistence Store.

Declare Scope io_scope.
Delimit Scope io_scope with io.

(** ** The console monad *)

Record Console : Type := mkConsole {
  cin : istream;
  world : World
}.

Definition io (A : Type) : Type := Console -> A * Console.

Definition ret {A : Type} (a : A) : io A := fun k => (a, k).

Definition bind {A B : Type} (m : io A) (f : A -> io B) : io B :=
  fun k => let r := m k in f r.1 r.2.

Notation "x <- e ;; k" := (bind e (fun x => k))
  (at level 100, e at next level, right associativity) : io_scope.
Notation "e ;;; k" := (bind e (fun _ => k))
  (at level 100, k at level 200, right associativity) : io_scope.

#[local] Open Scope io_scope.

(** [cout << msg] *)
Definition put (msg : string) : io unit :=
  fun k => (tt, mkConsole (cin k) (print msg (world k))).

(** [cin >> x] for an [int x] that holds [old]. *)
Definition cin_int (old : Z) : io Z :=
  fun k => let r := extract_int (cin k) old in (r.2, mkConsole r.1 (world k)).

(** [cin.ignore()] *)
Definition cin_ignore : io unit :=
  fun k => (tt, mkConsole (ignore (cin k)) (world k)).

(** [getline(cin, str)] for a [str] that holds [old]. *)
Definition cin_getline (old : string) : io string :=
  fun k => let r := getline_in (cin k) old in (r.2, mkConsole r.1 (world k)).

(** A member function that acts on the world and not on [cin]. *)
Definition on_world {A : Type} (f : World -> A * World) : io A :=
  fun k => let r := f (world k) in (r.1, mkConsole (cin k) r.2).

(** A loop over the indices [ixs] that updates [a]. *)
Fixpoint for_loop {A : Type} (body : A -> nat -> io A) (ixs : list nat) (a : A) : io A :=
  match ixs with
  | [] => ret a
  | i :: ixs' => a' <- body a i ;; for_loop body ixs' a'
  end.

(** ** The handlers *)

Module Handlers.

(** The conditional expression in the prompt of the loop of [addStudent]. *)
Definition subject_name (i : nat) : string :=
  match i with
  | 0 => "Maths"
  | 1 => "Physics"
  | 2 => "CS"
  | _ => "Electronics"
  end.

(** One turn of that loop: the prompt, then [cin >> grades[i]]. *)
Definition read_grade (grades : list Z) (i : nat) : io (list Z) :=
  put ("Enter grade for " +:+ subject_name i +:+ ": ") ;;;
  g <- cin_int (grades !!! i) ;;
  ret (<[i := g]> grades).

(** [vector<int> grades(4)] and the loop over its indices. *)
Definition read_grades : io (list Z) :=
  let grades := replicate 4 0%Z in
  for_loop read_grade (seq 0 (length grades)) grades.

Definition addStudent (indet : Z) (sch : School) : io School :=
  put "Enter Student Name: " ;;;
  cin_ignore ;;;
  name <- cin_getline "" ;;
  put "Enter Student ID: " ;;;
  id <- cin_int indet ;;
  put "Enter Student Class: " ;;;
  cin_ignore ;;;
  studentClass <- cin_getline "" ;;
  grades <- read_grades ;;
  on_world (Store.addStudent name id studentClass grades sch).

Definition addTeacher (indet : Z) (sch : School) : io School :=
  put "Enter Teacher Name: " ;;;
  cin_ignore ;;;
  name <- cin_getline "" ;;
  put "Enter Teacher ID: " ;;;
  id <- cin_int indet ;;
  put "Enter Subject (Maths, Physics, CS, Electronics): " ;;;
  cin_ignore ;;;
  subject <- cin_getline "" ;;
  put "Enter Grade (Professor, Assistant, Conference): " ;;;
  grade <- cin_getline "" ;;
  on_world (Store.addTeacher name id subject grade sch).

Definition deleteStudent (indet : Z) (sch : School) : io School :=
  put "Enter Student ID to delete: " ;;;
  id <- cin_int indet ;;
  on_world (Store.deleteStudent id sch).

Definition deleteTeacher (indet : Z) (sch : School) : io School :=
  put "Enter Teacher ID to delete: " ;;;
  id <- cin_int indet ;;
  on_world (Store.deleteTeacher id sch).

Definition displayStudentsDashboard (sch : School) : io School :=
  on_world (fun w => (sch, Store.displayStudentsDashboard sch w)).

Definition displayTeachersDashboard (sch : School) : io School :=
  on_world (fun w => (sch, Store.displayTeachersDashboard sch w)).

End Handlers.

(** ** [displayMenu] and [main] *)

Definition displayMenu : io unit :=
  put (endl +:+ "--- School Management System ---" +:+ endl) ;;;
  put ("1. Add Student" +:+ endl) ;;;
  put ("2. Add Teacher" +:+ endl) ;;;
  put ("3. View Student Dashboard" +:+ endl) ;;;
  put ("4. View Teacher Dashboard" +:+ endl) ;;;
  put ("5. Delete Student" +:+ endl) ;;;
  put ("6. Delete Teacher" +:+ endl) ;;;
  put ("7. Exit" +:+ endl).

(** The [switch]: the school after the handler, or nothing when the case
    returns from [main]. *)
Definition dispatch (indet : Z) (choice : Z) (sch : School) : io (option School) :=
  match choice with
  | 1 => sch' <- Handlers.addStudent indet sch ;; ret (Some sch')
  | 2 => sch' <- Handlers.addTeacher indet sch ;; ret (Some sch')
  | 3 => sch' <- Handlers.displayStudentsDashboard sch ;; ret (Some sch')
  | 4 => sch' <- Handlers.displayTeachersDashboard sch ;; ret (Some sch')
  | 5 => sch' <- Handlers.deleteStudent indet sch ;; ret (Some sch')
  | 6 => sch' <- Handlers.deleteTeacher indet sch ;; ret (Some sch')
  | 7 => put ("Exiting..." +:+ endl) ;;; ret None
  | _ => put ("Invalid choice! Please try again." +:+ endl) ;;; ret (Some sch)
  end%Z.

(** The variables of [main] and the console. *)
Record Proc : Type := mkProc {
  school : School;
  choice : Z;
  console : Console
}.

Inductive outcome : Type :=
| Running (p : Proc)
| Exited (sch : School) (k : Console).

(** The body of [while (true)]. *)
Definition main_step (indet : Z) (p : Proc) : outcome :=
  let r := (displayMenu ;;;
            put "Enter your choice: " ;;;
            c <- cin_int (choice p) ;;
            s <- dispatch indet c (school p) ;;
            ret (c, s)) (console p) in
  match r.1.2 with
  | Some sch => Running (mkProc sch r.1.1 r.2)
  | None => Exited (school p) r.2
  end.

(** [n] turns of the loop; [indet i] is the indeterminate value the turn
    with [i] turns left sees in an uninitialized local. *)
Fixpoint main_loop (n : nat) (indet : nat -> Z) (p : Proc) : outcome :=
  match n with
  | O => Running p
  | S n' =>
      match main_step (indet n') p with
      | Running p' => main_loop n' indet p'
      | Exited sch k => Exited sch k
      end
  end.

(** [main] on the text [input] of standard input, for at most [n] turns of
    the loop: the construction of the school, which can throw, then the
    loop.  [choice] is declared without an initializer. *)
Definition main (n : nat) (indet : nat -> Z) (input : string) (w : World) : res outcome :=
  (r <- construct w ;;
   Ok (main_loop n indet (mkProc r.1 (indet n) (mkConsole (open_in input) r.2))))%res.

(** ** Scripts *)

(** What a user types for a command, each entry followed by a newline. *)
Definition script (c : command) : string :=
  match c with
  | AddStudent n i c g =>
      show_int 1 +:+ endl +:+ n +:+ endl +:+ show_int i +:+ endl +:+ c +:+ endl +:+
      fold_right (fun x s => show_int x +:+ endl +:+ s) "" g
  | AddTeacher n i s g =>
      show_int 2 +:+ endl +:+ n +:+ endl +:+ show_int i +:+ endl +:+ s +:+ endl +:+
      g +:+ endl
  | ViewStudents => show_int 3 +:+ endl
  | ViewTeachers => show_int 4 +:+ endl
  | DeleteStudent i => show_int 5 +:+ endl +:+ show_int i +:+ endl
  | DeleteTeacher i => show_int 6 +:+ endl +:+ show_int i +:+ endl
  end.

Definition scripts (cs : list command) : string :=
  fold_right (fun c s => script c +:+ s) "" cs.

(** A command that can be typed: its numbers are [int]s and its texts have
    no newline. *)
Definition typable (c : command) : Prop :=
  command_ok c /\
  match c with
  | AddStudent n _ c _ => one_line n /\ one_line c
  | AddTeacher n _ s g => one_line n /\ one_line s /\ one_line g
  | DeleteStudent i | DeleteTeacher i => in_int i
  | _ => True
  end.

#[export] Instance typable_dec (c : command) : Decision (typable c).
Proof. unfold typable. destruct c; apply _. Defined.

(** The number of the menu entry of a command. *)
Definition entry (c : command) : Z :=
  match c with
  | AddStudent _ _ _ _ => 1
  | AddTeacher _ _ _ _ => 2
  | ViewStudents => 3
  | ViewTeachers => 4
  | DeleteStudent _ => 5
  | DeleteTeacher _ => 6
  end.

(** What is left unread of the last line of a command when its handler
    returns: [getline] takes the newline with it, [>>] leaves it. *)
Definition leftover (c : command) : string :=
  match c with
  | AddTeacher _ _ _ _ => ""
  | _ => endl
  end.

(** The world after the four prompts of the loop of [addStudent]. *)
Definition prompted_grades (w : World) : World :=
  fold_left
    (fun w i => print ("Enter grade for " +:+ Handlers.subject_name i +:+ ": ") w)
    (seq 0 4) w.

(** What is typed for a command after the number of its menu entry, with
    the rest of the input after it. *)
Definition answers (c : command) (rest : string) : string :=
  match c with
  | AddStudent n i cl g =>
      n +:+ String newline (show_int i +:+ String newline (cl +:+ String newline
        (fold_right (fun x s => show_int x +:+ String newline s) rest g)))
  | AddTeacher n i sb g =>
      n +:+ String newline (show_int i +:+ String newline (sb +:+ String newline
        (g +:+ String newline rest)))
  | ViewStudents | ViewTeachers => rest
  | DeleteStudent i | DeleteTeacher i => show_int i +:+ String newline rest
  end.

(** The world after the messages [msgs] are written to [cout] in turn. *)
Definition says (msgs : list string) (w : World) : World :=
  fold_left (fun w msg => print msg w) msgs w.

(** What every turn of the loop prints first: the menu and the prompt. *)
Definition menu : list string :=
  [endl +:+ "--- School Management System ---" +:+ endl;
   "1. Add Student" +:+ endl; "2. Add Teacher" +:+ endl;
   "3. View Student Dashboard" +:+ endl; "4. View Teacher Dashboard" +:+ endl;
   "5. Delete Student" +:+ endl; "6. Delete Teacher" +:+ endl; "7. Exit" +:+ endl;
   "Enter your choice: "].

(** The prompts of the handler of a command, in the order it prints them. *)
Definition prompts (c : command) : list string :=
  match c with
  | AddStudent _ _ _ _ =>
      ["Enter Student Name: "; "Enter Student ID: "; "Enter Student Class: "] ++
      map (fun i => "Enter grade for " +:+ Handlers.subject_name i +:+ ": ") (seq 0 4)
  | AddTeacher _ _ _ _ =>
      ["Enter Teacher Name: "; "Enter Teacher ID: ";
       "Enter Subject (Maths, Physics, CS, Electronics): ";
       "Enter Grade (Professor, Assistant, Conference): "]
  | ViewStudents | ViewTeachers => []
  | DeleteStudent _ => ["Enter Student ID to delete: "]
  | DeleteTeacher _ => ["Enter Teacher ID to delete: "]
  end.

(** A turn of the loop on a command that is typed as asked: the menu, the
    prompts of the handler, and then what the store does and prints. *)
Definition run_turn (c : command) (st : School * World) : School * World :=
  run_command c (st.1, says (menu ++ prompts c) st.2).

Definition run_turns (cs : list command) (st : School * World) : School * World :=
  fold_left (fun st c => run_turn c st) cs st.

(** The last turn: the menu, and the farewell of the case 7. *)
Definition exit_turn (w : World) : World :=
  says (menu ++ ["Exiting..." +:+ endl]) w.

(** A computation that leaves a [cin] that is not good not good. *)
Class KeepsFail {A : Type} (m : io A) : Prop :=
  keeps_fail : forall k, good (cin k) = false -> good (cin (m k).2) = false.

(** The student [addStudent] makes when every read fails: the strings are
    empty, the id is whatever the uninitialized [id] holds, and the grades
    are the zeros the vector was filled with. *)
Definition blank_student (indet : Z) : Student.t :=
  Student.make "" indet "" (replicate 4 0%Z).

(** The console when [cin >> choice] is reached: the menu and the prompt
    are printed. *)
Definition at_prompt (k : Console) : Console :=
  ((displayMenu ;;; put "Enter your choice: ") k).2.

(** The turns of the loop never return from [main]. *)
Definition never_exits (p : Proc) : Prop :=
  forall n indet, exists p', main_loop n indet p = Running p'.

(** ** Samples *)

(** A session that adds, shows and deletes. *)
Definition sample_session : list command :=
  [AddStudent "Bob" 5 "10A" [12; 8; 15; 9]%Z;
   AddTeacher "Carol" 7 "Maths" "Professor";
   ViewStudents; DeleteStudent 5; ViewTeachers].

(** A process whose [cin] has failed after the user chose [c]. *)
Definition failed_proc (c : Z) : Proc :=
  mkProc empty_school c (mkConsole (setfail (open_in "")) sample_world).

(** ** Running the monad *)

Section Run.
Context {A B : Type}.
Implicit Types (m : io A) (f : A -> io B) (k : Console) (w : World).

Lemma bind_eq m f k (a : A) k' : m k = (a, k') -> bind m f k = f a k'.
Proof. unfold bind. by intros ->. Qed.

Lemma bind_ret (a : A) f k : bind (ret a) f k = f a k.
Proof. reflexivity. Qed.

Lemma bind_assoc {C : Type} (m : io C) (g : C -> io A) f k :
  bind (bind m g) f k = bind m (fun c => bind (g c) f) k.
Proof. reflexivity. Qed.

Lemma on_world_run (h : World -> A * World) k :
  on_world h k = ((h (world k)).1, mkConsole (cin k) (h (world k)).2).
Proof. reflexivity. Qed.

Lemma bind_put (msg : string) (g : io B) k :
  bind (put msg) (fun _ => g) k = g (mkConsole (cin k) (print msg (world k))).
Proof. reflexivity. Qed.

End Run.

Section Reads.
Implicit Types (w : World) (rest : string).

Lemma cin_int_typed (ws : string) (z old : Z) rest w :
  all_space ws = true -> in_int z ->
  cin_int old (mkConsole (open_in (ws +:+ show_int z +:+ String newline rest)) w)
  = (z, mkConsole (open_in (String newline rest)) w).
Proof. intros Hws Hz. unfold cin_int. cbn [cin world]. by rewrite extract_int_show. Qed.

Lemma cin_int_now (z old : Z) rest w :
  in_int z ->
  cin_int old (mkConsole (open_in (show_int z +:+ String newline rest)) w)
  = (z, mkConsole (open_in (String newline rest)) w).
Proof. intros Hz. by apply (cin_int_typed ""). Qed.

Lemma cin_int_nl (z old : Z) rest w :
  in_int z ->
  cin_int old (mkConsole (open_in (String newline (show_int z +:+ String newline rest))) w)
  = (z, mkConsole (open_in (String newline rest)) w).
Proof. intros Hz. by apply (cin_int_typed (String newline "")). Qed.

Lemma cin_ignore_typed (c : ascii) rest w :
  cin_ignore (mkConsole (open_in (String c rest)) w) = (tt, mkConsole (open_in rest) w).
Proof. reflexivity. Qed.

Lemma cin_getline_typed (l old : string) rest w :
  one_line l ->
  cin_getline old (mkConsole (open_in (l +:+ String newline rest)) w)
  = (l, mkConsole (open_in rest) w).
Proof. intros Hl. unfold cin_getline. cbn [cin world]. by rewrite getline_in_line. Qed.

End Reads.

(** One step of a handler on typed input. *)
Ltac io_step :=
  first
    [ rewrite bind_assoc
    | rewrite bind_ret
    | rewrite bind_put
    | erewrite bind_eq by (apply cin_int_now; assumption)
    | erewrite bind_eq by (apply cin_int_nl; assumption)
    | erewrite bind_eq by (apply cin_ignore_typed)
    | erewrite bind_eq by (apply cin_getline_typed; assumption) ];
  cbn [cin world].

Section Typed.
Implicit Types (sch : School) (w : World) (rest : string) (c : command).

Lemma prompted_grades_same_files w : same_files (prompted_grades w) w.
Proof. done. Qed.

Lemma read_grades_typed (g0 g1 g2 g3 : Z) rest w :
  in_int g0 -> in_int g1 -> in_int g2 -> in_int g3 ->
  Handlers.read_grades
    (mkConsole
       (open_in (show_int g0 +:+ String newline (show_int g1 +:+ String newline
                (show_int g2 +:+ String newline (show_int g3 +:+ String newline rest)))))
       w)
  = ([g0; g1; g2; g3], mkConsole (open_in (String newline rest)) (prompted_grades w)).
Proof.
  intros H0 H1 H2 H3.
  unfold Handlers.read_grades. cbn [replicate length seq for_loop].
  unfold Handlers.read_grade. repeat io_step. reflexivity.
Qed.

(** The text of a command with what follows it, entry by entry. *)
Lemma script_app c rest :
  script c +:+ rest = show_int (entry c) +:+ String newline (answers c rest).
Proof.
  destruct c as [n i cl g| | | | |]; unfold script, endl; cbn [entry answers];
    autorewrite with cpp; try reflexivity.
  do 7 f_equal. induction g as [|x g IH]; [done|].
  cbn [fold_right]. autorewrite with cpp. by rewrite IH.
Qed.

Lemma entry_in_int c : in_int (entry c).
Proof. by destruct c. Qed.

Lemma says_app (l l' : list string) w : says (l ++ l') w = says l' (says l w).
Proof. apply fold_left_app. Qed.

Lemma says_same_files (msgs : list string) w : same_files (says msgs w) w.
Proof.
  revert w. induction msgs as [|msg msgs IH]; intros w; [done|].
  cbn [says fold_left]. etrans; [apply IH|done].
Qed.

(** The end of a handler on typed input: the call of the store in the
    world the prompts have left. *)
Ltac io_done :=
  erewrite bind_eq by apply on_world_run; unfold ret;
  cbn [cin world run_command prompts says fold_left app map seq fst snd leftover];
  reflexivity.

(** The [switch] on the number of a command, when the answers to the
    prompts of its handler are typed as asked: the prompts, then that
    command of the store. *)
Lemma dispatch_typed (indet : Z) c sch rest w :
  typable c ->
  dispatch indet (entry c) sch (mkConsole (open_in (String newline (answers c rest))) w)
  = (Some (run_command c (sch, says (prompts c) w)).1,
     mkConsole (open_in (leftover c +:+ rest)) (run_command c (sch, says (prompts c) w)).2).
Proof.
  intros [Hok Hty].
  destruct c as [n i cl g|n i sb g| | |i|i]; cbn [entry dispatch command_ok answers] in *.
  - destruct Hok as (Hi & Hlen & Hg), Hty as [Hn Hcl].
    destruct g as [|g0 [|g1 [|g2 [|g3 [|]]]]]; try done.
    apply Forall_cons in Hg as [H0 Hg]. apply Forall_cons in Hg as [H1 Hg].
    apply Forall_cons in Hg as [H2 Hg]. apply Forall_cons in Hg as [H3 _].
    unfold Handlers.addStudent. cbn [fold_right]. repeat io_step.
    erewrite bind_eq by (by apply read_grades_typed).
    unfold prompted_grades. io_done.
  - destruct Hty as (Hn & Hsb & Hg).
    unfold Handlers.addTeacher. repeat io_step. io_done.
  - unfold Handlers.displayStudentsDashboard. io_done.
  - unfold Handlers.displayTeachersDashboard. io_done.
  - unfold Handlers.deleteStudent. repeat io_step. io_done.
  - unfold Handlers.deleteTeacher. repeat io_step. io_done.
Qed.

End Typed.

(** ** A [cin] that is not good *)

Section Failed.
Context {A B : Type}.
Implicit Types (m : io A) (f : A -> io B) (k : Console).

#[export] Instance ret_keeps_fail (a : A) : KeepsFail (ret a).
Proof. by intros k Hk. Qed.

#[export] Instance bind_keeps_fail m f :
  KeepsFail m -> (forall a, KeepsFail (f a)) -> KeepsFail (bind m f).
Proof. intros Hm Hf k Hk. unfold bind. cbn. by apply Hf, Hm. Qed.

#[export] Instance on_world_keeps_fail (h : World -> A * World) : KeepsFail (on_world h).
Proof. by intros k Hk. Qed.

End Failed.

#[export] Instance for_loop_keeps_fail {A : Type} (body : A -> nat -> io A)
    (ixs : list nat) (a : A) :
  (forall a i, KeepsFail (body a i)) -> KeepsFail (for_loop body ixs a).
Proof.
  intros Hb. revert a. induction ixs as [|i ixs IH]; intros a; cbn [for_loop]; apply _.
Qed.

#[export] Instance put_keeps_fail (msg : string) : KeepsFail (put msg).
Proof. by intros k Hk. Qed.

#[export] Instance cin_int_keeps_fail (old : Z) : KeepsFail (cin_int old).
Proof. intros k Hk. by apply extract_int_not_good. Qed.

#[export] Instance cin_ignore_keeps_fail : KeepsFail cin_ignore.
Proof. intros k Hk. by apply ignore_not_good. Qed.

#[export] Instance cin_getline_keeps_fail (old : string) : KeepsFail (cin_getline old).
Proof. intros k Hk. by apply getline_in_not_good. Qed.

#[export] Instance dispatch_keeps_fail (indet c : Z) (sch : School) :
  KeepsFail (dispatch indet c sch).
Proof.
  unfold dispatch, Handlers.addStudent, Handlers.addTeacher, Handlers.deleteStudent,
    Handlers.deleteTeacher, Handlers.displayStudentsDashboard,
    Handlers.displayTeachersDashboard, Handlers.read_grades, Handlers.read_grade.
  repeat case_match; apply _.
Qed.

(** ** The loop on a [cin] that is not good *)

Section Stuck.
Implicit Types (p : Proc) (k : Console) (sch : School).

(** A turn of the loop, read by [cin >> choice] and the [switch]. *)
Lemma main_step_eq (indet : Z) p :
  main_step indet p
  = let r := extract_int (cin (at_prompt (console p))) (choice p) in
    let d := dispatch indet r.2 (school p)
               (mkConsole r.1 (world (at_prompt (console p)))) in
    match d.1 with
    | Some sch => Running (mkProc sch r.2 d.2)
    | None => Exited (school p) d.2
    end.
Proof. reflexivity. Qed.

Lemma at_prompt_cin k : cin (at_prompt k) = cin k.
Proof. reflexivity. Qed.

Lemma dispatch_some (indet c : Z) sch k :
  c <> 7%Z -> exists sch', (dispatch indet c sch k).1 = Some sch'.
Proof. intros Hc. unfold dispatch. repeat case_match; by eauto. Qed.

(** Once [cin] is not good a turn changes neither that nor [choice], and
    does not return unless [choice] is 7. *)
Lemma main_step_stuck (indet : Z) p :
  good (cin (console p)) = false -> choice p <> 7%Z ->
  exists sch k,
    main_step indet p = Running (mkProc sch (choice p) k) /\
    good (cin k) = false.
Proof.
  intros Hg Hc. rewrite main_step_eq, at_prompt_cin, extract_int_stuck by done.
  cbn [fst snd]. set (k := mkConsole _ _).
  destruct (dispatch_some indet (choice p) (school p) k Hc) as [sch' ->].
  exists sch', (dispatch indet (choice p) (school p) k).2. split; [done|].
  apply keeps_fail. apply setfail_not_good.
Qed.

Lemma stuck_never_exits p :
  good (cin (console p)) = false -> choice p <> 7%Z -> never_exits p.
Proof.
  intros Hg Hc n indet. revert p Hg Hc.
  induction n as [|n IH]; intros p Hg Hc; [by eexists|]. cbn [main_loop].
  destruct (main_step_stuck (indet n) p Hg Hc) as (sch & k & -> & Hk).
  by apply IH.
Qed.

Lemma cin_int_failed (old : Z) (i : istream) (w : World) :
  good i = false -> cin_int old (mkConsole i w) = (old, mkConsole (setfail i) w).
Proof. intros Hi. unfold cin_int. cbn [cin world]. by rewrite extract_int_stuck. Qed.

Lemma cin_ignore_failed (i : istream) (w : World) :
  good i = false -> cin_ignore (mkConsole i w) = (tt, mkConsole (setfail i) w).
Proof. intros Hi. unfold cin_ignore. cbn [cin world]. by rewrite ignore_stuck. Qed.

Lemma cin_getline_failed (old : string) (i : istream) (w : World) :
  good i = false -> cin_getline old (mkConsole i w) = (old, mkConsole (setfail i) w).
Proof. intros Hi. unfold cin_getline. cbn [cin world]. by rewrite getline_in_stuck. Qed.

End Stuck.

(** One step of a handler on a [cin] that is not good. *)
Ltac io_fail :=
  first
    [ rewrite bind_assoc
    | rewrite bind_ret
    | rewrite bind_put
    | erewrite bind_eq by (apply cin_int_failed; first [assumption | apply setfail_not_good])
    | erewrite bind_eq by (apply cin_ignore_failed; first [assumption | apply setfail_not_good])
    | erewrite bind_eq by (apply cin_getline_failed; first [assumption | apply setfail_not_good]) ];
  cbn [cin world].

Section Flood.
Implicit Types (p : Proc) (k : Console) (sch : School).

(** With [cin] not good [addStudent] reads nothing and still adds. *)
Lemma addStudent_failed (indet : Z) sch (i : istream) (w : World) :
  good i = false ->
  exists w0,
    Handlers.addStudent indet sch (mkConsole i w)
    = ((Store.addStudent "" indet "" (replicate 4 0%Z) sch w0).1,
       mkConsole (setfail i) (Store.addStudent "" indet "" (replicate 4 0%Z) sch w0).2)
    /\ same_files w0 w.
Proof.
  intros Hi. unfold Handlers.addStudent, Handlers.read_grades, Handlers.read_grade.
  cbn [replicate length seq for_loop]. repeat io_fail.
  rewrite on_world_run. cbn [cin world]. by eexists.
Qed.

Lemma main_step_flood (indet : Z) p :
  good (cin (console p)) = false -> choice p = 1%Z ->
  exists k,
    main_step indet p
    = Running (mkProc (push_student (blank_student indet) (school p)) 1%Z k)
    /\ good (cin k) = false.
Proof.
  intros Hg Hc. rewrite main_step_eq, at_prompt_cin, extract_int_stuck, Hc by done.
  cbn [fst snd dispatch].
  destruct (addStudent_failed indet (school p) (setfail (cin (console p)))
              (world (at_prompt (console p)))) as (w0 & E & _);
    [apply setfail_not_good|].
  erewrite bind_eq by exact E. cbn [ret fst snd].
  eexists. split; [reflexivity|]. apply setfail_not_good.
Qed.

(** With [cin] not good [deleteStudent] reads nothing either, and deletes
    the first student whose id is whatever its uninitialized [id] holds. *)
Lemma main_step_failed_delete (indet : Z) p :
  good (cin (console p)) = false -> choice p = 5%Z ->
  exists w0 k,
    main_step indet p = Running (mkProc (deleteStudent indet (school p) w0).1 5%Z k)
    /\ good (cin k) = false.
Proof.
  intros Hg Hc. rewrite main_step_eq, at_prompt_cin, extract_int_stuck, Hc by done.
  cbn [fst snd dispatch]. unfold Handlers.deleteStudent.
  pose proof (setfail_not_good (cin (console p))) as Hf.
  repeat io_fail. erewrite bind_eq by apply on_world_run. cbn [ret fst snd cin world].
  eexists _, _. split; [reflexivity|]. apply setfail_not_good.
Qed.

End Flood.

(** ** Whole runs *)

Section Runs.
Implicit Types (p : Proc) (k : Console) (sch : School) (w : World) (cs : list command).

Lemma main_loop_S (n : nat) (indet : nat -> Z) p :
  main_loop (S n) indet p
  = match main_step (indet n) p with
    | Running p' => main_loop n indet p'
    | Exited sch k => Exited sch k
    end.
Proof. reflexivity. Qed.

Lemma never_exits_step p :
  (forall indet, exists p', main_step indet p = Running p' /\ never_exits p') ->
  never_exits p.
Proof.
  intros Hp [|n] indet; [by eexists|]. rewrite main_loop_S.
  destruct (Hp (indet n)) as (p' & -> & Hp'). apply Hp'.
Qed.

Lemma skip_space_all_space (s : string) : all_space s = true -> skip_space s = "".
Proof.
  induction s as [|c s IH]; [done|]. simpl. intros [-> H]%andb_true_iff. by apply IH.
Qed.

(** At the end of the input [cin >> choice] fails and stores nothing. *)
Lemma main_step_eof (indet : Z) p :
  good (cin (console p)) = true -> all_space (unread (cin (console p))) = true ->
  choice p <> 7%Z ->
  exists sch k,
    main_step indet p = Running (mkProc sch (choice p) k) /\ good (cin k) = false.
Proof.
  intros Hg Hs Hc. rewrite main_step_eq, at_prompt_cin. unfold extract_int.
  rewrite Hg, skip_space_all_space by done. cbn [fst snd]. set (k := mkConsole _ _).
  destruct (dispatch_some indet (choice p) (school p) k Hc) as [sch' ->].
  exists sch', (dispatch indet (choice p) (school p) k).2. split; [done|].
  by apply keeps_fail.
Qed.

(** A token that is no number makes [choice] zero and [cin] fail. *)
Lemma main_step_bad_token (indet : Z) p (c : ascii) (s : string) :
  good (cin (console p)) = true -> skip_space (unread (cin (console p))) = String c s ->
  digit_of c = None -> c <> "-"%char -> c <> "+"%char ->
  exists k,
    main_step indet p = Running (mkProc (school p) 0%Z k) /\ good (cin k) = false.
Proof.
  intros Hg Hs Hd Hm Hp. rewrite main_step_eq, at_prompt_cin. cbn zeta.
  destruct (extract_int_no_number (cin (console p)) (choice p) c s) as [-> Hk]; [done..|].
  cbn [fst snd dispatch]. eexists. split; [reflexivity|]. done.
Qed.

Lemma at_prompt_world k : world (at_prompt k) = says menu (world k).
Proof. reflexivity. Qed.

(** A turn of the loop on the text of a command is the menu, the prompts
    of its handler and that command of the store. *)
Lemma main_step_typed (indet ch : Z) c sch (ws : string) rest w :
  typable c -> all_space ws = true ->
  main_step indet (mkProc sch ch (mkConsole (open_in (ws +:+ script c +:+ rest)) w))
  = Running (mkProc (run_turn c (sch, w)).1 (entry c)
               (mkConsole (open_in (leftover c +:+ rest)) (run_turn c (sch, w)).2)).
Proof.
  intros Hc Hws. rewrite main_step_eq, at_prompt_cin, at_prompt_world.
  cbn [console cin world choice school].
  rewrite script_app, extract_int_show by (done || apply entry_in_int).
  cbn [fst snd]. rewrite dispatch_typed by done. cbn [fst snd].
  unfold run_turn. by rewrite says_app.
Qed.

Lemma main_step_exit (indet ch : Z) sch (ws rest : string) w :
  all_space ws = true ->
  main_step indet
    (mkProc sch ch (mkConsole (open_in (ws +:+ show_int 7 +:+ String newline rest)) w))
  = Exited sch (mkConsole (open_in (String newline rest)) (exit_turn w)).
Proof.
  intros Hws. rewrite main_step_eq, at_prompt_cin, at_prompt_world.
  cbn [console cin world choice school].
  rewrite extract_int_show by done. cbn [fst snd dispatch].
  unfold exit_turn. by rewrite says_app.
Qed.

Lemma scripts_cons (c : command) cs (rest : string) :
  scripts (c :: cs) +:+ rest = script c +:+ scripts cs +:+ rest.
Proof. cbn [scripts fold_right]. apply app_assoc_s. Qed.

Lemma leftover_space (c : command) : all_space (leftover c) = true.
Proof. by destruct c. Qed.

Lemma entry_not_exit (c : command) : entry c <> 7%Z.
Proof. by destruct c. Qed.

Lemma run_turns_cons c cs (st : School * World) :
  run_turns (c :: cs) st = run_turns cs (run_turn c st).
Proof. reflexivity. Qed.

(** The program on the text of a session and the choice 7: the turns of
    the commands, then the last turn. *)
Lemma run_script (indet : nat -> Z) cs sch (ch : Z) (ws rest : string) w :
  Forall typable cs -> all_space ws = true ->
  main_loop (S (length cs)) indet
    (mkProc sch ch
       (mkConsole (open_in (ws +:+ scripts cs +:+ show_int 7 +:+ String newline rest)) w))
  = Exited (run_turns cs (sch, w)).1
      (mkConsole (open_in (String newline rest)) (exit_turn (run_turns cs (sch, w)).2)).
Proof.
  intros Hcs. revert sch ch ws w.
  induction Hcs as [|c cs Hc _ IH]; intros sch ch ws w Hws.
  - cbn [length scripts fold_right]. by rewrite main_loop_S, app_nil_l_s, main_step_exit.
  - cbn [length]. rewrite scripts_cons, main_loop_S, main_step_typed by done.
    rewrite IH by apply leftover_space. rewrite run_turns_cons.
    by destruct (run_turn c (sch, w)).
Qed.

(** The turns of a session leave the school and the files of the session:
    the menu and the prompts change [cout] only. *)
Lemma run_turns_session cs (st : School * World) :
  same_state (run_turns cs st) (run_session cs st).
Proof.
  revert st. induction cs as [|c cs IH]; intros st; [done|].
  rewrite run_turns_cons. cbn [run_session fold_left]. etrans; [apply IH|].
  apply run_session_proper. unfold run_turn. apply run_command_proper.
  split; [done|]. apply says_same_files.
Qed.

Lemma input_end_never_exits cs sch (ch : Z) (ws : string) w :
  Forall typable cs -> all_space ws = true -> cs <> [] \/ ch <> 7%Z ->
  never_exits (mkProc sch ch (mkConsole (open_in (ws +:+ scripts cs)) w)).
Proof.
  intros Hcs. revert sch ch ws w.
  induction Hcs as [|c cs Hc _ IH]; intros sch ch ws w Hws Hch;
    apply never_exits_step; intros indet.
  - destruct Hch as [|Hch]; [done|].
    destruct (main_step_eof indet
                (mkProc sch ch (mkConsole (open_in (ws +:+ scripts [])) w)))
      as (sch' & k & -> & Hk); [done|by rewrite app_nil_r_s|done|].
    eexists. split; [done|]. by apply stuck_never_exits.
  - rewrite <- (app_nil_r_s (scripts (c :: cs))), scripts_cons.
    rewrite main_step_typed by done.
    eexists. split; [done|]. rewrite app_nil_r_s.
    apply IH; [apply leftover_space|right; apply entry_not_exit].
Qed.

Lemma bad_token_stuck p (c : ascii) (s : string) :
  good (cin (console p)) = true -> skip_space (unread (cin (console p))) = String c s ->
  digit_of c = None -> c <> "-"%char -> c <> "+"%char ->
  never_exits p.
Proof.
  intros Hg Hs Hd Hm Hp. apply never_exits_step. intros indet.
  destruct (main_step_bad_token indet p c s) as (k & -> & Hk); try done.
  eexists. split; [done|]. by apply stuck_never_exits.
Qed.

Lemma flood (n : nat) (indet : nat -> Z) p :
  good (cin (console p)) = false -> choice p = 1%Z ->
  exists k,
    main_loop n indet p
    = Running (mkProc (push_all
                         (map (fun i => blank_student (indet i)) (rev (seq 0 n))) []
                         (school p)) 1%Z k) /\
    good (cin k) = false.
Proof.
  revert p. induction n as [|n IH]; intros p Hg Hc.
  - exists (console p). destruct p as [[ss ts f] ch k]. cbn in *. subst ch.
    unfold push_all. cbn. by rewrite !app_nil_r.
  - rewrite main_loop_S.
    destruct (main_step_flood (indet n) p Hg Hc) as (k1 & -> & Hk1).
    destruct (IH (mkProc (push_student (blank_student (indet n)) (school p)) 1%Z k1))
      as (k & -> & Hk); [done..|].
    exists k. split; [|done]. do 2 f_equal.
    rewrite seq_S, rev_app_distr. cbn [rev app map Nat.add].
    destruct (school p) as [ss ts f]. unfold push_all, push_student. cbn.
    by rewrite <- !app_assoc.
Qed.

End Runs.

(** * Properties *)

Section Properties.
Implicit Types (p : Proc) (sch : School) (w : World) (cs : list command).

(** C11. The program run on the text of a session followed by the choice 7
    returns from [main] after one turn of the loop per command and one for
    the exit, with the school the session of commands yields and the same
    files: the interactive handlers, prompts and reads included, implement
    the handlers of the store, whatever the uninitialized variables held. *)
Theorem script_runs_session (indet : nat -> Z) cs sch w w' :
  construct w = Ok (sch, w') -> Forall typable cs ->
  exists k,
    main (S (length cs)) indet (scripts cs +:+ show_int 7 +:+ endl) w
    = Ok (Exited (run_session cs (sch, w')).1 k) /\
    same_files (world k) (run_session cs (sch, w')).2.
Proof.
  intros Hc Hcs. unfold main. rewrite Hc. cbn [res_bind fst snd].
  pose proof (run_script indet cs sch (indet (S (length cs))) "" "" w' Hcs eq_refl) as Hk.
  destruct (run_turns_session cs (sch, w')) as [Hs Hf].
  eexists. split; [f_equal; rewrite <- Hs; exact Hk|].
  cbn [world]. unfold exit_turn. by rewrite says_same_files.
Qed.

Lemma script_runs_session_witness :
  exists k,
    main 6 (fun _ => 0%Z) (scripts sample_session +:+ show_int 7 +:+ endl) sample_world
    = Ok (Exited
            (run_session sample_session
               (mkSchool [] [] default_filePath,
                print ("No existing data found. Starting fresh." +:+ endl) sample_world)).1 k) /\
    same_files (world k)
      (run_session sample_session
         (mkSchool [] [] default_filePath,
          print ("No existing data found. Starting fresh." +:+ endl) sample_world)).2.
Proof.
  apply (script_runs_session (fun _ => 0%Z) sample_session
           (mkSchool [] [] default_filePath) sample_world); [reflexivity|by_compute].
Defined.

(** C21. What the program shows: run on the text of a session followed by
    the choice 7 it returns from [main] with exactly the output of the
    turns of the session, each the menu, the prompt for the choice, the
    prompts of the handler and what the store prints, then the menu once
    more and "Exiting..."; it leaves unread the newline after the 7. *)
Theorem script_transcript (indet : nat -> Z) cs sch w w' :
  construct w = Ok (sch, w') -> Forall typable cs ->
  main (S (length cs)) indet (scripts cs +:+ show_int 7 +:+ endl) w
  = Ok (Exited (run_turns cs (sch, w')).1
          (mkConsole (open_in endl) (exit_turn (run_turns cs (sch, w')).2))).
Proof.
  intros Hc Hcs. unfold main. rewrite Hc. cbn [res_bind fst snd]. f_equal.
  exact (run_script indet cs sch (indet (S (length cs))) "" "" w' Hcs eq_refl).
Qed.

Lemma script_transcript_witness :
  main 3 (fun _ => 0%Z) (scripts [DeleteStudent 5; ViewTeachers] +:+ show_int 7 +:+ endl)
    sample_world
  = Ok (Exited
          (run_turns [DeleteStudent 5; ViewTeachers]
             (empty_school,
              print ("No existing data found. Starting fresh." +:+ endl) sample_world)).1
          (mkConsole (open_in endl)
             (exit_turn
                (run_turns [DeleteStudent 5; ViewTeachers]
                   (empty_school,
                    print ("No existing data found. Starting fresh." +:+ endl)
                      sample_world)).2))).
Proof.
  apply (script_transcript (fun _ => 0%Z) [DeleteStudent 5; ViewTeachers] empty_school
           sample_world); [reflexivity|by_compute].
Defined.

(** C17. Once [cin] is not good the loop of [main] never returns unless the
    last choice read was 7: [cin >> choice] stores nothing, the [switch]
    takes the same case again, and no handler clears the state. *)
Theorem failed_cin_never_exits p (n : nat) (indet : nat -> Z) :
  good (cin (console p)) = false -> choice p <> 7%Z ->
  exists p', main_loop n indet p = Running p' /\
             good (cin (console p')) = false /\ choice p' = choice p.
Proof.
  intros Hg Hc. revert p Hg Hc.
  induction n as [|n IH]; intros p Hg Hc; [by exists p|]. rewrite main_loop_S.
  destruct (main_step_stuck (indet n) p Hg Hc) as (sch' & k & -> & Hk).
  by apply (IH (mkProc sch' (choice p) k)).
Qed.

Lemma failed_cin_never_exits_witness :
  exists p', main_loop 5 (fun _ => 0%Z) (failed_proc 3) = Running p' /\
             good (cin (console p')) = false /\ choice p' = choice (failed_proc 3).
Proof. apply (failed_cin_never_exits (failed_proc 3) 5 (fun _ => 0%Z)); by_compute. Defined.

(** C18. When [cin] stops being good after the choice 1, every further turn
    of the loop adds one student built from nothing that was typed: empty
    name and class, four zero grades, and as id whatever the uninitialized
    [id] holds.  After [n] turns the school has [n] more students. *)
Theorem failed_add_floods p (n : nat) (indet : nat -> Z) :
  good (cin (console p)) = false -> choice p = 1%Z ->
  exists p', main_loop n indet p = Running p' /\
    students (school p')
    = students (school p) ++ map (fun i => blank_student (indet i)) (rev (seq 0 n)) /\
    teachers (school p') = teachers (school p).
Proof.
  intros Hg Hc. destruct (flood n indet p Hg Hc) as (k & -> & _).
  eexists. split; [reflexivity|]. unfold push_all. cbn. by rewrite app_nil_r.
Qed.

Lemma failed_add_floods_witness :
  exists p', main_loop 3 (fun i => Z.of_nat i) (failed_proc 1) = Running p' /\
    students (school p')
    = students (school (failed_proc 1)) ++
      map (fun i => blank_student (Z.of_nat i)) (rev (seq 0 3)) /\
    teachers (school p') = teachers (school (failed_proc 1)).
Proof. apply (failed_add_floods (failed_proc 1) 3 (fun i => Z.of_nat i)); by_compute. Defined.

(** On an input that ends without the choice 7 the program never
    returns from [main]: after the last command [cin >> choice] fails at the
    end of the input and the last choice is taken again for ever. *)
Theorem end_of_input_never_exits (n : nat) (indet : nat -> Z) cs sch w w' :
  construct w = Ok (sch, w') -> Forall typable cs -> cs <> [] ->
  exists p, main n indet (scripts cs) w = Ok (Running p).
Proof.
  intros Hc Hcs Hne. unfold main. rewrite Hc. cbn [res_bind fst snd].
  destruct (input_end_never_exits cs sch (indet n) "" w' Hcs eq_refl (or_introl Hne)
              n indet) as [p Hp].
  exists p. f_equal. exact Hp.
Qed.

Lemma end_of_input_never_exits_witness :
  exists p, main 20 (fun _ => 0%Z) (scripts sample_session) sample_world = Ok (Running p).
Proof.
  apply (end_of_input_never_exits 20 (fun _ => 0%Z) sample_session
           (mkSchool [] [] default_filePath) sample_world
           (print ("No existing data found. Starting fresh." +:+ endl) sample_world));
    [reflexivity|by_compute|discriminate].
Defined.

(** A token at the menu that is no number (its first character is
    neither a digit nor a sign) makes [choice] zero and sets [failbit]; the
    program then prints the menu and "Invalid choice!" for ever. *)
Theorem bad_token_never_exits p (n : nat) (indet : nat -> Z) (c : ascii) (s : string) :
  good (cin (console p)) = true -> skip_space (unread (cin (console p))) = String c s ->
  digit_of c = None -> c <> "-"%char -> c <> "+"%char ->
  exists p', main_loop n indet p = Running p'.
Proof. intros Hg Hs Hd Hm Hp. by apply (bad_token_stuck p c s). Qed.

Lemma bad_token_never_exits_witness :
  exists p',
    main_loop 9 (fun _ => 0%Z)
      (mkProc empty_school 0 (mkConsole (open_in " x7") sample_world))
    = Running p'.
Proof.
  apply (bad_token_never_exits
           (mkProc empty_school 0 (mkConsole (open_in " x7") sample_world))
           9 (fun _ => 0%Z) "x" "7"); by_compute.
Defined.

End Properties.
