(* ===== verification/Turns.v ===== *)
(** The loop of [main] on any input whatever.  [Shell] follows the program
    on the text a careful user types; here nothing is assumed of standard
    input.  Whatever it holds, a handler reads [cin], prints its prompts and
    then calls the store once, with arguments that are [int]s where the
    code declares [int]s: so every turn of the loop is one command of
    [Store] or none, every run is a session of commands, and what holds of
    every session (the class invariant of the records, the files left
    untouched) holds of every run of the program.  The states of the loop
    are also given as a relation ([reachable]), with the invariants proved
    by induction on its rules. *)

From Stdlib Require Import ZArith Ascii String Lia.
From stdpp Require Import base tactics option list numbers strings gmap.
From S2P Require Import Prelude CppString CppInt CppStream Records Persistence Store Shell.

#[local] Open Scope io_scope.

(** ** What a turn does *)

(** The effect of a turn on the school and the files: a command of the
    store, or nothing (a choice that is no entry of the menu). *)
Definition act (a : option command) (st : School * World) : School * World :=
  match a with
  | Some c => run_command c st
  | None => st
  end.

(** The input of a command as a handler reads it: what [command_ok] asks
    of a record added and, since [cin >> id] gives an [int], an [int] id
    in a delete too. *)
Definition command_read (c : command) : Prop :=
  command_ok c /\
  match c with
  | DeleteStudent i | DeleteTeacher i => in_int i
  | _ => True
  end.

#[export] Instance command_read_dec (c : command) : Decision (command_read c).
Proof. destruct c; unfold command_read; simpl; apply _. Defined.

Definition action_ok (a : option command) : Prop := from_option command_read True a.

(** The school and the world an outcome of the loop holds. *)
Definition final (o : outcome) : School * World :=
  match o with
  | Running p => (school p, world (console p))
  | Exited sch k => (sch, world k)
  end.

(** The choice the next turn starts from. *)
Definition last_choice (o : outcome) : option Z :=
  match o with
  | Running p => Some (choice p)
  | Exited _ _ => None
  end.

(** A computation on the console alone: it reads and prints, its result
    satisfies [P], and the files are as before. *)
Definition reads {A : Type} (P : A -> Prop) (m : io A) : Prop :=
  forall k, P (m k).1 /\ same_files (world (m k).2) (world k).

(** A handler of the school [sch]: whatever the console holds, it does what
    one command of the store does, or nothing. *)
Definition acts (sch : School) (m : io School) : Prop :=
  forall k, exists a, action_ok a /\
    same_state ((m k).1, world (m k).2) (act a (sch, world k)).

(** What the [switch] may leave from the school [sch] and the console [k]
    on the choice [c]: the effect of a command or of none and the loop goes
    on, or a return from [main], on the choice 7 only, with nothing done. *)
Definition turn_ok (sch : School) (k : Console) (c : Z)
    (r : option School * Console) : Prop :=
  exists a, action_ok a /\
    match r.1 with
    | Some sch' => same_state (sch', world r.2) (act a (sch, world k))
    | None => c = 7%Z /\ same_files (world r.2) (world k)
    end.

(** The states of the loop that can be reached from [p0]: a turn goes on
    from a reachable state, with some [int] in the locals it declares
    without an initializer. *)
Inductive reachable (p0 : Proc) : Proc -> Prop :=
| reach_start : reachable p0 p0
| reach_turn p p' (indet : Z) :
    reachable p0 p -> in_int indet -> main_step indet p = Running p' ->
    reachable p0 p'.

(** Four [int] grades. *)
Definition grades_ok (g : list Z) : Prop := length g = 4 /\ Forall in_int g.

(** An input that is no session: a teacher is added, then a student whose
    third grade is no [int], and the input ends in the middle of that
    command. *)
Definition noise : string :=
  unlines ["2"; "Carol"; "7"; "Maths"; "Professor"; "1"; "Bob"; "12"; "10A";
           "3 4 99999999999 7"; "5"].

(** ** Reading keeps the files *)

Section Reads.
Context {A B : Type}.
Implicit Types (m : io A) (f : A -> io B) (P : A -> Prop) (Q : B -> Prop).

Lemma reads_ret (a : A) P : P a -> reads P (ret a).
Proof. by intros Ha k. Qed.

Lemma reads_bind m f P Q :
  reads P m -> (forall a, P a -> reads Q (f a)) -> reads Q (bind m f).
Proof.
  intros Hm Hf k. unfold bind. cbn. destruct (Hm k) as [Ha Hw].
  destruct (Hf _ Ha (m k).2) as [Hb Hw']. split; [done|by etrans].
Qed.

Lemma reads_weaken m P (P' : A -> Prop) :
  (forall a, P a -> P' a) -> reads P m -> reads P' m.
Proof. intros HP Hm k. destruct (Hm k). auto. Qed.

End Reads.

Section ReadsConsole.

Lemma reads_put (msg : string) : reads (fun _ => True) (put msg).
Proof. by intros k. Qed.

Lemma reads_cin_int (old : Z) : in_int old -> reads in_int (cin_int old).
Proof. intros Ho k. split; [by apply extract_int_in_int|done]. Qed.

Lemma reads_cin_ignore : reads (fun _ => True) cin_ignore.
Proof. by intros k. Qed.

Lemma reads_cin_getline (old : string) : reads (fun _ => True) (cin_getline old).
Proof. by intros k. Qed.

Lemma reads_for_loop {A : Type} (P : A -> Prop) (body : A -> nat -> io A)
    (ixs : list nat) (a : A) :
  (forall a i, i ∈ ixs -> P a -> reads P (body a i)) -> P a ->
  reads P (for_loop body ixs a).
Proof.
  revert a. induction ixs as [|i ixs IH]; intros a Hb Ha; cbn [for_loop].
  - by apply reads_ret.
  - eapply reads_bind; [apply Hb; [by left|done]|].
    intros a' Ha'. apply IH; [|done]. intros a0 j Hj. apply Hb. by right.
Qed.

Lemma grades_ok_insert (g : list Z) (i : nat) (z : Z) :
  grades_ok g -> in_int z -> grades_ok (<[i := z]> g).
Proof.
  intros [Hl Hg] Hz. split; [by rewrite length_insert|].
  apply Forall_insert; done.
Qed.

Lemma grades_ok_lookup (g : list Z) (i : nat) :
  grades_ok g -> in_int (g !!! i).
Proof.
  intros [_ Hg]. destruct (g !! i) as [z|] eqn:Hz.
  - rewrite (list_lookup_total_correct _ _ _ Hz). by eapply Forall_lookup_1.
  - rewrite list_lookup_total_alt, Hz. done.
Qed.

Lemma reads_read_grade (g : list Z) (i : nat) :
  grades_ok g -> reads grades_ok (Handlers.read_grade g i).
Proof.
  intros Hg. unfold Handlers.read_grade.
  eapply reads_bind; [apply reads_put|]. intros _ _.
  eapply reads_bind; [by apply reads_cin_int, grades_ok_lookup|]. intros z Hz.
  by apply reads_ret, grades_ok_insert.
Qed.

Lemma reads_read_grades : reads grades_ok Handlers.read_grades.
Proof.
  unfold Handlers.read_grades. apply reads_for_loop.
  - intros g i _ Hg. by apply reads_read_grade.
  - split; [done|]. by repeat constructor.
Qed.

End ReadsConsole.

(** ** A handler is a command *)

Section Acts.
Implicit Types (sch : School) (c : command) (m : io School).

Lemma acts_command c sch :
  command_read c -> acts sch (on_world (fun w => run_command c (sch, w))).
Proof. intros Hc k. by exists (Some c). Qed.

Lemma acts_reads {A : Type} (P : A -> Prop) (r : io A) (f : A -> io School) sch :
  reads P r -> (forall a, P a -> acts sch (f a)) -> acts sch (bind r f).
Proof.
  intros Hr Hf k. unfold bind. cbn. destruct (Hr k) as [Ha Hw].
  destruct (Hf _ Ha (r k).2) as (a & Hok & Hst). exists a. split; [done|].
  etrans; [exact Hst|]. destruct a as [c|]; cbn [act]; [|done].
  by apply run_command_proper.
Qed.

End Acts.

(** One read of a handler, or the prompt before it. *)
Ltac reads_step :=
  eapply acts_reads;
  [ first [ apply reads_put | apply reads_cin_ignore | apply reads_cin_getline
          | apply reads_cin_int; assumption | apply reads_read_grades ]
  | intros ? ? ].

Section Handlers.
Implicit Types (sch : School) (k : Console).
Variable indet : Z.
Hypothesis indet_int : in_int indet.

Lemma addStudent_acts sch : acts sch (Handlers.addStudent indet sch).
Proof.
  unfold Handlers.addStudent. repeat reads_step.
  match goal with
  | Hi : in_int ?i, Hg : grades_ok ?g
    |- acts _ (on_world (Store.addStudent ?n ?i ?c ?g _)) =>
      apply (acts_command (AddStudent n i c g)); destruct Hg; by split_and!
  end.
Qed.

Lemma addTeacher_acts sch : acts sch (Handlers.addTeacher indet sch).
Proof.
  unfold Handlers.addTeacher. repeat reads_step.
  match goal with
  | Hi : in_int ?i |- acts _ (on_world (Store.addTeacher ?n ?i ?s ?g _)) =>
      by apply (acts_command (AddTeacher n i s g))
  end.
Qed.

Lemma deleteStudent_acts sch : acts sch (Handlers.deleteStudent indet sch).
Proof.
  unfold Handlers.deleteStudent. repeat reads_step.
  match goal with
  | Hi : in_int ?i |- acts _ (on_world (Store.deleteStudent ?i _)) =>
      by apply (acts_command (DeleteStudent i))
  end.
Qed.

Lemma deleteTeacher_acts sch : acts sch (Handlers.deleteTeacher indet sch).
Proof.
  unfold Handlers.deleteTeacher. repeat reads_step.
  match goal with
  | Hi : in_int ?i |- acts _ (on_world (Store.deleteTeacher ?i _)) =>
      by apply (acts_command (DeleteTeacher i))
  end.
Qed.

Lemma displayStudentsDashboard_acts sch :
  acts sch (Handlers.displayStudentsDashboard sch).
Proof. by apply (acts_command ViewStudents). Qed.

Lemma displayTeachersDashboard_acts sch :
  acts sch (Handlers.displayTeachersDashboard sch).
Proof. by apply (acts_command ViewTeachers). Qed.

(** The [switch]: a case that calls a handler does what the handler does,
    the default case nothing, and only the case 7 returns. *)
Lemma turn_handler (c : Z) sch k (m : io School) :
  acts sch m -> turn_ok sch k c ((sch' <- m ;; ret (Some sch')) k).
Proof. intros Hm. apply Hm. Qed.

Lemma dispatch_acts (c : Z) sch k : turn_ok sch k c (dispatch indet c sch k).
Proof.
  unfold dispatch.
  repeat case_match; subst;
    first
      [ by exists None
      | apply turn_handler;
        first [ apply addStudent_acts | apply addTeacher_acts
              | apply displayStudentsDashboard_acts | apply displayTeachersDashboard_acts
              | apply deleteStudent_acts | apply deleteTeacher_acts ] ].
Qed.

End Handlers.

(** ** Every run is a session *)

Section Loop.
Implicit Types (p : Proc) (st : School * World) (cs : list command).

#[export] Instance act_proper (a : option command) :
  Proper (same_state ==> same_state) (act a).
Proof. destruct a as [c|]; cbn [act]; [apply _|by intros ? ? ?]. Qed.

Lemma run_session_act (a : option command) cs st :
  run_session cs (act a st) = run_session (option_list a ++ cs) st.
Proof. by destruct a. Qed.

Lemma action_ok_list (a : option command) : action_ok a -> Forall command_read (option_list a).
Proof. destruct a; [by constructor|constructor]. Qed.

(** A turn of the loop is a command of the store or none, and [choice]
    holds an [int] after it. *)
Lemma main_step_acts (indet : Z) p :
  in_int indet -> in_int (choice p) ->
  exists a, action_ok a /\
    same_state (final (main_step indet p)) (act a (school p, world (console p))) /\
    from_option in_int True (last_choice (main_step indet p)).
Proof.
  intros Hi Hc. rewrite main_step_eq. cbn zeta.
  set (r := extract_int _ _). set (k := mkConsole _ _).
  destruct (dispatch_acts indet Hi r.2 (school p) k) as (a & Hok & H).
  destruct (dispatch indet r.2 (school p) k).1 as [sch'|]; cbn [final last_choice].
  - exists a. split_and!; [done| |by apply extract_int_in_int].
    etrans; [exact H|]. by apply act_proper.
  - exists None. destruct H as [_ H]. split_and!; [done| |done].
    split; [done|]. etrans; [exact H|]. done.
Qed.

Lemma main_loop_session (n : nat) (indet : nat -> Z) p :
  (forall i, in_int (indet i)) -> in_int (choice p) ->
  exists cs, length cs <= n /\ Forall command_read cs /\
    same_state (final (main_loop n indet p))
               (run_session cs (school p, world (console p))).
Proof.
  intros Hi. revert p. induction n as [|n IH]; intros p Hc.
  - exists []. by split_and!.
  - rewrite main_loop_S.
    destruct (main_step_acts (indet n) p (Hi n) Hc) as (a & Hok & Hst & Hch).
    assert (length (option_list a) <= 1) as Hlen by (destruct a; cbn; lia).
    destruct (main_step (indet n) p) as [p'|sch k]; cbn [final last_choice] in *.
    + destruct (IH p' Hch) as (cs & Hn & Hcs & Hrun).
      exists (option_list a ++ cs). rewrite length_app. split_and!; [lia| |].
      * apply Forall_app. split; [by apply action_ok_list|done].
      * rewrite <- run_session_act. etrans; [exact Hrun|].
        by apply run_session_proper.
    + exists (option_list a). split_and!; [lia|by apply action_ok_list|].
      by rewrite <- (app_nil_r (option_list a)), <- run_session_act.
Qed.

Lemma construct_frame (w w' : World) (sch : School) :
  construct w = Ok (sch, w') ->
  School_wf sch /\ filePath sch = default_filePath /\
  disk w' = disk w /\ same_system w w'.
Proof.
  intros Hc. split_and!.
  - eapply loadFromFile_wf; [exact Hc|]. by split.
  - revert Hc. unfold construct, loadFromFile. case_match; intros Hl; res_inv; [|done].
    match goal with H : load_lines _ _ = Ok _ |- _ =>
      by destruct (load_lines_extends _ _ _ H) as (_ & _ & ->) end.
  - by eapply loadFromFile_disk.
  - by eapply loadFromFile_disk.
Qed.

(** [main] after the constructor, on any input. *)
Lemma main_session (n : nat) (indet : nat -> Z) (input : string) (w w' : World)
    (sch : School) :
  (forall i, in_int (indet i)) -> construct w = Ok (sch, w') ->
  exists o cs,
    main n indet input w = Ok o /\ length cs <= n /\ Forall command_read cs /\
    same_state (final o) (run_session cs (sch, w')).
Proof.
  intros Hi Hc. unfold main. rewrite Hc. cbn [res_bind fst snd].
  destruct (main_loop_session n indet
              (mkProc sch (indet n) (mkConsole (open_in input) w')) Hi (Hi n))
    as (cs & Hn & Hcs & Hrun).
  by eexists _, cs.
Qed.

End Loop.

(** ** Invariants of the reachable states *)

Section Reachable.
Implicit Types (p : Proc) (sch : School) (k : Console).

(** A property that holds at the start and that every command of the store
    keeps, whatever was printed, holds in every reachable state. *)
Lemma reachable_ind_commands (P : School * World -> Prop) p0 p :
  Proper (same_state ==> iff) P ->
  (forall c st, command_ok c -> P st -> P (run_command c st)) ->
  in_int (choice p0) -> P (school p0, world (console p0)) -> reachable p0 p ->
  in_int (choice p) /\ P (school p, world (console p)).
Proof.
  intros HP Hc Hch H0. induction 1 as [|p p' indet _ [Hch' IH] Hi Hs]; [done|].
  destruct (main_step_acts indet p Hi Hch') as (a & Hok & Hst & Hch2).
  rewrite Hs in Hst, Hch2. cbn [final last_choice from_option] in Hst, Hch2.
  split; [done|]. rewrite Hst. destruct a as [c|]; cbn [act]; [|done].
  apply Hc; [apply Hok|done].
Qed.

Lemma reach_first (indet : Z) p0 p1 p :
  in_int indet -> main_step indet p0 = Running p1 -> reachable p1 p -> reachable p0 p.
Proof.
  intros Hi Hs. induction 1 as [|q q' i _ IH Hq Hq'].
  - by econstructor; [constructor|..].
  - by econstructor.
Qed.

Lemma main_loop_reachable (n : nat) (indet : nat -> Z) p0 p :
  (forall i, in_int (indet i)) -> main_loop n indet p0 = Running p -> reachable p0 p.
Proof.
  intros Hi. revert p0. induction n as [|n IH]; intros p0.
  - intros [= <-]. constructor.
  - rewrite main_loop_S. destruct (main_step (indet n) p0) as [p1|] eqn:Hs; [|done].
    intros Hl. eapply reach_first; [apply (Hi n)|done|by apply IH].
Qed.

(** A return from [main] is a turn from a reachable state. *)
Lemma main_loop_exit (n : nat) (indet : nat -> Z) p0 sch k :
  (forall i, in_int (indet i)) -> main_loop n indet p0 = Exited sch k ->
  exists p, reachable p0 p /\ sch = school p.
Proof.
  intros Hi. revert p0. induction n as [|n IH]; intros p0; [done|].
  rewrite main_loop_S. destruct (main_step (indet n) p0) as [p1|sch1 k1] eqn:Hs.
  - intros (p & Hr & ->)%IH. exists p. split; [|done].
    eapply reach_first; [apply (Hi n)|done..].
  - intros [= <- <-]. exists p0. split; [constructor|].
    revert Hs. rewrite main_step_eq. cbn zeta. case_match; [done|]. by intros [= <- _].
Qed.

(** Once [cin] is not good it stays so in every reachable state, and
    [choice] stays what it was. *)
Lemma reachable_stuck p0 p :
  good (cin (console p0)) = false -> reachable p0 p ->
  good (cin (console p)) = false /\ choice p = choice p0.
Proof.
  intros H0. induction 1 as [|p p' indet _ [Hg Hc] _ Hs]; [done|].
  revert Hs. rewrite main_step_eq, at_prompt_cin, extract_int_stuck by done.
  cbn [fst snd]. case_match eqn:Hd; [|done]. intros [= <-]. cbn [console choice].
  split; [|done]. apply keeps_fail. apply setfail_not_good.
Qed.

End Reachable.

(** * Properties *)

Section Properties.
Implicit Types (w : World) (sch : School) (o : outcome).

(** C13. Whatever standard input holds, a run of [main] is a session of the
    store: after the constructor and [n] turns of the loop, the school and
    the files are those that a list of at most [n] commands leaves, each
    with an [int] id (the deletes too) and, for a student, four [int]
    grades.  Nothing is assumed of the input:
    words where numbers are expected, numbers out of range and an input
    that ends early give commands all the same. *)
Theorem every_run_is_a_session (n : nat) (indet : nat -> Z) (input : string) w w' sch :
  (forall i, in_int (indet i)) -> construct w = Ok (sch, w') ->
  exists o cs,
    main n indet input w = Ok o /\ length cs <= n /\ Forall command_read cs /\
    (final o).1 = (run_session cs (sch, w')).1 /\
    same_files (final o).2 (run_session cs (sch, w')).2.
Proof.
  intros Hi Hc.
  destruct (main_session n indet input w w' sch Hi Hc) as (o & cs & Ho & Hn & Hcs & Hs & Hf).
  by exists o, cs.
Qed.

Lemma every_run_is_a_session_witness :
  exists o cs,
    main 12 (fun _ => 0%Z) noise sample_world = Ok o /\ length cs <= 12 /\
    Forall command_read cs /\
    (final o).1
    = (run_session cs
         (empty_school,
          print ("No existing data found. Starting fresh." +:+ endl) sample_world)).1 /\
    same_files (final o).2
      (run_session cs
         (empty_school,
          print ("No existing data found. Starting fresh." +:+ endl) sample_world)).2.
Proof.
  apply (every_run_is_a_session 12 (fun _ => 0%Z) noise sample_world);
    [intros _; by_compute|reflexivity].
Defined.

(** C16. Every record of the school is well typed at every turn of every
    run: whatever is typed, ids and grades are [int]s, a student has four
    grades (so the loop of [displayDetails] over the four subjects reads
    inside the vector) and the average is the one of the grades held. *)
Theorem run_keeps_records_typed (n : nat) (indet : nat -> Z) (input : string) w o :
  (forall i, in_int (indet i)) -> main n indet input w = Ok o ->
  School_wf (final o).1.
Proof.
  intros Hi. unfold main. destruct (construct w) as [[sch w']|e] eqn:Hc; [|done].
  cbn [res_bind fst snd]. intros [= <-]. set (p0 := mkProc _ _ _).
  assert (forall p, reachable p0 p -> School_wf (school p)) as Hwf.
  { intros p Hr. apply (reachable_ind_commands (fun st => School_wf st.1) p0 p);
      [by intros ? ? [-> _]|by intros; apply run_command_wf|apply Hi| |done].
    by apply (construct_frame w w'). }
  destruct (main_loop n indet p0) as [p|sch' k] eqn:Hl; cbn [final fst].
  - by eapply Hwf, main_loop_reachable.
  - destruct (main_loop_exit n indet p0 sch' k Hi Hl) as (p & Hr & ->). by apply Hwf.
Qed.

Lemma run_keeps_records_typed_witness :
  School_wf
    (final (main_loop 12 (fun _ => 0%Z)
              (mkProc empty_school 0
                 (mkConsole (open_in noise)
                    (print ("No existing data found. Starting fresh." +:+ endl)
                       sample_world))))).1.
Proof.
  apply (run_keeps_records_typed 12 (fun _ => 0%Z) noise sample_world);
    [intros _; by_compute|reflexivity].
Defined.

(** C26. The program writes one file: whatever is typed, every file but the
    one [filePath] names is after any number of turns as it was when the
    program started. *)
Theorem run_writes_one_file (n : nat) (indet : nat -> Z) (input : string) w o
    (path : string) :
  (forall i, in_int (indet i)) -> main n indet input w = Ok o ->
  path <> resolve w default_filePath ->
  disk (final o).2 !! path = disk w !! path.
Proof.
  intros Hi Ho Hp. destruct (construct w) as [[sch w']|e] eqn:Hc.
  2: { unfold main in Ho. by rewrite Hc in Ho. }
  destruct (main_session n indet input w w' sch Hi Hc) as (o' & cs & Ho' & _ & _ & _ & Hf).
  rewrite Ho in Ho'. injection Ho' as <-.
  destruct (construct_frame w w' sch Hc) as (_ & Hfp & Hd & [Hr _]).
  destruct (run_session_frame cs (sch, w')) as (_ & _ & Hframe).
  destruct Hf as (_ & _ & ->). cbn [fst snd] in Hframe.
  rewrite Hframe, Hd; [done|]. by rewrite Hr, Hfp.
Qed.

Lemma run_writes_one_file_witness :
  disk (final (main_loop 12 (fun _ => 0%Z)
                 (mkProc empty_school 0
                    (mkConsole (open_in noise)
                       (print ("No existing data found. Starting fresh." +:+ endl)
                          sample_world))))).2 !! "notes.txt"
  = disk sample_world !! "notes.txt".
Proof.
  apply (run_writes_one_file 12 (fun _ => 0%Z) noise sample_world _ "notes.txt");
    [intros _; by_compute|reflexivity|by_compute].
Defined.

End Properties.
