(* ===== verification/Program.v ===== *)
(** The program as it is written: the handlers of [School] from their
    first prompt to the save, on vectors of pointers, the [switch] and the
    loop of [main], and the destructor of [school] that runs when [main]
    returns.  Reading and printing are those of [Shell]; what a handler does
    once its input is read is the member function of [Heap], which has no
    result when it goes through a pointer that is not live.

    The theorems relate this program, turn by turn and on any input, to
    the program on lists of records of [Shell]: the two print and read the
    same, the pointers always stand for the records of the other, no turn
    is undefined, and when [main] returns the free store is empty. *)

From Stdlib Require Import ZArith Ascii String Lia.
From stdpp Require Import base tactics option list numbers strings gmap.
From S2P Require Import Prelude CppString CppInt CppStream Records Persistence Store.
From S2P Require Import Heap Shell.

#[local] Open Scope io_scope.

(** ** The handlers, on pointers *)

(** A member function that acts on the world through the pointers; where it
    has no result the console is left as it is, and nothing that follows is
    defined. *)
Definition p_on_world {A : Type} (f : World -> option (A * World)) : io (option A) :=
  fun k =>
    match f (world k) with
    | Some r => (Some r.1, mkConsole (cin k) r.2)
    | None => (None, k)
    end.

Module PHandlers.

Definition addStudent (indet : Z) (m : heap * PSchool) : io (option (heap * PSchool)) :=
  put "Enter Student Name: " ;;;
  cin_ignore ;;;
  name <- cin_getline "" ;;
  put "Enter Student ID: " ;;;
  id <- cin_int indet ;;
  put "Enter Student Class: " ;;;
  cin_ignore ;;;
  studentClass <- cin_getline "" ;;
  grades <- Handlers.read_grades ;;
  p_on_world (p_addStudent name id studentClass grades m).

Definition addTeacher (indet : Z) (m : heap * PSchool) : io (option (heap * PSchool)) :=
  put "Enter Teacher Name: " ;;;
  cin_ignore ;;;
  name <- cin_getline "" ;;
  put "Enter Teacher ID: " ;;;
  id <- cin_int indet ;;
  put "Enter Subject (Maths, Physics, CS, Electronics): " ;;;
  cin_ignore ;;;
  subject <- cin_getline "" ;;
  put "Enter Grade (Professor, Assistant, Conference): " ;;;
  grade <- cin_getline "" ;;
  p_on_world (p_addTeacher name id subject grade m).

Definition deleteStudent (indet : Z) (m : heap * PSchool) : io (option (heap * PSchool)) :=
  put "Enter Student ID to delete: " ;;;
  id <- cin_int indet ;;
  p_on_world (p_deleteStudent id m).

Definition deleteTeacher (indet : Z) (m : heap * PSchool) : io (option (heap * PSchool)) :=
  put "Enter Teacher ID to delete: " ;;;
  id <- cin_int indet ;;
  p_on_world (p_deleteTeacher id m).

Definition displayStudentsDashboard (m : heap * PSchool) : io (option (heap * PSchool)) :=
  p_on_world (fun w => w' ← p_displayStudentsDashboard m w; Some (m, w')).

Definition displayTeachersDashboard (m : heap * PSchool) : io (option (heap * PSchool)) :=
  p_on_world (fun w => w' ← p_displayTeachersDashboard m w; Some (m, w')).

End PHandlers.

(** ** [main] *)

(** How a case of the [switch] ends: with [break] and the school it
    leaves, with [return 0], or in undefined behaviour. *)
Inductive turn : Type :=
| Continue (m : heap * PSchool)
| Return
| Undefined.

Definition continue (r : option (heap * PSchool)) : turn :=
  match r with
  | Some m => Continue m
  | None => Undefined
  end.

Definition p_dispatch (indet : Z) (choice : Z) (m : heap * PSchool) : io turn :=
  match choice with
  | 1 => r <- PHandlers.addStudent indet m ;; ret (continue r)
  | 2 => r <- PHandlers.addTeacher indet m ;; ret (continue r)
  | 3 => r <- PHandlers.displayStudentsDashboard m ;; ret (continue r)
  | 4 => r <- PHandlers.displayTeachersDashboard m ;; ret (continue r)
  | 5 => r <- PHandlers.deleteStudent indet m ;; ret (continue r)
  | 6 => r <- PHandlers.deleteTeacher indet m ;; ret (continue r)
  | 7 => put ("Exiting..." +:+ endl) ;;; ret Return
  | _ => put ("Invalid choice! Please try again." +:+ endl) ;;; ret (Continue m)
  end%Z.

(** The variables of [main], the free store and the console. *)
Record PProc : Type := mkPProc {
  mem : heap * PSchool;
  p_choice : Z;
  p_console : Console
}.

(** The loop goes on, or [main] has returned and left the free store [h],
    or the behaviour of the program is undefined. *)
Inductive p_outcome : Type :=
| PRunning (p : PProc)
| PExited (h : heap) (k : Console)
| PUndefined.

(** The body of [while (true)]; on [return 0] the destructor of [school]
    runs. *)
Definition p_main_step (indet : Z) (p : PProc) : p_outcome :=
  let r := (displayMenu ;;;
            put "Enter your choice: " ;;;
            c <- cin_int (p_choice p) ;;
            t <- p_dispatch indet c (mem p) ;;
            ret (c, t)) (p_console p) in
  match r.1.2 with
  | Continue m => PRunning (mkPProc m r.1.1 r.2)
  | Return =>
      match destructor (mem p) with
      | Some h => PExited h r.2
      | None => PUndefined
      end
  | Undefined => PUndefined
  end.

Fixpoint p_main_loop (n : nat) (indet : nat -> Z) (p : PProc) : p_outcome :=
  match n with
  | O => PRunning p
  | S n' =>
      match p_main_step (indet n') p with
      | PRunning p' => p_main_loop n' indet p'
      | o => o
      end
  end.

(** [main], for at most [n] turns of the loop, from an empty free store. *)
Definition p_main (n : nat) (indet : nat -> Z) (input : string) (w : World) :
    res p_outcome :=
  (r <- p_construct ∅ w ;;
   Ok (p_main_loop n indet (mkPProc r.1 (indet n) (mkConsole (open_in input) r.2))))%res.

(** ** The simulation *)

(** A handler on pointers against the handler on records: it is defined,
    its pointers stand for the records the other leaves, and the console is
    the same. *)
Definition sim_io (f : io School) (pf : io (option (heap * PSchool))) : Prop :=
  forall k, exists m, (pf k).1 = Some m /\ rep m (f k).1 /\ (pf k).2 = (f k).2.

(** The same for a case of the [switch]. *)
Definition sim_turn (r : option School * Console) (pr : turn * Console) : Prop :=
  pr.2 = r.2 /\
  match r.1, pr.1 with
  | Some sch, Continue m => rep m sch
  | None, Return => True
  | _, _ => False
  end.

(** The outcomes of the two loops: the same variables and console with
    pointers that stand for the records, or the same return from [main]
    with an empty free store. *)
Definition sim (o : outcome) (po : p_outcome) : Prop :=
  match o, po with
  | Running p, PRunning pp =>
      rep (mem pp) (school p) /\ p_choice pp = choice p /\ p_console pp = console p
  | Exited _ k, PExited h pk => h = ∅ /\ pk = k
  | _, _ => False
  end.

(** The results of the two programs. *)
Definition sim_res (r : res outcome) (pr : res p_outcome) : Prop :=
  match r, pr with
  | Ok o, Ok po => sim o po
  | Throw e, Throw e' => e = e'
  | _, _ => False
  end.

(** ** Handlers *)

Section Handlers.
Implicit Types (m : heap * PSchool) (sch : School) (k : Console) (c : command).

Lemma sim_io_bind {A : Type} (r : io A) (f : A -> io School)
    (pf : A -> io (option (heap * PSchool))) :
  (forall a, sim_io (f a) (pf a)) -> sim_io (bind r f) (bind r pf).
Proof. intros H k. apply H. Qed.

Lemma sim_io_command c m sch :
  rep m sch ->
  sim_io (on_world (fun w => run_command c (sch, w)))
         (p_on_world (fun w => p_run_command c (m, w))).
Proof.
  intros Hr k. unfold p_on_world, on_world.
  destruct (p_run_command_rep c m (world k) sch Hr) as (m' & -> & Hr').
  by exists m'.
Qed.

Variable indet : Z.

Lemma addStudent_sim m sch :
  rep m sch -> sim_io (Handlers.addStudent indet sch) (PHandlers.addStudent indet m).
Proof.
  intros Hr. unfold Handlers.addStudent, PHandlers.addStudent.
  repeat (apply sim_io_bind; intros ?).
  match goal with |- sim_io (on_world (Store.addStudent ?n ?i ?c ?g _)) _ =>
    by apply (sim_io_command (AddStudent n i c g)) end.
Qed.

Lemma addTeacher_sim m sch :
  rep m sch -> sim_io (Handlers.addTeacher indet sch) (PHandlers.addTeacher indet m).
Proof.
  intros Hr. unfold Handlers.addTeacher, PHandlers.addTeacher.
  repeat (apply sim_io_bind; intros ?).
  match goal with |- sim_io (on_world (Store.addTeacher ?n ?i ?s ?g _)) _ =>
    by apply (sim_io_command (AddTeacher n i s g)) end.
Qed.

Lemma deleteStudent_sim m sch :
  rep m sch ->
  sim_io (Handlers.deleteStudent indet sch) (PHandlers.deleteStudent indet m).
Proof.
  intros Hr. unfold Handlers.deleteStudent, PHandlers.deleteStudent.
  repeat (apply sim_io_bind; intros ?).
  match goal with |- sim_io (on_world (Store.deleteStudent ?i _)) _ =>
    by apply (sim_io_command (DeleteStudent i)) end.
Qed.

Lemma deleteTeacher_sim m sch :
  rep m sch ->
  sim_io (Handlers.deleteTeacher indet sch) (PHandlers.deleteTeacher indet m).
Proof.
  intros Hr. unfold Handlers.deleteTeacher, PHandlers.deleteTeacher.
  repeat (apply sim_io_bind; intros ?).
  match goal with |- sim_io (on_world (Store.deleteTeacher ?i _)) _ =>
    by apply (sim_io_command (DeleteTeacher i)) end.
Qed.

Lemma displayStudentsDashboard_sim m sch :
  rep m sch ->
  sim_io (Handlers.displayStudentsDashboard sch) (PHandlers.displayStudentsDashboard m).
Proof. intros Hr. by apply (sim_io_command ViewStudents). Qed.

Lemma displayTeachersDashboard_sim m sch :
  rep m sch ->
  sim_io (Handlers.displayTeachersDashboard sch) (PHandlers.displayTeachersDashboard m).
Proof. intros Hr. by apply (sim_io_command ViewTeachers). Qed.

Lemma sim_turn_handler (f : io School) (pf : io (option (heap * PSchool))) k :
  sim_io f pf ->
  sim_turn ((sch' <- f ;; ret (Some sch')) k) ((r <- pf ;; ret (continue r)) k).
Proof.
  intros H. destruct (H k) as (m & Hm & Hr & Hk). unfold sim_turn, bind. cbn.
  by rewrite Hm.
Qed.

Lemma dispatch_sim (c : Z) m sch k :
  rep m sch -> sim_turn (dispatch indet c sch k) (p_dispatch indet c m k).
Proof.
  intros Hr. unfold dispatch, p_dispatch.
  repeat case_match; subst;
    first
      [ done
      | apply sim_turn_handler;
        first [ by apply addStudent_sim | by apply addTeacher_sim
              | by apply displayStudentsDashboard_sim
              | by apply displayTeachersDashboard_sim
              | by apply deleteStudent_sim | by apply deleteTeacher_sim ] ].
Qed.

End Handlers.

(** ** The loop *)

Section Loop.
Implicit Types (p : Proc) (pp : PProc) (sch : School) (w : World).

(** A turn of the loop on pointers, read by [cin >> choice] and the
    [switch]. *)
Lemma p_main_step_eq (indet : Z) pp :
  p_main_step indet pp
  = let r := extract_int (cin (at_prompt (p_console pp))) (p_choice pp) in
    let d := p_dispatch indet r.2 (mem pp)
               (mkConsole r.1 (world (at_prompt (p_console pp)))) in
    match d.1 with
    | Continue m => PRunning (mkPProc m r.2 d.2)
    | Return =>
        match destructor (mem pp) with
        | Some h => PExited h d.2
        | None => PUndefined
        end
    | Undefined => PUndefined
    end.
Proof. reflexivity. Qed.

Lemma main_step_sim (indet : Z) p pp :
  sim (Running p) (PRunning pp) -> sim (main_step indet p) (p_main_step indet pp).
Proof.
  intros (Hr & Hc & Hk). rewrite main_step_eq, p_main_step_eq, Hc, Hk. cbn zeta.
  set (r := extract_int _ _). set (k := mkConsole _ _).
  destruct (dispatch_sim indet r.2 (mem pp) (school p) k Hr) as [Hk' Ht].
  destruct (dispatch indet r.2 (school p) k).1 as [sch'|],
    (p_dispatch indet r.2 (mem pp) k).1 as [m'| |]; try done.
  by rewrite (destructor_rep _ _ Hr).
Qed.

Lemma main_loop_sim (n : nat) (indet : nat -> Z) p pp :
  sim (Running p) (PRunning pp) -> sim (main_loop n indet p) (p_main_loop n indet pp).
Proof.
  revert p pp. induction n as [|n IH]; intros p pp Hs; [done|].
  rewrite main_loop_S. cbn [p_main_loop].
  pose proof (main_step_sim (indet n) p pp Hs) as H.
  destruct (main_step (indet n) p) as [p'|sch k],
    (p_main_step (indet n) pp) as [pp'|h pk|]; try done.
  by apply IH.
Qed.

Lemma main_sim (n : nat) (indet : nat -> Z) (input : string) w :
  sim_res (main n indet input w) (p_main n indet input w).
Proof.
  unfold main, p_main. pose proof (p_construct_rep w) as H.
  destruct (construct w) as [[sch w']|e]; [|by rewrite H].
  destruct H as (m & -> & Hr). cbn [res_bind fst snd sim_res].
  by apply main_loop_sim.
Qed.

(** What the simulation gives for the program on pointers alone. *)
Lemma sim_defined (o : outcome) (po : p_outcome) :
  sim o po -> po <> PUndefined /\ forall h k, po = PExited h k -> h = ∅.
Proof.
  destruct o as [p|sch k], po as [pp|h pk|]; try done.
  intros [-> ->]. split; [done|]. by intros h k' [= <- _].
Qed.

End Loop.

(** * Properties *)

Section Properties.
Implicit Types (w : World) (sch : School) (cs : list command).

(** C12. The program on pointers and the program on lists of records run
    in step, on any input and for any number of turns: both throw the same
    exception from the constructor, or both are in the loop with the same
    console and [choice] and with pointers that the school owns and that
    point to the records of the other, or both have returned from [main]
    with the same console, and then the free store is empty. *)
Theorem pointers_simulate_records (n : nat) (indet : nat -> Z) (input : string) w :
  match main n indet input w, p_main n indet input w with
  | Ok (Running p), Ok (PRunning pp) =>
      owned (mem pp).1 (mem pp).2 /\ abs (mem pp).1 (mem pp).2 = Some (school p) /\
      p_choice pp = choice p /\ p_console pp = console p
  | Ok (Exited _ k), Ok (PExited h pk) => h = ∅ /\ pk = k
  | Throw e, Throw e' => e = e'
  | _, _ => False
  end.
Proof.
  pose proof (main_sim n indet input w) as H.
  destruct (main n indet input w) as [[p|sch k]|e],
    (p_main n indet input w) as [[pp|h pk|]|e']; try done.
  destruct H as ([Ho Ha] & Hc & Hk). done.
Qed.

(** C15. The program is memory safe on every input: no turn of the loop
    reads or releases through a pointer that is not live, as long as the
    loop runs the objects on the free store are exactly those the vectors
    point to, each pointed to once, and when [main] returns [~School] has
    released them all. *)
Theorem program_is_memory_safe (n : nat) (indet : nat -> Z) (input : string) w :
  p_main n indet input w <> Ok PUndefined /\
  (forall pp, p_main n indet input w = Ok (PRunning pp) -> owned (mem pp).1 (mem pp).2) /\
  (forall h k, p_main n indet input w = Ok (PExited h k) -> h = ∅).
Proof.
  pose proof (main_sim n indet input w) as H.
  destruct (main n indet input w) as [o|e], (p_main n indet input w) as [po|e'];
    try done.
  cbn [sim_res] in H. destruct (sim_defined o po H) as [Hu He]. split_and!.
  - by intros [= ->].
  - intros pp [= ->]. destruct o; [|done]. by destruct H as ([Ho _] & _).
  - intros h k [= ->]. by eapply He.
Qed.

(** The program as written, run on the text of a session followed by
    the choice 7, returns from [main] after one turn per command and one
    for the exit, with the files the session of store commands leaves and
    with every object it allocated released. *)
Theorem script_runs_on_pointers (indet : nat -> Z) cs sch w w' :
  construct w = Ok (sch, w') -> Forall typable cs ->
  exists k,
    p_main (S (length cs)) indet (scripts cs +:+ show_int 7 +:+ endl) w
    = Ok (PExited ∅ k) /\
    same_files (world k) (run_session cs (sch, w')).2.
Proof.
  intros Hc Hcs.
  pose proof (main_sim (S (length cs)) indet (scripts cs +:+ show_int 7 +:+ endl) w) as H.
  unfold main in H. rewrite Hc in H. cbn [res_bind fst snd] in H.
  pose proof (run_script indet cs sch (indet (S (length cs))) "" "" w' Hcs eq_refl) as E.
  rewrite app_nil_l_s in E. fold endl in E. rewrite E in H.
  destruct (p_main _ _ _ _) as [[pp|h pk|]|e]; try done. destruct H as [-> ->].
  eexists. split; [done|]. cbn [world]. unfold exit_turn. rewrite says_same_files.
  apply run_turns_session.
Qed.

Lemma script_runs_on_pointers_witness :
  exists k,
    p_main 6 (fun _ => 0%Z) (scripts sample_session +:+ show_int 7 +:+ endl) sample_world
    = Ok (PExited ∅ k) /\
    same_files (world k)
      (run_session sample_session
         (empty_school,
          print ("No existing data found. Starting fresh." +:+ endl) sample_world)).2.
Proof.
  apply (script_runs_on_pointers (fun _ => 0%Z) sample_session empty_school sample_world);
    [reflexivity|by_compute].
Defined.

End Properties.
