(* ===== verification/Forever.v ===== *)
(** [main] with its loop unbounded.

    [Shell.main_loop] runs [while (true)] for a number of turns; here the
    loop of [main] (src/baseCode.cpp, 393-439) is the iteration of an
    interaction tree, with no bound: the body asks the console to run the
    menu, the prompt, [cin >> choice] and the case of the [switch], and
    either goes round again or returns.  Interpreting the requests over
    the console gives a tree that returns the console and the school at
    [return 0], or is silent for ever.  The theorems say which on the
    inputs of [Shell]: the tree returns on the text of a session that ends
    in 7, with what the bounded run exits with ([loop_from_exits]), and
    diverges when [cin] has failed or the input ends early, since then
    no bounded run exits ([runs_on_spin]).

    Interpreted so that what each call writes to [cout] stays visible
    ([show_loop]), a run that never returns is the text it prints for
    ever: after a token at the menu that is no number, the menu, the
    prompt and "Invalid choice!", again and again.  With the writes not
    looked at ([mute]) the second interpretation is the first
    ([show_erases]). *)

From ITree Require Import ITree ITreeFacts Events.State Events.StateFacts.
From Paco Require Import paco.
From Stdlib Require Import ZArith Ascii String Lia.
From stdpp Require Import base tactics list strings.
From S2P Require Import Prelude CppString CppInt CppStream Records Persistence Store Shell.

(** * The program as a tree *)

(** What the body of the loop asks of the console: to run a computation
    of [Shell.io]. *)
Variant consoleE : Type -> Type :=
| Do {A : Type} (m : io A) : consoleE A.

(** The console answers by running it. *)
Definition h_console : consoleE ~> Monads.stateT Console (itree void1) :=
  fun _ e k => match e with Do m => Ret ((m k).2, (m k).1) end.

(** The variables of [main] that live across the turns: the number of the
    turn, which names the indeterminate values of that turn, [school] and
    [choice]. *)
Definition vars : Type := nat * School * Z.

(** The body of [while (true)]: [inl] goes round again, [inr] is
    [return 0]. *)
Definition loop_body (indet : nat -> Z) (v : vars) : itree consoleE (vars + School) :=
  let '(i, sch, choice) := v in
  ITree.bind (ITree.trigger (Do displayMenu)) (fun _ =>
  ITree.bind (ITree.trigger (Do (put "Enter your choice: "))) (fun _ =>
  ITree.bind (ITree.trigger (Do (cin_int choice))) (fun c =>
  ITree.bind (ITree.trigger (Do (dispatch (indet i) c sch))) (fun r =>
  match r with
  | Some sch' => Ret (inl (S i, sch', c))
  | None => Ret (inr sch)
  end)))).

(** The loop, from turn [i] on. *)
Definition loop (indet : nat -> Z) (v : vars) : itree consoleE School :=
  ITree.iter (loop_body indet) v.

(** The loop on a console. *)
Definition run_loop (indet : nat -> Z) (i : nat) (p : Proc) : itree void1 (Console * School) :=
  interp_state h_console (loop indet (i, school p, choice p)) (console p).

(** [main] on the text [input] of standard input: the construction of the
    school, which can throw, then the loop; [c0] is what [choice], declared
    without an initializer, holds at first. *)
Definition main_forever (indet : nat -> Z) (c0 : Z) (input : string) (w : World) :
    res (itree void1 (Console * School)) :=
  (r <- construct w ;;
   Ok (run_loop indet 0 (mkProc r.1 c0 (mkConsole (open_in input) r.2))))%res.

(** ** The program with its output visible *)

(** What the program does that can be seen: it writes to [cout]. *)
Variant coutE : Type -> Type :=
| Write (text : string) : coutE unit.

Fixpoint drop_s (n : nat) (s : string) : string :=
  match n, s with
  | S n', String _ s' => drop_s n' s'
  | _, _ => s
  end.

(** What was written to [cout] between the console [k] and the console
    [k'] that a computation made of it. *)
Definition written (k k' : Console) : string :=
  drop_s (String.length (cout (world k))) (cout (world k')).

(** [cout << text]; writing nothing shows nothing. *)
Definition say (text : string) : itree coutE unit :=
  match text with
  | EmptyString => Ret tt
  | _ => ITree.trigger (Write text)
  end.

(** The console answers by running the computation and showing what it
    wrote. *)
Definition h_show : consoleE ~> Monads.stateT Console (itree coutE) :=
  fun _ e k =>
    match e with
    | Do m => ITree.bind (say (written k (m k).2)) (fun _ => Ret ((m k).2, (m k).1))
    end.

Definition show_loop (indet : nat -> Z) (i : nat) (p : Proc) : itree coutE (Console * School) :=
  interp_state h_show (loop indet (i, school p, choice p)) (console p).

(** Not looking at what is written. *)
Definition mute : coutE ~> itree void1 :=
  fun _ e => match e with Write _ => Ret tt end.

(** The text of [displayMenu]. *)
Definition menu_text : string :=
  endl +:+ "--- School Management System ---" +:+ endl +:+
  "1. Add Student" +:+ endl +:+ "2. Add Teacher" +:+ endl +:+
  "3. View Student Dashboard" +:+ endl +:+ "4. View Teacher Dashboard" +:+ endl +:+
  "5. Delete Student" +:+ endl +:+ "6. Delete Teacher" +:+ endl +:+ "7. Exit" +:+ endl.

(** What a turn of the loop shows when the choice is none of the menu. *)
Definition invalid_beat : itree coutE unit :=
  ITree.bind (say menu_text) (fun _ =>
  ITree.bind (say "Enter your choice: ") (fun _ =>
  say ("Invalid choice! Please try again." +:+ endl))).

(** ** The bounded loop on the same turns *)

(** [n] turns of [Shell.main_loop], the first numbered [i]. *)
Definition loop_from (indet : nat -> Z) (i n : nat) (p : Proc) : outcome :=
  main_loop n (fun j => indet (i + (n - 1 - j))%nat) p.

(** No number of turns from [i] on reaches [return 0]. *)
Definition runs_on (indet : nat -> Z) (i : nat) (p : Proc) : Prop :=
  forall n, exists p', loop_from indet i n p = Running p'.

(** * Loops that return and loops that do not *)

Section Loops.
Context {E : Type -> Type} {I R : Type}.
Variable body : I -> itree E (I + R).

Lemma idle_spin : ITree.iter (fun _ : unit => Ret (inl tt)) tt ≈ @ITree.spin E R.
Proof.
  einit. ecofix CIH. rewrite unfold_iter, bind_ret_l.
  rewrite (itree_eta ITree.spin). cbn. etau.
Qed.

(** A loop whose body goes round again wherever [P] holds, and keeps [P],
    is silent for ever. *)
Lemma iter_spin (P : I -> Prop) :
  (forall i, P i -> exists i', body i ≈ Ret (inl i') /\ P i') ->
  forall i, P i -> ITree.iter body i ≈ ITree.spin.
Proof.
  intros HP i Hi. rewrite <- idle_spin.
  apply (eutt_iter' (fun i _ => P i)); [|done].
  intros j [] Hj. destruct (HP j Hj) as (j' & -> & Hj').
  apply eqit_Ret. by constructor.
Qed.

Lemma iter_forever (beat : itree E unit) :
  ITree.iter (fun _ : unit => ITree.bind beat (fun _ => Ret (inl tt))) tt
  ≅ @ITree.forever E unit R beat.
Proof.
  ginit. gcofix CIH. rewrite unfold_iter, unfold_forever, bind_bind.
  guclo eqit_clo_bind. econstructor; [reflexivity|]. intros [] _ _.
  rewrite bind_ret_l. gstep. constructor. gbase. apply CIH.
Qed.

End Loops.

Section Interp.
Context {E F : Type -> Type} {S I R : Type}.
Variable h : E ~> Monads.stateT S (itree F).
Variable body : I -> itree E (I + R).

Lemma interp_iter_spin (P : I -> S -> Prop) :
  (forall i s, P i s ->
     exists i' s', interp_state h (body i) s ≈ Ret (s', inl i') /\ P i' s') ->
  forall i s, P i s -> interp_state h (ITree.iter body i) s ≈ ITree.spin.
Proof.
  intros HP i s Hi.
  rewrite (interp_state_iter'_eutt h body (fun i s => interp_state h (body i) s))
    by reflexivity.
  unfold Basics.iter, MonadIter_stateT0, Basics.iter, MonadIter_itree.
  apply (iter_spin _ (fun si => P si.2 si.1)); [|done].
  intros [s1 i1] H1. destruct (HP i1 s1 H1) as (i' & s' & Ei & H').
  exists (s', i'). split; [|done]. cbn. rewrite Ei, bind_ret_l. reflexivity.
Qed.

(** A loop whose every turn from [P] shows [beat], goes round again and
    keeps [P], shows [beat] for ever. *)
Lemma interp_iter_forever (beat : itree F unit) (P : I -> S -> Prop) :
  (forall i s, P i s ->
     exists i' s',
       interp_state h (body i) s ≈ ITree.bind beat (fun _ => Ret (s', inl i')) /\ P i' s') ->
  forall i s, P i s -> interp_state h (ITree.iter body i) s ≈ ITree.forever beat.
Proof.
  intros HP i s Hi. rewrite <- iter_forever.
  rewrite (interp_state_iter'_eutt h body (fun i s => interp_state h (body i) s))
    by reflexivity.
  unfold Basics.iter, MonadIter_stateT0, Basics.iter, MonadIter_itree.
  apply (eutt_iter' (fun si _ => P si.2 si.1)); [|done].
  intros [s1 i1] [] H1. destruct (HP i1 s1 H1) as (i' & s' & Ei & H').
  cbn. rewrite Ei, bind_bind. eapply eutt_clo_bind; [reflexivity|].
  intros [] _ _. rewrite bind_ret_l. apply eqit_Ret. by constructor.
Qed.

Lemma interp_iter_unfold i s :
  interp_state h (ITree.iter body i) s
  ≈ ITree.bind (interp_state h (body i) s)
      (fun r => match r.2 with
                | inl i' => interp_state h (ITree.iter body i') r.1
                | inr x => Ret (r.1, x)
                end).
Proof.
  rewrite unfold_iter, interp_state_bind. apply eqit_bind; [reflexivity|].
  intros [s' [i'|x]]; cbn.
  - by rewrite interp_state_tau, tau_eutt.
  - by rewrite interp_state_ret.
Qed.

End Interp.

Section Erase.
Context {E F G : Type -> Type} {S : Type}.
Variable h1 : E ~> Monads.stateT S (itree F).
Variable h2 : E ~> Monads.stateT S (itree G).
Variable g : F ~> itree G.
Hypothesis Hh : forall T (e : E T) s, interp g (h1 T e s) ≈ h2 T e s.

(** Interpreting what a handler leaves visible is interpreting with the
    handler that leaves nothing. *)
Lemma interp_interp_state {R : Type} (t : itree E R) s :
  interp g (interp_state h1 t s) ≈ interp_state h2 t s.
Proof.
  revert t s. einit. ecofix CIH. intros t s.
  rewrite (unfold_interp_state h1 t), (unfold_interp_state h2 t).
  destruct (observe t); cbn.
  - rewrite interp_ret. eret.
  - rewrite interp_tau. etau.
  - rewrite interp_bind. ebind. econstructor; [apply Hh|].
    intros [s1 x1] ? <-. rewrite interp_tau. etau.
Qed.

End Erase.

(** * The loop of [main] *)

Section Main.
Variable indet : nat -> Z.
Implicit Types (p : Proc) (sch : School) (k : Console) (i n : nat).

Lemma interp_do {A B : Type} (m : io A) (f : A -> itree consoleE B) k :
  interp_state h_console (ITree.bind (ITree.trigger (Do m)) f) k
  ≈ interp_state h_console (f (m k).1) (m k).2.
Proof.
  rewrite interp_state_bind, interp_state_trigger. cbn. by rewrite bind_ret_l.
Qed.

(** One turn of the tree is [Shell.main_step]. *)
Lemma body_step i p :
  interp_state h_console (loop_body indet (i, school p, choice p)) (console p)
  ≈ Ret match main_step (indet i) p with
        | Running p' => (console p', inl (S i, school p', choice p'))
        | Exited sch' k' => (k', inr sch')
        end.
Proof.
  unfold loop_body. rewrite !interp_do, main_step_eq. cbn zeta.
  destruct (dispatch _ _ _ _) as [[sch'|] k'] eqn:Ed; cbn [fst snd];
    rewrite interp_state_ret; reflexivity.
Qed.

(** The loop on a console: one turn, then the loop again or the return. *)
Lemma run_loop_unfold i p :
  run_loop indet i p
  ≈ match main_step (indet i) p with
    | Running p' => run_loop indet (S i) p'
    | Exited sch' k' => Ret (k', sch')
    end.
Proof.
  unfold run_loop, loop. rewrite interp_iter_unfold, body_step, bind_ret_l.
  by destruct (main_step _ _).
Qed.

Lemma main_loop_ext n (f g : nat -> Z) p :
  (forall j, (j < n)%nat -> f j = g j) -> main_loop n f p = main_loop n g p.
Proof.
  revert p. induction n as [|n IH]; intros p Hfg; [done|].
  rewrite !main_loop_S, (Hfg n) by lia. destruct (main_step _ _); [|done].
  apply IH. intros j Hj. apply Hfg. lia.
Qed.

Lemma loop_from_S i n p :
  loop_from indet i (S n) p
  = match main_step (indet i) p with
    | Running p' => loop_from indet (S i) n p'
    | Exited sch' k' => Exited sch' k'
    end.
Proof.
  unfold loop_from. rewrite main_loop_S.
  replace (i + (S n - 1 - n))%nat with i by lia. destruct (main_step _ _); [|done].
  apply main_loop_ext. intros j Hj. f_equal. lia.
Qed.

(** A bounded run that exits is a run of the tree. *)
Lemma loop_from_exits n i p sch' k' :
  loop_from indet i n p = Exited sch' k' -> run_loop indet i p ≈ Ret (k', sch').
Proof.
  revert i p. induction n as [|n IH]; intros i p; [done|].
  rewrite loop_from_S, run_loop_unfold. destruct (main_step _ _) as [p'|sch1 k1].
  - apply IH.
  - by intros [= -> ->].
Qed.

Lemma runs_on_step i p :
  runs_on indet i p -> exists p', main_step (indet i) p = Running p' /\ runs_on indet (S i) p'.
Proof.
  intros Hp. destruct (Hp 1%nat) as [p1 H1]. rewrite loop_from_S in H1.
  destruct (main_step (indet i) p) as [p'|] eqn:Ep; [|done].
  exists p'. split; [done|]. intros n. specialize (Hp (S n)).
  by rewrite loop_from_S, Ep in Hp.
Qed.

(** A loop that no bounded run leaves is silent for ever. *)
Lemma runs_on_spin i p : runs_on indet i p -> run_loop indet i p ≈ ITree.spin.
Proof.
  intros Hp. unfold run_loop, loop.
  apply (interp_iter_spin _ _ (fun v k => runs_on indet v.1.1 (mkProc v.1.2 v.2 k)));
    [|by destruct p].
  intros [[j sch] ch] k Hj. cbn [fst snd] in Hj.
  destruct (runs_on_step _ _ Hj) as (p' & Ep & Hp').
  exists (S j, school p', choice p'), (console p'). split; [|by destruct p'].
  by rewrite (body_step j (mkProc sch ch k)), Ep.
Qed.

Lemma never_exits_runs_on i p : never_exits p -> runs_on indet i p.
Proof. intros Hp n. apply Hp. Qed.

(** ** What a turn shows *)

Lemma drop_s_app (s t : string) : drop_s (String.length s) (s +:+ t) = t.
Proof. induction s; [by destruct t|done]. Qed.

Lemma written_app k k' (text : string) :
  cout (world k') = cout (world k) +:+ text -> written k k' = text.
Proof. unfold written. intros ->. apply drop_s_app. Qed.

Lemma written_menu k : written k (displayMenu k).2 = menu_text.
Proof. apply written_app. cbn. by rewrite !app_assoc_s. Qed.

Lemma written_put (msg : string) k : written k (put msg k).2 = msg.
Proof. by apply written_app. Qed.

Lemma written_cin_int (old : Z) k : written k (cin_int old k).2 = "".
Proof. apply written_app. cbn. by rewrite app_nil_r_s. Qed.

Lemma interp_show {A B : Type} (m : io A) (f : A -> itree consoleE B) k :
  interp_state h_show (ITree.bind (ITree.trigger (Do m)) f) k
  ≈ ITree.bind (say (written k (m k).2)) (fun _ => interp_state h_show (f (m k).1) (m k).2).
Proof.
  rewrite interp_state_bind, interp_state_trigger. cbn. rewrite bind_bind.
  apply eqit_bind; [reflexivity|]. intros []. by rewrite bind_ret_l.
Qed.

Lemma dispatch_invalid (z ch : Z) sch k :
  (ch < 1 \/ 7 < ch)%Z ->
  dispatch z ch sch k = (Some sch, (put ("Invalid choice! Please try again." +:+ endl) k).2).
Proof. intros Hc. unfold dispatch. repeat case_match; (lia || reflexivity). Qed.

(** A turn in which [cin >> choice] leaves in [choice] a number that is
    none of the menu. *)
Lemma show_invalid i sch ch k :
  ((extract_int (cin k) ch).2 < 1 \/ 7 < (extract_int (cin k) ch).2)%Z ->
  interp_state h_show (loop_body indet (i, sch, ch)) k
  ≈ ITree.bind invalid_beat (fun _ =>
      Ret (mkConsole (extract_int (cin k) ch).1
             (says (menu ++ ["Invalid choice! Please try again." +:+ endl]) (world k)),
           inl (S i, sch, (extract_int (cin k) ch).2))).
Proof.
  intros Hc. unfold loop_body, invalid_beat. rewrite bind_bind. setoid_rewrite bind_bind.
  rewrite interp_show, written_menu. apply eqit_bind; [reflexivity|]. intros _.
  rewrite interp_show, written_put. apply eqit_bind; [reflexivity|]. intros _.
  rewrite interp_show, written_cin_int. unfold say at 1. rewrite bind_ret_l.
  rewrite interp_show, dispatch_invalid by done. cbn [fst snd]. rewrite written_put.
  apply eqit_bind; [reflexivity|]. intros _. rewrite interp_state_ret. reflexivity.
Qed.

Lemma show_loop_unfold i p :
  show_loop indet i p
  ≈ ITree.bind (interp_state h_show (loop_body indet (i, school p, choice p)) (console p))
      (fun r => match r.2 with
                | inl v => show_loop indet v.1.1 (mkProc v.1.2 v.2 r.1)
                | inr sch' => Ret (r.1, sch')
                end).
Proof.
  unfold show_loop, loop. rewrite interp_iter_unfold.
  apply eqit_bind; [reflexivity|]. intros [k' [[[j s] c]|x]]; reflexivity.
Qed.

(** Once [cin] is not good and [choice] is none of the menu, every turn
    shows the same. *)
Lemma invalid_for_ever i p :
  good (cin (console p)) = false -> (choice p < 1 \/ 7 < choice p)%Z ->
  show_loop indet i p ≈ ITree.forever invalid_beat.
Proof.
  intros Hg Hc. unfold show_loop, loop.
  apply (interp_iter_forever _ _ _
           (fun v k => good (cin k) = false /\ (v.2 < 1 \/ 7 < v.2)%Z)); [|done].
  intros [[j sch] ch] k [Hk Hch]. cbn [snd] in Hch. eexists _, _. split.
  - apply show_invalid. by rewrite extract_int_stuck.
  - rewrite extract_int_stuck by done. split; [apply setfail_not_good|done].
Qed.

End Main.

(** * Properties *)

Section Properties.
Implicit Types (p : Proc) (sch : School) (w : World) (cs : list command).

(** C22. The program terminates on the text of a session followed by the
    choice 7, with no bound on its loop assumed: it returns from [main]
    with the school and the output of the turns of the session, and the
    newline after the 7 unread. *)
Theorem session_returns (indet : nat -> Z) (c0 : Z) cs sch w w' :
  construct w = Ok (sch, w') -> Forall typable cs ->
  exists t,
    main_forever indet c0 (scripts cs +:+ show_int 7 +:+ endl) w = Ok t /\
    t ≈ Ret (mkConsole (open_in endl) (exit_turn (run_turns cs (sch, w')).2),
             (run_turns cs (sch, w')).1).
Proof.
  intros Hc Hcs. unfold main_forever. rewrite Hc. cbn [res_bind fst snd].
  eexists. split; [reflexivity|]. apply (loop_from_exits indet (S (length cs))).
  exact (run_script _ cs sch c0 "" "" w' Hcs eq_refl).
Qed.

Lemma session_returns_witness :
  exists t,
    main_forever (fun _ => 0%Z) 0 (scripts sample_session +:+ show_int 7 +:+ endl)
      sample_world = Ok t /\
    t ≈ Ret (mkConsole (open_in endl)
               (exit_turn
                  (run_turns sample_session
                     (empty_school,
                      print ("No existing data found. Starting fresh." +:+ endl)
                        sample_world)).2),
             (run_turns sample_session
                (empty_school,
                 print ("No existing data found. Starting fresh." +:+ endl)
                   sample_world)).1).
Proof.
  apply (session_returns (fun _ => 0%Z) 0 sample_session empty_school sample_world);
    [reflexivity|by_compute].
Defined.

(** C23. On an input that ends without the choice 7 the program does not
    terminate: after the last command [cin >> choice] fails at the end of
    the input, the last choice is taken again, and [main] runs for ever. *)
Theorem end_of_input_diverges (indet : nat -> Z) (c0 : Z) cs sch w w' :
  construct w = Ok (sch, w') -> Forall typable cs -> cs <> [] \/ c0 <> 7%Z ->
  exists t, main_forever indet c0 (scripts cs) w = Ok t /\ t ≈ ITree.spin.
Proof.
  intros Hc Hcs Hne. unfold main_forever. rewrite Hc. cbn [res_bind fst snd].
  eexists. split; [reflexivity|]. apply runs_on_spin, never_exits_runs_on.
  exact (input_end_never_exits cs sch c0 "" w' Hcs eq_refl Hne).
Qed.

Lemma end_of_input_diverges_witness :
  exists t,
    main_forever (fun _ => 0%Z) 0 (scripts sample_session) sample_world = Ok t /\
    t ≈ ITree.spin.
Proof.
  apply (end_of_input_diverges (fun _ => 0%Z) 0 sample_session empty_school sample_world
           (print ("No existing data found. Starting fresh." +:+ endl) sample_world));
    [reflexivity|by_compute|left; discriminate].
Defined.

(** Once [cin] is not good and the last choice was not 7, [main] runs for
    ever, from any turn and whatever the school holds. *)
Theorem failed_cin_diverges (indet : nat -> Z) (i : nat) p :
  good (cin (console p)) = false -> choice p <> 7%Z ->
  run_loop indet i p ≈ ITree.spin.
Proof.
  intros Hg Hc. by apply runs_on_spin, never_exits_runs_on, stuck_never_exits.
Qed.

Lemma failed_cin_diverges_witness : run_loop (fun _ => 0%Z) 0 (failed_proc 3) ≈ ITree.spin.
Proof. apply (failed_cin_diverges (fun _ => 0%Z) 0 (failed_proc 3)); by_compute. Defined.

(** C24. What is seen after a token at the menu that is no number (its
    first character is neither a digit nor a sign), whatever [choice] held:
    [main] writes the menu, the prompt and "Invalid choice! Please try
    again." for ever, and nothing else. *)
Theorem bad_token_prints_for_ever (indet : nat -> Z) (i : nat) p (c : ascii) (s : string) :
  good (cin (console p)) = true -> skip_space (unread (cin (console p))) = String c s ->
  digit_of c = None -> c <> "-"%char -> c <> "+"%char ->
  show_loop indet i p ≈ ITree.forever invalid_beat.
Proof.
  intros Hg Hs Hd Hm Hp.
  destruct (extract_int_no_number (cin (console p)) (choice p) c s) as [Hz Hf]; [done..|].
  rewrite show_loop_unfold, show_invalid, bind_bind, (unfold_forever invalid_beat)
    by (rewrite Hz; lia).
  apply eqit_bind; [reflexivity|]. intros _. rewrite bind_ret_l, tau_eutt.
  apply invalid_for_ever; cbn [console choice fst snd]; [done|rewrite Hz; lia].
Qed.

Lemma bad_token_prints_for_ever_witness :
  show_loop (fun _ => 0%Z) 0 (mkProc empty_school 3 (mkConsole (open_in " x7") sample_world))
  ≈ ITree.forever invalid_beat.
Proof.
  apply (bad_token_prints_for_ever (fun _ => 0%Z) 0
           (mkProc empty_school 3 (mkConsole (open_in " x7") sample_world)) "x" "7");
    by_compute.
Defined.

Lemma mute_say (text : string) : interp mute (say text) ≈ Ret tt.
Proof.
  destruct text; unfold say; [by rewrite interp_ret|].
  rewrite interp_trigger. reflexivity.
Qed.

(** The two interpretations of the loop are one program: with the
    writes to [cout] not looked at, [show_loop] is [run_loop], so it
    returns what [run_loop] returns and runs for ever when [run_loop]
    does. *)
Theorem show_erases (indet : nat -> Z) (i : nat) p :
  interp mute (show_loop indet i p) ≈ run_loop indet i p.
Proof.
  apply interp_interp_state. intros T [A m] k. cbn.
  rewrite interp_bind, mute_say, bind_ret_l, interp_ret. reflexivity.
Qed.

(** When the constructor throws, the loop is never entered. *)
Theorem construct_throws_no_loop (indet : nat -> Z) (c0 : Z) (input : string) w e :
  construct w = Throw e -> main_forever indet c0 input w = Throw e.
Proof. intros Hc. unfold main_forever. by rewrite Hc. Qed.

End Properties.
