(* ===== verification/Runs.v ===== *)
(** Runs of the program, recorded and replayed.  Each example below gives
    an input, the database file found at the start if there is one, and what
    the program compiled from [src/baseCode.cpp] with g++ did on them: the
    text it wrote to standard output and the file it saved when it returned
    from [main], the exception that ended it, or, for the inputs on which it
    never returns, the text it wrote in its first turns.  The proof of each
    is the computation of [p_main], the program on pointers of [Program],
    on the same input: the model prints, saves and throws what the program
    does, character for character. *)

From Stdlib Require Import ZArith Ascii String Lia.
From stdpp Require Import base tactics option list numbers strings gmap.
From S2P Require Import Prelude CppString CppInt CppStream Records Persistence Store.
From S2P Require Import Heap Shell Program.

(** What is observed of a run. *)
Inductive report : Type :=
| Returned (out : string) (saved : option string)
| Aborted (e : exn)
| Looping (out : string).

(** A system in which every name is a file of the working directory and
    every file opens: the directory holds the database [db], or is empty. *)
Definition directory (db : option string) : World :=
  mkWorld (fun p => p) (fun _ => true)
    (from_option (fun text => {[ load_filePath := text ]}) ∅ db) "".

(** The program on [input] for at most [n] turns of the loop; variables
    without an initializer hold 0. *)
Definition replay (n : nat) (input : string) (db : option string) : option report :=
  match p_main n (fun _ => 0%Z) input (directory db) with
  | Ok (PExited _ k) => Some (Returned (cout (world k)) (disk (world k) !! default_filePath))
  | Ok (PRunning p) => Some (Looping (cout (world (p_console p))))
  | Ok PUndefined => None
  | Throw e => Some (Aborted e)
  end.

(** A student and a teacher are added, the student is shown and deleted, the teachers are shown. *)
Example run_session :
  replay 6
    (unlines
      ["1"; "Bob"; "5"; "10A"; "12"; "8"; "15"; "9"; "2"; "Carol"; "7"; "Maths";
       "Professor"; "3"; "5"; "5"; "4"; "7"])
    None
  = Some
      (Returned
         (unlines
           ["No existing data found. Starting fresh."; "";
            "--- School Management System ---"; "1. Add Student"; "2. Add Teacher";
            "3. View Student Dashboard"; "4. View Teacher Dashboard";
            "5. Delete Student"; "6. Delete Teacher"; "7. Exit";
            "Enter your choice: Enter Student Name: Enter Student ID: Enter Student Class: Enter grade for Maths: Enter grade for Physics: Enter grade for CS: Enter grade for Electronics: Student added successfully!";
            ""; "--- School Management System ---"; "1. Add Student"; "2. Add Teacher";
            "3. View Student Dashboard"; "4. View Teacher Dashboard";
            "5. Delete Student"; "6. Delete Teacher"; "7. Exit";
            "Enter your choice: Enter Teacher Name: Enter Teacher ID: Enter Subject (Maths, Physics, CS, Electronics): Enter Grade (Professor, Assistant, Conference): Teacher added successfully!";
            ""; "--- School Management System ---"; "1. Add Student"; "2. Add Teacher";
            "3. View Student Dashboard"; "4. View Teacher Dashboard";
            "5. Delete Student"; "6. Delete Teacher"; "7. Exit"; "Enter your choice: ";
            "--- Students Dashboard ---"; "Name: Bob"; "ID: 5"; "Class: 10A";
            "Subjects and Grades: "; "Maths: 12"; "Physics: 8"; "CS: 15";
            "Electronics: 9"; "Average Grade: 11"; "Result: Passed";
            "----------------------"; ""; "--- School Management System ---";
            "1. Add Student"; "2. Add Teacher"; "3. View Student Dashboard";
            "4. View Teacher Dashboard"; "5. Delete Student"; "6. Delete Teacher";
            "7. Exit";
            "Enter your choice: Enter Student ID to delete: Student deleted successfully!";
            ""; "--- School Management System ---"; "1. Add Student"; "2. Add Teacher";
            "3. View Student Dashboard"; "4. View Teacher Dashboard";
            "5. Delete Student"; "6. Delete Teacher"; "7. Exit"; "Enter your choice: ";
            "--- Teachers Dashboard ---"; "Name: Carol"; "ID: 7"; "Subject: Maths";
            "Grade: Professor"; "----------------------"; "";
            "--- School Management System ---"; "1. Add Student"; "2. Add Teacher";
            "3. View Student Dashboard"; "4. View Teacher Dashboard";
            "5. Delete Student"; "6. Delete Teacher"; "7. Exit";
            "Enter your choice: Exiting..."])
         (Some
            (unlines
              ["Students"; "Teachers"; "Carol,7,Maths,Professor"]))).
Proof. vm_compute. reflexivity. Qed.

(** Averages with a fraction, and averages of seven digits, which are printed with six. *)
Example run_averages :
  replay 4
    (unlines
      ["1"; "Ann Lee"; "3"; "9C"; "12"; "8"; "15"; "10"; "1"; "B"; "2"; "c"; "999999";
       "999999"; "999999"; "1000000"; "3"; "7"])
    None
  = Some
      (Returned
         (unlines
           ["No existing data found. Starting fresh."; "";
            "--- School Management System ---"; "1. Add Student"; "2. Add Teacher";
            "3. View Student Dashboard"; "4. View Teacher Dashboard";
            "5. Delete Student"; "6. Delete Teacher"; "7. Exit";
            "Enter your choice: Enter Student Name: Enter Student ID: Enter Student Class: Enter grade for Maths: Enter grade for Physics: Enter grade for CS: Enter grade for Electronics: Student added successfully!";
            ""; "--- School Management System ---"; "1. Add Student"; "2. Add Teacher";
            "3. View Student Dashboard"; "4. View Teacher Dashboard";
            "5. Delete Student"; "6. Delete Teacher"; "7. Exit";
            "Enter your choice: Enter Student Name: Enter Student ID: Enter Student Class: Enter grade for Maths: Enter grade for Physics: Enter grade for CS: Enter grade for Electronics: Student added successfully!";
            ""; "--- School Management System ---"; "1. Add Student"; "2. Add Teacher";
            "3. View Student Dashboard"; "4. View Teacher Dashboard";
            "5. Delete Student"; "6. Delete Teacher"; "7. Exit"; "Enter your choice: ";
            "--- Students Dashboard ---"; "Name: Ann Lee"; "ID: 3"; "Class: 9C";
            "Subjects and Grades: "; "Maths: 12"; "Physics: 8"; "CS: 15";
            "Electronics: 10"; "Average Grade: 11.25"; "Result: Passed";
            "----------------------"; "Name: B"; "ID: 2"; "Class: c";
            "Subjects and Grades: "; "Maths: 999999"; "Physics: 999999"; "CS: 999999";
            "Electronics: 1000000"; "Average Grade: 999999"; "Result: Passed";
            "----------------------"; ""; "--- School Management System ---";
            "1. Add Student"; "2. Add Teacher"; "3. View Student Dashboard";
            "4. View Teacher Dashboard"; "5. Delete Student"; "6. Delete Teacher";
            "7. Exit"; "Enter your choice: Exiting..."])
         (Some
            (unlines
              ["Students"; "Ann Lee,3,9C,12,8,15,10";
               "B,2,c,999999,999999,999999,1000000"; "Teachers"]))).
Proof. vm_compute. reflexivity. Qed.

(** Two students with the same id: each delete removes the first that is left. *)
Example run_duplicate_ids :
  replay 7
    (unlines
      ["1"; "A"; "1"; "c"; "1"; "2"; "3"; "4"; "1"; "B"; "1"; "d"; "5"; "6"; "7"; "8";
       "5"; "1"; "3"; "5"; "1"; "5"; "1"; "7"])
    None
  = Some
      (Returned
         (unlines
           ["No existing data found. Starting fresh."; "";
            "--- School Management System ---"; "1. Add Student"; "2. Add Teacher";
            "3. View Student Dashboard"; "4. View Teacher Dashboard";
            "5. Delete Student"; "6. Delete Teacher"; "7. Exit";
            "Enter your choice: Enter Student Name: Enter Student ID: Enter Student Class: Enter grade for Maths: Enter grade for Physics: Enter grade for CS: Enter grade for Electronics: Student added successfully!";
            ""; "--- School Management System ---"; "1. Add Student"; "2. Add Teacher";
            "3. View Student Dashboard"; "4. View Teacher Dashboard";
            "5. Delete Student"; "6. Delete Teacher"; "7. Exit";
            "Enter your choice: Enter Student Name: Enter Student ID: Enter Student Class: Enter grade for Maths: Enter grade for Physics: Enter grade for CS: Enter grade for Electronics: Student added successfully!";
            ""; "--- School Management System ---"; "1. Add Student"; "2. Add Teacher";
            "3. View Student Dashboard"; "4. View Teacher Dashboard";
            "5. Delete Student"; "6. Delete Teacher"; "7. Exit";
            "Enter your choice: Enter Student ID to delete: Student deleted successfully!";
            ""; "--- School Management System ---"; "1. Add Student"; "2. Add Teacher";
            "3. View Student Dashboard"; "4. View Teacher Dashboard";
            "5. Delete Student"; "6. Delete Teacher"; "7. Exit"; "Enter your choice: ";
            "--- Students Dashboard ---"; "Name: B"; "ID: 1"; "Class: d";
            "Subjects and Grades: "; "Maths: 5"; "Physics: 6"; "CS: 7";
            "Electronics: 8"; "Average Grade: 6.5"; "Result: Failed";
            "----------------------"; ""; "--- School Management System ---";
            "1. Add Student"; "2. Add Teacher"; "3. View Student Dashboard";
            "4. View Teacher Dashboard"; "5. Delete Student"; "6. Delete Teacher";
            "7. Exit";
            "Enter your choice: Enter Student ID to delete: Student deleted successfully!";
            ""; "--- School Management System ---"; "1. Add Student"; "2. Add Teacher";
            "3. View Student Dashboard"; "4. View Teacher Dashboard";
            "5. Delete Student"; "6. Delete Teacher"; "7. Exit";
            "Enter your choice: Enter Student ID to delete: Student not found!"; "";
            "--- School Management System ---"; "1. Add Student"; "2. Add Teacher";
            "3. View Student Dashboard"; "4. View Teacher Dashboard";
            "5. Delete Student"; "6. Delete Teacher"; "7. Exit";
            "Enter your choice: Exiting..."])
         (Some
            (unlines
              ["Students"; "Teachers"]))).
Proof. vm_compute. reflexivity. Qed.

(** Numbers typed on one line, and choices that are no entry of the menu. *)
Example run_one_line :
  replay 6
    ("6 3 0 99 +5 12 7")
    None
  = Some
      (Returned
         (unlines
           ["No existing data found. Starting fresh."; "";
            "--- School Management System ---"; "1. Add Student"; "2. Add Teacher";
            "3. View Student Dashboard"; "4. View Teacher Dashboard";
            "5. Delete Student"; "6. Delete Teacher"; "7. Exit";
            "Enter your choice: Enter Teacher ID to delete: Teacher not found!"; "";
            "--- School Management System ---"; "1. Add Student"; "2. Add Teacher";
            "3. View Student Dashboard"; "4. View Teacher Dashboard";
            "5. Delete Student"; "6. Delete Teacher"; "7. Exit";
            "Enter your choice: Invalid choice! Please try again."; "";
            "--- School Management System ---"; "1. Add Student"; "2. Add Teacher";
            "3. View Student Dashboard"; "4. View Teacher Dashboard";
            "5. Delete Student"; "6. Delete Teacher"; "7. Exit";
            "Enter your choice: Invalid choice! Please try again."; "";
            "--- School Management System ---"; "1. Add Student"; "2. Add Teacher";
            "3. View Student Dashboard"; "4. View Teacher Dashboard";
            "5. Delete Student"; "6. Delete Teacher"; "7. Exit";
            "Enter your choice: Enter Student ID to delete: Student not found!"; "";
            "--- School Management System ---"; "1. Add Student"; "2. Add Teacher";
            "3. View Student Dashboard"; "4. View Teacher Dashboard";
            "5. Delete Student"; "6. Delete Teacher"; "7. Exit";
            "Enter your choice: Exiting..."])
         None).
Proof. vm_compute. reflexivity. Qed.

(** A file with a blank line after the students is loaded. *)
Example run_loaded_file :
  replay 3
    (unlines
      ["3"; "4"; "7"])
    (Some
       (unlines
         ["Students"; "Bob,5,10A,12,8,15,9"; ""; "Teachers";
          "Carol,7,Maths,Professor, on leave"]))
  = Some
      (Returned
         (unlines
           ["Data loaded from file successfully!"; "";
            "--- School Management System ---"; "1. Add Student"; "2. Add Teacher";
            "3. View Student Dashboard"; "4. View Teacher Dashboard";
            "5. Delete Student"; "6. Delete Teacher"; "7. Exit"; "Enter your choice: ";
            "--- Students Dashboard ---"; "Name: Bob"; "ID: 5"; "Class: 10A";
            "Subjects and Grades: "; "Maths: 12"; "Physics: 8"; "CS: 15";
            "Electronics: 9"; "Average Grade: 11"; "Result: Passed";
            "----------------------"; ""; "--- School Management System ---";
            "1. Add Student"; "2. Add Teacher"; "3. View Student Dashboard";
            "4. View Teacher Dashboard"; "5. Delete Student"; "6. Delete Teacher";
            "7. Exit"; "Enter your choice: "; "--- Teachers Dashboard ---";
            "Name: Carol"; "ID: 7"; "Subject: Maths"; "Grade: Professor, on leave";
            "----------------------"; ""; "--- School Management System ---";
            "1. Add Student"; "2. Add Teacher"; "3. View Student Dashboard";
            "4. View Teacher Dashboard"; "5. Delete Student"; "6. Delete Teacher";
            "7. Exit"; "Enter your choice: Exiting..."])
         None).
Proof. vm_compute. reflexivity. Qed.

(** Lines the reader accepts: a number followed by letters, a student line with three grades, text outside the sections, and no newline at the end. *)
Example run_short_line :
  replay 3
    (unlines
      ["3"; "4"; "7"])
    (Some
       ((unlines
         ["hello"; "Students"; "Bob,5x,10A,12abc,8,15"; ""; "Teachers"] +:+ "Carol,7,Maths")))
  = Some
      (Returned
         (unlines
           ["Data loaded from file successfully!"; "";
            "--- School Management System ---"; "1. Add Student"; "2. Add Teacher";
            "3. View Student Dashboard"; "4. View Teacher Dashboard";
            "5. Delete Student"; "6. Delete Teacher"; "7. Exit"; "Enter your choice: ";
            "--- Students Dashboard ---"; "Name: Bob"; "ID: 5"; "Class: 10A";
            "Subjects and Grades: "; "Maths: 12"; "Physics: 8"; "CS: 15";
            "Electronics: 15"; "Average Grade: 12.5"; "Result: Passed";
            "----------------------"; ""; "--- School Management System ---";
            "1. Add Student"; "2. Add Teacher"; "3. View Student Dashboard";
            "4. View Teacher Dashboard"; "5. Delete Student"; "6. Delete Teacher";
            "7. Exit"; "Enter your choice: "; "--- Teachers Dashboard ---";
            "Name: Carol"; "ID: 7"; "Subject: Maths"; "Grade: Maths";
            "----------------------"; ""; "--- School Management System ---";
            "1. Add Student"; "2. Add Teacher"; "3. View Student Dashboard";
            "4. View Teacher Dashboard"; "5. Delete Student"; "6. Delete Teacher";
            "7. Exit"; "Enter your choice: Exiting..."])
         None).
Proof. vm_compute. reflexivity. Qed.

(** The file the program itself saves cannot be loaded: the constructor throws. *)
Example run_saved_file :
  replay 2
    (unlines
      ["3"; "7"])
    (Some
       (unlines
         ["Students"; "Bob,5,10A,12,8,15,9"; "Teachers"; "Carol,7,Maths,Professor"]))
  = Some
      (Aborted invalid_argument).
Proof. vm_compute. reflexivity. Qed.

(** An id in the file that is no int. *)
Example run_id_out_of_range :
  replay 2
    (unlines
      ["3"; "7"])
    (Some
       (unlines
         ["Students"; "Bob,99999999999,10A,12,8,15,9"]))
  = Some
      (Aborted out_of_range).
Proof. vm_compute. reflexivity. Qed.

(** The input ends without the choice 7: the last choice is taken again for ever. *)
Example run_end_of_input :
  replay 4
    (unlines
      ["5"; "42"])
    None
  = Some
      (Looping
         (unlines
           ["No existing data found. Starting fresh."; "";
            "--- School Management System ---"; "1. Add Student"; "2. Add Teacher";
            "3. View Student Dashboard"; "4. View Teacher Dashboard";
            "5. Delete Student"; "6. Delete Teacher"; "7. Exit";
            "Enter your choice: Enter Student ID to delete: Student not found!"; "";
            "--- School Management System ---"; "1. Add Student"; "2. Add Teacher";
            "3. View Student Dashboard"; "4. View Teacher Dashboard";
            "5. Delete Student"; "6. Delete Teacher"; "7. Exit";
            "Enter your choice: Enter Student ID to delete: Student not found!"; "";
            "--- School Management System ---"; "1. Add Student"; "2. Add Teacher";
            "3. View Student Dashboard"; "4. View Teacher Dashboard";
            "5. Delete Student"; "6. Delete Teacher"; "7. Exit";
            "Enter your choice: Enter Student ID to delete: Student not found!"; "";
            "--- School Management System ---"; "1. Add Student"; "2. Add Teacher";
            "3. View Student Dashboard"; "4. View Teacher Dashboard";
            "5. Delete Student"; "6. Delete Teacher"; "7. Exit";
            "Enter your choice: Enter Student ID to delete: Student not found!"])).
Proof. vm_compute. reflexivity. Qed.

(** A word at the menu: invalid choice for ever. *)
Example run_bad_token :
  replay 3
    (unlines
      ["x"])
    None
  = Some
      (Looping
         (unlines
           ["No existing data found. Starting fresh."; "";
            "--- School Management System ---"; "1. Add Student"; "2. Add Teacher";
            "3. View Student Dashboard"; "4. View Teacher Dashboard";
            "5. Delete Student"; "6. Delete Teacher"; "7. Exit";
            "Enter your choice: Invalid choice! Please try again."; "";
            "--- School Management System ---"; "1. Add Student"; "2. Add Teacher";
            "3. View Student Dashboard"; "4. View Teacher Dashboard";
            "5. Delete Student"; "6. Delete Teacher"; "7. Exit";
            "Enter your choice: Invalid choice! Please try again."; "";
            "--- School Management System ---"; "1. Add Student"; "2. Add Teacher";
            "3. View Student Dashboard"; "4. View Teacher Dashboard";
            "5. Delete Student"; "6. Delete Teacher"; "7. Exit";
            "Enter your choice: Invalid choice! Please try again."])).
Proof. vm_compute. reflexivity. Qed.

(** A grade that is no int in the middle of a command: the student is added with the largest int and a zero, and then one blank student per turn. *)
Example run_flood :
  replay 3
    (unlines
      ["1"; "Bob"; "12"; "10A"; "3 4 99999999999 7"; "5"])
    None
  = Some
      (Looping
         (unlines
           ["No existing data found. Starting fresh."; "";
            "--- School Management System ---"; "1. Add Student"; "2. Add Teacher";
            "3. View Student Dashboard"; "4. View Teacher Dashboard";
            "5. Delete Student"; "6. Delete Teacher"; "7. Exit";
            "Enter your choice: Enter Student Name: Enter Student ID: Enter Student Class: Enter grade for Maths: Enter grade for Physics: Enter grade for CS: Enter grade for Electronics: Student added successfully!";
            ""; "--- School Management System ---"; "1. Add Student"; "2. Add Teacher";
            "3. View Student Dashboard"; "4. View Teacher Dashboard";
            "5. Delete Student"; "6. Delete Teacher"; "7. Exit";
            "Enter your choice: Enter Student Name: Enter Student ID: Enter Student Class: Enter grade for Maths: Enter grade for Physics: Enter grade for CS: Enter grade for Electronics: Student added successfully!";
            ""; "--- School Management System ---"; "1. Add Student"; "2. Add Teacher";
            "3. View Student Dashboard"; "4. View Teacher Dashboard";
            "5. Delete Student"; "6. Delete Teacher"; "7. Exit";
            "Enter your choice: Enter Student Name: Enter Student ID: Enter Student Class: Enter grade for Maths: Enter grade for Physics: Enter grade for CS: Enter grade for Electronics: Student added successfully!"])).
Proof. vm_compute. reflexivity. Qed.
